(* ===== verification/_CoqProject ===== *)
-Q . S2P
Prelude.v
External.v
Rlib.v
Frame.v
Heap.v
Device.v
Manager.v
Task.v
Ports.v
Acpi.v
Ioapic.v
VgaText.v
Vbe.v
Console.v
Interrupts.v
Ps2Kbd.v
Ps2Mouse.v
Pci.v
Processor.v
TscTimer.v
Hal.v
Main.v
