(* ===== verification/Prelude.v ===== *)
(** * Neutrix: a verification development for the Neutrix x86_64 kernel

    Neutrix is a small Rust kernel for x86_64. [kernel_main] ([src/src/main.rs])
    builds a frame allocator and a heap, initialises the hardware through a
    hardware abstraction layer (CPU features, ACPI tables, local APIC, I/O APICs),
    enumerates PCI, registers devices with a device manager that attaches drivers
    to them (PS/2 keyboard and mouse, VBE framebuffer, console), starts a timer and
    runs an asynchronous executor whose tasks consume what the interrupt handlers
    queue. This library models that program component by component, in the order
    of the files below; paths are relative to [src/src/].

    ** Files, components and what is shown

    - [Prelude]: machine integers (a [w]-bit value is a [Z], wrap-around written
      with [wrap], checked arithmetic panics), [result] and [outcome] (a panic is
      a value), loops with fuel and their rules, byte memory, little-endian
      access, automation and the generic lemmas the components share.
    - [External]: the crates the kernel calls as classes of operations with their
      documented laws: [x86_64] pages, frames, [FrameAllocator], [Mapper] (with
      page flags and the pages that still have to be flushed); the
      [crossbeam] queue. Other interfaces are declared where they are used
      (ports, memory-mapped registers, I/O APIC chips, key decoding, control
      registers, clocks). Each has a concrete instance in a witness section.
    - [Rlib] ([rlib/mem.rs]): [memcpy], [memset], [memcmp], [memmove] loop by loop.
      Shown: termination and functional correctness for every length and overlap;
      [memcmp] decides by the first 16 bytes only.
    - [Frame] ([memory/frame.rs], [memory/virtual_alloc.rs], part of
      [memory/paging.rs]): the bitmap allocator over the memory that holds its
      bitmap. Shown: it refines an allocator over a set of free frames, which
      frames are free after [init], where the bitmap goes, that distinct
      allocations never share a frame.
    - [Heap] ([memory/allocator.rs], [memory/paging.rs]): [init_heap] against the
      allocator and mapper interfaces; [Frame] implements the former.
    - [Device] ([driver_framework/device.rs]), [Manager]
      ([driver_framework/manager.rs], [driver.rs]): descriptions of devices and
      the registry. Shown: unique ids in every reachable registry, the outcome of
      attaching on every branch, attach/detach round trip, what a merge changes.
    - [Task] ([arch/task.rs]): the executor; futures are a parameter. Shown: the
      main loop, statement by statement with the interrupt flag as state, loses no
      wake-up under any interleaving with interrupts; the ready loop polls what is
      queued, first in, first out ([poll_seq] is the reference), and returns.
    - [Ports] ([arch/ports.rs]): port instructions over an abstract port space,
      with a log for the theorems on hardware accesses.
    - [Acpi] ([devices/acpi/acpi.rs]): packed table layouts, the search for the
      root pointer, the table walk, FACP, MADT, HPET and MCFG. Shown: the MADT and
      MCFG parsers invert the encoding of the tables, initialisation ends on every
      memory, the ACPI enable handshake.
    - [Ioapic] ([hal/ioapic.rs]): discovery and redirection entries. Shown: the
      driver implements a map from GSIs to entries; overrides, fallback, enabling
      and unmasking change exactly the entries they should.
    - [VgaText] ([bootvga/vga_buffer.rs]): the text screen refines a reference
      terminal. [Vbe] ([drivers/vbe_vga.rs]): framebuffer driver, font, drawing,
      its start/stop life cycle with the page tables it changes. [Console] ([drivers/console.rs],
      [bootvga/vga_helpers.rs]): framebuffer consoles and the print paths.
    - [Interrupts] ([arch/idt.rs], [arch/interrupts.rs], [hal/apic.rs],
      [devices/PIT/pit.rs]): vector table, local APIC, end of interrupt, and the
      queue-and-waker streams of the input drivers, as a step relation. Shown: no
      lost wake-up, exactly-once delivery in order, vector registration.
    - [Ps2Kbd], [Ps2Mouse] ([drivers/ps2kbd.rs], [drivers/ps2mouse.rs]): the
      drivers, line input, packet framing, cursor drawing, controller protocol.
    - [Pci] ([devices/pci.rs]): configuration access, BAR sizing, capabilities,
      ECAM and legacy scans.
    - [Processor] ([arch/processor.rs]): CPU features against the bit positions of
      the processor manuals, control-register set-up. [TscTimer]
      ([arch/tsc_timer.rs]): calibration against the HPET and the deadline timer.
    - [Hal] ([hal/hal.rs]): the hardware initialisation as a whole. [Main]
      ([main.rs]): the boot sequence, with every driver attached through the
      manager.

    ** Conventions

    State is passed explicitly; the statics and fields a component uses are the
    fields of its record (for instance [AcpiState], [VbeWorld], [Drivers],
    [Kernel]). A Rust [Result] is [result], a panic is [Panic msg], arithmetic that
    the debug build checks is [checked_add] and the like. Locks are not modelled:
    the kernel runs on one processor, and the two places where an interrupt handler
    meets other code are the step relations [Task.cpu_step] and
    [Interrupts.stream_step].

    Loops that are not structural run with fuel, and running out is a distinct
    value ([None], or [Panic] with the message fuel). The bounds: a [while] loop
    over a buffer or a table gets its length; [Acpi] loops get the table length
    ([acpi_init_terminates] shows that they never run out); the ready loop of
    [Task] gets the queue length plus the wakes its tasks have left; the HPET wait
    needs at most 1001 readings of a running counter. Two loops of the source have no
    bound, the flush in the mouse driver's [start] and the HPET wait, and
    [Ps2Mouse.mouse_start_hangs_without_controller] and
    [TscTimer.stopped_hpet_hangs] show when they do not end.

    ** Not modelled

    Descriptor tables and segment registers ([arch/gdt.rs], the loading of the
    IDT), the exception handlers, which print and halt ([arch/exceptions.rs]), the
    one-line allocation helpers ([memory/kmalloc.rs]), module declarations. The
    heap, the page tables, the queue, the key decoder and the 8259 driver are
    crates, hence interfaces. Messages printed while ACPI tables are parsed, the
    I/O APICs are programmed and PCI is scanned are left out; messages of all other
    code are printed through [Console]. Virtual addresses are taken to be
    canonical, since the crate's constructors panic otherwise. The address of a
    byte of the frame bitmap is not wrapped to 64 bits: [init] places the bitmap
    inside a usable region ([Frame.init_bitmap_placement]). Alignment is not modelled: the entries of the XSDT,
    which the source reads through a misaligned slice, are read byte by byte. *)

From Stdlib Require Export ZArith Lia Btauto.
From stdpp Require Export base numbers list gmap strings option relations.

Global Open Scope Z_scope.

(** ** Machine integers

    A [w]-bit unsigned integer is a [Z] in [[0, 2^w)]; the wrap-around of the
    source's [wrapping_*] operations, of [as] casts and of address arithmetic is
    written out with [wrap]. *)

Definition wrap (w x : Z) : Z := x `mod` 2 ^ w.

Declare Scope word_scope.
Delimit Scope word_scope with word.
Notation "x +64 y" := (wrap 64 (x + y)) (at level 50, left associativity) : word_scope.
Notation "x .& y" := (Z.land x y) (at level 40, left associativity) : word_scope.
Notation "x .| y" := (Z.lor x y) (at level 50, left associativity) : word_scope.
Notation "x .>> y" := (Z.shiftr x y) (at level 38, left associativity) : word_scope.
Notation "x .<< y" := (Z.shiftl x y) (at level 38, left associativity) : word_scope.
Global Open Scope word_scope.

(** [!x] at width [w]. *)
Definition lnotw (w x : Z) : Z := wrap w (Z.lnot x).

(** [x as i{w}] of an unsigned [w]-bit value. *)
Definition as_signed (w x : Z) : Z := if x <? 2 ^ (w - 1) then x else x - 2 ^ w.

(** [i32::saturating_add]. *)
Definition sat_add_i32 (x y : Z) : Z :=
  Z.max (- 2 ^ 31) (Z.min (2 ^ 31 - 1) (x + y)).

(** Bit [i] of [x] as the source tests it: [(x & (1 << i)) != 0]. *)
Definition test_mask (x i : Z) : bool := negb (x .& (1 .<< i) =? 0).

Definition in_u (w x : Z) : Prop := 0 <= x < 2 ^ w.

(** ** Results

    [result] is Rust's [Result]; [outcome] adds the panics of the source, which
    end the run: [Panic] carries the panic message. *)

Inductive result (A E : Type) : Type :=
| Ok (a : A)
| Err (e : E).
Arguments Ok {A E} a.
Arguments Err {A E} e.

Inductive outcome (A : Type) : Type :=
| Ret (a : A)
| Panic (msg : string).
Arguments Ret {A} a.
Arguments Panic {A} msg.

Definition outcome_bind {A B} (x : outcome A) (k : A -> outcome B) : outcome B :=
  match x with
  | Ret a => k a
  | Panic msg => Panic msg
  end.

Notation "'let!' x ':=' c 'in' k" := (outcome_bind c (fun x => k))
  (at level 10, x pattern, c at level 100, k at level 200).

(** [+], [-] and [*] at width [w]: the kernel's build checks overflow and panics. *)
Definition checked_add (w x y : Z) : outcome Z :=
  if x + y <? 2 ^ w then Ret (x + y) else Panic "attempt to add with overflow".
Definition checked_sub (x y : Z) : outcome Z :=
  if y <=? x then Ret (x - y) else Panic "attempt to subtract with overflow".

Definition checked_mul (w x y : Z) : outcome Z :=
  if x * y <? 2 ^ w then Ret (x * y) else Panic "attempt to multiply with overflow".

Definition returns {A} (x : outcome A) (P : A -> Prop) : Prop :=
  match x with Ret a => P a | Panic _ => False end.

(** ** Loops

    [while_fuel] is the source's [while cond { body }]; [None] stands for a loop
    that is still running when the fuel ends, and the rules below rule it out.
    [for_range lo hi] is [for i in lo..hi]. *)

Fixpoint while_fuel {S : Type} (fuel : nat) (cond : S -> bool) (body : S -> S)
    (s : S) : option S :=
  if cond s then
    match fuel with
    | O => None
    | Datatypes.S fuel' => while_fuel fuel' cond body (body s)
    end
  else Some s.

Definition for_range {S : Type} (lo hi : Z) (body : Z -> S -> S) (s : S) : S :=
  foldl (fun s i => body i s) s (seqZ lo (hi - lo)).

(** A [while] loop whose body may [return]: [inl r] is the early return. *)
Fixpoint while_ret {S R : Type} (fuel : nat) (cond : S -> bool) (body : S -> R + S)
    (s : S) : option (R + S) :=
  if cond s then
    match fuel with
    | O => None
    | Datatypes.S fuel' =>
        match body s with
        | inl r => Some (inl r)
        | inr s' => while_ret fuel' cond body s'
        end
    end
  else Some (inr s).

(** A [for] loop over the elements of a sequence whose body may panic. *)
Fixpoint for_each {A S : Type} (f : A -> S -> outcome S) (l : list A) (s : S) : outcome S :=
  match l with
  | [] => Ret s
  | a :: l' => let! s := f a s in for_each f l' s
  end.

(** A [for] loop over the elements of a sequence that returns at the first
    element for which the body does. *)
Fixpoint first_some {A R : Type} (f : A -> option R) (l : list A) : option R :=
  match l with
  | [] => None
  | a :: l' => match f a with Some r => Some r | None => first_some f l' end
  end.

(** ** Byte-addressed memory

    Physical memory through the kernel's direct mapping: a total function from
    addresses to bytes. Two memories are equivalent when they agree at every
    address. *)

Definition mem : Type := Z -> Z.

Definition mem_equiv (m1 m2 : mem) : Prop := forall x, m1 x = m2 x.

Definition write8 (m : mem) (a v : Z) : mem := fun x => if x =? a then v else m x.

Definition load_bytes (m : mem) (a : Z) (n : nat) : list Z :=
  (fun i => m (a + Z.of_nat i)) <$> seq 0 n.

Fixpoint store_bytes (m : mem) (a : Z) (bs : list Z) : mem :=
  match bs with
  | [] => m
  | b :: bs' => store_bytes (write8 m a b) (a + 1) bs'
  end.

(** Little-endian values, as the x86 loads and stores of [u16], [u32], [u64]. *)
Fixpoint le_decode (bs : list Z) : Z :=
  match bs with
  | [] => 0
  | b :: bs' => b + 256 * le_decode bs'
  end.

Fixpoint le_encode (n : nat) (v : Z) : list Z :=
  match n with
  | O => []
  | Datatypes.S n' => v `mod` 256 :: le_encode n' (v / 256)
  end.

Definition read_le (m : mem) (a : Z) (n : nat) : Z := le_decode (load_bytes m a n).
Definition write_le (m : mem) (a : Z) (n : nat) (v : Z) : mem :=
  store_bytes m a (le_encode n v).

(** ** Automation *)

Create HintDb nx discriminated.

(** Linear arithmetic with division and remainder by constants. *)
Ltac zdiv := Z.to_euclidean_division_equations; lia.

(** Case analysis on the boolean comparisons of the goal and the hypotheses. *)
Ltac case_bool :=
  match goal with
  | |- context [?x =? ?y] => destruct (Z.eqb_spec x y)
  | |- context [?x <? ?y] => destruct (Z.ltb_spec x y)
  | |- context [?x <=? ?y] => destruct (Z.leb_spec x y)
  | H : context [?x =? ?y] |- _ => destruct (Z.eqb_spec x y)
  | H : context [?x <? ?y] |- _ => destruct (Z.ltb_spec x y)
  | H : context [?x <=? ?y] |- _ => destruct (Z.leb_spec x y)
  end.
Ltac case_bools := repeat (case_bool; cbn [andb orb negb] in *).

(** ** Lemmas on machine integers *)

Section Words.
Implicit Types w x y : Z.

Lemma wrap_range w x : 0 <= w -> 0 <= wrap w x < 2 ^ w.
Proof. intros. apply Z.mod_pos_bound. lia. Qed.

Lemma wrap_small w x : 0 <= x < 2 ^ w -> wrap w x = x.
Proof. apply Z.mod_small. Qed.

Lemma wrap_idem w x : 0 <= w -> wrap w (wrap w x) = wrap w x.
Proof. intros. apply wrap_small, wrap_range; lia. Qed.

Lemma lnotw_eq w x : 0 <= w -> 0 <= x < 2 ^ w -> lnotw w x = 2 ^ w - 1 - x.
Proof.
  intros Hw Hx. unfold lnotw, wrap. rewrite Z.lnot_eq_pred_opp.
  symmetry. apply (Z.mod_unique_pos _ _ (-1)); lia.
Qed.

(** [x & !(2^k - 1)] rounds [x] down to a multiple of [2^k]. *)
Lemma land_align_down w k x :
  0 <= k <= w -> 0 <= x < 2 ^ w ->
  x .& lnotw w (2 ^ k - 1) = x / 2 ^ k * 2 ^ k.
Proof.
  intros Hk Hx.
  assert (0 < 2 ^ k) by lia.
  assert (2 ^ k <= 2 ^ w) by (apply Z.pow_le_mono_r; lia).
  unfold lnotw, wrap.
  rewrite <- Z.land_ones by lia. rewrite <- Z.shiftr_div_pow2, <- Z.shiftl_mul_pow2 by lia.
  replace (2 ^ k - 1) with (Z.ones k) by (rewrite Z.ones_equiv; lia).
  apply Z.bits_inj'. intros n Hn.
  rewrite Z.land_spec, Z.land_spec, Z.lnot_spec by lia.
  rewrite Z.shiftl_spec by lia.
  rewrite !Z.testbit_ones_nonneg by lia.
  destruct (Z.ltb_spec n k).
  - rewrite (Z.testbit_neg_r _ (n - k)) by lia. cbn. btauto.
  - rewrite Z.shiftr_spec by lia. replace (n - k + k) with n by lia.
    destruct (Z.ltb_spec n w); cbn; [btauto|].
    rewrite !andb_false_r. symmetry.
    rewrite <- (Z.mod_small x (2 ^ w)) by lia.
    apply Z.mod_pow2_bits_high. lia.
Qed.

(** Setting and clearing one bit, as [x | (1 << b)] and [x & !(1 << b)]. *)
Lemma set_bit_testbit x b n :
  0 <= b -> 0 <= n -> Z.testbit (x .| (1 .<< b)) n = Z.testbit x n || (n =? b).
Proof.
  intros. rewrite Z.lor_spec, Z.shiftl_1_l, Z.pow2_bits_eqb by lia. by rewrite Z.eqb_sym.
Qed.

Lemma lnotw_testbit w x n : 0 <= n < w -> Z.testbit (lnotw w x) n = negb (Z.testbit x n).
Proof.
  intros. unfold lnotw, wrap. rewrite <- Z.land_ones, Z.land_spec, Z.ones_spec_low by lia.
  by rewrite Z.lnot_spec, andb_true_r by lia.
Qed.

Lemma clear_bit_testbit w x b n :
  0 <= b -> 0 <= n < w ->
  Z.testbit (x .& lnotw w (1 .<< b)) n = Z.testbit x n && negb (n =? b).
Proof.
  intros. rewrite Z.land_spec, lnotw_testbit, Z.shiftl_1_l, Z.pow2_bits_eqb by lia.
  by rewrite Z.eqb_sym.
Qed.

Lemma test_mask_testbit x i : 0 <= i -> test_mask x i = Z.testbit x i.
Proof.
  intros Hi. unfold test_mask.
  assert (x .& (1 .<< i) = if Z.testbit x i then 2 ^ i else 0) as ->.
  { rewrite Z.shiftl_1_l. apply Z.bits_inj'. intros n Hn.
    rewrite Z.land_spec, Z.pow2_bits_eqb by lia.
    destruct (Z.eqb_spec i n) as [->|].
    - destruct (Z.testbit x n) eqn:E; cbn; [|by rewrite Z.bits_0].
      by rewrite Z.pow2_bits_true.
    - rewrite andb_false_r. destruct (Z.testbit x i); [|by rewrite Z.bits_0].
      by rewrite Z.pow2_bits_false. }
  destruct (Z.testbit x i); [|done].
  destruct (Z.eqb_spec (2 ^ i) 0); [lia|done].
Qed.
End Words.

Lemma land_ones_mod x k : 0 <= k -> x .& (2 ^ k - 1) = x `mod` 2 ^ k.
Proof.
  intros. rewrite <- Z.land_ones by lia. f_equal. rewrite Z.ones_equiv. lia.
Qed.

(** [|] of values without common bits is [+]. *)
Lemma lor_low n A t : 0 <= n -> 0 <= t < 2 ^ n -> A `mod` 2 ^ n = 0 -> A .| t = A + t.
Proof.
  intros Hn Ht HA. assert (A .& t = 0) as Hz.
  { rewrite <- (Z.mod_small t (2 ^ n)) by lia. rewrite <- land_ones_mod by lia.
    rewrite (Z.land_comm t), Z.land_assoc, land_ones_mod, HA by lia. apply Z.land_0_l. }
  rewrite Z.add_nocarry_lxor by done. symmetry. by apply Z.lxor_lor.
Qed.

Lemma checked_add_ok w x y : x + y < 2 ^ w -> checked_add w x y = Ret (x + y).
Proof. intros. unfold checked_add. destruct (Z.ltb_spec (x + y) (2 ^ w)); [done|lia]. Qed.

Lemma checked_sub_ok x y : y <= x -> checked_sub x y = Ret (x - y).
Proof. intros. unfold checked_sub. destruct (Z.leb_spec y x); [done|lia]. Qed.

Lemma checked_mul_ok w x y : x * y < 2 ^ w -> checked_mul w x y = Ret (x * y).
Proof. intros. unfold checked_mul. destruct (Z.ltb_spec (x * y) (2 ^ w)); [done|lia]. Qed.

(** ** Loop rules *)

(** Total correctness: an invariant kept by the body and a measure that the
    body decreases, bounded by the fuel. *)
Lemma while_rule {S} (Inv : S -> Prop) (measure : S -> nat) cond body fuel (s : S) :
  (forall s, Inv s -> cond s = true -> Inv (body s) /\ (measure (body s) < measure s)%nat) ->
  Inv s -> (measure s <= fuel)%nat ->
  exists s', while_fuel fuel cond body s = Some s' /\ Inv s' /\ cond s' = false.
Proof.
  intros Hstep. revert s. induction fuel as [|fuel IH]; intros s Hs Hm; cbn;
    destruct (cond s) eqn:Hc; eauto.
  - destruct (Hstep s Hs Hc). lia.
  - destruct (Hstep s Hs Hc). apply IH; [done|lia].
Qed.

Lemma for_range_empty {S} lo hi body (s : S) : hi <= lo -> for_range lo hi body s = s.
Proof. intros. unfold for_range. by rewrite seqZ_nil by lia. Qed.

Lemma for_range_cons {S} lo hi body (s : S) :
  lo < hi -> for_range lo hi body s = for_range (lo + 1) hi body (body lo s).
Proof.
  intros. unfold for_range. rewrite seqZ_cons by lia. cbn.
  do 2 f_equal; lia.
Qed.

Lemma for_range_snoc {S} lo hi body (s : S) :
  lo <= hi -> for_range lo (hi + 1) body s = body hi (for_range lo hi body s).
Proof.
  intros. unfold for_range.
  replace (hi + 1 - lo) with ((hi - lo) + 1) by lia.
  rewrite seqZ_app, (seqZ_cons _ 1), (seqZ_nil _ (Z.pred 1)), foldl_app by lia. cbn [foldl]. f_equal. lia.
Qed.

(** Invariant rule for [for i in lo..hi]. *)
Lemma for_range_ind {S} (Inv : Z -> S -> Prop) lo hi body (s : S) :
  lo <= hi -> Inv lo s ->
  (forall i s, lo <= i < hi -> Inv i s -> Inv (i + 1) (body i s)) ->
  Inv hi (for_range lo hi body s).
Proof.
  intros Hle H0 Hstep.
  assert (forall n : nat, lo + Z.of_nat n <= hi ->
    Inv (lo + Z.of_nat n) (for_range lo (lo + Z.of_nat n) body s)) as H.
  { induction n as [|n IH]; intros Hn.
    - rewrite for_range_empty by lia. by replace (lo + Z.of_nat 0) with lo by lia.
    - replace (lo + Z.of_nat (Datatypes.S n)) with (lo + Z.of_nat n + 1) by lia.
      rewrite for_range_snoc by lia. apply Hstep; [lia|]. apply IH. lia. }
  specialize (H (Z.to_nat (hi - lo))). rewrite Z2Nat.id in H by lia.
  replace (lo + (hi - lo)) with hi in H by lia. apply H. lia.
Qed.

(** The same rule with the postcondition left to the caller. *)
Lemma for_range_post {S} (Inv : Z -> S -> Prop) (P : S -> Prop) lo hi body (s : S) :
  lo <= hi -> Inv lo s ->
  (forall i s, lo <= i < hi -> Inv i s -> Inv (i + 1) (body i s)) ->
  (forall s, Inv hi s -> P s) ->
  P (for_range lo hi body s).
Proof. intros ? ? ? HP. apply HP. by apply for_range_ind. Qed.

(** Rule for a loop with an early return. *)
Lemma while_ret_rule {S R} (Inv : S -> Prop) (Post : R -> Prop) (measure : S -> nat)
    cond body fuel (s : S) :
  (forall s, Inv s -> cond s = true ->
     match body s with
     | inl r => Post r /\ (0 < measure s)%nat
     | inr s' => Inv s' /\ (measure s' < measure s)%nat
     end) ->
  Inv s -> (measure s <= fuel)%nat ->
  exists o, while_ret fuel cond body s = Some o /\
    match o with inl r => Post r | inr s' => Inv s' /\ cond s' = false end.
Proof.
  intros Hstep. revert s. induction fuel as [|fuel IH]; intros s Hs Hm; cbn;
    destruct (cond s) eqn:Hc; try (by eexists).
  - specialize (Hstep s Hs Hc). destruct (body s); lia.
  - specialize (Hstep s Hs Hc). destruct (body s) as [r|s'].
    + exists (inl r). tauto.
    + apply IH; [tauto|lia].
Qed.

(** Invariant rule for [for_each], indexed by the elements already done. *)
Lemma for_each_ind {A S} (Inv : list A -> S -> Prop) (f : A -> S -> outcome S) l s :
  Inv [] s ->
  (forall done a s, a ∈ l -> Inv done s -> exists s', f a s = Ret s' /\ Inv (done ++ [a]) s') ->
  exists s', for_each f l s = Ret s' /\ Inv l s'.
Proof.
  intros H0 Hstep.
  assert (forall l2 l1 s, l = l1 ++ l2 -> Inv l1 s -> exists s', for_each f l2 s = Ret s' /\ Inv l s') as H.
  { induction l2 as [|a l2 IH]; intros l1 t -> Hi; cbn.
    - rewrite app_nil_r. eauto.
    - destruct (Hstep l1 a t) as (t' & Hf & Hi'); [set_solver|done|]. rewrite Hf. cbn.
      apply (IH (l1 ++ [a])); [by rewrite <- app_assoc|done]. }
  by apply (H l []).
Qed.

(** [for i in lo..hi] with a body that may panic. *)
Lemma for_each_seqZ {S} (Inv : Z -> S -> Prop) (f : Z -> S -> outcome S) lo n s :
  0 <= n -> Inv lo s ->
  (forall i s, lo <= i < lo + n -> Inv i s -> exists s', f i s = Ret s' /\ Inv (i + 1) s') ->
  exists s', for_each f (seqZ lo n) s = Ret s' /\ Inv (lo + n) s'.
Proof.
  intros Hn. revert lo s. pattern n. apply natlike_ind; [|clear n Hn; intros n Hn IH|done]; intros lo s H0 Hstep.
  - rewrite seqZ_nil by lia. exists s. by rewrite Z.add_0_r.
  - rewrite seqZ_cons by lia. cbn. destruct (Hstep lo s) as (s1 & -> & H1); [lia|done|]. cbn.
    rewrite Z.pred_succ.
    destruct (IH (Z.succ lo) s1) as (s2 & -> & H2); [done| |by exists s2; replace (lo + Z.succ n) with (Z.succ lo + n) by lia].
    intros. apply Hstep; [lia|done].
Qed.

Lemma first_some_None {A R} (f : A -> option R) l :
  first_some f l = None <-> Forall (fun a => f a = None) l.
Proof.
  induction l as [|a l IH]; cbn; [by rewrite Forall_nil|].
  rewrite Forall_cons. destruct (f a); [split; [done|intros [? ?]; congruence]|tauto].
Qed.

Lemma first_some_Some {A R} (f : A -> option R) l r :
  first_some f l = Some r <->
  exists i a, l !! i = Some a /\ f a = Some r /\
    forall j b, (j < i)%nat -> l !! j = Some b -> f b = None.
Proof.
  induction l as [|a l IH]; cbn.
  - split; [done|]. intros (i & b & H & _). done.
  - destruct (f a) as [r'|] eqn:Ha.
    + split.
      * intros [= ->]. exists O, a. split_and!; [done..|lia].
      * intros ([|i] & b & Hl & Hb & Hj); cbn in *; [congruence|].
        specialize (Hj O a ltac:(lia) eq_refl). congruence.
    + rewrite IH. split.
      * intros (i & b & ? & ? & Hj). exists (S i), b. split_and!; [done..|].
        intros [|j] c ? Hc; cbn in *; [congruence|]. apply (Hj j c); [lia|done].
      * intros ([|i] & b & Hl & Hb & Hj); cbn in *; [congruence|].
        exists i, b. split_and!; [done..|]. intros j c ? Hc. apply (Hj (S j) c); [lia|done].
Qed.

(** ** Lemmas on memory *)

#[export] Instance mem_equiv_equivalence : Equivalence mem_equiv.
Proof.
  split.
  - by intros m x.
  - intros m1 m2 H x. by rewrite H.
  - intros m1 m2 m3 H1 H2 x. by rewrite H1.
Qed.

#[export] Instance write8_proper : Proper (mem_equiv ==> eq ==> eq ==> mem_equiv) write8.
Proof. intros m1 m2 H a ? <- v ? <- x. unfold write8. by rewrite H. Qed.

#[export] Instance load_bytes_proper : Proper (mem_equiv ==> eq ==> eq ==> eq) load_bytes.
Proof.
  intros m1 m2 H a ? <- n ? <-. unfold load_bytes.
  apply list_fmap_ext. intros. apply H.
Qed.

Lemma length_load_bytes m a n : length (load_bytes m a n) = n.
Proof. unfold load_bytes. by rewrite length_fmap, length_seq. Qed.

Lemma lookup_load_bytes m a n i :
  (i < n)%nat -> load_bytes m a n !! i = Some (m (a + Z.of_nat i)).
Proof.
  intros. unfold load_bytes. rewrite list_lookup_fmap, lookup_seq_lt by done. done.
Qed.

Lemma store_bytes_spec bs m a x :
  store_bytes m a bs x =
    if (a <=? x) && (x <? a + Z.of_nat (length bs))
    then default 0 (bs !! Z.to_nat (x - a)) else m x.
Proof.
  revert m a. induction bs as [|b bs IH]; intros m a; cbn [store_bytes length].
  - case_bools; done || lia.
  - rewrite IH. unfold write8.
    case_bools; try lia; try done.
    + subst. by replace (Z.to_nat (a - a)) with O by lia.
    + replace (Z.to_nat (x - a)) with (Datatypes.S (Z.to_nat (x - (a + 1)))) by lia. done.
Qed.

#[export] Instance store_bytes_proper : Proper (mem_equiv ==> eq ==> eq ==> mem_equiv) store_bytes.
Proof.
  intros m1 m2 H a ? <- bs ? <- x. rewrite !store_bytes_spec. by rewrite H.
Qed.

Lemma store_bytes_app m a l1 l2 :
  mem_equiv (store_bytes (store_bytes m a l1) (a + Z.of_nat (length l1)) l2)
            (store_bytes m a (l1 ++ l2)).
Proof.
  intros x. rewrite !store_bytes_spec, length_app, lookup_app.
  destruct (l1 !! Z.to_nat (x - a)) as [b|] eqn:E.
  - apply lookup_lt_Some in E. case_bools; lia || done.
  - apply lookup_ge_None in E. case_bools; try lia; try done. do 2 f_equal. lia.
Qed.

Lemma load_bytes_app m a n1 n2 :
  load_bytes m a (n1 + n2) = load_bytes m a n1 ++ load_bytes m (a + Z.of_nat n1) n2.
Proof.
  apply list_eq. intros i. destruct (decide (i < n1 + n2)%nat).
  - rewrite lookup_load_bytes, lookup_app by done.
    destruct (decide (i < n1)%nat).
    + by rewrite lookup_load_bytes.
    + rewrite (lookup_ge_None_2 (load_bytes m a n1)) by (rewrite length_load_bytes; lia).
      rewrite length_load_bytes, lookup_load_bytes by lia. do 2 f_equal. lia.
  - rewrite (lookup_ge_None_2 (load_bytes _ _ _)) by (rewrite length_load_bytes; lia).
    symmetry. apply lookup_ge_None_2. rewrite length_app, !length_load_bytes. lia.
Qed.

(** Copying a block of [n] bytes that was loaded before the store. *)
Lemma copy_block_spec m' m a b n x :
  store_bytes m a (load_bytes m' b n) x =
    if (a <=? x) && (x <? a + Z.of_nat n) then m' (b + (x - a)) else m x.
Proof.
  rewrite store_bytes_spec, length_load_bytes.
  destruct (Z.leb_spec a x); [|done]. destruct (Z.ltb_spec x (a + Z.of_nat n)); [|done]. cbn.
  rewrite lookup_load_bytes by lia. cbn. f_equal. lia.
Qed.

Lemma length_le_encode n v : length (le_encode n v) = n.
Proof. revert v. induction n; intros; cbn; [done|]. by rewrite IHn. Qed.

Lemma le_decode_encode n v : le_decode (le_encode n v) = v `mod` 256 ^ Z.of_nat n.
Proof.
  revert v. induction n as [|n IH]; intros v.
  - cbn. by rewrite Z.mod_1_r.
  - cbn [le_encode le_decode]. rewrite IH.
    replace (Z.of_nat (S n)) with (1 + Z.of_nat n) by lia.
    rewrite Z.pow_add_r, Z.pow_1_r by lia.
    rewrite Z.rem_mul_r by lia. lia.
Qed.

Lemma load_store_same m a bs : load_bytes (store_bytes m a bs) a (length bs) = bs.
Proof.
  apply list_eq. intros i.
  destruct (decide (i < length bs)%nat) as [Hi|Hi].
  - rewrite lookup_load_bytes by done. rewrite store_bytes_spec.
    destruct (lookup_lt_is_Some_2 bs i Hi) as [b Hb].
    case_bools; try lia. replace (Z.to_nat (a + Z.of_nat i - a)) with i by lia.
    by rewrite Hb.
  - rewrite (lookup_ge_None_2 (load_bytes _ _ _)) by (rewrite length_load_bytes; lia).
    symmetry. apply lookup_ge_None_2. lia.
Qed.

Lemma read_write_le m a n v : read_le (write_le m a n v) a n = v `mod` 256 ^ Z.of_nat n.
Proof.
  unfold read_le, write_le. rewrite <- (length_le_encode n v) at 2.
  by rewrite load_store_same, le_decode_encode.
Qed.

(** A store outside the bytes read. *)
Lemma read_write_le_other m a n b k v :
  a + Z.of_nat n <= b \/ b + Z.of_nat k <= a -> read_le (write_le m b k v) a n = read_le m a n.
Proof.
  intros H. unfold read_le. f_equal. unfold load_bytes. apply list_fmap_ext.
  intros i x Hx. apply lookup_seq in Hx as [-> Hi]. unfold write_le.
  rewrite store_bytes_spec, length_le_encode. case_bools; done || lia.
Qed.

Lemma write_le_other m b k v x : x < b \/ b + Z.of_nat k <= x -> write_le m b k v x = m x.
Proof.
  intros H. unfold write_le. rewrite store_bytes_spec, length_le_encode. case_bools; done || lia.
Qed.

Lemma le_decode_range bs :
  Forall (fun b => 0 <= b < 256) bs -> 0 <= le_decode bs < 256 ^ Z.of_nat (length bs).
Proof.
  induction 1 as [|b bs Hb Hbs IH]; cbn [le_decode length]; [cbn; lia|].
  replace (Z.of_nat (S (length bs))) with (1 + Z.of_nat (length bs)) by lia.
  rewrite Z.pow_add_r, Z.pow_1_r by lia. lia.
Qed.

#[export] Hint Resolve wrap_range wrap_small : nx.
Create Rewrite HintDb nx.
#[export] Hint Rewrite @length_load_bytes length_le_encode : nx.
