(* ===== verification/External.v ===== *)
(** * External: interfaces of the crates and hardware the kernel calls

    What the kernel relies on from code outside [src/]: each interface is a class
    of operations with the laws its documentation states, a parameter of the
    definitions that call it. The instances at the end are concrete models that
    show the laws can hold; the kernel's theorems do not depend on them. *)

From S2P Require Import Prelude.

(** ** [x86_64]: physical frames and virtual pages of 4 KiB

    [PhysFrame::containing_address], [PhysFrame::start_address],
    [Page::containing_address], [Page::start_address]: the frame (page) that
    contains an address starts at the address rounded down to 4096.
    [Page::range_inclusive] enumerates the pages from the first to the last. *)
Class X86Paging : Type := {
  PhysFrame : Type;
  Page : Type;
  frame_containing_address : Z -> PhysFrame;
  frame_start_address : PhysFrame -> Z;
  page_containing_address : Z -> Page;
  page_start_address : Page -> Z;
  page_range_inclusive : Page -> Page -> list Page;
  frame_start_containing a : frame_start_address (frame_containing_address a) = a / 4096 * 4096;
  page_start_containing a : page_start_address (page_containing_address a) = a / 4096 * 4096;
  page_range_inclusive_spec a b :
    page_range_inclusive (page_containing_address a) (page_containing_address b) =
    (fun n => page_containing_address (n * 4096)) <$> seqZ (a / 4096) (b / 4096 - a / 4096 + 1)
}.

(** ** [x86_64]: [FrameAllocator] and [Mapper]

    [FrameAllocator::allocate_frame] is the trait of which the kernel's bitmap
    allocator is an implementation. The contract a client relies on: the
    allocator tracks a set of free frames (by frame number), returns a frame of
    the set and removes it, and fails only when the set is empty. *)
Class FrameAllocator {paging : X86Paging} (FA : Type) : Type := {
  fa_allocate_frame : FA -> option PhysFrame * FA
}.

Class FrameAllocatorSpec {paging : X86Paging} (FA : Type) {ops : FrameAllocator FA} : Type := {
  fa_ok : FA -> Prop;
  fa_free : FA -> gset Z;
  fa_allocate_some fa f fa' :
    fa_ok fa -> fa_allocate_frame fa = (Some f, fa') ->
    fa_ok fa' /\ frame_start_address f / 4096 ∈ fa_free fa /\
    fa_free fa' = fa_free fa ∖ {[frame_start_address f / 4096]};
  fa_allocate_none fa fa' :
    fa_ok fa -> fa_allocate_frame fa = (None, fa') ->
    fa_ok fa' /\ fa_free fa = ∅ /\ fa_free fa' = fa_free fa
}.

(** [Mapper::map_to] may take frames from the allocator for page tables. On
    success it adds one translation, with the flags given, and keeps the others; on
    failure nothing changes. The processor may go on using an old translation of the
    page until [MapperFlush::flush] is called on the result: [unflushed] are the
    pages (by start address) for which it was not. [translate] is the translation
    of a page, whatever the size of the mapping it is part of; [page_flags] are the
    flags of a 4 KiB entry. *)
Inductive MapToError : Type :=
| FrameAllocationFailed
| ParentEntryHugePage
| PageAlreadyMapped.

(** [PageTableFlags::PRESENT] and [PageTableFlags::WRITABLE] *)
Definition PRESENT : Z := 1.
Definition WRITABLE : Z := 2.

Class Mapper {paging : X86Paging} (FA MS : Type) {ops : FrameAllocator FA}
    {spec : FrameAllocatorSpec FA} : Type := {
  map_to : Page -> PhysFrame -> Z -> MS -> FA -> result unit MapToError * (MS * FA);
  flush : Page -> MS -> MS;
  translate : MS -> Z -> option Z;
  page_flags : MS -> Z -> option Z;
  unflushed : MS -> gset Z;
  map_to_ok p f fl ms fa ms' fa' :
    fa_ok fa -> map_to p f fl ms fa = (Ok (), (ms', fa')) ->
    fa_ok fa' /\ fa_free fa' ⊆ fa_free fa /\
    (forall a, translate ms' a =
      if a =? page_start_address p then Some (frame_start_address f) else translate ms a) /\
    (forall a, page_flags ms' a =
      if a =? page_start_address p then Some fl else page_flags ms a) /\
    unflushed ms' = {[page_start_address p]} ∪ unflushed ms;
  map_to_err p f fl ms fa e ms' fa' :
    fa_ok fa -> map_to p f fl ms fa = (Err e, (ms', fa')) ->
    fa_ok fa' /\ fa_free fa' ⊆ fa_free fa /\ (forall a, translate ms' a = translate ms a) /\
    (forall a, page_flags ms' a = page_flags ms a) /\ unflushed ms' = unflushed ms;
  flush_spec p ms :
    (forall a, translate (flush p ms) a = translate ms a) /\
    (forall a, page_flags (flush p ms) a = page_flags ms a) /\
    unflushed (flush p ms) = unflushed ms ∖ {[page_start_address p]};
  page_flags_mapped ms a : is_Some (page_flags ms a) -> is_Some (translate ms a)
}.

Section MapFlush.
Context {paging : X86Paging} {FA MS : Type} {ops : FrameAllocator FA} {spec : FrameAllocatorSpec FA}
  {mapper : Mapper FA MS}.

(** [map_to] followed by [flush]. *)
Lemma map_flush p f fl ms fa ms' fa' :
  fa_ok fa -> map_to p f fl ms fa = (Ok (), (ms', fa')) ->
  fa_ok fa' /\ fa_free fa' ⊆ fa_free fa /\
  (forall a, translate (flush p ms') a =
    if a =? page_start_address p then Some (frame_start_address f) else translate ms a) /\
  (forall a, page_flags (flush p ms') a =
    if a =? page_start_address p then Some fl else page_flags ms a) /\
  unflushed (flush p ms') ⊆ unflushed ms.
Proof.
  intros Hok E. destruct (map_to_ok _ _ _ _ _ _ _ Hok E) as (Hok' & Hfree & Ht & Hf & Hu).
  destruct (flush_spec p ms') as (Ft & Ff & Fu). split_and!; [done|done| | |].
  - intros a. by rewrite Ft.
  - intros a. by rewrite Ff.
  - rewrite Fu, Hu. set_solver.
Qed.
End MapFlush.

(** When [map_to] does succeed: for a page with no translation it can only fail for
    want of frames, of which it needs at most three, one per missing table. *)
Class MapperRoom {paging : X86Paging} {FA MS : Type} {ops : FrameAllocator FA}
    {spec : FrameAllocatorSpec FA} (mapper : Mapper FA MS) : Prop := {
  map_to_room p f fl ms fa :
    fa_ok fa -> translate ms (page_start_address p) = None -> (3 <= size (fa_free fa))%nat ->
    exists ms' fa', map_to p f fl ms fa = (Ok (), (ms', fa')) /\
      (size (fa_free fa) <= size (fa_free fa') + 3)%nat
}.

(** [Mapper::unmap] removes the translation of a page or fails and changes nothing;
    it succeeds on a page mapped by a 4 KiB entry. Its result has to be flushed too. *)
Class Unmapper {paging : X86Paging} {FA MS : Type} {ops : FrameAllocator FA}
    {spec : FrameAllocatorSpec FA} (mapper : Mapper FA MS) : Type := {
  unmap : Page -> MS -> bool * MS;
  unmap_spec p ms ok ms' :
    unmap p ms = (ok, ms') ->
    (forall a, translate ms' a =
      if ok && (a =? page_start_address p) then None else translate ms a) /\
    (forall a, page_flags ms' a =
      if ok && (a =? page_start_address p) then None else page_flags ms a) /\
    unflushed ms' = if ok then {[page_start_address p]} ∪ unflushed ms else unflushed ms;
  unmap_mapped p ms : is_Some (page_flags ms (page_start_address p)) -> (unmap p ms).1 = true
}.

(** ** [crossbeam_queue::ArrayQueue]: a bounded FIFO queue

    [push] fails (and leaves the queue unchanged) exactly when the queue holds
    [capacity] elements; [pop] takes the oldest element. *)
Class ArrayQueue (Q : Type -> Type) : Type := {
  aq_new {A} : nat -> Q A;
  aq_push {A} : A -> Q A -> option (Q A);
  aq_pop {A} : Q A -> option (A * Q A);
  aq_is_empty {A} : Q A -> bool;
  aq_contents {A} : Q A -> list A;
  aq_capacity {A} : Q A -> nat;
  aq_new_contents A n : aq_contents (@aq_new A n) = [];
  aq_new_capacity A n : aq_capacity (@aq_new A n) = n;
  aq_push_spec A (x : A) q :
    match aq_push x q with
    | Some q' => (length (aq_contents q) < aq_capacity q)%nat /\
                 aq_contents q' = aq_contents q ++ [x] /\ aq_capacity q' = aq_capacity q
    | None => (aq_capacity q <= length (aq_contents q))%nat
    end;
  aq_pop_spec A (q : Q A) :
    match aq_pop q with
    | Some (x, q') => aq_contents q = x :: aq_contents q' /\ aq_capacity q' = aq_capacity q
    | None => aq_contents q = []
    end;
  aq_is_empty_spec A (q : Q A) : aq_is_empty q = bool_decide (aq_contents q = [])
}.

(** ** Concrete models of the interfaces *)

(** Frames and pages represented by their start addresses. *)
#[refine, local] Instance paging_by_address : X86Paging := {|
  PhysFrame := Z;
  Page := Z;
  frame_containing_address a := a / 4096 * 4096;
  frame_start_address f := f;
  page_containing_address a := a / 4096 * 4096;
  page_start_address p := p;
  page_range_inclusive p q := (fun n => n * 4096) <$> seqZ (p / 4096) (q / 4096 - p / 4096 + 1)
|}.
Proof.
  - done.
  - done.
  - intros a b. rewrite !Z.div_mul by lia. apply list_fmap_ext. intros i x _.
    by rewrite Z.div_mul.
Defined.

(** A queue as its capacity and its contents, oldest first. *)
Definition list_queue (A : Type) : Type := (nat * list A)%type.

#[refine, local] Instance list_queue_queue : ArrayQueue list_queue := {|
  aq_new A n := (n, []);
  aq_push A x q := if bool_decide (length q.2 < q.1)%nat then Some (q.1, q.2 ++ [x]) else None;
  aq_pop A q := match q.2 with [] => None | x :: l => Some (x, (q.1, l)) end;
  aq_is_empty A q := match q.2 with [] => true | _ => false end;
  aq_contents A q := q.2;
  aq_capacity A q := q.1
|}.
Proof.
  - done.
  - done.
  - intros A x [n l]. cbn. case_bool_decide; [done|lia].
  - by intros A [n [|x l]].
  - by intros A [n [|x l]].
Defined.

(** A pool of frames, handed out in the order of [elements]. *)
#[local] Instance frame_pool : FrameAllocator (paging := paging_by_address) (gset Z) := {|
  fa_allocate_frame s :=
    match elements s with
    | [] => (None, s)
    | n :: _ => (Some (n * 4096), s ∖ {[n]})
    end
|}.

#[refine, local] Instance frame_pool_spec : FrameAllocatorSpec (paging := paging_by_address) (gset Z) :=
  {| fa_ok _ := True; fa_free s := s |}.
Proof.
  - intros s f s' _. cbn. destruct (elements s) as [|n l] eqn:E; [done|]. intros [= <- <-].
    rewrite Z.div_mul by lia. split_and!; [done| |done]. apply elem_of_elements. rewrite E. by left.
  - intros s s' _. cbn. destruct (elements s) as [|n l] eqn:E; [|done]. intros [= <-].
    split_and!; [done| |done]. by apply leibniz_equiv, elements_empty_inv.
Defined.

(** Page tables as a map from pages to frames and flags, with the set of pages that
    were not flushed; the tables take no frames for themselves. *)
Definition flat_table : Type := (gmap Z (Z * Z) * gset Z)%type.

Section FlatTables.
#[local] Existing Instance paging_by_address.
Context {FA : Type} {ops : FrameAllocator FA} {spec : FrameAllocatorSpec FA}.

#[refine, local] Instance flat_tables : Mapper FA flat_table := {|
  map_to p f fl ms fa :=
    match ms.1 !! p with
    | Some _ => (Err PageAlreadyMapped, (ms, fa))
    | None => (Ok (), ((<[p := (f, fl)]> ms.1, {[p]} ∪ ms.2), fa))
    end;
  flush p ms := (ms.1, ms.2 ∖ {[p]});
  translate ms a := fst <$> ms.1 !! a;
  page_flags ms a := snd <$> ms.1 !! a;
  unflushed ms := ms.2
|}.
Proof.
  - intros p f fl [t st] fa ms' fa' Hok. cbn [fst snd]. destruct (t !! p) eqn:E; [done|]. intros [= <- <-].
    split_and!; [done..| | |done]; intros a; cbn; rewrite lookup_insert;
      (destruct (Z.eqb_spec a p) as [->|]; [by rewrite decide_True|by rewrite decide_False]).
  - intros p f fl [t st] fa e ms' fa' Hok. cbn [fst snd]. destruct (t !! p) eqn:E; [|done]. by intros [= <- <- <-].
  - intros p [t st]. by split_and!.
  - intros [t st] a. cbn. by destruct (t !! a).
Defined.

#[local] Instance flat_room : MapperRoom flat_tables.
Proof.
  split. intros p f fl [t st] fa _ Ht _. cbn in *. destruct (t !! p); [done|]. do 2 eexists. split; [done|]. lia.
Qed.

#[refine, local] Instance flat_unmap : Unmapper flat_tables := {|
  unmap p ms :=
    match ms.1 !! p with
    | Some _ => (true, (delete p ms.1, {[p]} ∪ ms.2))
    | None => (false, ms)
    end
|}.
Proof.
  - intros p [t st] ok ms'. cbn [fst snd]. destruct (t !! p) eqn:E; [|by intros [= <- <-]]. intros [= <- <-]. cbn.
    split_and!; [intros a..|done]; rewrite lookup_delete;
      (destruct (Z.eqb_spec a p) as [->|]; [by rewrite decide_True|by rewrite decide_False]).
  - intros p [t st] [fl Hf]. change (snd <$> t !! p = Some fl) in Hf. cbn [fst]. by destruct (t !! p).
Defined.
End FlatTables.
