(* ===== verification/Rlib.v ===== *)
(** * Rlib: the SSE2 memory routines of [src/rlib/mem.rs]

    [memcpy], [memset], [memcmp] (with [slow_byte_cmp]) and [memmove], loop by
    loop as the source has them, over the byte memory of the prelude. The
    reference definitions are [blit] (copy), [fill] (set) and [cmp_spec]
    (lexicographic comparison). The fuel of every loop is the byte count: each
    iteration consumes at least one byte, and the theorems show that it never
    runs out.

    Shown: [memcpy] is [blit] when the regions do not overlap or the destination
    is not above the source; [memmove] is [blit] for all overlaps; [memset] is
    [fill]; [memcmp] compares lexicographically up to 16 bytes, and looks at no
    byte beyond the first 16 of a longer region. *)

From S2P Require Import Prelude.

(** ** The SSE2 intrinsics the source uses *)

Definition mm_loadu_si128 (m : mem) (p : Z) : list Z := load_bytes m p 16.
Definition mm_storeu_si128 (m : mem) (p : Z) (c : list Z) : mem := store_bytes m p c.
Definition mm_set1_epi8 (v : Z) : list Z := replicate 16 v.

(** Lane-wise equality: 0xFF in the equal lanes, 0 in the others. *)
Definition mm_cmpeq_epi8 (a b : list Z) : list Z :=
  zip_with (fun x y => if x =? y then 255 else 0) a b.

(** The top bit of each of the 16 lanes, zero-extended into an [i32]. *)
Fixpoint mm_movemask_epi8 (c : list Z) : Z :=
  match c with
  | [] => 0
  | x :: c' => Z.b2z (test_mask x 7) + 2 * mm_movemask_epi8 c'
  end.

(** ** [memcpy] *)

Record copy_st : Type := CopySt { c_mem : mem; c_dst : Z; c_src : Z; c_len : Z }.

(** [*dst = *src; dst += 1; src += 1; len -= 1] *)
Definition copy1 (s : copy_st) : copy_st :=
  CopySt (write8 (c_mem s) (c_dst s) (c_mem s (c_src s)))
    (c_dst s + 1) (c_src s + 1) (c_len s - 1).

Definition copy16 (s : copy_st) : copy_st :=
  let c := mm_loadu_si128 (c_mem s) (c_src s) in
  CopySt (mm_storeu_si128 (c_mem s) (c_dst s) c)
    (c_dst s + 16) (c_src s + 16) (c_len s - 16).

(** Four loads, then four stores. *)
Definition copy64 (s : copy_st) : copy_st :=
  let m := c_mem s in
  let c0 := mm_loadu_si128 m (c_src s) in
  let c1 := mm_loadu_si128 m (c_src s + 16) in
  let c2 := mm_loadu_si128 m (c_src s + 32) in
  let c3 := mm_loadu_si128 m (c_src s + 48) in
  let m := mm_storeu_si128 m (c_dst s) c0 in
  let m := mm_storeu_si128 m (c_dst s + 16) c1 in
  let m := mm_storeu_si128 m (c_dst s + 32) c2 in
  let m := mm_storeu_si128 m (c_dst s + 48) c3 in
  CopySt m (c_dst s + 64) (c_src s + 64) (c_len s - 64).

Definition memcpy (m : mem) (dst src len : Z) : option mem :=
  if len =? 0 then Some m else
  let fuel := Z.to_nat len in
  s ← while_fuel fuel (fun s => negb (c_dst s .& 15 =? 0) && (0 <? c_len s)) copy1
        (CopySt m dst src len);
  s ← while_fuel fuel (fun s => 64 <=? c_len s) copy64 s;
  s ← while_fuel fuel (fun s => 16 <=? c_len s) copy16 s;
  s ← while_fuel fuel (fun s => 0 <? c_len s) copy1 s;
  Some (c_mem s).

(** ** [memset] *)

Record set_st : Type := SetSt { s_mem : mem; s_dst : Z; s_len : Z }.

Definition set1 (value : Z) (s : set_st) : set_st :=
  SetSt (write8 (s_mem s) (s_dst s) value) (s_dst s + 1) (s_len s - 1).

Definition set16 (fill : list Z) (s : set_st) : set_st :=
  SetSt (mm_storeu_si128 (s_mem s) (s_dst s) fill) (s_dst s + 16) (s_len s - 16).

Definition set64 (fill : list Z) (s : set_st) : set_st :=
  let m := mm_storeu_si128 (s_mem s) (s_dst s) fill in
  let m := mm_storeu_si128 m (s_dst s + 16) fill in
  let m := mm_storeu_si128 m (s_dst s + 32) fill in
  let m := mm_storeu_si128 m (s_dst s + 48) fill in
  SetSt m (s_dst s + 64) (s_len s - 64).

Definition memset (m : mem) (dst value len : Z) : option mem :=
  if len =? 0 then Some m else
  let fuel := Z.to_nat len in
  let fill := mm_set1_epi8 value in
  s ← while_fuel fuel (fun s => negb (s_dst s .& 15 =? 0) && (0 <? s_len s)) (set1 value)
        (SetSt m dst len);
  s ← while_fuel fuel (fun s => 64 <=? s_len s) (set64 fill) s;
  s ← while_fuel fuel (fun s => 16 <=? s_len s) (set16 fill) s;
  s ← while_fuel fuel (fun s => 0 <? s_len s) (set1 value) s;
  Some (s_mem s).

(** ** [memcmp] *)

(** [for i in 0..n { if *a.add(i) != *b.add(i) { return difference } } 0] *)
Definition slow_byte_cmp (m : mem) (a b n : Z) : Z :=
  default 0 (first_some
    (fun i => let aa := m (a + i) in let bb := m (b + i) in
              if negb (aa =? bb) then Some (aa - bb) else None)
    (seqZ 0 n)).

(** One 16-byte comparison: [Some r] when the source returns [r]. *)
Definition cmp_chunk (m : mem) (a b : Z) : option Z :=
  let va := mm_loadu_si128 m a in
  let vb := mm_loadu_si128 m b in
  let mask := mm_movemask_epi8 (mm_cmpeq_epi8 va vb) in
  if negb (mask =? -1) then Some (slow_byte_cmp m a b 16) else None.

Record cmp_st : Type := CmpSt { p_a : Z; p_b : Z; p_len : Z }.

Definition cmp64 (m : mem) (s : cmp_st) : Z + cmp_st :=
  match first_some (fun off => cmp_chunk m (p_a s + off) (p_b s + off)) [0; 16; 32; 48] with
  | Some r => inl r
  | None => inr (CmpSt (p_a s + 64) (p_b s + 64) (p_len s - 64))
  end.

Definition cmp16 (m : mem) (s : cmp_st) : Z + cmp_st :=
  match cmp_chunk m (p_a s) (p_b s) with
  | Some r => inl r
  | None => inr (CmpSt (p_a s + 16) (p_b s + 16) (p_len s - 16))
  end.

Definition cmp1 (m : mem) (s : cmp_st) : Z + cmp_st :=
  let byte_a := m (p_a s) in
  let byte_b := m (p_b s) in
  if negb (byte_a =? byte_b) then inl (byte_a - byte_b)
  else inr (CmpSt (p_a s + 1) (p_b s + 1) (p_len s - 1)).

(** Continue after a loop unless it returned. *)
Definition after_loop {S R} (o : option (R + S)) (k : S -> option R) : option R :=
  match o with
  | None => None
  | Some (inl r) => Some r
  | Some (inr s) => k s
  end.

Definition memcmp (m : mem) (a b len : Z) : option Z :=
  if len =? 0 then Some 0 else
  let fuel := Z.to_nat len in
  after_loop (while_ret fuel (fun s => 64 <=? p_len s) (cmp64 m) (CmpSt a b len)) (fun s =>
  after_loop (while_ret fuel (fun s => 16 <=? p_len s) (cmp16 m) s) (fun s =>
  after_loop (while_ret fuel (fun s => 0 <? p_len s) (cmp1 m) s) (fun _ =>
  Some 0))).

(** ** [memmove] *)

(** [*dest.add(k) = *src.add(k)] *)
Definition move1 (dest src k : Z) (m : mem) : mem := write8 m (dest + k) (m (src + k)).

(** The 16-byte load and store at offset [k]. *)
Definition move16 (dest src k : Z) (m : mem) : mem :=
  let data := mm_loadu_si128 m (src + k) in
  mm_storeu_si128 m (dest + k) data.

Definition memmove_forward (m : mem) (dest src n : Z) : option mem :=
  '(m, offset) ← while_fuel (Z.to_nat n)
      (fun '(_, offset) => (offset <? n) && negb ((dest + offset) .& 15 =? 0))
      (fun '(m, offset) => (move1 dest src offset m, offset + 1)) (m, 0);
  let chunks := (n - offset) / 16 in
  let remainder := (n - offset) `mod` 16 in
  let m := for_range 0 chunks (fun i m => move16 dest src (offset + i * 16) m) m in
  let m := for_range 0 remainder (fun i m => move1 dest src (n - remainder + i) m) m in
  Some m.

Definition memmove_backward (m : mem) (dest src n : Z) : option mem :=
  '(m, offset) ← while_fuel (Z.to_nat n)
      (fun '(_, offset) => (offset <? n) && negb ((dest + (n - offset - 1)) .& 15 =? 15))
      (fun '(m, offset) => (move1 dest src (n - offset - 1) m, offset + 1)) (m, 0);
  let chunks := (n - offset) / 16 in
  let remainder := (n - offset) `mod` 16 in
  let m := for_range 0 chunks (fun i m => move16 dest src (n - offset - (i + 1) * 16) m) m in
  let m := for_range 0 remainder (fun i m => move1 dest src (remainder - i - 1) m) m in
  Some m.

(** The memory after the call and the returned pointer. *)
Definition memmove (m : mem) (dest src n : Z) : option (mem * Z) :=
  if (dest =? src) || (n =? 0) then Some (m, dest) else
  m' ← (if dest <? src then memmove_forward m dest src n else memmove_backward m dest src n);
  Some (m', dest).

(** ** Reference definitions *)

Definition blit (m : mem) (dst src len : Z) : mem := fun x =>
  if (dst <=? x) && (x <? dst + len) then m (src + (x - dst)) else m x.

Definition fill (m : mem) (dst v len : Z) : mem := fun x =>
  if (dst <=? x) && (x <? dst + len) then v else m x.

Definition agree (m : mem) (a b n : Z) : Prop := forall i, 0 <= i < n -> m (a + i) = m (b + i).

Definition cmp_spec (m : mem) (a b n r : Z) : Prop :=
  (r = 0 /\ agree m a b n) \/
  (exists i, 0 <= i < n /\ agree m a b i /\ m (a + i) <> m (b + i) /\ r = m (a + i) - m (b + i)).

(** ** Block copies *)

Lemma write8_store m a v : write8 m a v = store_bytes m a [v].
Proof. done. Qed.

Lemma load_bytes_1 m a : load_bytes m a 1 = [m a].
Proof. unfold load_bytes. cbn. by rewrite Z.add_0_r. Qed.

Lemma copy1_block m d s : write8 m d (m s) = store_bytes m d (load_bytes m s 1).
Proof. by rewrite load_bytes_1. Qed.

Lemma copy64_block s :
  mem_equiv (c_mem (copy64 s)) (store_bytes (c_mem s) (c_dst s) (load_bytes (c_mem s) (c_src s) 64)).
Proof.
  unfold copy64, mm_storeu_si128, mm_loadu_si128. cbn [c_mem].
  rewrite (load_bytes_app _ _ 16 48), (load_bytes_app _ _ 16 32), (load_bytes_app _ _ 16 16).
  rewrite <- !store_bytes_app, !length_load_bytes.
  change (Z.of_nat 16) with 16. rewrite <- !Z.add_assoc. done.
Qed.

Lemma blit_0 m dst src : mem_equiv (blit m dst src 0) m.
Proof. intros x. unfold blit. case_bools; done || lia. Qed.

(** One forward step: the bytes read have not been overwritten yet. *)
Lemma blit_forward_step m m' dst src k c :
  0 <= k -> mem_equiv m' (blit m dst src k) ->
  dst <= src \/ src + k + Z.of_nat c <= dst ->
  mem_equiv (store_bytes m' (dst + k) (load_bytes m' (src + k) c))
            (blit m dst src (k + Z.of_nat c)).
Proof.
  intros Hk Hm Hov x. rewrite copy_block_spec, !Hm. unfold blit.
  case_bools; try lia; try done; f_equal; lia.
Qed.

(** One backward step. *)
Lemma blit_backward_step m m' dst src n k c :
  0 <= k -> src <= dst -> mem_equiv m' (blit m (dst + n - k) (src + n - k) k) ->
  mem_equiv (store_bytes m' (dst + n - k - Z.of_nat c) (load_bytes m' (src + n - k - Z.of_nat c) c))
            (blit m (dst + n - (k + Z.of_nat c)) (src + n - (k + Z.of_nat c)) (k + Z.of_nat c)).
Proof.
  intros Hk Hle Hm x. rewrite copy_block_spec, !Hm. unfold blit.
  case_bools; try lia; try done; f_equal; lia.
Qed.

(** ** [memcpy] *)

Definition copies (c : nat) (body : copy_st -> copy_st) : Prop := forall s,
  c_dst (body s) = c_dst s + Z.of_nat c /\ c_src (body s) = c_src s + Z.of_nat c /\
  c_len (body s) = c_len s - Z.of_nat c /\
  mem_equiv (c_mem (body s))
    (store_bytes (c_mem s) (c_dst s) (load_bytes (c_mem s) (c_src s) c)).

Lemma copies_1 : copies 1 copy1.
Proof. intros s. split_and!; [done..|]. unfold copy1. cbn [c_mem]. by rewrite copy1_block. Qed.

Lemma copies_16 : copies 16 copy16.
Proof. done. Qed.

Lemma copies_64 : copies 64 copy64.
Proof. intros s. split_and!; [done..|]. apply copy64_block. Qed.

#[export] Hint Resolve copies_1 copies_16 copies_64 : nx.

Section Memcpy.
Variables (m : mem) (dst src len : Z).
Hypothesis overlap_ok : dst <= src \/ src + len <= dst.

Definition copy_inv (s : copy_st) : Prop := exists k,
  0 <= k <= len /\ c_dst s = dst + k /\ c_src s = src + k /\ c_len s = len - k /\
  mem_equiv (c_mem s) (blit m dst src k).

Lemma copy_loop c cond body s :
  copies c body -> (0 < c)%nat ->
  (forall s, cond s = true -> Z.of_nat c <= c_len s) -> copy_inv s ->
  exists s', while_fuel (Z.to_nat len) cond body s = Some s' /\ copy_inv s' /\ cond s' = false.
Proof.
  intros Hbody Hc Hcond Hs.
  apply (while_rule copy_inv (fun s => Z.to_nat (c_len s))); [|done|].
  - intros s0 (k & Hk & Hd & Hsrc & Hl & Hm) Ht. specialize (Hcond _ Ht).
    destruct (Hbody s0) as (Hd' & Hs' & Hl' & Hm'). split; [|lia].
    exists (k + Z.of_nat c). split_and!; [lia..|].
    rewrite Hm', Hd, Hsrc. apply blit_forward_step; [lia|done|lia].
  - destruct Hs as (k & ? & ? & ? & ? & ?). lia.
Qed.

Lemma memcpy_blit :
  0 <= len -> exists m', memcpy m dst src len = Some m' /\ mem_equiv m' (blit m dst src len).
Proof.
  intros Hlen. unfold memcpy. case_bool.
  { subst. exists m. split; [done|]. by rewrite blit_0. }
  assert (copy_inv (CopySt m dst src len)) as H0.
  { exists 0. cbn. split_and!; try lia. by rewrite blit_0. }
  edestruct (copy_loop 1) as (s1 & -> & H1 & _); [eauto with nx|lia| |exact H0|].
  { intros s. cbn. case_bools; cbn; lia || done. }
  edestruct (copy_loop 64 (fun s => 64 <=? c_len s)) as (s2 & E2 & H2 & _); [eauto with nx|lia| |exact H1|].
  { intros s Hs. apply Z.leb_le in Hs. exact Hs. }
  edestruct (copy_loop 16 (fun s => 16 <=? c_len s)) as (s3 & E3 & H3 & _); [eauto with nx|lia| |exact H2|].
  { intros s Hs. apply Z.leb_le in Hs. exact Hs. }
  edestruct (copy_loop 1 (fun s => 0 <? c_len s)) as (s4 & E4 & H4 & Hend); [eauto with nx|lia| |exact H3|].
  { intros s Hs. apply Z.ltb_lt in Hs. cbn. lia. }
  cbn [mbind option_bind]. rewrite E2; cbn [mbind option_bind]. rewrite E3; cbn [mbind option_bind].
  rewrite E4; cbn [mbind option_bind].
  eexists. split; [done|]. destruct H4 as (k & ? & ? & ? & Hl & Hm).
  apply Z.ltb_ge in Hend. by replace len with k by lia.
Qed.
End Memcpy.

(** ** [memset] *)

Definition sets (v : Z) (c : nat) (body : set_st -> set_st) : Prop := forall s,
  s_dst (body s) = s_dst s + Z.of_nat c /\ s_len (body s) = s_len s - Z.of_nat c /\
  mem_equiv (s_mem (body s)) (fill (s_mem s) (s_dst s) v (Z.of_nat c)).

Lemma store_replicate m a v n :
  mem_equiv (store_bytes m a (replicate n v)) (fill m a v (Z.of_nat n)).
Proof.
  intros x. rewrite store_bytes_spec, length_replicate. unfold fill.
  destruct (Z.leb_spec a x); [|done]. destruct (Z.ltb_spec x (a + Z.of_nat n)); [|done]. cbn.
  by rewrite lookup_replicate_2 by lia.
Qed.

Lemma fill_fill m a v j k :
  0 <= j -> 0 <= k -> mem_equiv (fill (fill m a v j) (a + j) v k) (fill m a v (j + k)).
Proof. intros ?? x. unfold fill. case_bools; lia || done. Qed.

#[export] Instance fill_proper : Proper (mem_equiv ==> eq ==> eq ==> eq ==> mem_equiv) fill.
Proof. intros m1 m2 H a ? <- v ? <- n ? <- x. unfold fill. by rewrite H. Qed.

Lemma sets_1 v : sets v 1 (set1 v).
Proof. intros s. split_and!; [done..|]. apply (store_replicate _ _ v 1). Qed.

Lemma sets_16 v : sets v 16 (set16 (mm_set1_epi8 v)).
Proof. intros s. split_and!; [done..|]. apply store_replicate. Qed.

Lemma sets_64 v : sets v 64 (set64 (mm_set1_epi8 v)).
Proof.
  intros s. split_and!; [done..|].
  unfold set64, mm_storeu_si128, mm_set1_epi8. cbn [s_mem].
  rewrite !store_replicate. change (Z.of_nat 16) with 16.
  rewrite (fill_fill _ _ _ 16 16), (fill_fill _ _ _ 32 16), (fill_fill _ _ _ 48 16) by lia.
  done.
Qed.

#[export] Hint Resolve sets_1 sets_16 sets_64 : nx.

Section Memset.
Variables (m : mem) (dst v len : Z).

Definition set_inv (s : set_st) : Prop := exists k,
  0 <= k <= len /\ s_dst s = dst + k /\ s_len s = len - k /\
  mem_equiv (s_mem s) (fill m dst v k).

Lemma set_loop c cond body s :
  sets v c body -> (0 < c)%nat ->
  (forall s, cond s = true -> Z.of_nat c <= s_len s) -> set_inv s ->
  exists s', while_fuel (Z.to_nat len) cond body s = Some s' /\ set_inv s' /\ cond s' = false.
Proof.
  intros Hbody Hc Hcond Hs.
  apply (while_rule set_inv (fun s => Z.to_nat (s_len s))); [|done|].
  - intros s0 (k & Hk & Hd & Hl & Hm) Ht. specialize (Hcond _ Ht).
    destruct (Hbody s0) as (Hd' & Hl' & Hm'). split; [|lia].
    exists (k + Z.of_nat c). split_and!; [lia..|].
    rewrite Hm', Hd, Hm. apply fill_fill; lia.
  - destruct Hs as (k & ? & ? & ? & ?). lia.
Qed.

Lemma memset_fill :
  0 <= len -> exists m', memset m dst v len = Some m' /\ mem_equiv m' (fill m dst v len).
Proof.
  intros Hlen. unfold memset. case_bool.
  { subst. exists m. split; [done|]. intros x. unfold fill. case_bools; lia || done. }
  assert (set_inv (SetSt m dst len)) as H0.
  { exists 0. cbn. split_and!; try lia. intros x. unfold fill. case_bools; lia || done. }
  edestruct (set_loop 1) as (s1 & -> & H1 & _); [eauto with nx|lia| |exact H0|].
  { intros s. cbn. case_bools; cbn; lia || done. }
  edestruct (set_loop 64 (fun s => 64 <=? s_len s)) as (s2 & E2 & H2 & _); [eauto with nx|lia| |exact H1|].
  { intros s Hs. apply Z.leb_le in Hs. exact Hs. }
  edestruct (set_loop 16 (fun s => 16 <=? s_len s)) as (s3 & E3 & H3 & _); [eauto with nx|lia| |exact H2|].
  { intros s Hs. apply Z.leb_le in Hs. exact Hs. }
  edestruct (set_loop 1 (fun s => 0 <? s_len s)) as (s4 & E4 & H4 & Hend); [eauto with nx|lia| |exact H3|].
  { intros s Hs. apply Z.ltb_lt in Hs. cbn. lia. }
  cbn [mbind option_bind]. rewrite E2; cbn [mbind option_bind]. rewrite E3; cbn [mbind option_bind].
  rewrite E4; cbn [mbind option_bind].
  eexists. split; [done|]. destruct H4 as (k & ? & ? & Hl & Hm).
  apply Z.ltb_ge in Hend. by replace len with k by lia.
Qed.
End Memset.

(** ** [memmove] *)

Section Memmove.
Variables (m : mem) (dest src n : Z).
Hypothesis n_nonneg : 0 <= n.

Lemma move1_forward k m' :
  dest < src -> 0 <= k -> mem_equiv m' (blit m dest src k) ->
  mem_equiv (move1 dest src k m') (blit m dest src (k + 1)).
Proof.
  intros. unfold move1. rewrite copy1_block.
  apply (blit_forward_step _ _ _ _ _ 1); [done..|lia].
Qed.

Lemma move16_forward k m' :
  dest < src -> 0 <= k -> mem_equiv m' (blit m dest src k) ->
  mem_equiv (move16 dest src k m') (blit m dest src (k + 16)).
Proof. intros. apply (blit_forward_step _ _ _ _ _ 16); [done..|lia]. Qed.

Lemma memmove_forward_blit :
  dest < src ->
  exists m', memmove_forward m dest src n = Some m' /\ mem_equiv m' (blit m dest src n).
Proof.
  intros Hlt. unfold memmove_forward.
  edestruct (while_rule
    (fun '(m', off) => 0 <= off <= n /\ mem_equiv m' (blit m dest src off))
    (fun '(_, off) => Z.to_nat (n - off))) as ([m1 off] & -> & [Hoff Hm1] & _).
  3: { apply Nat.eq_le_incl. f_equal. lia. }
  { intros [m0 off] [Hoff Hm0] Hc. apply andb_prop in Hc as [Hc _]. apply Z.ltb_lt in Hc.
    split; [|lia]. split; [lia|]. apply move1_forward; [done|lia|done]. }
  { split; [lia|]. by rewrite blit_0. }
  cbn [mbind option_bind]. eexists. split; [done|].
  set (chunks := (n - off) / 16). set (remainder := (n - off) `mod` 16).
  assert (n - off = 16 * chunks + remainder /\ 0 <= remainder < 16) as [? ?]
    by (subst chunks remainder; zdiv).
  apply (for_range_post (fun i m' => mem_equiv m' (blit m dest src (n - remainder + i)))); [lia| | |].
  - replace (n - remainder + 0) with (off + chunks * 16) by lia.
    apply (for_range_ind (fun i m' => mem_equiv m' (blit m dest src (off + i * 16)))); [lia| |].
    + by replace (off + 0 * 16) with off by lia.
    + intros i m' ? ?. replace (off + (i + 1) * 16) with (off + i * 16 + 16) by lia.
      apply move16_forward; [done|lia|done].
  - intros i m' ? ?. rewrite Z.add_assoc. apply move1_forward; [done|lia|done].
  - intros m'. by replace (n - remainder + remainder) with n by lia.
Qed.

(** The copy of the last [k] bytes. *)
Definition tail (k : Z) : mem := blit m (dest + n - k) (src + n - k) k.

Lemma move1_backward k m' :
  src <= dest -> 0 <= k -> mem_equiv m' (tail k) ->
  mem_equiv (move1 dest src (n - k - 1) m') (tail (k + 1)).
Proof.
  intros Hle Hk Hm. unfold move1. rewrite copy1_block.
  pose proof (blit_backward_step m m' dest src n k 1 Hk Hle Hm) as H1.
  by replace (dest + (n - k - 1)) with (dest + n - k - Z.of_nat 1) by lia;
    replace (src + (n - k - 1)) with (src + n - k - Z.of_nat 1) by lia.
Qed.

Lemma move16_backward k m' :
  src <= dest -> 0 <= k -> mem_equiv m' (tail k) ->
  mem_equiv (move16 dest src (n - k - 16) m') (tail (k + 16)).
Proof.
  intros Hle Hk Hm. unfold move16, mm_loadu_si128, mm_storeu_si128.
  pose proof (blit_backward_step m m' dest src n k 16 Hk Hle Hm) as H1.
  by replace (dest + (n - k - 16)) with (dest + n - k - Z.of_nat 16) by lia;
    replace (src + (n - k - 16)) with (src + n - k - Z.of_nat 16) by lia.
Qed.

Lemma memmove_backward_blit :
  src <= dest ->
  exists m', memmove_backward m dest src n = Some m' /\ mem_equiv m' (blit m dest src n).
Proof.
  intros Hle. unfold memmove_backward.
  edestruct (while_rule
    (fun '(m', off) => 0 <= off <= n /\ mem_equiv m' (tail off))
    (fun '(_, off) => Z.to_nat (n - off))) as ([m1 off] & -> & [Hoff Hm1] & _).
  3: { apply Nat.eq_le_incl. f_equal. lia. }
  { intros [m0 off] [Hoff Hm0] Hc. apply andb_prop in Hc as [Hc _]. apply Z.ltb_lt in Hc.
    split; [|lia]. split; [lia|]. apply move1_backward; [done|lia|done]. }
  { split; [lia|]. unfold tail. by rewrite blit_0. }
  cbn [mbind option_bind]. eexists. split; [done|].
  set (chunks := (n - off) / 16). set (remainder := (n - off) `mod` 16).
  assert (n - off = 16 * chunks + remainder /\ 0 <= remainder < 16) as [? ?]
    by (subst chunks remainder; zdiv).
  apply (for_range_post (fun i m' => mem_equiv m' (tail (n - remainder + i)))); [lia| | |].
  - replace (n - remainder + 0) with (off + chunks * 16) by lia.
    apply (for_range_ind (fun i m' => mem_equiv m' (tail (off + i * 16)))); [lia| |].
    + by replace (off + 0 * 16) with off by lia.
    + intros i m' ? ?. replace (off + (i + 1) * 16) with (off + i * 16 + 16) by lia.
      replace (n - off - (i + 1) * 16) with (n - (off + i * 16) - 16) by lia.
      apply move16_backward; [done|lia|done].
  - intros i m' ? ?. rewrite Z.add_assoc.
    replace (remainder - i - 1) with (n - (n - remainder + i) - 1) by lia.
    apply move1_backward; [done|lia|done].
  - intros m' ->. unfold tail. replace (n - remainder + remainder) with n by lia.
    by rewrite !Z.add_simpl_r.
Qed.
End Memmove.

(** ** [memcmp] *)

Lemma movemask_range c :
  Forall (fun x => 0 <= x) c -> 0 <= mm_movemask_epi8 c < 2 ^ Z.of_nat (length c).
Proof.
  induction 1 as [|x c Hx Hc IH]; cbn [mm_movemask_epi8 length]; [cbn; lia|].
  replace (Z.of_nat (S (length c))) with (1 + Z.of_nat (length c)) by lia.
  rewrite Z.pow_add_r by lia. destruct (test_mask x 7); cbn [Z.b2z]; lia.
Qed.

(** The mask of 16 lanes is between 0 and 0xFFFF: it is never [-1]. *)
Lemma cmp_chunk_returns m a b : cmp_chunk m a b = Some (slow_byte_cmp m a b 16).
Proof.
  unfold cmp_chunk.
  assert (0 <= mm_movemask_epi8 (mm_cmpeq_epi8 (mm_loadu_si128 m a) (mm_loadu_si128 m b))) as H.
  { apply movemask_range. unfold mm_cmpeq_epi8. apply Forall_forall. intros x Hx.
    apply list_elem_of_lookup in Hx as [i Hi]. rewrite lookup_zip_with in Hi.
    destruct (mm_loadu_si128 m a !! i), (mm_loadu_si128 m b !! i); cbn in Hi; try done.
    injection Hi as <-. case_bools; lia. }
  case_bools; [lia|done].
Qed.

Lemma slow_byte_cmp_spec m a b n : 0 <= n -> cmp_spec m a b n (slow_byte_cmp m a b n).
Proof.
  intros Hn. unfold slow_byte_cmp, cmp_spec.
  destruct (first_some _ _) as [r|] eqn:E; cbn.
  - right. apply first_some_Some in E as (i & z & Hz & Hr & Hbefore).
    apply lookup_seqZ in Hz as [-> Hi]. exists (0 + Z.of_nat i). split_and!; [lia..| | |].
    + intros j Hj. specialize (Hbefore (Z.to_nat j) j ltac:(lia)).
      rewrite lookup_seqZ in Hbefore. specialize (Hbefore ltac:(lia)). cbn in Hbefore.
      by case_bools.
    + by case_bools.
    + case_bools; [done|]. by injection Hr as <-.
  - left. split; [done|]. intros i Hi. apply first_some_None in E.
    rewrite Forall_seqZ in E. specialize (E i ltac:(lia)). cbn in E. by case_bools.
Qed.

Lemma memcmp_long_first16 m a b len :
  16 <= len -> memcmp m a b len = Some (slow_byte_cmp m a b 16).
Proof.
  intros Hlen. unfold memcmp. case_bool; [lia|].
  destruct (Z.to_nat len) as [|f] eqn:Ef; [lia|]. cbn [while_ret p_len].
  destruct (Z.leb_spec 64 len).
  - unfold cmp64. cbn [p_a p_b first_some]. rewrite !Z.add_0_r, cmp_chunk_returns. done.
  - cbn [after_loop p_len]. destruct (Z.leb_spec 16 len); [|lia].
    unfold cmp16. cbn [p_a p_b]. by rewrite cmp_chunk_returns.
Qed.

Lemma memcmp_short m a b len :
  0 <= len < 16 -> exists r, memcmp m a b len = Some r /\ cmp_spec m a b len r.
Proof.
  intros Hlen. unfold memcmp. case_bool.
  { subst. exists 0. split; [done|]. left. split; [done|]. intros i ?. lia. }
  assert (forall (c : Z) (body : cmp_st -> Z + cmp_st) f, len < c ->
    while_ret f (fun s => c <=? p_len s) body (CmpSt a b len) = Some (inr (CmpSt a b len))) as Hskip.
  { intros c body f Hc. destruct f; cbn; (destruct (Z.leb_spec c len); [lia|done]). }
  rewrite Hskip by lia. cbn [after_loop]. rewrite Hskip by lia. cbn [after_loop].
  edestruct (while_ret_rule
    (fun s => exists k, 0 <= k <= len /\ s = CmpSt (a + k) (b + k) (len - k) /\ agree m a b k)
    (fun r => cmp_spec m a b len r) (fun s => Z.to_nat (p_len s))
    (fun s => 0 <? p_len s) (cmp1 m) (Z.to_nat len) (CmpSt a b len)) as (o & -> & Ho).
  - intros s (k & Hk & -> & Hag) Hc. cbn in Hc. apply Z.ltb_lt in Hc. unfold cmp1. cbn.
    case_bool; cbn.
    + split; [|lia]. exists (k + 1). split_and!; [lia..|f_equal; lia|].
      intros i Hi. destruct (Z.eq_dec i k) as [->|]; [done|]. apply Hag. lia.
    + split; [|lia]. right. exists k. split_and!; [lia..|done|done|done].
  - exists 0. split_and!; [lia..|f_equal; lia|]. intros i ?. lia.
  - cbn. lia.
  - destruct o as [r|s]; cbn; [by eauto|]. exists 0. split; [done|]. left. split; [done|].
    destruct Ho as [(k & Hk & -> & Hag) Hc]. cbn in Hc. apply Z.ltb_ge in Hc.
    by replace len with k by lia.
Qed.

Lemma cmp_spec_agree m a b n r : agree m a b n -> cmp_spec m a b n r -> r = 0.
Proof.
  intros Hag [[-> _]|(i & Hi & _ & Hne & _)]; [done|]. by destruct Hne; apply Hag.
Qed.

(** ** Properties *)

(** [memcpy] terminates and copies exactly [len] bytes, leaving every other
    byte unchanged, when the regions do not overlap, and also when they overlap
    with the destination at or below the source. *)
Theorem memcpy_correct m dst src len :
  0 <= len -> dst <= src \/ src + len <= dst ->
  exists m', memcpy m dst src len = Some m' /\ mem_equiv m' (blit m dst src len).
Proof. intros. by apply memcpy_blit. Qed.

Lemma memcpy_correct_witness :
  exists m', memcpy (fun x => x `mod` 256) 3 1000 150 = Some m' /\
    mem_equiv m' (blit (fun x => x `mod` 256) 3 1000 150).
Proof. apply memcpy_correct; lia. Defined.

(** C4: [memmove] terminates, returns [dest] and copies [n] bytes as if through a
    temporary buffer, for every overlap of the two regions. *)
Theorem memmove_correct m dest src n :
  0 <= n ->
  exists m', memmove m dest src n = Some (m', dest) /\ mem_equiv m' (blit m dest src n).
Proof.
  intros Hn. unfold memmove. destruct (Z.eqb_spec dest src) as [->|]; cbn [orb].
  { exists m. split; [done|]. intros x. unfold blit. case_bools; try done. f_equal. lia. }
  case_bool.
  { subst. exists m. split; [done|]. by rewrite blit_0. }
  destruct (Z.ltb_spec dest src).
  - destruct (memmove_forward_blit m dest src n) as (m' & -> & ?); [done..|]. by exists m'.
  - destruct (memmove_backward_blit m dest src n) as (m' & -> & ?); [done..|]. by exists m'.
Qed.

(** Overlapping by 100 bytes, destination above the source. *)
Lemma memmove_correct_witness :
  exists m', memmove (fun x => x `mod` 256) 1037 1000 137 = Some (m', 1037) /\
    mem_equiv m' (blit (fun x => x `mod` 256) 1037 1000 137).
Proof. apply memmove_correct. lia. Defined.

(** [memset] terminates and sets exactly [len] bytes to [value]. *)
Theorem memset_correct m dst value len :
  0 <= len ->
  exists m', memset m dst value len = Some m' /\ mem_equiv m' (fill m dst value len).
Proof. apply memset_fill. Qed.

Lemma memset_correct_witness :
  exists m', memset (fun _ => 0) 5 7 100 = Some m' /\
    mem_equiv m' (fill (fun _ => 0) 5 7 100).
Proof. apply memset_correct. lia. Defined.

(** A comparison of the first 16 bytes is one of the whole regions unless the first
    difference lies beyond them. *)
Lemma cmp_spec_first_16 m a b len r :
  cmp_spec m a b (Z.min len 16) r ->
  cmp_spec m a b len r <->
    ~ (agree m a b 16 /\ exists i, 16 <= i < len /\ m (a + i) <> m (b + i)).
Proof.
  intros H. destruct (Z.le_gt_cases len 16) as [Hl|Hl].
  { rewrite Z.min_l in H by lia. split; [|done]. intros _ (_ & i & Hi & _). lia. }
  rewrite Z.min_r in H by lia. split.
  - intros Hc (Hag & i & Hi & Hd).
    assert (r = 0) as -> by (destruct H as [[? _]|(k & Hk & _ & Hd' & _)]; [done|by destruct Hd'; apply Hag]).
    destruct Hc as [[_ Hall]|(k & _ & _ & Hd' & Hr)]; [apply Hd, Hall; lia|lia].
  - intros Hn. destruct H as [[-> Hag]|(k & Hk & Hrest)]; [|right; exists k; split; [lia|done]].
    left. split; [done|]. intros i Hi. destruct (Z.lt_ge_cases i 16); [apply Hag; lia|].
    destruct (Z.eq_dec (m (a + i)) (m (b + i))); [done|]. destruct Hn. split; [done|]. exists i. lia.
Qed.

(** C39: [memcmp] terminates, and its result is the lexicographic comparison of
    the first [min len 16] bytes of the regions: the difference of the first bytes
    that differ, or 0 when those bytes agree. So it is the comparison of the whole
    regions, as documented, exactly when it is not the case that the first 16 bytes
    agree and a later one differs: the test of the movemask result against [-1]
    never holds, and every longer region is decided by its first 16 bytes. *)
Theorem memcmp_first_16 m a b len :
  0 <= len ->
  exists r, memcmp m a b len = Some r /\ cmp_spec m a b (Z.min len 16) r /\
    (cmp_spec m a b len r <->
       ~ (agree m a b 16 /\ exists i, 16 <= i < len /\ m (a + i) <> m (b + i))).
Proof.
  intros Hlen.
  assert (exists r, memcmp m a b len = Some r /\ cmp_spec m a b (Z.min len 16) r) as (r & Hr & Hc).
  { destruct (Z.ltb_spec len 16).
    - rewrite Z.min_l by lia. by apply memcmp_short.
    - rewrite Z.min_r, memcmp_long_first16 by lia. eexists. split; [done|]. by apply slow_byte_cmp_spec. }
  exists r. split_and!; [done|done|by apply cmp_spec_first_16..].
Qed.

(** Two regions of 32 bytes that differ in byte 20, found equal. *)
Lemma memcmp_first_16_witness :
  let m := fun x => if x =? 120 then 1 else 0 in
  memcmp m 100 200 32 = Some 0 /\ ~ cmp_spec m 100 200 32 0.
Proof.
  intros m. destruct (memcmp_first_16 m 100 200 32) as (r & Hr & _ & Hiff); [lia|].
  assert (memcmp m 100 200 32 = Some 0) as H0 by (vm_compute; reflexivity).
  rewrite H0 in Hr. injection Hr as <-. split; [exact H0|]. intros Hc. apply Hiff in Hc. apply Hc. split.
  - intros i Hi. unfold m. repeat case_bool; done || lia.
  - exists 20. split; [lia|]. vm_compute. discriminate.
Defined.
