(* ===== verification/Frame.v ===== *)
(** * Frame: the bitmap frame allocator of [src/memory/frame.rs]

    [BootInfoFrameAllocator] keeps one bit per physical frame (1 = used) in
    physical memory, reached at [phys_offset + bitmap_phys_start]. The state of
    the model is the record of the struct's fields and the byte memory; [init],
    [allocate_frame] and [free_frame] are translated whole. [EmptyFrameAllocator]
    ([src/memory/paging.rs]) and the bump allocator [VirtualPageAllocator]
    ([src/memory/virtual_alloc.rs]) are modelled too.

    The abstract allocator is a set of free frame numbers; the refinement theorem
    relates every allocation and release to it. The theorems on [init] say which
    frames are free after boot, where the bitmap is placed and that no byte
    outside the bitmap is written. *)

From S2P Require Import Prelude External.

(** ** Data *)

(** What the allocator reads of a [bootloader::bootinfo::MemoryRegion]: whether
    [region_type == Usable], [range.start_addr()] and [range.end_addr()]. *)
Record MemoryRegion : Type := MkRegion {
  region_usable : bool;
  start_addr : Z;
  end_addr : Z
}.

Record BootInfoFrameAllocator : Type := MkAllocator {
  memory_map : list MemoryRegion;
  phys_offset : Z;
  kernel_reserved_end : option Z;
  bitmap_phys_start : Z;
  bitmap_bytes : Z;
  num_frames : Z;
  next_search : Z
}.

Definition set_next_search (fa : BootInfoFrameAllocator) (n : Z) : BootInfoFrameAllocator :=
  MkAllocator (memory_map fa) (phys_offset fa) (kernel_reserved_end fa)
    (bitmap_phys_start fa) (bitmap_bytes fa) (num_frames fa) n.

(** ** [init] *)

Definition PAGE_MASK : Z := lnotw 64 0xFFF.

(** The highest end address of a usable region. *)
Definition max_usable_addr (map : list MemoryRegion) : Z :=
  foldl (fun max_addr region =>
    if region_usable region && (max_addr <? end_addr region)
    then end_addr region else max_addr) 0 map.

(** The body of the first placement loop: [Some aligned] is the [break]. *)
Definition bitmap_candidate (kend : option Z) (bytes : Z) (region : MemoryRegion) : option Z :=
  if negb (region_usable region) then None else
  let start := start_addr region in
  let end_ := end_addr region in
  let place start :=
    let aligned := (start +64 0xFFF) .& PAGE_MASK in
    if aligned +64 bytes <=? end_ then Some aligned else None in
  match kend with
  | Some kend =>
      if end_ <=? kend then None
      else place (if start <? kend then (kend +64 0xFFF) .& PAGE_MASK else start)
  | None => place start
  end.

(** The body of the second placement loop, which ignores the kernel's end. *)
Definition bitmap_fallback (bytes : Z) (region : MemoryRegion) : option Z :=
  if negb (region_usable region) then None else
  let aligned := (start_addr region +64 0xFFF) .& PAGE_MASK in
  if aligned +64 bytes <=? end_addr region then Some aligned else None.

(** Both loops: 0 is the source's marker for "no place found". *)
Definition place_bitmap (map : list MemoryRegion) (kend : option Z) (bytes : Z) : Z :=
  let start := default 0 (first_some (bitmap_candidate kend bytes) map) in
  if start =? 0 then default 0 (first_some (bitmap_fallback bytes) map) else start.

(** The closure [set_bit] of [init]. *)
Definition set_bit (frames ptr idx : Z) (val : bool) (m : mem) : mem :=
  if frames <=? idx then m else
  let byte := idx / 8 in
  let bit := idx `mod` 8 in
  let cur := m (ptr + byte) in
  let new := if val then cur .| (1 .<< bit) else cur .& lnotw 8 (1 .<< bit) in
  write8 m (ptr + byte) new.

(** [for i in lo..hi { set_bit(i, val) }]; [clear_range] is the instance [val = false]. *)
Definition set_range (frames ptr lo hi : Z) (val : bool) (m : mem) : mem :=
  for_range lo hi (fun i m => set_bit frames ptr i val m) m.

Definition page_index_up (a : Z) : Z := (a +64 0xFFF) / 0x1000.

Definition clear_region (frames ptr : Z) (m : mem) (region : MemoryRegion) : mem :=
  if region_usable region then
    set_range frames ptr (start_addr region / 0x1000) (page_index_up (end_addr region)) false m
  else m.

(** The writes of [init] to the bitmap at [ptr]: all ones, the usable ranges
    cleared, the kernel's frames and the bitmap's own frames set again. *)
Definition init_bitmap (m : mem) (map : list MemoryRegion) (kend : option Z)
    (ptr start bytes frames : Z) : mem :=
  let m := for_range 0 bytes (fun i m => write8 m (ptr + i) 0xFF) m in
  let m := foldl (clear_region frames ptr) m map in
  let m := match kend with
           | Some kend => set_range frames ptr 0 (page_index_up kend) true m
           | None => m
           end in
  set_range frames ptr (start / 0x1000) (page_index_up (start +64 bytes)) true m.

Definition init (m : mem) (map : list MemoryRegion) (offset : Z) (kend : option Z)
    : mem * BootInfoFrameAllocator :=
  let max_addr := max_usable_addr map in
  if max_addr =? 0 then (m, MkAllocator map offset kend 0 0 0 0) else
  let frames := page_index_up max_addr in
  let bytes := (frames + 7) / 8 in
  let start := place_bitmap map kend bytes in
  if start =? 0 then (m, MkAllocator map offset kend 0 0 frames 0) else
  let ptr := offset +64 start in
  (init_bitmap m map kend ptr start bytes frames,
   MkAllocator map offset kend start bytes frames 0).

(** ** Run-time operations *)

Definition bitmap_ptr (fa : BootInfoFrameAllocator) : Z := phys_offset fa +64 bitmap_phys_start fa.

Definition test_bit (m : mem) (fa : BootInfoFrameAllocator) (idx : Z) : bool :=
  if (bitmap_bytes fa =? 0) || (num_frames fa <=? idx) then true else
  let cur := m (bitmap_ptr fa + idx / 8) in
  test_mask cur (idx `mod` 8).

Definition set_bit_runtime (m : mem) (fa : BootInfoFrameAllocator) (idx : Z) (val : bool) : mem :=
  if (bitmap_bytes fa =? 0) || (num_frames fa <=? idx) then m else
  let p := bitmap_ptr fa + idx / 8 in
  let cur := m p in
  let new := if val then cur .| (1 .<< (idx `mod` 8)) else cur .& lnotw 8 (1 .<< (idx `mod` 8)) in
  write8 m p new.

Section Operations.
Context {paging : X86Paging}.

(** The loop [while i < hi { if !test_bit(i) { .. return } i += 1 }]. *)
Definition find_free (m : mem) (fa : BootInfoFrameAllocator) (lo hi : Z) : option Z :=
  first_some (fun i => if negb (test_bit m fa i) then Some i else None) (seqZ lo (hi - lo)).

(** Mark frame [i] used and hand it out. *)
Definition take_frame (m : mem) (fa : BootInfoFrameAllocator) (i : Z)
    : option PhysFrame * (mem * BootInfoFrameAllocator) :=
  let m := set_bit_runtime m fa i true in
  let fa := set_next_search fa (i + 1) in
  (Some (frame_containing_address (i * 0x1000)), (m, fa)).

Definition allocate_frame (m : mem) (fa : BootInfoFrameAllocator)
    : option PhysFrame * (mem * BootInfoFrameAllocator) :=
  if bitmap_bytes fa =? 0 then (None, (m, fa)) else
  match find_free m fa (next_search fa) (num_frames fa) with
  | Some i => take_frame m fa i
  | None =>
      match find_free m fa 0 (next_search fa) with
      | Some i => take_frame m fa i
      | None => (None, (m, fa))
      end
  end.

Definition free_frame (m : mem) (fa : BootInfoFrameAllocator) (frame : PhysFrame) : mem :=
  if bitmap_bytes fa =? 0 then m else
  let idx := frame_start_address frame / 0x1000 in
  let p := bitmap_ptr fa + idx / 8 in
  let cur := m p in
  write8 m p (cur .& lnotw 8 (1 .<< (idx `mod` 8))).

(** [EmptyFrameAllocator::allocate_frame]. *)
Definition empty_allocate_frame : option PhysFrame := None.

(** [k] allocations in a row. *)
Fixpoint allocate_many (k : nat) (m : mem) (fa : BootInfoFrameAllocator)
    : list (option PhysFrame) * (mem * BootInfoFrameAllocator) :=
  match k with
  | O => ([], (m, fa))
  | S k' =>
      let '(f, (m, fa)) := allocate_frame m fa in
      let '(fs, st) := allocate_many k' m fa in
      (f :: fs, st)
  end.
End Operations.

(** ** [VirtualPageAllocator] *)

Record VirtualPageAllocator : Type := MkVirtual { v_start : Z; v_end : Z; v_next : Z }.

Definition virtual_new (start end_ : Z) : VirtualPageAllocator := MkVirtual start end_ start.

Definition allocate_page {paging : X86Paging} (v : VirtualPageAllocator)
    : option Page * VirtualPageAllocator :=
  if v_end v <=? v_next v then (None, v) else
  (Some (page_containing_address (v_next v)),
   MkVirtual (v_start v) (v_end v) (v_next v + 4096)).

Definition virtual_reset (v : VirtualPageAllocator) : VirtualPageAllocator :=
  MkVirtual (v_start v) (v_end v) (v_start v).

(** ** Specification: a set of free frame numbers *)

(** Bit [i] of the bitmap at [ptr]. *)
Definition bit_at (m : mem) (ptr i : Z) : bool := Z.testbit (m (ptr + i / 8)) (i `mod` 8).

Definition is_free (m : mem) (fa : BootInfoFrameAllocator) (i : Z) : Prop :=
  0 <= i < num_frames fa /\ bitmap_bytes fa <> 0 /\ bit_at m (bitmap_ptr fa) i = false.

#[export] Instance is_free_dec m fa i : Decision (is_free m fa i).
Proof. unfold is_free. apply _. Defined.

Definition free_set (m : mem) (fa : BootInfoFrameAllocator) : gset Z :=
  list_to_set (filter (is_free m fa) (seqZ 0 (num_frames fa))).

(** One allocation of the abstract allocator. *)
Inductive abs_alloc : gset Z -> option Z -> gset Z -> Prop :=
| abs_alloc_some S i : i ∈ S -> abs_alloc S (Some i) (S ∖ {[i]})
| abs_alloc_none : abs_alloc ∅ None ∅.

Definition frame_number {paging : X86Paging} (f : PhysFrame) : Z := frame_start_address f / 0x1000.

Record wf_allocator (fa : BootInfoFrameAllocator) : Prop := {
  wf_frames : 0 <= num_frames fa;
  wf_bytes : bitmap_bytes fa = 0 \/ bitmap_bytes fa = (num_frames fa + 7) / 8;
  wf_next : 0 <= next_search fa <= num_frames fa
}.

(** Frame [i] is (partly) covered by a usable region. *)
Definition covered (map : list MemoryRegion) (i : Z) : bool :=
  existsb (fun r => region_usable r && (start_addr r / 0x1000 <=? i)
                    && (i <? page_index_up (end_addr r))) map.

(** Frame [i] is below the end of the kernel's reservation. *)
Definition in_kernel (kend : option Z) (i : Z) : bool :=
  match kend with Some k => i <? page_index_up k | None => false end.

Definition in_bitmap (start bytes i : Z) : bool :=
  (start / 0x1000 <=? i) && (i <? page_index_up (start +64 bytes)).

(** ** The bitmap *)

Section Bits.
Implicit Types (m : mem) (ptr i j : Z).

Lemma div_mod_8_ne i j : i <> j -> i / 8 = j / 8 -> i `mod` 8 <> j `mod` 8.
Proof. intros. zdiv. Qed.

(** Writing bit [i] changes that bit only. *)
Lemma write_bit_at m ptr i j (val : bool) :
  0 <= i -> 0 <= j ->
  bit_at (write8 m (ptr + i / 8)
    (if val then m (ptr + i / 8) .| (1 .<< (i `mod` 8))
     else m (ptr + i / 8) .& lnotw 8 (1 .<< (i `mod` 8)))) ptr j =
  if i =? j then val else bit_at m ptr j.
Proof.
  intros Hi Hj. unfold bit_at, write8.
  assert (0 <= i `mod` 8 < 8 /\ 0 <= j `mod` 8 < 8) as [? ?] by (split; apply Z.mod_pos_bound; lia).
  destruct (Z.eqb_spec (ptr + j / 8) (ptr + i / 8)) as [He|He].
  - assert (j / 8 = i / 8) as Hd by lia. rewrite Hd. destruct val.
    + rewrite set_bit_testbit by lia. destruct (Z.eqb_spec i j) as [->|Hne].
      * by rewrite Z.eqb_refl, orb_true_r.
      * pose proof (div_mod_8_ne j i ltac:(lia) Hd). by case_bools; rewrite ?orb_false_r.
    + rewrite clear_bit_testbit by lia. destruct (Z.eqb_spec i j) as [->|Hne].
      * by rewrite Z.eqb_refl, andb_false_r.
      * pose proof (div_mod_8_ne j i ltac:(lia) Hd). by case_bools; rewrite ?andb_true_r.
  - destruct (Z.eqb_spec i j) as [->|]; [lia|done].
Qed.

Lemma set_bit_at frames ptr i val m j :
  0 <= i -> 0 <= j ->
  bit_at (set_bit frames ptr i val m) ptr j =
  if (i =? j) && (i <? frames) then val else bit_at m ptr j.
Proof.
  intros. unfold set_bit. destruct (Z.leb_spec frames i), (Z.ltb_spec i frames); try lia.
  - by rewrite andb_false_r.
  - rewrite write_bit_at by lia. by rewrite andb_true_r.
Qed.

Lemma set_range_at frames ptr lo hi val m j :
  0 <= lo -> 0 <= j ->
  bit_at (set_range frames ptr lo hi val m) ptr j =
  if (lo <=? j) && (j <? hi) && (j <? frames) then val else bit_at m ptr j.
Proof.
  intros Hlo Hj. unfold set_range. destruct (Z.leb_spec hi lo) as [Hle|Hlt].
  { rewrite for_range_empty by lia. case_bools; lia || done. }
  apply (for_range_ind (fun i m' => bit_at m' ptr j =
    if (lo <=? j) && (j <? i) && (j <? frames) then val else bit_at m ptr j)); [lia| |].
  - case_bools; lia || done.
  - intros i m' Hi IH. rewrite set_bit_at, IH by lia. case_bools; subst; lia || done.
Qed.

(** [set_bit] stays inside the bitmap. *)
Lemma set_bit_outside frames ptr i val m x :
  0 <= i -> ~ (ptr <= x < ptr + (frames + 7) / 8) -> set_bit frames ptr i val m x = m x.
Proof.
  intros Hi Hx. unfold set_bit. destruct (Z.leb_spec frames i); [done|].
  unfold write8. case_bools; [|done]. subst. exfalso. apply Hx. zdiv.
Qed.

Lemma set_range_outside frames ptr lo hi val m x :
  0 <= lo -> ~ (ptr <= x < ptr + (frames + 7) / 8) -> set_range frames ptr lo hi val m x = m x.
Proof.
  intros Hlo Hx. unfold set_range. destruct (Z.leb_spec hi lo).
  { by rewrite for_range_empty. }
  apply (for_range_ind (fun _ m' => m' x = m x)); [lia|done|].
  intros i m' ? <-. apply set_bit_outside; [lia|done].
Qed.

Lemma fill_ones_spec ptr bytes m x :
  0 <= bytes ->
  for_range 0 bytes (fun i m => write8 m (ptr + i) 0xFF) m x =
  if (ptr <=? x) && (x <? ptr + bytes) then 0xFF else m x.
Proof.
  intros. apply (for_range_ind (fun i m' => m' x =
    if (ptr <=? x) && (x <? ptr + i) then 0xFF else m x)); [lia| |].
  - case_bools; lia || done.
  - intros i m' ? IH. unfold write8. rewrite IH. case_bools; lia || done.
Qed.

Lemma clear_regions_at frames ptr map m j :
  Forall (fun r => 0 <= start_addr r) map -> 0 <= j < frames ->
  bit_at (foldl (clear_region frames ptr) m map) ptr j =
  if covered map j then false else bit_at m ptr j.
Proof.
  intros Hmap Hj. revert m. induction Hmap as [|r map Hr Hmap IH]; intros m; cbn; [done|].
  rewrite IH. unfold clear_region, covered. cbn.
  destruct (region_usable r); cbn; [|done].
  rewrite set_range_at by (try apply Z.div_pos; lia).
  destruct (existsb _ map); [by rewrite orb_true_r|]. rewrite orb_false_r.
  case_bools; lia || done.
Qed.

Lemma clear_regions_outside frames ptr map m x :
  Forall (fun r => 0 <= start_addr r) map ->
  ~ (ptr <= x < ptr + (frames + 7) / 8) ->
  foldl (clear_region frames ptr) m map x = m x.
Proof.
  intros Hmap Hx. revert m. induction Hmap as [|r map Hr Hmap IH]; intros m; cbn; [done|].
  rewrite IH. unfold clear_region. destruct (region_usable r); [|done].
  apply set_range_outside; [apply Z.div_pos; lia|done].
Qed.
End Bits.

(** ** What [init] builds *)

(** The memory maps of the theorems: regions of 64-bit addresses whose end
    leaves room for rounding up to a page. *)
Definition region_ok (r : MemoryRegion) : Prop :=
  0 <= start_addr r <= end_addr r /\ end_addr r < 2 ^ 63.

Lemma region_ok_starts map :
  Forall region_ok map -> Forall (fun r => 0 <= start_addr r) map.
Proof. intros H. apply (Forall_impl _ _ _ H). unfold region_ok. lia. Qed.

Lemma page_index_up_nonneg a : 0 <= page_index_up a.
Proof. unfold page_index_up. apply Z.div_pos; [apply wrap_range|]; lia. Qed.

Lemma page_index_up_eq a : 0 <= a < 2 ^ 63 -> page_index_up a = (a + 0xFFF) / 0x1000.
Proof. intros. unfold page_index_up. rewrite wrap_small by lia. done. Qed.

Lemma testbit_ff n : 0 <= n < 8 -> Z.testbit 0xFF n = true.
Proof. intros. change 0xFF with (Z.ones 8). by apply Z.ones_spec_low. Qed.

Lemma init_bitmap_at m map kend ptr start frames j :
  Forall region_ok map -> 0 <= start -> 0 <= j < frames ->
  bit_at (init_bitmap m map kend ptr start ((frames + 7) / 8) frames) ptr j =
  negb (covered map j && negb (in_kernel kend j) && negb (in_bitmap start ((frames + 7) / 8) j)).
Proof.
  intros Hmap Hs Hj. unfold init_bitmap, in_bitmap.
  rewrite set_range_at by (try apply Z.div_pos; lia).
  destruct (Z.ltb_spec j frames); [|lia]. rewrite andb_true_r.
  destruct ((start / 0x1000 <=? j) && _); cbn [negb]; [by rewrite andb_false_r|].
  rewrite andb_true_r.
  assert (forall m, bit_at (match kend with
    | Some kend => set_range frames ptr 0 (page_index_up kend) true m | None => m end) ptr j =
    if in_kernel kend j then true else bit_at m ptr j) as ->.
  { intros m'. destruct kend as [k|]; cbn; [|done].
    rewrite set_range_at by lia. case_bools; lia || done. }
  destruct (in_kernel kend j); cbn [negb]; [by rewrite andb_false_r|]. rewrite andb_true_r.
  rewrite clear_regions_at by (try apply region_ok_starts; lia || done).
  destruct (covered map j); [done|]. cbn.
  unfold bit_at. rewrite fill_ones_spec by zdiv.
  assert (0 <= j / 8 < (frames + 7) / 8) by zdiv.
  case_bools; try lia. apply testbit_ff, Z.mod_pos_bound. lia.
Qed.

Lemma init_bitmap_outside m map kend ptr start frames x :
  Forall region_ok map -> 0 <= start -> 0 <= frames ->
  ~ (ptr <= x < ptr + (frames + 7) / 8) ->
  init_bitmap m map kend ptr start ((frames + 7) / 8) frames x = m x.
Proof.
  intros Hmap Hs Hf Hx. unfold init_bitmap.
  rewrite set_range_outside by (try apply Z.div_pos; lia || done).
  assert (forall m, (match kend with
    | Some kend => set_range frames ptr 0 (page_index_up kend) true m | None => m end) x = m x) as ->.
  { intros m'. destruct kend; [|done]. apply set_range_outside; [lia|done]. }
  rewrite clear_regions_outside by (try apply region_ok_starts; done).
  rewrite fill_ones_spec by zdiv. case_bools; lia || done.
Qed.

(** The highest usable address bounds every usable region. *)
Lemma max_usable_addr_spec map acc :
  let mx := foldl (fun max_addr region =>
    if region_usable region && (max_addr <? end_addr region)
    then end_addr region else max_addr) acc map in
  acc <= mx /\ (forall r, r ∈ map -> region_usable r = true -> end_addr r <= mx) /\
  (mx = acc \/ exists r, r ∈ map /\ region_usable r = true /\ end_addr r = mx).
Proof.
  revert acc. induction map as [|r map IH]; intros acc; cbn.
  { split_and!; [lia| |by left]. intros r Hr. by apply elem_of_nil in Hr. }
  destruct (region_usable r && (acc <? end_addr r)) eqn:E.
  - apply andb_prop in E as [Hu Hlt]. apply Z.ltb_lt in Hlt.
    destruct (IH (end_addr r)) as (H1 & H2 & H3). split_and!; [lia| |].
    + intros r' [->|Hr']%elem_of_cons Hu'; [lia|]. by apply H2.
    + right. destruct H3 as [->|(r' & ? & ? & ?)]; [exists r|exists r'];
        rewrite elem_of_cons; tauto.
  - destruct (IH acc) as (H1 & H2 & H3). split_and!; [lia| |].
    + intros r' [->|Hr']%elem_of_cons Hu'; [|by apply H2].
      rewrite Hu' in E. apply Z.ltb_ge in E. lia.
    + destruct H3 as [->|(r' & ? & ? & ?)]; [by left|right; exists r'].
      rewrite elem_of_cons; tauto.
Qed.

Lemma max_usable_addr_range map :
  Forall region_ok map -> 0 <= max_usable_addr map < 2 ^ 63.
Proof.
  intros Hmap. destruct (max_usable_addr_spec map 0) as (H1 & _ & H3).
  fold (max_usable_addr map) in *. split; [done|].
  destruct H3 as [->|(r & Hr & _ & <-)]; [lia|].
  rewrite Forall_forall in Hmap. by apply Hmap.
Qed.

Lemma align_up_eq a : 0 <= a < 2 ^ 63 + 2 ^ 62 ->
  (a +64 0xFFF) .& PAGE_MASK = (a + 0xFFF) / 0x1000 * 0x1000.
Proof.
  intros. rewrite wrap_small by lia. unfold PAGE_MASK.
  apply (land_align_down 64 12); lia.
Qed.

Lemma first_some_elem {A R} (f : A -> option R) l r :
  first_some f l = Some r -> exists a, a ∈ l /\ f a = Some r.
Proof.
  intros (i & a & Hl & Ha & _)%first_some_Some. exists a. split; [|done].
  apply list_elem_of_lookup. by exists i.
Qed.

Definition kend_ok (kend : option Z) : Prop := match kend with Some k => 0 <= k < 2 ^ 63 | None => True end.

(** Where the bitmap goes: page aligned, inside a usable region, and above the
    kernel's reservation unless only the fallback loop found a place. *)
Definition placed_in (map : list MemoryRegion) (start bytes : Z) : Prop :=
  start `mod` 0x1000 = 0 /\
  exists r, r ∈ map /\ region_usable r = true /\ start_addr r <= start /\ start + bytes <= end_addr r.

Lemma bitmap_fallback_spec map bytes s :
  Forall region_ok map -> 0 <= bytes < 2 ^ 62 ->
  first_some (bitmap_fallback bytes) map = Some s -> placed_in map s bytes.
Proof.
  intros Hmap Hb (r & Hr & E)%first_some_elem. unfold bitmap_fallback in E.
  rewrite Forall_forall in Hmap. destruct (Hmap r Hr) as [[? ?] ?].
  destruct (region_usable r) eqn:Hu; [|done]. cbn in E.
  rewrite align_up_eq in E by lia. rewrite (wrap_small 64) in E by zdiv.
  case_bools; [|done]. injection E as <-.
  split; [apply Z.mod_mul; lia|]. exists r. split_and!; [done..|zdiv|lia].
Qed.

Lemma bitmap_candidate_spec map kend bytes s :
  Forall region_ok map -> kend_ok kend -> 0 <= bytes < 2 ^ 62 ->
  first_some (bitmap_candidate kend bytes) map = Some s ->
  placed_in map s bytes /\ (forall k, kend = Some k -> k <= s).
Proof.
  intros Hmap Hk Hb (r & Hr & E)%first_some_elem. unfold bitmap_candidate in E.
  rewrite Forall_forall in Hmap. destruct (Hmap r Hr) as [[? ?] ?].
  destruct (region_usable r) eqn:Hu; [|done]. cbn in E.
  assert (forall st, start_addr r <= st < 2 ^ 63 + 2 ^ 62 ->
    (if ((st +64 0xFFF) .& PAGE_MASK) +64 bytes <=? end_addr r
     then Some ((st +64 0xFFF) .& PAGE_MASK) else None) = Some s ->
    placed_in map s bytes /\ st <= s) as Hplace.
  { intros st Hst. rewrite align_up_eq by lia. intros Es.
    rewrite (wrap_small 64) in Es by zdiv. clear E. case_bools; [|done]. injection Es as <-.
    split; [|zdiv]. split; [apply Z.mod_mul; lia|]. exists r. split_and!; [done..|zdiv|lia]. }
  destruct kend as [k|]; cbn in Hk.
  - destruct (Z.leb_spec (end_addr r) k); [done|].
    destruct (Z.ltb_spec (start_addr r) k) as [Hlt|Hge].
    + rewrite (align_up_eq k) in E by lia.
      apply Hplace in E as [? ?]; [|zdiv]. split; [done|]. intros ? [= <-]. zdiv.
    + apply Hplace in E as [? ?]; [|lia]. split; [done|]. intros ? [= <-]. lia.
  - apply Hplace in E as [? ?]; [|lia]. split; [done|]. intros ? [=].
Qed.

Lemma place_bitmap_spec map kend bytes :
  Forall region_ok map -> kend_ok kend -> 0 <= bytes < 2 ^ 62 ->
  place_bitmap map kend bytes <> 0 -> placed_in map (place_bitmap map kend bytes) bytes.
Proof.
  intros Hmap Hk Hb. unfold place_bitmap.
  destruct (first_some (bitmap_candidate kend bytes) map) as [s|] eqn:E1; cbn.
  - destruct (Z.eqb_spec s 0); [|intros _; by eapply bitmap_candidate_spec].
    destruct (first_some (bitmap_fallback bytes) map) eqn:E2; cbn; [|done].
    intros _. by apply bitmap_fallback_spec.
  - destruct (first_some (bitmap_fallback bytes) map) eqn:E2; cbn; [|done].
    intros _. by apply bitmap_fallback_spec.
Qed.

(** ** Allocation *)

Section Allocation.
Context {paging : X86Paging}.
Implicit Types (m : mem) (fa : BootInfoFrameAllocator) (i j : Z).

Lemma test_bit_free m fa i : 0 <= i -> test_bit m fa i = false <-> is_free m fa i.
Proof.
  intros Hi. unfold test_bit, is_free, bit_at.
  destruct (Z.eqb_spec (bitmap_bytes fa) 0); cbn; [split; [done|tauto]|].
  destruct (Z.leb_spec (num_frames fa) i); [split; [done|lia]|].
  rewrite test_mask_testbit by (apply Z.mod_pos_bound; lia). tauto.
Qed.

Lemma elem_of_free_set m fa i : i ∈ free_set m fa <-> is_free m fa i.
Proof.
  unfold free_set. rewrite elem_of_list_to_set, list_elem_of_filter, elem_of_seqZ.
  split; [by intros [? _]|]. intros Hi. split; [done|]. destruct Hi. lia.
Qed.

Lemma find_free_Some m fa lo hi i :
  0 <= lo -> find_free m fa lo hi = Some i ->
  lo <= i < hi /\ is_free m fa i /\ forall j, lo <= j < i -> ~ is_free m fa j.
Proof.
  intros Hlo (n & z & Hn & Hz & Hbefore)%first_some_Some.
  apply lookup_seqZ in Hn as [-> Hn].
  destruct (test_bit m fa (lo + Z.of_nat n)) eqn:Ht; [done|]. cbn in Hz. injection Hz as <-.
  split_and!; [lia..|by apply test_bit_free; [lia|]|].
  intros j Hj. specialize (Hbefore (Z.to_nat (j - lo)) j ltac:(lia)).
  rewrite lookup_seqZ in Hbefore. specialize (Hbefore ltac:(lia)). cbn in Hbefore.
  rewrite <- test_bit_free by lia. by destruct (test_bit m fa j).
Qed.

Lemma find_free_None m fa lo hi j :
  0 <= lo -> find_free m fa lo hi = None -> lo <= j < hi -> ~ is_free m fa j.
Proof.
  intros Hlo Hf%first_some_None Hj. rewrite Forall_seqZ in Hf. specialize (Hf j ltac:(lia)).
  cbn in Hf. rewrite <- test_bit_free by lia. by destruct (test_bit m fa j).
Qed.

Lemma set_bit_runtime_eq m fa i val :
  bitmap_bytes fa <> 0 -> set_bit_runtime m fa i val = set_bit (num_frames fa) (bitmap_ptr fa) i val m.
Proof.
  intros. unfold set_bit_runtime, set_bit. by destruct (Z.eqb_spec (bitmap_bytes fa) 0).
Qed.

(** Taking a free frame removes exactly that frame from the free set. *)
Lemma take_frame_free_set m fa i :
  is_free m fa i ->
  free_set (set_bit_runtime m fa i true) (set_next_search fa (i + 1)) = free_set m fa ∖ {[i]}.
Proof.
  intros Hi. apply set_eq. intros j.
  rewrite elem_of_difference, elem_of_singleton, !elem_of_free_set.
  destruct Hi as (Hi & Hb & _). unfold is_free, bitmap_ptr. cbn.
  fold (bitmap_ptr fa). rewrite set_bit_runtime_eq by done.
  split.
  - intros (Hj & _ & H). rewrite set_bit_at in H by lia.
    destruct (Z.eqb_spec i j), (Z.ltb_spec i (num_frames fa)); cbn in H; try done; try lia; tauto.
  - intros [(Hj & _ & H) Hne]. split_and!; try (tauto || lia).
    rewrite set_bit_at by lia. destruct (Z.eqb_spec i j); [lia|done].
Qed.

Lemma frame_number_containing i : frame_number (frame_containing_address (i * 0x1000)) = i.
Proof. unfold frame_number. rewrite frame_start_containing, !Z.div_mul; lia. Qed.

Lemma take_frame_wf fa i :
  wf_allocator fa -> 0 <= i < num_frames fa -> wf_allocator (set_next_search fa (i + 1)).
Proof. intros [? ? ?] ?. split; cbn; [done..|lia]. Qed.

Lemma allocate_frame_cases m fa :
  wf_allocator fa ->
  (exists i, is_free m fa i /\ allocate_frame m fa = take_frame m fa i) \/
  ((forall i, ~ is_free m fa i) /\ allocate_frame m fa = (None, (m, fa))).
Proof.
  intros [? ? ?]. unfold allocate_frame.
  destruct (Z.eqb_spec (bitmap_bytes fa) 0) as [H0|H0].
  { right. split; [|done]. intros i (_ & ? & _). done. }
  destruct (find_free m fa (next_search fa) (num_frames fa)) as [i|] eqn:E1.
  { left. exists i. split; [|done]. apply find_free_Some in E1; [tauto|lia]. }
  destruct (find_free m fa 0 (next_search fa)) as [i|] eqn:E2.
  { left. exists i. split; [|done]. apply find_free_Some in E2; [tauto|lia]. }
  right. split; [|done]. intros i Hi. destruct (Z.ltb_spec i (next_search fa)).
  - eapply find_free_None; [| exact E2| |exact Hi]; destruct Hi; lia.
  - eapply find_free_None; [|exact E1| |exact Hi]; destruct Hi; lia.
Qed.

Lemma allocate_frame_step m fa :
  wf_allocator fa ->
  let '(r, (m', fa')) := allocate_frame m fa in
  wf_allocator fa' /\ abs_alloc (free_set m fa) (frame_number <$> r) (free_set m' fa').
Proof.
  intros Hwf. destruct (allocate_frame_cases m fa Hwf) as [(i & Hi & ->)|[Hnone ->]].
  - cbn. rewrite frame_number_containing, take_frame_free_set by done.
    split; [apply take_frame_wf; [done|by destruct Hi]|].
    constructor. by apply elem_of_free_set.
  - split; [done|]. cbn. assert (free_set m fa = ∅) as ->; [|constructor].
    apply set_eq. intros i. rewrite elem_of_free_set. set_solver.
Qed.

Lemma allocate_many_step k m fa :
  wf_allocator fa -> (k <= size (free_set m fa))%nat ->
  let '(rs, (m', fa')) := allocate_many k m fa in
  exists fs, rs = Some <$> fs /\ length fs = k /\ NoDup (frame_number <$> fs) /\
    (forall f, f ∈ fs -> frame_number f ∈ free_set m fa) /\
    free_set m' fa' = free_set m fa ∖ list_to_set (frame_number <$> fs).
Proof.
  revert m fa. induction k as [|k IH]; intros m fa Hwf Hk; cbn [allocate_many].
  { exists []. split_and!; [done..|apply NoDup_nil_2| |]; cbn; [by intros ? ?%elem_of_nil|set_solver]. }
  pose proof (allocate_frame_step m fa Hwf) as Hstep.
  destruct (allocate_frame m fa) as [r [m1 fa1]]. destruct Hstep as [Hwf1 Habs].
  inversion Habs as [S i Hi HS Hr HS'|HS Hr HS'].
  2: { rewrite <- HS, size_empty in Hk. lia. }
  destruct r as [f|]; [|done]. cbn in Hr. injection Hr as Hr.
  assert (size (free_set m1 fa1) = Nat.pred (size (free_set m fa))) as Hsize.
  { rewrite <- HS', size_difference, size_singleton by set_solver. lia. }
  specialize (IH m1 fa1 Hwf1 ltac:(lia)). destruct (allocate_many k m1 fa1) as [rs [m' fa']].
  destruct IH as (fs & -> & Hlen & Hnd & Hin & Hend).
  exists (f :: fs). split_and!; cbn; [done|lia| | |].
  - apply NoDup_cons. split; [|done]. intros (g & Hg1 & Hg2)%list_elem_of_fmap.
    specialize (Hin g Hg2). rewrite <- HS', <- Hg1, <- Hr in Hin. set_solver.
  - intros g [->|Hg]%elem_of_cons; [by rewrite <- Hr|]. specialize (Hin g Hg).
    rewrite <- HS' in Hin. set_solver.
  - rewrite Hend, <- HS', <- Hr. set_solver.
Qed.

Lemma free_frame_free_set m fa f :
  bitmap_bytes fa <> 0 -> 0 <= frame_number f < num_frames fa ->
  free_set (free_frame m fa f) fa = {[frame_number f]} ∪ free_set m fa.
Proof.
  intros Hb Hf. apply set_eq. intros j.
  rewrite elem_of_union, elem_of_singleton, !elem_of_free_set. unfold free_frame, is_free.
  destruct (Z.eqb_spec (bitmap_bytes fa) 0); [done|]. fold (frame_number f).
  split.
  - intros (Hj & _ & H). rewrite (write_bit_at _ _ _ _ false) in H by lia.
    destruct (Z.eqb_spec (frame_number f) j); [by left|right; tauto].
  - intros [->|(Hj & _ & H)]; (split_and!; [lia..|done|]);
      rewrite (write_bit_at _ _ _ _ false) by lia; [by rewrite Z.eqb_refl|].
    by destruct (Z.eqb_spec (frame_number f) j).
Qed.

Lemma allocate_frame_outside m fa x :
  wf_allocator fa -> ~ (bitmap_ptr fa <= x < bitmap_ptr fa + bitmap_bytes fa) ->
  (allocate_frame m fa).2.1 x = m x.
Proof.
  intros Hwf Hx. destruct (allocate_frame_cases m fa Hwf) as [(i & Hi & ->)|[_ ->]]; [|done].
  destruct Hi as (Hi & Hb & _). cbn. rewrite set_bit_runtime_eq by done.
  destruct (wf_bytes _ Hwf) as [|He]; [done|]. rewrite He in Hx.
  apply set_bit_outside; [lia|done].
Qed.
End Allocation.

Lemma init_frames_range map :
  Forall region_ok map ->
  0 <= page_index_up (max_usable_addr map) <= 2 ^ 52 /\
  0 <= (page_index_up (max_usable_addr map) + 7) / 8 < 2 ^ 62.
Proof.
  intros H. pose proof (max_usable_addr_range map H). rewrite page_index_up_eq by lia.
  split; zdiv.
Qed.

Lemma init_wf m map offset kend :
  Forall region_ok map -> wf_allocator (init m map offset kend).2.
Proof.
  intros H. destruct (init_frames_range map H) as [? ?]. unfold init.
  destruct (max_usable_addr map =? 0); [by split; cbn; [..|lia]; [lia|left]|].
  destruct (_ =? 0); split; cbn; try lia; auto.
Qed.

(** What [init] returns when it builds a bitmap. *)
Lemma init_cases m map offset kend :
  let st := init m map offset kend in
  bitmap_bytes st.2 <> 0 ->
  let frames := page_index_up (max_usable_addr map) in
  let start := place_bitmap map kend ((frames + 7) / 8) in
  start <> 0 /\
  st = (init_bitmap m map kend (offset +64 start) start ((frames + 7) / 8) frames,
        MkAllocator map offset kend start ((frames + 7) / 8) frames 0).
Proof.
  unfold init. destruct (max_usable_addr map =? 0); [done|].
  destruct (Z.eqb_spec (place_bitmap map kend
    ((page_index_up (max_usable_addr map) + 7) / 8)) 0); [done|]. done.
Qed.

(** ** Properties *)

Section Properties.
Context {paging : X86Paging}.

(** C1: The bitmap allocator refines the abstract allocator whose state is a set
    of free frames: an allocation returns a frame of the set and removes exactly
    that frame, it fails only when the set is empty, and the invariant of the
    allocator is kept. *)
Theorem allocate_frame_refines m fa :
  wf_allocator fa ->
  let '(r, (m', fa')) := allocate_frame m fa in
  wf_allocator fa' /\ abs_alloc (free_set m fa) (frame_number <$> r) (free_set m' fa').
Proof. apply allocate_frame_step. Qed.

(** C21: Any number of allocations up to the number of free frames all succeed and
    return pairwise distinct frames that were free at the start; the frames left
    free are exactly the others. *)
Theorem allocate_many_distinct k m fa :
  wf_allocator fa -> (k <= size (free_set m fa))%nat ->
  let '(rs, (m', fa')) := allocate_many k m fa in
  exists fs, rs = Some <$> fs /\ length fs = k /\ NoDup (frame_number <$> fs) /\
    (forall f, f ∈ fs -> frame_number f ∈ free_set m fa) /\
    free_set m' fa' = free_set m fa ∖ list_to_set (frame_number <$> fs).
Proof. apply allocate_many_step. Qed.

(** C23: Releasing a frame of the bitmap's range adds exactly that frame to the set
    of free frames. *)
Theorem free_frame_refines m fa f :
  bitmap_bytes fa <> 0 -> 0 <= frame_number f < num_frames fa ->
  free_set (free_frame m fa f) fa = {[frame_number f]} ∪ free_set m fa.
Proof. apply free_frame_free_set. Qed.

(** C3: After [init], a frame is free exactly when a usable region covers (part of)
    it, it is not below the end of the kernel's reservation and it does not hold
    the bitmap. *)
Theorem init_free_frames m map offset kend i :
  Forall region_ok map -> kend_ok kend ->
  let st := init m map offset kend in
  bitmap_bytes st.2 <> 0 ->
  is_free st.1 st.2 i <->
  0 <= i < num_frames st.2 /\ covered map i = true /\ in_kernel kend i = false /\
  in_bitmap (bitmap_phys_start st.2) (bitmap_bytes st.2) i = false.
Proof.
  intros Hmap Hk st Hb. destruct (init_cases m map offset kend Hb) as [Hs Hst].
  fold st in Hst. destruct (init_frames_range map Hmap) as [? Hby].
  pose proof (place_bitmap_spec map kend _ Hmap Hk Hby Hs) as [_ (r & Hr & _ & Hs1 & _)].
  rewrite Forall_forall in Hmap. pose proof (Hmap r Hr) as [? _].
  rewrite Hst in Hb |- *. unfold is_free, bitmap_ptr. cbn in Hb |- *.
  split.
  - intros (Hi & _ & Hf). rewrite init_bitmap_at in Hf by (by rewrite ?Forall_forall || lia).
    by destruct (covered map i), (in_kernel kend i), (in_bitmap _ _ i).
  - intros (Hi & Hc & Hn & Hm). split_and!; [lia..|done|].
    rewrite init_bitmap_at by (by rewrite ?Forall_forall || lia). by rewrite Hc, Hn, Hm.
Qed.

(** C22: [init] places the bitmap page aligned and wholly inside one usable region,
    and writes no byte outside the bitmap. *)
Theorem init_bitmap_placement m map offset kend :
  Forall region_ok map -> kend_ok kend ->
  let st := init m map offset kend in
  bitmap_bytes st.2 <> 0 ->
  placed_in map (bitmap_phys_start st.2) (bitmap_bytes st.2) /\
  forall x, ~ (bitmap_ptr st.2 <= x < bitmap_ptr st.2 + bitmap_bytes st.2) -> st.1 x = m x.
Proof.
  intros Hmap Hk st Hb. destruct (init_cases m map offset kend Hb) as [Hs Hst].
  fold st in Hst. destruct (init_frames_range map Hmap) as [? Hby].
  pose proof (place_bitmap_spec map kend _ Hmap Hk Hby Hs) as Hp.
  rewrite Hst. cbn. split; [done|]. intros x Hx.
  destruct Hp as [_ (r & Hr & _ & Hs1 & _)]. pose proof (Hmap) as Hmap'.
  rewrite Forall_forall in Hmap'. destruct (Hmap' r Hr) as [? _].
  apply init_bitmap_outside; [done|lia..|]. exact Hx.
Qed.

(** [allocate_frame] writes no byte outside the bitmap. *)
Theorem allocate_frame_isolated m fa x :
  wf_allocator fa -> ~ (bitmap_ptr fa <= x < bitmap_ptr fa + bitmap_bytes fa) ->
  (allocate_frame m fa).2.1 x = m x.
Proof. apply allocate_frame_outside. Qed.
End Properties.

(** ** Witnesses and examples *)

Definition example_map : list MemoryRegion :=
  [MkRegion false 0 0x1000; MkRegion true 0x1000 0x9000; MkRegion false 0x9000 0x10000;
   MkRegion true 0x10000 0x20000].

Definition example_state : mem * BootInfoFrameAllocator :=
  init (fun _ => 0) example_map 0x100000 (Some 0x3000).

Lemma example_map_ok : Forall region_ok example_map.
Proof. repeat constructor; cbn; lia. Qed.

Lemma allocate_frame_refines_witness :
  let '(r, (m', fa')) := allocate_frame (paging := paging_by_address) example_state.1 example_state.2 in
  wf_allocator fa' /\
  abs_alloc (free_set example_state.1 example_state.2)
    (frame_number (paging := paging_by_address) <$> r) (free_set m' fa').
Proof.
  apply (allocate_frame_refines (paging := paging_by_address)).
  apply init_wf, example_map_ok.
Defined.

Lemma allocate_many_distinct_witness :
  let '(rs, (m', fa')) := allocate_many (paging := paging_by_address) 3 example_state.1 example_state.2 in
  exists fs, rs = Some <$> fs /\ length fs = 3%nat /\
    NoDup (frame_number (paging := paging_by_address) <$> fs) /\
    (forall f, f ∈ fs -> frame_number (paging := paging_by_address) f ∈
       free_set example_state.1 example_state.2) /\
    free_set m' fa' = free_set example_state.1 example_state.2 ∖
      list_to_set (frame_number (paging := paging_by_address) <$> fs).
Proof.
  apply (allocate_many_distinct (paging := paging_by_address)).
  - apply init_wf, example_map_ok.
  - vm_compute. lia.
Defined.

Lemma free_frame_refines_witness :
  free_set (free_frame (paging := paging_by_address) example_state.1 example_state.2 0x4000)
    example_state.2 = {[4]} ∪ free_set example_state.1 example_state.2.
Proof.
  apply (free_frame_refines (paging := paging_by_address)); vm_compute; [discriminate|].
  split; [discriminate|reflexivity].
Defined.

Lemma init_free_frames_witness :
  is_free example_state.1 example_state.2 4 <->
  0 <= 4 < num_frames example_state.2 /\ covered example_map 4 = true /\
  in_kernel (Some 0x3000) 4 = false /\
  in_bitmap (bitmap_phys_start example_state.2) (bitmap_bytes example_state.2) 4 = false.
Proof.
  apply init_free_frames; [apply example_map_ok|cbn; lia|vm_compute; discriminate].
Defined.

Lemma init_bitmap_placement_witness :
  placed_in example_map (bitmap_phys_start example_state.2) (bitmap_bytes example_state.2) /\
  forall x, ~ (bitmap_ptr example_state.2 <= x < bitmap_ptr example_state.2 + bitmap_bytes example_state.2) ->
    example_state.1 x = 0.
Proof.
  apply (init_bitmap_placement (fun _ => 0));
    [apply example_map_ok|cbn; lia|vm_compute; discriminate].
Defined.

Lemma allocate_frame_isolated_witness :
  (allocate_frame (paging := paging_by_address) example_state.1 example_state.2).2.1 5 =
  example_state.1 5.
Proof.
  apply (allocate_frame_isolated (paging := paging_by_address)).
  - apply init_wf, example_map_ok.
  - vm_compute. intros [H _]. by apply H.
Defined.

(** ** Corner cases of the source *)

Section Corners.
Context {paging : X86Paging}.

Lemma bitmap_candidate_zero r bytes :
  region_usable r = true -> start_addr r = 0 -> 0 <= bytes <= end_addr r -> bytes < 2 ^ 62 ->
  bitmap_candidate None bytes r = Some 0 /\ bitmap_fallback bytes r = Some 0.
Proof.
  intros Hu Hs Hb Hlt. unfold bitmap_candidate, bitmap_fallback. rewrite Hu, Hs. cbn [negb].
  rewrite align_up_eq by lia. rewrite (wrap_small 64) by zdiv.
  change ((0 + 0xFFF) / 0x1000 * 0x1000) with 0. case_bools; [done|lia].
Qed.

(** Address 0 doubles as the marker for "no place found": when the kernel's
    end is unknown and the first region of the map is usable, starts at 0 and
    could hold the bitmap, [init] returns an allocator that fails every
    allocation, whatever the other regions offer. *)
Theorem init_rejects_bitmap_at_zero m map offset r :
  Forall region_ok (r :: map) -> region_usable r = true -> start_addr r = 0 ->
  (page_index_up (max_usable_addr (r :: map)) + 7) / 8 <= end_addr r ->
  let st := init m (r :: map) offset None in
  bitmap_bytes st.2 = 0 /\ allocate_frame st.1 st.2 = (None, st).
Proof.
  intros Hok Hu Hs Hfit.
  destruct (init_frames_range _ Hok) as [_ Hb].
  set (bytes := (page_index_up (max_usable_addr (r :: map)) + 7) / 8) in *.
  destruct (bitmap_candidate_zero r bytes) as [Hc Hf]; [done..|lia|lia|].
  assert (place_bitmap (r :: map) None bytes = 0) as Hp.
  { unfold place_bitmap. cbn [first_some]. by rewrite Hc, Hf. }
  unfold init. fold bytes. rewrite Hp. by destruct (max_usable_addr (r :: map) =? 0).
Qed.

(** The bitmap bytes do not limit [free_frame]. *)
Definition free_frame_escapes_at (m : mem) (fa : BootInfoFrameAllocator) (f : PhysFrame) (x : Z) : Prop :=
  ~ (bitmap_ptr fa <= x < bitmap_ptr fa + bitmap_bytes fa) /\ free_frame m fa f x <> m x.
End Corners.

Lemma init_rejects_bitmap_at_zero_witness :
  let map := [MkRegion true 0 0x80000; MkRegion true 0x100000 0x200000] in
  let st := init (fun _ => 0) map 0 None in
  bitmap_bytes st.2 = 0 /\ allocate_frame (paging := paging_by_address) st.1 st.2 = (None, st).
Proof.
  apply (init_rejects_bitmap_at_zero (paging := paging_by_address)); [|done|done|vm_compute; discriminate].
  repeat constructor; cbn; lia.
Defined.

(** [free_frame] does not check its argument against the bitmap: on a
    well-formed allocator, releasing a frame beyond the tracked range clears a bit
    of the memory after the bitmap. *)
Theorem free_frame_escapes_bitmap :
  let fa := MkAllocator example_map 0 None 0x10000 4 32 0 in
  wf_allocator fa /\
  free_frame_escapes_at (paging := paging_by_address) (fun _ => 0xFF) fa 0x20000 0x10004.
Proof.
  split; [split; [cbn; lia|by right|cbn; lia]|]. split; [vm_compute; intros [_ H]; done|vm_compute; discriminate].
Qed.

(** ** The virtual page allocator *)

(** Over a page-aligned range, [allocate_page] hands out the page at [next],
    which lies inside the range, advances by one page and keeps the invariant
    [start <= next <= end]; it fails exactly when the range is used up. *)
Theorem allocate_page_in_range {paging : X86Paging} v :
  v_start v `mod` 4096 = 0 -> v_end v `mod` 4096 = 0 -> v_next v `mod` 4096 = 0 ->
  v_start v <= v_next v <= v_end v ->
  let '(p, v') := allocate_page v in
  v_next v' `mod` 4096 = 0 /\ v_start v' = v_start v /\ v_end v' = v_end v /\
  v_start v' <= v_next v' <= v_end v' /\
  match p with
  | Some p => page_start_address p = v_next v /\ v_next v' = v_next v + 4096 /\
              v_next v + 4096 <= v_end v
  | None => v_next v = v_end v /\ v' = v
  end.
Proof.
  intros Hs He Hn Hr. unfold allocate_page. destruct (Z.leb_spec (v_end v) (v_next v)).
  - split_and!; try done; lia.
  - cbn. rewrite page_start_containing. split_and!; try done; zdiv.
Qed.

Lemma allocate_page_in_range_witness :
  let '(p, v') := allocate_page (paging := paging_by_address) (virtual_new 0x4000 0x8000) in
  v_next v' `mod` 4096 = 0 /\ v_start v' = 0x4000 /\ v_end v' = 0x8000 /\
  v_start v' <= v_next v' <= v_end v' /\
  match p with
  | Some p => page_start_address p = 0x4000 /\ v_next v' = 0x4000 + 4096 /\ 0x4000 + 4096 <= 0x8000
  | None => 0x4000 = 0x8000 /\ v' = virtual_new 0x4000 0x8000
  end.
Proof.
  apply (allocate_page_in_range (paging := paging_by_address) (virtual_new 0x4000 0x8000));
    try reflexivity. cbn. lia.
Defined.
