(* ===== verification/Heap.v ===== *)
(** * Heap: paging and heap set-up of [src/memory/allocator.rs] and
    [src/memory/paging.rs]

    [init_heap] maps the 25 pages of the kernel heap to fresh frames and hands the
    range to the global allocator. It is generic over the frame allocator and the
    page-table mapper; the theorem is proved against their interfaces, and the
    bitmap allocator of [Frame] is shown to implement the allocator interface. *)

From S2P Require Import Prelude External Frame.

Definition HEAP_START : Z := 0x444444440000.
Definition HEAP_SIZE : Z := 100 * 1024.

Section Heap.
Context {paging : X86Paging} {FA MS : Type} {ops : FrameAllocator FA}
  {spec : FrameAllocatorSpec FA} {mapper : Mapper FA MS}.

(** The pages of the heap: [Page::range_inclusive] over
    [[HEAP_START, HEAP_START + HEAP_SIZE - 1]]. *)
Definition heap_pages : list Page :=
  let heap_start := HEAP_START in
  let heap_end := heap_start + HEAP_SIZE - 1 in
  page_range_inclusive (page_containing_address heap_start) (page_containing_address heap_end).

(** The mapping loop; [?] leaves it at the first error. *)
Fixpoint map_pages (pages : list Page) (ms : MS) (fa : FA) : result unit MapToError * (MS * FA) :=
  match pages with
  | [] => (Ok (), (ms, fa))
  | page :: rest =>
      match fa_allocate_frame fa with
      | (None, fa) => (Err FrameAllocationFailed, (ms, fa))
      | (Some frame, fa) =>
          let flags := PRESENT .| WRITABLE in
          match map_to page frame flags ms fa with
          | (Err e, (ms, fa)) => (Err e, (ms, fa))
          | (Ok _, (ms, fa)) => map_pages rest (flush page ms) fa
          end
      end
  end.

(** The last component is the range given to the global allocator, if any. *)
Definition init_heap (ms : MS) (fa : FA) : result unit MapToError * (MS * FA * option (Z * Z)) :=
  match map_pages heap_pages ms fa with
  | (Ok _, (ms, fa)) => (Ok (), (ms, fa, Some (HEAP_START, HEAP_SIZE)))
  | (Err e, (ms, fa)) => (Err e, (ms, fa, None))
  end.

(** [create_example_mapping]: maps [page] to the VGA buffer's frame. *)
Definition create_example_mapping (page : Page) (ms : MS) (fa : FA) : outcome (MS * FA) :=
  let frame := frame_containing_address 0xb8000 in
  let flags := PRESENT .| WRITABLE in
  match map_to page frame flags ms fa with
  | (Ok _, (ms, fa)) => Ret (flush page ms, fa)
  | (Err _, _) => Panic "map_to failed"
  end.

(** [active_level_4_table]: the address of the table whose frame CR3 holds. *)
Definition active_level_4_table (cr3 : PhysFrame) (physical_memory_offset : Z) : Z :=
  physical_memory_offset + frame_start_address cr3.

(** ** Mapping a list of pages *)

Lemma map_pages_ok pages ms fa ms' fa' :
  fa_ok fa -> NoDup (page_start_address <$> pages) ->
  map_pages pages ms fa = (Ok (), (ms', fa')) ->
  exists frames, length frames = length pages /\ NoDup frames /\
    Forall (fun n => n ∈ fa_free fa) frames /\ list_to_set frames ## fa_free fa' /\
    fa_ok fa' /\ fa_free fa' ⊆ fa_free fa /\
    (forall i p n, pages !! i = Some p -> frames !! i = Some n ->
       exists f, frame_start_address f / 4096 = n /\
         translate ms' (page_start_address p) = Some (frame_start_address f)) /\
    (forall p, p ∈ pages -> page_flags ms' (page_start_address p) = Some (PRESENT .| WRITABLE)) /\
    (forall a, a ∉ page_start_address <$> pages ->
       translate ms' a = translate ms a /\ page_flags ms' a = page_flags ms a).
Proof.
  revert ms fa. induction pages as [|p pages IH]; intros ms fa Hok Hnd Hrun; cbn in Hrun.
  { injection Hrun as <- <-. exists []. split_and!; try done. by intros p ?%elem_of_nil. }
  destruct (fa_allocate_frame fa) as [[f|] fa1] eqn:Ea; [|done].
  destruct (fa_allocate_some _ _ _ Hok Ea) as (Hok1 & Hin & Hfree1).
  destruct (map_to p f _ ms fa1) as [[[]|e] [ms2 fa2]] eqn:Em; [|done].
  destruct (map_flush _ _ _ _ _ _ _ Hok1 Em) as (Hok2 & Hsub2 & Htr2 & Hfl2 & _).
  cbn in Hnd. apply NoDup_cons in Hnd as [Hp Hnd].
  destruct (IH _ fa2 Hok2 Hnd Hrun) as (frames & Hlen & Hfnd & Hall & Hdisj & Hok' & Hsub & Hmap & Hflags & Hother).
  exists (frame_start_address f / 4096 :: frames). cbn. split_and!; [lia| | | |done|set_solver| | |].
  - apply NoDup_cons. split; [|done]. intros Hx. rewrite Forall_forall in Hall.
    specialize (Hall _ Hx). set_solver.
  - constructor; [done|]. eapply Forall_impl; [exact Hall|]. cbn. set_solver.
  - set_solver.
  - intros [|i] q n Hq Hn; cbn in Hq, Hn; [|by eapply Hmap].
    injection Hq as <-. injection Hn as <-. exists f. split; [done|].
    destruct (Hother _ Hp) as [-> _]. by rewrite Htr2, Z.eqb_refl.
  - intros q [->|Hq]%elem_of_cons; [|by apply Hflags].
    destruct (Hother _ Hp) as [_ ->]. by rewrite Hfl2, Z.eqb_refl.
  - intros a Ha. destruct (Hother a) as [-> ->]; [set_solver|]. rewrite Htr2, Hfl2.
    destruct (Z.eqb_spec a (page_start_address p)); [set_solver|done].
Qed.

(** Whatever the result, only the listed pages change, and what was changed has
    been flushed. *)
Lemma map_pages_others pages ms fa r ms' fa' :
  fa_ok fa -> map_pages pages ms fa = (r, (ms', fa')) ->
  (forall a, a ∉ page_start_address <$> pages -> translate ms' a = translate ms a) /\
  unflushed ms' ⊆ unflushed ms.
Proof.
  revert ms fa. induction pages as [|p pages IH]; intros ms fa Hok Hrun; cbn in Hrun.
  { by injection Hrun as <- <- <-. }
  destruct (fa_allocate_frame fa) as [[f|] fa1] eqn:Ea; [|by injection Hrun as <- <- <-].
  destruct (fa_allocate_some _ _ _ Hok Ea) as (Hok1 & _).
  destruct (map_to p f _ ms fa1) as [[[]|e] [ms2 fa2]] eqn:Em.
  - destruct (map_flush _ _ _ _ _ _ _ Hok1 Em) as (Hok2 & _ & Htr & _ & Hu).
    destruct (IH _ fa2 Hok2 Hrun) as [Ho Hs]. split; [|set_solver].
    intros a Ha. rewrite Ho, Htr by set_solver.
    destruct (Z.eqb_spec a (page_start_address p)); [set_solver|done].
  - destruct (map_to_err _ _ _ _ _ _ _ _ Hok1 Em) as (_ & _ & Htr & _ & Hu).
    injection Hrun as <- <- <-. split; [|by rewrite Hu]. intros a _. apply Htr.
Qed.

Lemma page_start_multiple n : page_start_address (page_containing_address (n * 4096)) = n * 4096.
Proof. rewrite page_start_containing, Z.div_mul by lia. done. Qed.

Lemma heap_pages_starts :
  page_start_address <$> heap_pages = (fun i => HEAP_START + i * 4096) <$> seqZ 0 25.
Proof.
  unfold heap_pages. rewrite page_range_inclusive_spec.
  change (HEAP_START / 4096) with 18325193792.
  change ((HEAP_START + HEAP_SIZE - 1) / 4096 - 18325193792 + 1) with 25.
  rewrite <- list_fmap_compose. apply list_eq. intros i. rewrite !list_lookup_fmap.
  destruct (decide (i < 25)%nat).
  - rewrite !lookup_seqZ_lt by lia. cbn. rewrite page_start_multiple. f_equal.
    unfold HEAP_START. lia.
  - by rewrite !lookup_seqZ_ge by lia.
Qed.

Lemma heap_pages_NoDup : NoDup (page_start_address <$> heap_pages).
Proof.
  rewrite heap_pages_starts. apply NoDup_fmap_2_strong; [|apply NoDup_seqZ]. lia.
Qed.

Lemma heap_page_lookup i :
  0 <= i < 25 -> exists p, heap_pages !! Z.to_nat i = Some p /\ page_start_address p = HEAP_START + i * 4096.
Proof.
  intros Hi. pose proof (f_equal (fun l => l !! Z.to_nat i) heap_pages_starts) as H. cbn in H.
  rewrite !list_lookup_fmap, lookup_seqZ_lt in H by lia.
  destruct (heap_pages !! Z.to_nat i) as [p|]; cbn in H; [|done].
  exists p. split; [done|]. injection H as ->. lia.
Qed.

Lemma length_heap_pages : length heap_pages = 25%nat.
Proof.
  rewrite <- (length_fmap page_start_address), heap_pages_starts, length_fmap, length_seqZ. done.
Qed.

(** ** Properties *)

(** C5: When [init_heap] succeeds, each of the 25 heap pages from [HEAP_START] is
    mapped, present and writable, to a frame of its own that was free before, those
    frames are no longer free, and the global allocator is given exactly
    [HEAP_START, HEAP_SIZE]; when it fails, the global allocator is not initialised.
    Either way no page outside the heap changes its translation, and every page
    whose entry was changed has been flushed. *)
Theorem init_heap_maps_heap ms fa :
  fa_ok fa ->
  let '(r, (ms', fa', heap)) := init_heap ms fa in
  (forall a, a ∉ (fun i => HEAP_START + i * 4096) <$> seqZ 0 25 -> translate ms' a = translate ms a) /\
  unflushed ms' ⊆ unflushed ms /\
  match r with
  | Ok _ =>
      heap = Some (HEAP_START, HEAP_SIZE) /\
      (forall i, 0 <= i < 25 -> page_flags ms' (HEAP_START + i * 4096) = Some (PRESENT .| WRITABLE)) /\
      exists frames, length frames = 25%nat /\ NoDup frames /\
        Forall (fun n => n ∈ fa_free fa /\ n ∉ fa_free fa') frames /\
        forall i n, 0 <= i < 25 -> frames !! Z.to_nat i = Some n ->
          exists f, frame_start_address f / 4096 = n /\
            translate ms' (HEAP_START + i * 4096) = Some (frame_start_address f)
  | Err _ => heap = None
  end.
Proof.
  intros Hok. unfold init_heap. destruct (map_pages heap_pages ms fa) as [r [ms' fa']] eqn:E.
  destruct (map_pages_others _ _ _ _ _ _ Hok E) as [Hoth Hun]. rewrite heap_pages_starts in Hoth.
  destruct r as [[]|e]; [|done]. split_and!; [done|done|done| |].
  all: destruct (map_pages_ok _ _ _ _ _ Hok heap_pages_NoDup E)
    as (frames & Hlen & Hnd & Hin & Hdisj & _ & _ & Hmap & Hflags & _).
  - intros i Hi. destruct (heap_page_lookup i Hi) as (p & Hp & <-). apply Hflags. by eapply list_elem_of_lookup_2.
  - exists frames. rewrite length_heap_pages in Hlen. split_and!; [done..| |].
    + rewrite Forall_forall in Hin |- *. intros n Hn. split; [by apply Hin|]. set_solver.
    + intros i n Hi Hn. destruct (heap_page_lookup i Hi) as (p & Hp & <-). by eapply Hmap.
Qed.
End Heap.

(** ** The bitmap allocator implements the allocator interface *)

Section Instances.
Context {paging : X86Paging}.

#[export] Instance bitmap_allocator : FrameAllocator (mem * BootInfoFrameAllocator) := {|
  fa_allocate_frame st := allocate_frame st.1 st.2
|}.

#[export, refine] Instance bitmap_allocator_spec : FrameAllocatorSpec (mem * BootInfoFrameAllocator) := {|
  fa_ok st := wf_allocator st.2;
  fa_free st := free_set st.1 st.2
|}.
Proof.
  - intros [m fa] f [m' fa'] Hwf E. cbn in *. pose proof (allocate_frame_step m fa Hwf) as H.
    rewrite E in H. destruct H as [? H]. inversion H; subst. done.
  - intros [m fa] [m' fa'] Hwf E. cbn in *. pose proof (allocate_frame_step m fa Hwf) as H.
    rewrite E in H. destruct H as [? H]. inversion H; subst.
    split_and!; congruence.
Defined.
End Instances.

(** ** A concrete run *)

#[local] Existing Instance paging_by_address.

#[local] Existing Instance flat_tables.

Definition heap_example_map : list MemoryRegion :=
  [MkRegion false 0 0x1000; MkRegion true 0x1000 0x40000].

Definition heap_example : mem * BootInfoFrameAllocator :=
  init (fun _ => 0) heap_example_map 0x100000 (Some 0x3000).

Lemma init_heap_maps_heap_witness :
  let '(r, (ms', fa', heap)) := init_heap (MS := flat_table) (∅, ∅) heap_example in
  r = Ok () /\ unflushed ms' ⊆ ∅ /\ heap = Some (HEAP_START, HEAP_SIZE) /\
  (forall i, 0 <= i < 25 -> page_flags ms' (HEAP_START + i * 4096) = Some 3) /\
  exists frames, length frames = 25%nat /\ NoDup frames /\
    Forall (fun n => n ∈ fa_free heap_example /\ n ∉ fa_free fa') frames /\
    forall i n, 0 <= i < 25 -> frames !! Z.to_nat i = Some n ->
      exists f, frame_start_address f / 4096 = n /\
        translate ms' (HEAP_START + i * 4096) = Some (frame_start_address f).
Proof.
  assert ((init_heap (MS := flat_table) (∅, ∅) heap_example).1 = Ok ()) as Hr by (vm_compute; reflexivity).
  assert (fa_ok heap_example) as Hok by (apply init_wf; repeat constructor; cbn; lia).
  pose proof (init_heap_maps_heap (MS := flat_table) (∅, ∅) heap_example Hok) as H.
  destruct (init_heap _ _) as [r [[ms' fa'] heap]]. cbn in Hr. subst r.
  destruct H as (_ & Hu & Hh & Hf & Hm). split_and!; [done|exact Hu|exact Hh|exact Hf|exact Hm].
Defined.
