(* ===== verification/Device.v ===== *)
(** * Device: the device model of [src/driver_framework/device.rs]

    Resources, capabilities and device information as the PCI and ACPI scanners
    record them, the formatting the manager compares and prints, and the lookups
    drivers use. *)

From Stdlib Require Import Ascii.
From stdpp Require Import pretty.
From S2P Require Import Prelude.

Local Open Scope string_scope.
Local Open Scope list_scope.
Local Open Scope Z_scope.

(** ** Rust formatting *)

Definition hex_digit (d : Z) : ascii :=
  if d <? 10 then ascii_of_nat (Z.to_nat (48 + d)) else ascii_of_nat (Z.to_nat (87 + d)).

(** [n] lower-case hexadecimal digits of [v], most significant first. *)
Fixpoint hex_digits (n : nat) (v : Z) : string :=
  match n with
  | O => ""
  | S n' => hex_digits n' (v / 16) +:+ String (hex_digit (v `mod` 16)) ""
  end.

(** The number of hexadecimal digits of [v], at least one. *)
Definition hex_width (v : Z) : nat := if v =? 0 then 1%nat else S (Z.to_nat (Z.log2 v / 4)).

(** [{:0wx}] *)
Definition fmt_hex (w : nat) (v : Z) : string := hex_digits (Nat.max w (hex_width v)) v.

(** [{}] of an unsigned integer *)
Definition fmt_dec (v : Z) : string := pretty v.

(** [{:>w}] *)
Definition fmt_right (w : nat) (s : string) : string :=
  String.concat "" (replicate (w - String.length s) " ") +:+ s.

Definition fmt_bool (b : bool) : string := if b then "true" else "false".

(** [str::contains] *)
Definition contains (s pat : string) : bool :=
  match String.index 0 pat s with Some _ => true | None => false end.

(** [{:#x}] *)
Definition fmt_hex0x (v : Z) : string := "0x" +:+ fmt_hex 1 v.

(** ** Byte strings: [b"..."] and [core::str::from_utf8] *)

Fixpoint str_bytes (s : string) : list Z :=
  match s with
  | EmptyString => []
  | String c s => Z.of_nat (nat_of_ascii c) :: str_bytes s
  end.

Fixpoint bytes_str (bs : list Z) : string :=
  match bs with
  | [] => EmptyString
  | b :: bs => String (ascii_of_nat (Z.to_nat b)) (bytes_str bs)
  end.

Definition in_range (lo hi b : Z) : bool := (lo <=? b) && (b <=? hi).

(** The well-formed byte sequences of UTF-8. *)
Fixpoint utf8_valid (bs : list Z) : bool :=
  match bs with
  | [] => true
  | b0 :: r =>
      if in_range 0x00 0x7F b0 then utf8_valid r
      else if in_range 0xC2 0xDF b0 then
        match r with
        | b1 :: r => in_range 0x80 0xBF b1 && utf8_valid r
        | _ => false
        end
      else if in_range 0xE0 0xEF b0 then
        match r with
        | b1 :: b2 :: r =>
            in_range (if b0 =? 0xE0 then 0xA0 else 0x80) (if b0 =? 0xED then 0x9F else 0xBF) b1 &&
            in_range 0x80 0xBF b2 && utf8_valid r
        | _ => false
        end
      else if in_range 0xF0 0xF4 b0 then
        match r with
        | b1 :: b2 :: b3 :: r =>
            in_range (if b0 =? 0xF0 then 0x90 else 0x80) (if b0 =? 0xF4 then 0x8F else 0xBF) b1 &&
            in_range 0x80 0xBF b2 && in_range 0x80 0xBF b3 && utf8_valid r
        | _ => false
        end
      else false
  end.

(** [str::from_utf8(bs).unwrap_or(dflt)] *)
Definition from_utf8_or (dflt : string) (bs : list Z) : string :=
  if utf8_valid bs then bytes_str bs else dflt.

(** ** Resources and capabilities *)

Inductive ResourceKind : Type :=
| MemoryMapped
| IO
| Interrupt (vector : Z)
| Msi (vectors : Z) (addr64 maskable : bool) (msg_addr msg_data : Z)
| Msix (table_bar table_offset table_size : Z) (table_present first_entry_masked : bool).

#[export] Instance ResourceKind_eq_dec : EqDecision ResourceKind.
Proof. solve_decision. Defined.

Record Resource : Type := MkResource { kind : ResourceKind; addr : Z; len : Z }.

#[export] Instance Resource_eq_dec : EqDecision Resource.
Proof. solve_decision. Defined.

Inductive Capability : Type :=
| PowerManagement (pm_cap pmcsr : Z)
| PciExpress (header device_cap : Z)
| Other (id raw0 raw1 : Z).

#[export] Instance Capability_eq_dec : EqDecision Capability.
Proof. solve_decision. Defined.

(** [#[derive(Debug)]] of [Capability]: [format!("{:?}", c)]. *)
Definition cap_debug (c : Capability) : string :=
  match c with
  | PowerManagement a b =>
      "PowerManagement { pm_cap: " +:+ fmt_dec a +:+ ", pmcsr: " +:+ fmt_dec b +:+ " }"
  | PciExpress a b =>
      "PciExpress { header: " +:+ fmt_dec a +:+ ", device_cap: " +:+ fmt_dec b +:+ " }"
  | Other a b c =>
      "Other { id: " +:+ fmt_dec a +:+ ", raw0: " +:+ fmt_dec b +:+ ", raw1: " +:+ fmt_dec c +:+ " }"
  end.

(** ** Devices *)

Record DeviceInfo : Type := MkInfo {
  vendor_id : Z;
  device_id : Z;
  class : Z;
  subclass : Z;
  prog_if : Z;
  resources : list Resource;
  capabilities : list Capability;
  description : string
}.

(** [impl fmt::Debug for DeviceInfo] *)
Definition info_debug (i : DeviceInfo) : string :=
  "DeviceInfo { " +:+ fmt_hex 4 (vendor_id i) +:+ ":" +:+ fmt_hex 4 (device_id i) +:+
  " class=" +:+ fmt_hex 2 (class i) +:+ "/" +:+ fmt_hex 2 (subclass i) +:+
  " desc='" +:+ description i +:+ "' res=" +:+ fmt_dec (Z.of_nat (length (resources i))) +:+
  " caps=" +:+ fmt_dec (Z.of_nat (length (capabilities i))) +:+ " }".

Record Device : Type := MkDevice { id : Z; info : DeviceInfo }.

Definition is_msi (r : Resource) : bool := match kind r with Msi _ _ _ _ _ => true | _ => false end.
Definition is_msix (r : Resource) : bool := match kind r with Msix _ _ _ _ _ => true | _ => false end.

Definition msi_resources (d : Device) : list Resource := List.filter is_msi (resources (info d)).
Definition msix_resources (d : Device) : list Resource := List.filter is_msix (resources (info d)).

(** ** Class names *)

Definition ethernet_prog_if_to_str (prog_if : Z) : string :=
  match prog_if with
  | 0x00 => "Ethernet: Ethernet controller"
  | 0x01 => "Ethernet: IEEE 802.3u (100BASE-TX)"
  | 0x02 => "Ethernet: IEEE 802.3ab (1000BASE-T)"
  | _ => "Ethernet: other/prog-if"
  end.

Definition usb_prog_if_to_str (prog_if : Z) : string :=
  match prog_if with
  | 0x00 => "USB: UHCI (Universal Host Controller)"
  | 0x10 => "USB: OHCI (Open Host Controller)"
  | 0x20 => "USB: EHCI (Enhanced Host Controller)"
  | 0x30 => "USB: XHCI (Extensible Host Controller)"
  | _ => "USB: other/prog-if"
  end.

Definition class_subclass_to_string (class subclass prog_if : Z) : string :=
  match class with
  | 0x00 => match subclass with
      | 0x00 => "Unclassified: Non-VGA-compatible device"
      | 0x01 => "Unclassified: VGA-compatible device"
      | s => "Unclassified subclass 0x" +:+ fmt_hex 2 s
      end
  | 0x01 => match subclass with
      | 0x00 => "Mass Storage: SCSI"
      | 0x01 => "Mass Storage: IDE"
      | 0x02 => "Mass Storage: Floppy"
      | 0x06 => match prog_if with
          | 0x00 => "Mass Storage: SATA (vendor/legacy)"
          | 0x01 => "Mass Storage: SATA (AHCI)"
          | _ => "Mass Storage: SATA prog-if 0x" +:+ fmt_hex 2 prog_if
          end
      | s => "Mass Storage subclass 0x" +:+ fmt_hex 2 s
      end
  | 0x02 => match subclass with
      | 0x00 => ethernet_prog_if_to_str prog_if
      | 0x80 => "Network: Other"
      | s => "Network subclass 0x" +:+ fmt_hex 2 s
      end
  | 0x03 => match subclass with
      | 0x00 => match prog_if with
          | 0x00 => "Display: VGA-compatible controller"
          | 0x01 => "Display: 3D controller (OpenGL)"
          | _ => "Display: VGA-compatible controller"
          end
      | 0x80 => "Display: Other"
      | s => "Display subclass 0x" +:+ fmt_hex 2 s
      end
  | 0x04 => match subclass with
      | 0x00 => "Multimedia: Video"
      | 0x01 => "Multimedia: Audio"
      | s => "Multimedia subclass 0x" +:+ fmt_hex 2 s
      end
  | 0x05 => "Memory Controller"
  | 0x06 => match subclass with
      | 0x00 => "Bridge: Host"
      | 0x01 => "Bridge: ISA"
      | 0x04 => "Bridge: PCI-to-PCI"
      | s => "Bridge subclass 0x" +:+ fmt_hex 2 s
      end
  | 0x07 => "Simple Communication Controller"
  | 0x08 => "Base System Peripheral"
  | 0x09 => "Input Device"
  | 0x0A => "Docking Station"
  | 0x0B => "Processor"
  | 0x0C => match subclass with
      | 0x03 => usb_prog_if_to_str prog_if
      | 0x05 => "Serial Bus: SMBus"
      | s => "Serial Bus subclass 0x" +:+ fmt_hex 2 s
      end
  | 0xFF => "Unknown / Vendor-specific"
  | c => "Class 0x" +:+ fmt_hex 2 c +:+ " subclass 0x" +:+ fmt_hex 2 subclass
  end.

(** ** Lemmas on formatting *)

Lemma string_append_assoc (a b c : string) : a +:+ (b +:+ c) = (a +:+ b) +:+ c.
Proof.
  induction a as [|x a IH]; [done|].
  change (String x (a +:+ (b +:+ c)) = String x ((a +:+ b) +:+ c)). by rewrite IH.
Qed.

Lemma string_prefix_app p s : String.prefix p (p +:+ s) = true.
Proof.
  induction p as [|c p IH]; [by destruct s|].
  change (String c p +:+ s) with (String c (p +:+ s)). cbn [String.prefix].
  destruct (ascii_dec c c); [exact IH|congruence].
Qed.

Lemma string_prefix_refl p : String.prefix p p = true.
Proof.
  induction p as [|c p IH]; [done|]. cbn. destruct (ascii_dec c c); [exact IH|congruence].
Qed.

Lemma index_prefix pat s : String.prefix pat s = true -> String.index 0 pat s = Some 0%nat.
Proof. intros Hp. destruct s; [by destruct pat|]. cbn [String.index]. by rewrite Hp. Qed.

(** A string contains every string it ends with. *)
Lemma contains_app_r a b : contains (a +:+ b) b = true.
Proof.
  unfold contains. induction a as [|c a IH].
  - change ("" +:+ b) with b. by rewrite index_prefix by apply string_prefix_refl.
  - change (String c a +:+ b) with (String c (a +:+ b)). cbn [String.index].
    destruct (String.prefix _ _); [done|]. by destruct (String.index 0 b (a +:+ b)).
Qed.

Lemma contains_refl a : contains a a = true.
Proof. apply (contains_app_r ""). Qed.
