(* ===== verification/Manager.v ===== *)
(** * Manager: the device registry of [src/driver_framework/manager.rs] and the
    driver trait of [src/driver_framework/driver.rs]

    A driver is a record of the four trait methods over a state [W] of the
    machine they act on. The manager's state is the registry (a [Vec] of entries,
    here a list) and the global id counter; every method of [DeviceManager] is
    modelled with its error paths and the order of its calls to the driver. The
    step relation [mgr_step] covers all of them, so that the invariants hold in
    every reachable registry. *)

From S2P Require Import Prelude Device.

Local Open Scope string_scope.
Local Open Scope list_scope.
Local Open Scope Z_scope.

(** [trait Driver]: [&self] methods on a device handle. *)
Record DriverOps (W : Type) : Type := MkDriver {
  drv_probe : Device -> W -> result unit string * W;
  drv_start : Device -> W -> result unit string * W;
  drv_stop : Device -> W -> W;
  drv_release : Device -> W -> W
}.
Arguments drv_probe {W}.
Arguments drv_start {W}.
Arguments drv_stop {W}.
Arguments drv_release {W}.
Arguments MkDriver {W}.

Record RegistryEntry (W : Type) : Type := MkEntry {
  device : Device;
  driver : option (DriverOps W)
}.
Arguments device {W}.
Arguments driver {W}.
Arguments MkEntry {W}.

(** [NEXT_DEVICE_ID] and the registry of the [DeviceManager]. *)
Record DeviceManager (W : Type) : Type := MkManager {
  next_device_id : Z;
  devices : list (RegistryEntry W)
}.
Arguments next_device_id {W}.
Arguments devices {W}.
Arguments MkManager {W}.

(** ** Merging *)

(** [if !acc.iter().any(|e| same(e, x)) { acc.push(x.clone()) }] *)
Definition push_missing {A} (same : A -> A -> bool) (acc : list A) (x : A) : list A :=
  if existsb (fun e => same e x) acc then acc else acc ++ [x].

Definition same_resource (er r : Resource) : bool :=
  bool_decide (kind er = kind r) && (addr er =? addr r).

Definition merge_resources (existing new : list Resource) : list Resource :=
  foldl (push_missing same_resource) existing new.

(** The naive comparison of the debug representations. *)
Definition same_capability (ec c : Capability) : bool := String.eqb (cap_debug ec) (cap_debug c).

Definition merge_capabilities (existing new : list Capability) : list Capability :=
  foldl (push_missing same_capability) existing new.

Definition merge_description (existing new : string) : string :=
  if negb (contains existing new) then existing +:+ "; " +:+ new else existing.

Definition merge_info (existing info : DeviceInfo) : DeviceInfo :=
  MkInfo (vendor_id existing) (device_id existing) (class existing) (subclass existing)
    (prog_if existing)
    (merge_resources (resources existing) (resources info))
    (merge_capabilities (capabilities existing) (capabilities info))
    (merge_description (description existing) (description info)).

(** ** The methods *)

Section Methods.
Context {W : Type}.
Implicit Types (mgr : DeviceManager W) (w : W) (drv : DriverOps W).

(** [DeviceManager::new] with the initial id counter. *)
Definition manager_new : DeviceManager W := MkManager 1 [].

Definition register_device mgr (i : DeviceInfo) : Z * DeviceManager W :=
  let id := next_device_id mgr in
  (id, MkManager (id +64 1) (devices mgr ++ [MkEntry (MkDevice id i) None])).

Definition same_ids (i : DeviceInfo) (e : RegistryEntry W) : Prop :=
  vendor_id (info (device e)) = vendor_id i /\ device_id (info (device e)) = device_id i.

#[export] Instance same_ids_dec i e : Decision (same_ids i e).
Proof. unfold same_ids. apply _. Defined.

Definition merge_or_register mgr (i : DeviceInfo) : option Z * DeviceManager W :=
  match list_find (same_ids i) (devices mgr) with
  | Some (k, e) =>
      let d := device e in
      let e' := MkEntry (MkDevice (id d) (merge_info (info d) i)) (driver e) in
      (Some (id d), MkManager (next_device_id mgr) (<[k := e']> (devices mgr)))
  | None => (None, mgr)
  end.

Definition has_id (device_id : Z) (e : RegistryEntry W) : Prop := id (device e) = device_id.

#[export] Instance has_id_dec n e : Decision (has_id n e).
Proof. unfold has_id. apply _. Defined.

Definition set_driver mgr (k : nat) (e : RegistryEntry W) (d : option (DriverOps W)) : DeviceManager W :=
  MkManager (next_device_id mgr) (<[k := MkEntry (device e) d]> (devices mgr)).

Definition attach_driver mgr (device_id : Z) drv w : result unit string * (DeviceManager W * W) :=
  match list_find (has_id device_id) (devices mgr) with
  | Some (k, e) =>
      match driver e with
      | Some _ => (Err ("device " +:+ fmt_dec device_id +:+ " already has a driver"), (mgr, w))
      | None =>
          match drv_probe drv (device e) w with
          | (Ok _, w) =>
              match drv_start drv (device e) w with
              | (Ok _, w) => (Ok (), (set_driver mgr k e (Some drv), w))
              | (Err msg, w) => (Err ("start failed: " +:+ msg), (mgr, w))
              end
          | (Err msg, w) => (Err ("probe failed: " +:+ msg), (mgr, w))
          end
      end
  | None => (Err ("no device with id " +:+ fmt_dec device_id), (mgr, w))
  end.

Definition detach_driver mgr (device_id : Z) w : result unit string * (DeviceManager W * W) :=
  match list_find (has_id device_id) (devices mgr) with
  | Some (k, e) =>
      match driver e with
      | Some drv =>
          let mgr := set_driver mgr k e None in
          let w := drv_stop drv (device e) w in
          let w := drv_release drv (device e) w in
          (Ok (), (mgr, w))
      | None => (Err ("device " +:+ fmt_dec device_id +:+ " has no driver"), (mgr, w))
      end
  | None => (Err ("no device with id " +:+ fmt_dec device_id), (mgr, w))
  end.

Definition find_by_vid_pid mgr (vendor dev : Z) : list Z :=
  (fun e => id (device e)) <$>
  List.filter (fun e => (vendor_id (info (device e)) =? vendor) &&
                        (device_id (info (device e)) =? dev)) (devices mgr).

(** The concise type name of [list_devices]. *)
Definition concise_type (c s p : Z) : string :=
  match c with
  | 0x00 => "Unclassified"
  | 0x01 => match s with
      | 0x00 => "SCSI controller"
      | 0x01 => "IDE controller"
      | 0x02 => "Floppy controller"
      | 0x06 => match p with 0x01 => "SATA (AHCI)" | _ => "SATA controller" end
      | _ => "Mass storage controller"
      end
  | 0x02 => match s with
      | 0x00 => "Ethernet controller"
      | 0x80 => "Network controller (other)"
      | _ => "Network controller"
      end
  | 0x03 => match s with
      | 0x00 => "VGA compatible controller"
      | 0x01 => "3D controller"
      | _ => "Display controller"
      end
  | 0x04 => match s with
      | 0x00 => "Multimedia video controller"
      | 0x01 => "Audio controller"
      | _ => "Multimedia controller"
      end
  | 0x05 => "Memory controller"
  | 0x06 => match s with 0x04 => "PCI-to-PCI bridge" | _ => "Bridge" end
  | 0x07 => "Simple communication controller"
  | 0x08 => "Base system peripheral"
  | 0x09 => match s with
      | 0x00 => "Keyboard"
      | 0x01 => "Digitizer"
      | _ => "Input device"
      end
  | 0x0C => match s with
      | 0x03 => match p with
          | 0x00 => "USB UHCI"
          | 0x10 => "USB OHCI"
          | 0x20 => "USB EHCI"
          | 0x30 => "USB XHCI"
          | _ => "USB controller"
          end
      | _ => "Serial bus controller"
      end
  | 0xFF => "Vendor-specific"
  | _ => "Unknown"
  end.

(** The lines [list_devices] prints. *)
Definition list_devices mgr : list string :=
  ("DeviceManager: " +:+ fmt_dec (Z.of_nat (length (devices mgr))) +:+ " devices registered") ::
  ((fun e => let i := info (device e) in
     " - id=" +:+ fmt_right 3 (fmt_dec (id (device e))) +:+ " " +:+ fmt_hex 4 (vendor_id i) +:+ ":" +:+
     fmt_hex 4 (device_id i) +:+ " " +:+ concise_type (class i) (subclass i) (prog_if i))
   <$> devices mgr).

(** ** Reachable registries *)

Inductive mgr_step : DeviceManager W * W -> DeviceManager W * W -> Prop :=
| step_register mgr w i : mgr_step (mgr, w) ((register_device mgr i).2, w)
| step_merge mgr w i : mgr_step (mgr, w) ((merge_or_register mgr i).2, w)
| step_attach mgr w n drv : mgr_step (mgr, w) (attach_driver mgr n drv w).2
| step_detach mgr w n : mgr_step (mgr, w) (detach_driver mgr n w).2.

Definition ids mgr : list Z := (fun e => id (device e)) <$> devices mgr.

(** The ids are the values of the counter, in order. *)
Definition ids_inv mgr : Prop :=
  ids mgr = (fun k => wrap 64 (1 + k)) <$> seqZ 0 (Z.of_nat (length (devices mgr))) /\
  next_device_id mgr = wrap 64 (1 + Z.of_nat (length (devices mgr))).

(** ** Lemmas on the registry *)

Lemma ids_set_driver mgr k e d :
  devices mgr !! k = Some e -> ids (set_driver mgr k e d) = ids mgr.
Proof.
  intros He. unfold ids, set_driver. cbn [devices]. rewrite list_fmap_insert. cbn.
  apply list_insert_id. by rewrite list_lookup_fmap, He.
Qed.

Lemma length_set_driver mgr k e d : length (devices (set_driver mgr k e d)) = length (devices mgr).
Proof. apply length_insert. Qed.

Lemma ids_inv_register mgr i : ids_inv mgr -> ids_inv (register_device mgr i).2.
Proof.
  intros [Hids Hnext]. unfold ids_inv, ids, register_device in *. cbn.
  rewrite fmap_app, Hids, length_app. cbn [fmap list_fmap length device id].
  rewrite Hnext, Nat2Z.inj_add. cbn [Z.of_nat]. split.
  - rewrite seqZ_app, fmap_app by lia. by f_equal.
  - unfold wrap. rewrite Zplus_mod_idemp_l. f_equal. lia.
Qed.

Lemma ids_inv_same mgr mgr' :
  ids mgr' = ids mgr -> length (devices mgr') = length (devices mgr) ->
  next_device_id mgr' = next_device_id mgr -> ids_inv mgr -> ids_inv mgr'.
Proof. unfold ids_inv. by intros -> -> ->. Qed.

Lemma merge_or_register_ids mgr i :
  let mgr' := (merge_or_register mgr i).2 in
  ids mgr' = ids mgr /\ length (devices mgr') = length (devices mgr) /\
  next_device_id mgr' = next_device_id mgr.
Proof.
  unfold merge_or_register. destruct (list_find _ _) as [[k e]|] eqn:E; [|done].
  apply list_find_Some in E as (He & _ & _). cbn. split_and!; [|by rewrite length_insert|done].
  unfold ids. cbn. rewrite list_fmap_insert. cbn. apply list_insert_id.
  by rewrite list_lookup_fmap, He.
Qed.

Lemma attach_driver_ids mgr n drv w :
  let mgr' := (attach_driver mgr n drv w).2.1 in
  ids mgr' = ids mgr /\ length (devices mgr') = length (devices mgr) /\
  next_device_id mgr' = next_device_id mgr.
Proof.
  unfold attach_driver. destruct (list_find _ _) as [[k e]|] eqn:E; [|done].
  apply list_find_Some in E as (He & _ & _).
  destruct (driver e); [done|]. destruct (drv_probe _ _ _) as [[[]|] ?]; [|done].
  destruct (drv_start _ _ _) as [[[]|] ?]; [|done]. cbn -[set_driver].
  rewrite ids_set_driver, length_set_driver by done. done.
Qed.

Lemma detach_driver_ids mgr n w :
  let mgr' := (detach_driver mgr n w).2.1 in
  ids mgr' = ids mgr /\ length (devices mgr') = length (devices mgr) /\
  next_device_id mgr' = next_device_id mgr.
Proof.
  unfold detach_driver. destruct (list_find _ _) as [[k e]|] eqn:E; [|done].
  apply list_find_Some in E as (He & _ & _). destruct (driver e); [|done]. cbn -[set_driver].
  rewrite ids_set_driver, length_set_driver by done. done.
Qed.

Lemma ids_inv_step s s' : mgr_step s s' -> ids_inv s.1 -> ids_inv s'.1.
Proof.
  intros Hstep Hinv. destruct Hstep as [mgr w i|mgr w i|mgr w n drv|mgr w n].
  - by apply ids_inv_register.
  - eapply ids_inv_same; [..|exact Hinv]; apply merge_or_register_ids.
  - eapply ids_inv_same; [..|exact Hinv]; apply attach_driver_ids.
  - eapply ids_inv_same; [..|exact Hinv]; apply detach_driver_ids.
Qed.

Lemma ids_inv_reachable s s' : rtc mgr_step s s' -> ids_inv s.1 -> ids_inv s'.1.
Proof. induction 1; [done|]. eauto using ids_inv_step. Qed.
End Methods.

(** ** Lemmas on merging *)

Section Push.
Context {A : Type} (same : A -> A -> bool).
Implicit Types (acc new : list A) (x : A).

Definition has acc x : Prop := existsb (fun e => same e x) acc = true.

Lemma push_missing_prefix acc x : acc `prefix_of` push_missing same acc x.
Proof. unfold push_missing. destruct (existsb _ acc); [done|]. by eexists. Qed.

Lemma push_all_prefix acc new : acc `prefix_of` foldl (push_missing same) acc new.
Proof.
  revert acc. induction new as [|x new IH]; intros acc; cbn; [done|].
  etrans; [apply push_missing_prefix|apply IH].
Qed.

Lemma has_prefix acc acc' x : acc `prefix_of` acc' -> has acc x -> has acc' x.
Proof. intros [k ->] H. unfold has in *. by rewrite existsb_app, H. Qed.

Lemma push_missing_has acc x : same x x = true -> has (push_missing same acc x) x.
Proof.
  intros Hr. unfold has, push_missing. destruct (existsb _ acc) eqn:E; [done|].
  rewrite existsb_app. cbn. by rewrite Hr, orb_true_r.
Qed.

Lemma push_all_has acc new x :
  (forall x, same x x = true) -> x ∈ new -> has (foldl (push_missing same) acc new) x.
Proof.
  intros Hr. revert acc. induction new as [|y new IH]; intros acc; cbn.
  { by intros ?%elem_of_nil. }
  intros [->|Hx]%elem_of_cons; [|by apply IH].
  eapply has_prefix; [apply push_all_prefix|]. by apply push_missing_has.
Qed.

Lemma push_all_id acc new :
  Forall (has acc) new -> foldl (push_missing same) acc new = acc.
Proof.
  induction 1 as [|x new Hx Hnew IH]; cbn; [done|].
  assert (push_missing same acc x = acc) as -> by (unfold push_missing; by rewrite Hx). done.
Qed.

(** What appending the missing elements of [new] to [old] means: the old elements
    stay first; behind them come elements of [new], in order, none of them like an
    old one or like one another; and every element of [new] has its like. *)
Definition adds_missing (old new res : list A) : Prop :=
  exists added, res = old ++ added /\ added `sublist_of` new /\
    (forall a, a ∈ added -> ~ has old a) /\
    ForallOrdPairs (fun x y => same x y = false) added /\
    forall x, x ∈ new -> has res x.

Lemma push_all_adds acc new :
  (forall x, same x x = true) -> adds_missing acc new (foldl (push_missing same) acc new).
Proof.
  intros Hr. revert acc. induction new as [|x new IH]; intros acc; cbn.
  { exists []. rewrite app_nil_r. split_and!; [done..| |constructor|]; by intros ? ?%elem_of_nil. }
  unfold push_missing at 2. destruct (existsb _ acc) eqn:E.
  - destruct (IH acc) as (added & -> & Hs & Hold & Hd & Hall). exists added.
    split_and!; [done|by apply sublist_cons|done..|].
    intros y [->|Hy]%elem_of_cons; [|by apply Hall]. eapply has_prefix; [by eexists|exact E].
  - destruct (IH (acc ++ [x])) as (added & -> & Hs & Hold & Hd & Hall). exists (x :: added).
    rewrite <- app_assoc in *. cbn in *.
    assert (forall a, a ∈ added -> ~ has acc a /\ same x a = false) as Hnew.
    { intros a Ha. specialize (Hold a Ha). unfold has in *. rewrite existsb_app in Hold. cbn in Hold.
      rewrite orb_false_r in Hold. apply not_true_is_false, orb_false_iff in Hold as [Ho Hx]. split; [by rewrite Ho|done]. }
    split_and!; [done|by apply sublist_skip| | |].
    + intros a [->|Ha]%elem_of_cons; [unfold has; congruence|by apply Hnew].
    + constructor; [|done]. apply Forall_forall. intros a Ha. by apply Hnew.
    + intros y [->|Hy]%elem_of_cons; [|by apply Hall].
      unfold has. rewrite existsb_app. cbn. by rewrite Hr, orb_true_r.
Qed.
End Push.

Lemma same_resource_refl r : same_resource r r = true.
Proof. unfold same_resource. by rewrite bool_decide_true, Z.eqb_refl. Qed.

Lemma same_capability_refl c : same_capability c c = true.
Proof. apply String.eqb_refl. Qed.

Lemma merge_description_contains d n : contains (merge_description d n) n = true.
Proof.
  unfold merge_description. destruct (contains d n) eqn:E; cbn; [done|].
  rewrite string_append_assoc. apply contains_app_r.
Qed.

Lemma merge_info_idem e i : merge_info (merge_info e i) i = merge_info e i.
Proof.
  unfold merge_info at 1. cbn. unfold merge_resources, merge_capabilities.
  rewrite (push_all_id _ (foldl _ (resources e) _)), (push_all_id _ (foldl _ (capabilities e) _)).
  - unfold merge_description at 1. by rewrite merge_description_contains.
  - apply Forall_forall. intros c Hc. apply push_all_has; [apply same_capability_refl|done].
  - apply Forall_forall. intros r Hr. apply push_all_has; [apply same_resource_refl|done].
Qed.

Section Finding.
Context {W : Type}.
Implicit Types (mgr : DeviceManager W).

(** Replacing the entry that was found by one that also matches does not change
    what is found. *)
Lemma list_find_replace (P : RegistryEntry W -> Prop) `{!forall e, Decision (P e)} l k e e' :
  list_find P l = Some (k, e) -> P e' -> list_find P (<[k := e']> l) = Some (k, e').
Proof.
  intros (Hk & Hp & Hbefore)%list_find_Some He'. apply list_find_Some. split_and!; [|done|].
  - apply list_lookup_insert_eq. by eapply lookup_lt_Some.
  - intros j y Hj Hlt. rewrite list_lookup_insert_ne in Hj by lia. by eapply Hbefore.
Qed.

Lemma set_driver_find mgr n k e d :
  list_find (has_id n) (devices mgr) = Some (k, e) ->
  list_find (has_id n) (devices (set_driver mgr k e d)) = Some (k, MkEntry (device e) d).
Proof.
  intros Hf. eapply list_find_replace; [done|]. by apply list_find_Some in Hf as (_ & ? & _).
Qed.

(** The id of the next device is not in use. *)
Lemma next_id_fresh mgr :
  ids_inv mgr -> Z.of_nat (length (devices mgr)) < 2 ^ 64 - 1 ->
  Forall (fun e => ~ has_id (next_device_id mgr) e) (devices mgr).
Proof.
  intros [Hids Hnext] Hlen. apply Forall_lookup. intros j e He. unfold has_id. rewrite Hnext.
  assert (ids mgr !! j = Some (id (device e))) as Hj by (unfold ids; by rewrite list_lookup_fmap, He).
  apply lookup_lt_Some in He. rewrite Hids, list_lookup_fmap, lookup_seqZ_lt in Hj by lia. cbn in Hj.
  injection Hj as <-. rewrite !wrap_small by lia. lia.
Qed.

(** Registering a device and attaching a driver that accepts it. *)
Lemma attach_new mgr i drv w w1 w2 :
  ids_inv mgr -> Z.of_nat (length (devices mgr)) < 2 ^ 64 - 1 ->
  let dev := MkDevice (next_device_id mgr) i in
  drv_probe drv dev w = (Ok (), w1) -> drv_start drv dev w1 = (Ok (), w2) ->
  attach_driver (register_device mgr i).2 (next_device_id mgr) drv w =
    (Ok (), (MkManager (next_device_id mgr +64 1) (devices mgr ++ [MkEntry dev (Some drv)]), w2)).
Proof.
  intros Hinv Hlen dev Hp Hs. pose proof (next_id_fresh mgr Hinv Hlen) as Hf.
  assert (list_find (has_id (next_device_id mgr)) (devices mgr ++ [MkEntry dev None]) =
    Some (length (devices mgr), MkEntry dev None)) as E.
  { rewrite list_find_app_r by (by apply list_find_None). cbn. by rewrite decide_True by done. }
  unfold attach_driver, register_device. cbn [snd devices]. fold dev. rewrite E. cbn [driver device].
  rewrite Hp, Hs. unfold set_driver. cbn [next_device_id devices device]. do 3 f_equal.
  by rewrite insert_app_r_alt, Nat.sub_diag by lia.
Qed.
End Finding.

(** ** Properties *)

Section Properties.
Context {W : Type}.
Implicit Types (mgr : DeviceManager W) (w : W) (drv : DriverOps W).

(** C26: In every registry reachable from the empty one by registering, merging,
    attaching and detaching in any order, the device ids are 1, 2, 3, ... in
    registration order, hence pairwise distinct (for fewer than 2^64 devices). *)
Theorem manager_ids_unique w0 mgr w :
  rtc mgr_step (manager_new, w0) (mgr, w) ->
  Z.of_nat (length (devices mgr)) < 2 ^ 64 ->
  ids mgr = seqZ 1 (Z.of_nat (length (devices mgr))) /\ NoDup (ids mgr).
Proof.
  intros Hr Hlen.
  assert (ids_inv mgr) as [Hids _] by (apply (ids_inv_reachable _ _ Hr); done).
  enough (ids mgr = seqZ 1 (Z.of_nat (length (devices mgr)))) as He.
  { split; [done|]. rewrite He. apply NoDup_seqZ. }
  rewrite Hids. change (seqZ 1) with (seqZ (1 + 0)). rewrite <- fmap_add_seqZ.
  apply list_fmap_ext. intros k z (-> & Hk)%lookup_seqZ. apply wrap_small. lia.
Qed.

(** C6: [attach_driver] succeeds exactly when the device exists, has no driver and
    both [probe] and [start] accept it; then the driver is recorded on that device
    and every other entry is unchanged. On every error the registry is unchanged. *)
Theorem attach_driver_outcome mgr n drv w :
  let '(r, (mgr', w')) := attach_driver mgr n drv w in
  match r with
  | Ok _ => exists k e w1,
      list_find (has_id n) (devices mgr) = Some (k, e) /\ driver e = None /\
      drv_probe drv (device e) w = (Ok (), w1) /\ drv_start drv (device e) w1 = (Ok (), w') /\
      devices mgr' !! k = Some (MkEntry (device e) (Some drv)) /\
      forall j, j <> k -> devices mgr' !! j = devices mgr !! j
  | Err _ => mgr' = mgr /\
      (list_find (has_id n) (devices mgr) = None \/
       exists k e, list_find (has_id n) (devices mgr) = Some (k, e) /\
         (driver e <> None /\ w' = w \/
          (drv_probe drv (device e) w).1 <> Ok () \/
          (drv_start drv (device e) (drv_probe drv (device e) w).2).1 <> Ok ()))
  end.
Proof.
  unfold attach_driver. destruct (list_find _ _) as [[k e]|] eqn:E; [|by auto].
  destruct (driver e) eqn:Ed.
  { split; [done|]. right. exists k, e. split; [done|]. left. by rewrite Ed. }
  destruct (drv_probe drv (device e) w) as [[[]|msg] w1] eqn:Ep.
  2: { split; [done|]. right. exists k, e. split; [done|]. right. left. by rewrite Ep. }
  destruct (drv_start drv (device e) w1) as [[[]|msg] w2] eqn:Es.
  2: { split; [done|]. right. exists k, e. split; [done|]. right. right. by rewrite Ep; cbn; rewrite Es. }
  exists k, e, w1. split_and!; [done..| |].
  - apply list_lookup_insert_eq. apply list_find_Some in E as (? & _). by eapply lookup_lt_Some.
  - intros j ?. by apply list_lookup_insert_ne.
Qed.

(** C27: Detaching a driver that was just attached succeeds, calls [stop] and then
    [release] on the same device, and restores the registry. *)
Theorem attach_detach_roundtrip mgr n drv w mgr1 w1 :
  attach_driver mgr n drv w = (Ok (), (mgr1, w1)) ->
  exists d, id d = n /\
    detach_driver mgr1 n w1 = (Ok (), (mgr, drv_release drv d (drv_stop drv d w1))).
Proof.
  unfold attach_driver. destruct (list_find _ _) as [[k e]|] eqn:E; [|done].
  destruct (driver e) eqn:Ed; [done|]. destruct (drv_probe _ _ _) as [[[]|] ?]; [|done].
  destruct (drv_start _ _ _) as [[[]|] ?]; [|done]. intros [= <- <-].
  pose proof E as (Hk & Hid & _)%list_find_Some.
  exists (device e). split; [done|]. unfold detach_driver.
  rewrite (set_driver_find _ _ _ _ _ E). cbn [driver device]. do 3 f_equal.
  unfold set_driver. cbn [devices next_device_id device]. rewrite list_insert_insert_eq.
  destruct mgr as [nx l]. cbn in *. f_equal. apply list_insert_id.
  rewrite Hk. f_equal. destruct e. cbn in *. congruence.
Qed.

(** Merging the same information a second time changes nothing and finds the
    same device. *)
Theorem merge_or_register_idempotent mgr i :
  let '(r, mgr') := merge_or_register mgr i in
  merge_or_register mgr' i = (r, mgr').
Proof.
  unfold merge_or_register at 1. destruct (list_find _ _) as [[k e]|] eqn:E.
  2: { unfold merge_or_register. by rewrite E. }
  unfold merge_or_register. cbn [devices next_device_id].
  rewrite (list_find_replace _ _ _ _ _ E) by (by apply list_find_Some in E as (_ & ? & _)).
  cbn. rewrite merge_info_idem. by rewrite list_insert_insert_eq.
Qed.

(** C28: A merge takes the first device with the same vendor and device id. That
    device keeps its id, its driver and its class codes; to its resources and its
    capabilities the missing ones are appended, each once and in order, where a
    resource is missing when none has its kind and address and a capability when
    none prints alike; the new description is appended when the old one does not
    contain it; all other entries and the id counter are unchanged. When no device
    matches, nothing changes. *)
Theorem merge_or_register_merges mgr i :
  let '(r, mgr') := merge_or_register mgr i in
  match r with
  | Some n => exists k e e', devices mgr !! k = Some e /\ same_ids i e /\
      (forall j f, (j < k)%nat -> devices mgr !! j = Some f -> ~ same_ids i f) /\
      mgr' = MkManager (next_device_id mgr) (<[k := e']> (devices mgr)) /\
      id (device e) = n /\ id (device e') = n /\ driver e' = driver e /\
      (let old := info (device e) in let new := info (device e') in
       vendor_id new = vendor_id old /\ device_id new = device_id old /\
       class new = class old /\ subclass new = subclass old /\ prog_if new = prog_if old /\
       adds_missing same_resource (resources old) (resources i) (resources new) /\
       adds_missing same_capability (capabilities old) (capabilities i) (capabilities new) /\
       description new = if contains (description old) (description i) then description old
                         else description old +:+ "; " +:+ description i)
  | None => mgr' = mgr /\ forall k e, devices mgr !! k = Some e -> ~ same_ids i e
  end.
Proof.
  unfold merge_or_register. destruct (list_find _ _) as [[k e]|] eqn:E.
  2: { split; [done|]. apply list_find_None in E. intros k e He. by eapply Forall_lookup_1 in E. }
  apply list_find_Some in E as (Hk & Hid & Hb).
  exists k, e, (MkEntry (MkDevice (id (device e)) (merge_info (info (device e)) i)) (driver e)).
  split_and!; try done; cbn.
  - intros j f Hj Hf. by eapply Hb.
  - apply push_all_adds, same_resource_refl.
  - apply push_all_adds, same_capability_refl.
  - unfold merge_description. by destruct (contains _ _).
Qed.
End Properties.

(** ** Witnesses *)

Definition sample_info (v d : Z) (r : list Resource) (desc : string) : DeviceInfo :=
  MkInfo v d 0x03 0 0 r [] desc.

(** A driver that accepts every device and counts its calls. *)
Definition counting_driver : DriverOps Z := {|
  drv_probe _ w := (Ok (), w + 1);
  drv_start _ w := (Ok (), w + 1);
  drv_stop _ w := w + 1;
  drv_release _ w := w + 1
|}.

Definition sample_manager : DeviceManager Z :=
  (register_device (register_device manager_new (sample_info 0x8086 0x100 [] "a")).2
     (sample_info 0x1234 0x1111 [MkResource MemoryMapped 0xE0000000 0x1000] "PCI 00:02.0")).2.

Lemma manager_ids_unique_witness :
  ids sample_manager = seqZ 1 (Z.of_nat (length (devices sample_manager))) /\ NoDup (ids sample_manager).
Proof.
  apply (manager_ids_unique 0 sample_manager 0); [|vm_compute; reflexivity].
  eapply rtc_l; [apply step_register|]. eapply rtc_l; [apply step_register|]. apply rtc_refl.
Defined.

Lemma attach_detach_roundtrip_witness :
  exists d, id d = 2 /\
    detach_driver (attach_driver sample_manager 2 counting_driver 0).2.1 2 2 =
    (Ok (), (sample_manager, drv_release counting_driver d (drv_stop counting_driver d 2))).
Proof. apply (attach_detach_roundtrip sample_manager 2 counting_driver 0). reflexivity. Defined.

(** A BAR that is already known is not added again, a new interrupt is, once. *)
Example merge_adds_interrupt :
  let bar := MkResource MemoryMapped 0xE0000000 0x1000 in
  let irq := MkResource (Interrupt 11) 0 0 in
  let i := sample_info 0x1234 0x1111 [bar; irq; irq] "PCI 00:03.0" in
  let '(r, mgr') := merge_or_register sample_manager i in
  r = Some 2 /\ (fun e => resources (info (device e))) <$> devices mgr' = [[]; [bar; irq]].
Proof. vm_compute. done. Qed.
