(* ===== verification/Task.v ===== *)
(** * Task: the async executor of [src/arch/task.rs]

    Tasks are futures polled by a single-threaded executor; a waker pushes the id
    of its task on the shared bounded queue, and the executor pops ids and polls.
    A future is a parameter: [poll] maps a task, its future and the machine state
    to the result, the new future and state, and the ids whose wakers it invoked,
    in order. The queue is the [ArrayQueue] interface.

    [run_one] is one iteration of the loop of [run_ready_tasks]; [run_ready_tasks]
    iterates it with fuel, and [poll_seq] is the reference it is compared with:
    polling a list of tasks in order. The main loop against interrupt handlers that
    wake tasks is the step relation [cpu_step]: the processor's interrupt flag is
    part of the state, each statement of [sleep_if_idle] is a step of its own, and
    an interrupt can arrive between any two of them while the flag is set. *)

From S2P Require Import Prelude External.

Inductive Poll : Type := Ready | Pending.

(** [NEXT_ID.fetch_add(1)]: the new id and the counter's next value. *)
Definition TaskId_new (next_id : Z) : Z * Z := (next_id, next_id +64 1).

(** [TaskWaker]: the queue it pushes to is the executor's own. *)
Record TaskWaker : Type := MkWaker { waker_task_id : Z }.

Definition QUEUE_CAPACITY : nat := 100.

Section Executor.
Context {Q : Type -> Type} {aq : ArrayQueue Q} {Fut : Type}.

Record Task : Type := MkTask { task_id : Z; future : Fut }.

Record Executor : Type := MkExecutor {
  tasks : gmap Z Task;
  task_queue : Q Z;
  waker_cache : gmap Z TaskWaker
}.

(** [Task::new]: the task and the next value of the id counter. *)
Definition Task_new (next_id : Z) (f : Fut) : Task * Z :=
  let '(n, next) := TaskId_new next_id in (MkTask n f, next).

Definition Executor_new : Executor := MkExecutor ∅ (aq_new QUEUE_CAPACITY) ∅.

(** [TaskWaker::wake_task] *)
Definition wake_task (wk : TaskWaker) (q : Q Z) : outcome (Q Z) :=
  match aq_push (waker_task_id wk) q with
  | Some q => Ret q
  | None => Panic "task_queue full"
  end.

(** The wakers invoked during one poll, one after the other. *)
Fixpoint wake_all (ids : list Z) (q : Q Z) : outcome (Q Z) :=
  match ids with
  | [] => Ret q
  | i :: rest => let! q := wake_task (MkWaker i) q in wake_all rest q
  end.

Definition spawn (e : Executor) (t : Task) : outcome Executor :=
  let n := task_id t in
  match tasks e !! n with
  | Some _ => Panic "task with same ID already in tasks"
  | None =>
      let ts := <[n := t]> (tasks e) in
      match aq_push n (task_queue e) with
      | Some q => Ret (MkExecutor ts q (waker_cache e))
      | None => Panic "queue full"
      end
  end.

(** ** Invariant *)

Definition queued (e : Executor) : list Z := aq_contents (task_queue e).

Record exec_inv (e : Executor) : Prop := {
  inv_cache : dom (waker_cache e) ⊆ dom (tasks e);
  inv_wakers : forall n wk, waker_cache e !! n = Some wk -> waker_task_id wk = n;
  inv_ids : forall n t, tasks e !! n = Some t -> task_id t = n;
  inv_capacity : aq_capacity (task_queue e) = QUEUE_CAPACITY;
  inv_length : (length (queued e) <= QUEUE_CAPACITY)%nat
}.

(** ** Lemmas *)

Lemma wake_task_ret wk q q' :
  wake_task wk q = Ret q' <->
  aq_push (waker_task_id wk) q = Some q'.
Proof. unfold wake_task. destruct (aq_push _ q); naive_solver. Qed.

Lemma push_contents {A} (x : A) (q q' : Q A) :
  aq_push x q = Some q' ->
  aq_contents q' = aq_contents q ++ [x] /\ aq_capacity q' = aq_capacity q /\
  (length (aq_contents q) < aq_capacity q)%nat.
Proof. intros H. pose proof (aq_push_spec _ x q) as Hs. rewrite H in Hs. tauto. Qed.

Lemma push_room {A} (x : A) (q : Q A) :
  (length (aq_contents q) < aq_capacity q)%nat -> is_Some (aq_push x q).
Proof.
  intros H. pose proof (aq_push_spec _ x q) as Hs. revert Hs. destruct (aq_push x q); [by eexists|lia].
Qed.

Lemma wake_all_contents ids q q' :
  wake_all ids q = Ret q' ->
  aq_contents q' = aq_contents q ++ ids /\ aq_capacity q' = aq_capacity q /\
  (length (aq_contents q) <= aq_capacity q -> length (aq_contents q') <= aq_capacity q')%nat.
Proof.
  revert q. induction ids as [|i ids IH]; intros q H; cbn in H.
  { injection H as <-. by rewrite app_nil_r. }
  destruct (wake_task (MkWaker i) q) as [q1|] eqn:E; [|done]. cbn in H.
  apply wake_task_ret, push_contents in E as (Hc & Hcap & Hlt). cbn in Hc.
  destruct (IH _ H) as (Hc' & Hcap' & Hle). rewrite Hc', Hc, <- app_assoc.
  split_and!; [done|congruence|]. intros _.
  assert (length (aq_contents q1) <= aq_capacity q1)%nat as Hq1.
  { rewrite Hc, Hcap, length_app. cbn. lia. }
  specialize (Hle Hq1). by rewrite Hc', Hc, <- app_assoc in Hle.
Qed.

Lemma wake_all_room ids q :
  (length (aq_contents q) + length ids <= aq_capacity q)%nat -> exists q', wake_all ids q = Ret q'.
Proof.
  revert q. induction ids as [|i ids IH]; intros q H; cbn in *; [by eexists|].
  destruct (push_room i q) as [q1 Hq1]; [lia|].
  unfold wake_task. cbn. rewrite Hq1. cbn. apply push_contents in Hq1 as (Hc & Hcap & _).
  apply IH. rewrite Hc, Hcap, length_app. cbn. lia.
Qed.

Lemma pop_contents {A} (q : Q A) x q' :
  aq_pop q = Some (x, q') -> aq_contents q = x :: aq_contents q' /\ aq_capacity q' = aq_capacity q.
Proof. intros H. pose proof (aq_pop_spec _ q) as Hs. by rewrite H in Hs. Qed.

Lemma pop_none {A} (q : Q A) : aq_pop q = None -> aq_contents q = [].
Proof. intros H. pose proof (aq_pop_spec _ q) as Hs. by rewrite H in Hs. Qed.

Definition cache_with (e : Executor) (n : Z) : gmap Z TaskWaker :=
  match waker_cache e !! n with
  | Some _ => waker_cache e
  | None => <[n := MkWaker n]> (waker_cache e)
  end.

Lemma cache_with_inv e n t :
  exec_inv e -> tasks e !! n = Some t ->
  dom (cache_with e n) ⊆ dom (tasks e) /\
  forall k wk, cache_with e n !! k = Some wk -> waker_task_id wk = k.
Proof.
  intros [Hc Hw _ _ _] Ht. unfold cache_with. destruct (waker_cache e !! n); [done|].
  apply elem_of_dom_2 in Ht. split.
  - rewrite dom_insert_L. set_solver.
  - intros k wk Hk. rewrite lookup_insert in Hk. case_decide; [by simplify_eq|by apply Hw].
Qed.

Lemma executor_new_inv : exec_inv Executor_new.
Proof.
  unfold Executor_new. split; unfold queued; cbn.
  - done.
  - intros n wk. by rewrite lookup_empty.
  - intros n t. by rewrite lookup_empty.
  - by rewrite aq_new_capacity.
  - rewrite aq_new_contents. cbn. lia.
Qed.

Lemma spawn_inv e t e' : exec_inv e -> spawn e t = Ret e' -> exec_inv e'.
Proof.
  intros [H1 H2 H3 H4 H5] Hs. unfold spawn in Hs.
  destruct (tasks e !! task_id t) eqn:Et; [done|].
  destruct (aq_push (task_id t) (task_queue e)) as [q|] eqn:Eq; [|done].
  injection Hs as <-. apply push_contents in Eq as (Hc & Hcap & Hlt).
  split; unfold queued; cbn; auto.
  - rewrite dom_insert_L. set_solver.
  - intros n t'. rewrite lookup_insert. case_decide; [naive_solver|apply H3].
  - congruence.
  - rewrite Hc, length_app. cbn. rewrite H4 in Hlt. lia.
Qed.

Lemma spawn_room e t :
  exec_inv e -> tasks e !! task_id t = None -> (length (queued e) < QUEUE_CAPACITY)%nat ->
  exists e', spawn e t = Ret e' /\ exec_inv e' /\ queued e' = queued e ++ [task_id t] /\
    tasks e' = <[task_id t := t]> (tasks e).
Proof.
  intros Hi Ht Hl. destruct (push_room (task_id t) (task_queue e)) as [q Hq].
  { rewrite (inv_capacity _ Hi). done. }
  exists (MkExecutor (<[task_id t := t]> (tasks e)) q (waker_cache e)).
  assert (spawn e t = Ret (MkExecutor (<[task_id t := t]> (tasks e)) q (waker_cache e))) as Hs
    by (unfold spawn; by rewrite Ht, Hq).
  split_and!; [done|by eapply spawn_inv| |done]. by apply push_contents in Hq as [? _].
Qed.

Lemma wake_all_inv e ids q :
  exec_inv e -> wake_all ids (task_queue e) = Ret q ->
  exec_inv (MkExecutor (tasks e) q (waker_cache e)).
Proof.
  intros [H1 H2 H3 H4 H5] Hw. apply wake_all_contents in Hw as (Hc & Hcap & Hle).
  split; unfold queued in *; cbn; auto; [congruence|].
  rewrite <- H4, <- Hcap. apply Hle. by rewrite H4.
Qed.

(** ** Running

    A future is polled through the section variable [poll]. *)
Context {W : Type}.
Variable poll : Z -> Fut -> W -> Poll * Fut * W * list Z.

(** The body of the loop after [pop] gave [n]: the waker is the cached one or a
    new one, and the poll is given that waker. *)
Definition run_popped (n : Z) (e : Executor) (w : W) : outcome (Executor * W) :=
  match tasks e !! n with
  | None => Ret (e, w)
  | Some t =>
      let cache := cache_with e n in
      let waker := default (MkWaker n) (cache !! n) in
      let '(r, fut, w, woken) := poll (waker_task_id waker) (future t) w in
      let! q := wake_all woken (task_queue e) in
      match r with
      | Ready => Ret (MkExecutor (delete n (tasks e)) q (delete n cache), w)
      | Pending => Ret (MkExecutor (<[n := MkTask (task_id t) fut]> (tasks e)) q cache, w)
      end
  end.

(** [task_queue.pop()] *)
Definition pop_task (e : Executor) : option (Z * Executor) :=
  match aq_pop (task_queue e) with
  | None => None
  | Some (n, q) => Some (n, MkExecutor (tasks e) q (waker_cache e))
  end.

(** One iteration of [while let Some(task_id) = task_queue.pop()]; [None] when
    the queue is empty, otherwise the popped id and the new state. *)
Definition run_one (e : Executor) (w : W) : outcome (option (Z * Executor * W)) :=
  match pop_task e with
  | None => Ret None
  | Some (n, e) => let! (e, w) := run_popped n e w in Ret (Some (n, e, w))
  end.

(** [run_ready_tasks]: the ids popped, in order, and the final state; [None] when
    the fuel ends first. *)
Fixpoint run_ready_tasks (fuel : nat) (e : Executor) (w : W)
    : outcome (option (list Z * Executor * W)) :=
  match fuel with
  | O => Ret None
  | S fuel =>
      let! r := run_one e w in
      match r with
      | None => Ret (Some ([], e, w))
      | Some (n, e, w) =>
          let! r := run_ready_tasks fuel e w in
          Ret (match r with
               | None => None
               | Some (ns, e, w) => Some (n :: ns, e, w)
               end)
      end
  end.

(** [k] iterations of the loop (fewer when the queue runs empty). *)
Fixpoint run_k (k : nat) (e : Executor) (w : W) : outcome (list Z * Executor * W) :=
  match k with
  | O => Ret ([], e, w)
  | S k =>
      let! r := run_one e w in
      match r with
      | None => Ret ([], e, w)
      | Some (n, e, w) => let! (ns, e, w) := run_k k e w in Ret (n :: ns, e, w)
      end
  end.

(** ** The reference: polling a list of tasks in order

    The live tasks with their futures, the machine, and the ids woken on the way. *)
Definition futures (e : Executor) : gmap Z Fut := future <$> tasks e.

Definition poll_task (n : Z) (fs : gmap Z Fut) (w : W) : gmap Z Fut * W * list Z :=
  match fs !! n with
  | None => (fs, w, [])
  | Some f =>
      let '(r, f, w, woken) := poll n f w in
      (match r with Ready => delete n fs | Pending => <[n := f]> fs end, w, woken)
  end.

Fixpoint poll_seq (ns : list Z) (fs : gmap Z Fut) (w : W) : gmap Z Fut * W * list Z :=
  match ns with
  | [] => (fs, w, [])
  | n :: ns =>
      let '(fs, w, woken) := poll_task n fs w in
      let '(fs, w, woken') := poll_seq ns fs w in
      (fs, w, woken ++ woken')
  end.

Lemma pop_task_some e n e1 :
  pop_task e = Some (n, e1) ->
  queued e = n :: queued e1 /\ tasks e1 = tasks e /\ waker_cache e1 = waker_cache e /\
  aq_capacity (task_queue e1) = aq_capacity (task_queue e).
Proof.
  unfold pop_task, queued. destruct (aq_pop (task_queue e)) as [[m q]|] eqn:Ep; [|done].
  apply pop_contents in Ep as [Hc Hcap]. by intros [= <- <-].
Qed.

Lemma pop_task_none e : pop_task e = None -> queued e = [].
Proof.
  unfold pop_task, queued. destruct (aq_pop (task_queue e)) as [[m q]|] eqn:Ep; [done|].
  intros _. by apply pop_none.
Qed.

Lemma pop_task_inv e n e1 : exec_inv e -> pop_task e = Some (n, e1) -> exec_inv e1.
Proof.
  intros [H1 H2 H3 H4 H5] (Hq & Ht & Hw & Hc)%pop_task_some.
  split; rewrite ?Ht, ?Hw, ?Hc; auto. rewrite Hq in H5. cbn in H5. lia.
Qed.

(** The waker the loop passes is the popped task's own. *)
Lemma waker_of_task e n :
  exec_inv e -> waker_task_id (default (MkWaker n) (cache_with e n !! n)) = n.
Proof.
  intros Hi. unfold cache_with. destruct (waker_cache e !! n) as [wk|] eqn:E.
  - rewrite E. cbn. by apply (inv_wakers _ Hi).
  - by rewrite lookup_insert_eq.
Qed.

(** The body of the loop is one poll of the reference; what it wakes goes to the
    end of the queue. *)
Lemma run_popped_spec n e w e' w' :
  exec_inv e -> run_popped n e w = Ret (e', w') ->
  exists woken, poll_task n (futures e) w = (futures e', w', woken) /\
    queued e' = queued e ++ woken.
Proof.
  intros Hi. unfold run_popped, poll_task, futures. rewrite lookup_fmap.
  destruct (tasks e !! n) as [t|] eqn:Et; cbn.
  2: { intros [= <- <-]. exists []. by rewrite app_nil_r. }
  rewrite (waker_of_task e n Hi). destruct (poll n (future t) w) as [[[r fut] w1] woken].
  destruct (wake_all woken (task_queue e)) as [q|] eqn:Ew; [|done]. cbn.
  apply wake_all_contents in Ew as (Hc & _ & _). intros H. exists woken.
  destruct r; injection H as <- <-; unfold queued; cbn.
  - by rewrite fmap_delete.
  - by rewrite fmap_insert.
Qed.

Lemma run_popped_inv n e w e' w' : exec_inv e -> run_popped n e w = Ret (e', w') -> exec_inv e'.
Proof.
  intros Hi. unfold run_popped. destruct (tasks e !! n) as [t|] eqn:Ht; [|by intros [= <- <-]].
  destruct (poll _ (future t) w) as [[[r fut] w1] woken].
  destruct (wake_all woken (task_queue e)) as [q|] eqn:Ew; [|done]. cbn.
  apply (wake_all_inv _ _ _ Hi) in Ew as [H1 H2 H3 H4 H5]. cbn in *.
  destruct (cache_with_inv e n t Hi Ht) as [Hd Hk].
  intros Hr. destruct r; injection Hr as <- <-; split; cbn; auto.
  - rewrite !dom_delete_L. set_solver.
  - intros k wk. rewrite lookup_delete. case_decide; [done|]. apply Hk.
  - intros k t'. rewrite lookup_delete. case_decide; [done|]. apply H3.
  - rewrite dom_insert_L. set_solver.
  - intros k t'. rewrite lookup_insert. case_decide; [|apply H3].
    intros [= <-]. subst. cbn. by apply H3.
Qed.

(** The body succeeds when the ids its poll wakes fit in the queue. *)
Lemma run_popped_room n e w :
  exec_inv e -> (length (queued e) + length (poll_task n (futures e) w).2 <= QUEUE_CAPACITY)%nat ->
  exists e' w', run_popped n e w = Ret (e', w').
Proof.
  intros Hi. unfold run_popped, poll_task, futures. rewrite lookup_fmap.
  destruct (tasks e !! n) as [t|] eqn:Et; cbn; [|by eauto].
  rewrite (waker_of_task e n Hi). destruct (poll n (future t) w) as [[[r fut] w1] woken]. cbn.
  intros Hroom. destruct (wake_all_room woken (task_queue e)) as [q ->].
  { by rewrite (inv_capacity _ Hi). }
  destruct r; cbn; by eauto.
Qed.

Lemma run_one_spec e w n e' w' :
  exec_inv e -> run_one e w = Ret (Some (n, e', w')) ->
  exec_inv e' /\ exists woken, poll_task n (futures e) w = (futures e', w', woken) /\
    queued e ++ woken = n :: queued e'.
Proof.
  intros Hi. unfold run_one. destruct (pop_task e) as [[m e1]|] eqn:Ep; [|done].
  pose proof (pop_task_inv _ _ _ Hi Ep) as Hi1. apply pop_task_some in Ep as (Hq & Ht & _).
  destruct (run_popped m e1 w) as [[e2 w2]|] eqn:Er; [|done]. intros [= <- <- <-].
  split; [by eapply run_popped_inv|]. apply run_popped_spec in Er as (woken & Hp & Hq2); [|done].
  exists woken. rewrite Hq2, Hq. split; [|done]. rewrite <- Hp. unfold futures. by rewrite Ht.
Qed.

Lemma run_one_none e w : run_one e w = Ret None -> queued e = [].
Proof.
  unfold run_one. destruct (pop_task e) as [[m e1]|] eqn:Ep; [|by intros; apply pop_task_none].
  by destruct (run_popped m e1 w) as [[]|].
Qed.

Lemma run_one_room e w :
  exec_inv e ->
  (forall n, head (queued e) = Some n ->
     (length (queued e) + length (poll_task n (futures e) w).2 <= S QUEUE_CAPACITY)%nat) ->
  exists r, run_one e w = Ret r.
Proof.
  intros Hi Hroom. unfold run_one. destruct (pop_task e) as [[m e1]|] eqn:Ep; [|by eexists].
  pose proof (pop_task_inv _ _ _ Hi Ep) as Hi1. apply pop_task_some in Ep as (Hq & Ht & _).
  destruct (run_popped_room m e1 w Hi1) as (e2 & w2 & ->); [|by eexists].
  specialize (Hroom m). rewrite Hq in Hroom. specialize (Hroom eq_refl). cbn in Hroom.
  unfold futures in *. rewrite Ht. lia.
Qed.

(** ** First in, first out *)

(** [ns] were polled in order: what was queued and what was woken is what was
    polled and what is still queued. *)
Definition polled (ns : list Z) (e : Executor) (w : W) (e' : Executor) (w' : W) : Prop :=
  exists woken, poll_seq ns (futures e) w = (futures e', w', woken) /\
    queued e ++ woken = ns ++ queued e'.

Lemma polled_nil e w : polled [] e w e w.
Proof. exists []. split; [done|]. by rewrite app_nil_r. Qed.

Lemma polled_cons n ns e w e1 w1 e' w' :
  (exists woken, poll_task n (futures e) w = (futures e1, w1, woken) /\ queued e ++ woken = n :: queued e1) ->
  polled ns e1 w1 e' w' -> polled (n :: ns) e w e' w'.
Proof.
  intros (wk & Hp & Hq) (wk' & Hp' & Hq'). exists (wk ++ wk'). cbn. rewrite Hp, Hp'. split; [done|].
  by rewrite app_assoc, Hq, <- app_comm_cons, Hq'.
Qed.

Lemma run_k_polled k e w :
  exec_inv e -> (forall n f v, (length (poll n f v).2 <= 1)%nat) ->
  (k <= length (queued e))%nat ->
  exists ns e' w', run_k k e w = Ret (ns, e', w') /\ exec_inv e' /\ length ns = k /\ polled ns e w e' w'.
Proof.
  intros Hi Hwake. revert e w Hi. induction k as [|k IH]; intros e w Hi Hk; cbn.
  { exists [], e, w. split_and!; try done. apply polled_nil. }
  destruct (run_one_room e w Hi) as [r E1].
  { intros n _. pose proof (inv_length _ Hi). unfold poll_task. destruct (futures e !! n) as [f|]; cbn; [|lia].
    specialize (Hwake n f w). destruct (poll n f w) as [[[r fut] w1] woken]. cbn in *. lia. }
  rewrite E1. destruct r as [[[n e1] w1]|]; cbn.
  2: { apply run_one_none in E1. rewrite E1 in Hk. cbn in Hk. lia. }
  apply run_one_spec in E1 as [Hi1 H1]; [|done].
  destruct (IH e1 w1 Hi1) as (ns & e' & w' & -> & Hi' & Hl & Hp).
  { destruct H1 as (wk & _ & Hq). apply (f_equal length) in Hq. rewrite length_app in Hq. cbn in Hq. lia. }
  exists (n :: ns), e', w'. cbn. split_and!; [done|done|lia|by eapply polled_cons].
Qed.

(** ** Draining the queue *)

(** A bound on the wakers the machine can still invoke: every poll pays for the
    ids it wakes. *)
Definition within_budget (budget : W -> nat) : Prop :=
  forall n f v, let '(_, _, v', woken) := poll n f v in (budget v' + length woken <= budget v)%nat.

Lemma poll_task_budget budget n fs v :
  within_budget budget ->
  let '(_, v', woken) := poll_task n fs v in (budget v' + length woken <= budget v)%nat.
Proof.
  intros Hb. unfold poll_task. destruct (fs !! n) as [f|]; [|cbn; lia].
  specialize (Hb n f v). by destruct (poll n f v) as [[[r fut] w1] woken].
Qed.

Lemma run_ready_tasks_drains (budget : W -> nat) fuel e w :
  within_budget budget ->
  exec_inv e -> (length (queued e) + budget w <= QUEUE_CAPACITY)%nat ->
  (length (queued e) + budget w < fuel)%nat ->
  exists ns e' w', run_ready_tasks fuel e w = Ret (Some (ns, e', w')) /\
    queued e' = [] /\ exec_inv e' /\ polled ns e w e' w' /\
    (length ns <= length (queued e) + budget w)%nat.
Proof.
  intros Hb. revert e w. induction fuel as [|fuel IH]; intros e w Hi Hcap Hf; [lia|].
  cbn. destruct (run_one_room e w Hi) as [r E1].
  { intros n _. pose proof (poll_task_budget budget n (futures e) w Hb) as Hn.
    destruct (poll_task n (futures e) w) as [[fs w1] woken]. cbn in *. lia. }
  rewrite E1. cbn. destruct r as [[[n e1] w1]|].
  - apply run_one_spec in E1 as (Hi1 & woken & Hp1 & Hq1); [|done].
    pose proof (poll_task_budget budget n (futures e) w Hb) as Hn. rewrite Hp1 in Hn.
    pose proof (f_equal length Hq1) as Hl. rewrite length_app in Hl. cbn in Hl.
    destruct (IH e1 w1) as (ns & e' & w' & -> & Hq & Hi' & Hp & Hle); [done|lia|lia|].
    exists (n :: ns), e', w'. cbn. split_and!; [done..| |lia]. eapply polled_cons; eauto.
  - exists [], e, w. apply run_one_none in E1. cbn.
    split_and!; [done..|apply polled_nil|lia].
Qed.

(** ** The processor around the executor

    Where the executor is in [run]: at the [pop] of the loop, with an id popped and
    not polled yet, at one of the statements of [sleep_if_idle], or halted. *)
Inductive cpu_phase : Type :=
| Polling              (* at [task_queue.pop()] *)
| Popped (n : Z)       (* in the body of the loop *)
| Idle                 (* at [interrupts::disable()] *)
| Testing              (* at [self.task_queue.is_empty()] *)
| Sleeping             (* at [enable_and_hlt()] *)
| Awake                (* at [interrupts::enable()] *)
| Halted.              (* in the [hlt] *)

Record System : Type := MkSystem {
  sys_exec : Executor;
  sys_world : W;
  interrupt_flag : bool;
  sys_phase : cpu_phase
}.

(** One statement of [sleep_if_idle]: the interrupt flag after it and where the
    executor is then. [enable_and_hlt] ([sti; hlt]) sets the flag and halts with no
    interrupt taken between the two. *)
Definition sleep_if_idle (p : cpu_phase) (e : Executor) (flag : bool) : option (bool * cpu_phase) :=
  match p with
  | Idle => Some (false, Testing)
  | Testing => Some (flag, if aq_is_empty (task_queue e) then Sleeping else Awake)
  | Sleeping => Some (true, Halted)
  | Awake => Some (true, Polling)
  | _ => None
  end.

(** The statements of [run], in the order of the loop. *)
Inductive own_step : System -> System -> Prop :=
| step_pop e w fl n e' :
    pop_task e = Some (n, e') ->
    own_step (MkSystem e w fl Polling) (MkSystem e' w fl (Popped n))
| step_poll e w fl n e' w' :
    run_popped n e w = Ret (e', w') ->
    own_step (MkSystem e w fl (Popped n)) (MkSystem e' w' fl Polling)
| step_drained e w fl :
    pop_task e = None -> own_step (MkSystem e w fl Polling) (MkSystem e w fl Idle)
| step_sleep e w fl p fl' p' :
    sleep_if_idle p e fl = Some (fl', p') ->
    own_step (MkSystem e w fl p) (MkSystem e w fl' p').

(** An interrupt is taken between two statements, only with the flag set; its
    handler (which runs with interrupts off) changes the machine and wakes tasks,
    and a halted processor goes on behind the [hlt]. *)
Inductive irq_step : System -> System -> Prop :=
| step_interrupt e w p ids w' q :
    wake_all ids (task_queue e) = Ret q ->
    irq_step (MkSystem e w true p)
      (MkSystem (MkExecutor (tasks e) q (waker_cache e)) w' true
         (match p with Halted => Polling | _ => p end)).

Definition cpu_step (s s' : System) : Prop := own_step s s' \/ irq_step s s'.

(** Interrupts are off from the test of the queue to the statement that turns
    them on, so the queue is still empty when the processor halts. *)
Definition sys_inv (s : System) : Prop :=
  exec_inv (sys_exec s) /\
  match sys_phase s with
  | Testing | Awake => interrupt_flag s = false
  | Sleeping => interrupt_flag s = false /\ queued (sys_exec s) = []
  | Halted => interrupt_flag s = true /\ queued (sys_exec s) = []
  | Polling | Popped _ | Idle => interrupt_flag s = true
  end.

Lemma own_step_inv s s' : sys_inv s -> own_step s s' -> sys_inv s'.
Proof.
  intros [Hi Hp] Hstep. destruct Hstep as [? ? ? ? ? H|? ? ? ? ? ? H|? ? ? H|e w fl p fl' p' H]; cbn in *.
  - split; [by eapply pop_task_inv|done].
  - split; [by eapply run_popped_inv|done].
  - by split.
  - split; [done|]. destruct p; try done; injection H as <- <-; cbn; try tauto.
    rewrite aq_is_empty_spec. by case_bool_decide.
Qed.

Lemma irq_step_inv s s' : sys_inv s -> irq_step s s' -> sys_inv s'.
Proof.
  intros [Hi Hp] Hstep. destruct Hstep as [e w p ids w' q H]; cbn in *.
  split; [by eapply wake_all_inv|]. by destruct p; try (destruct Hp).
Qed.

Lemma cpu_steps_inv s s' : sys_inv s -> rtc cpu_step s s' -> sys_inv s'.
Proof.
  intros Hi Hs. induction Hs as [|s1 s2 s3 [H|H] _ IH]; eauto using own_step_inv, irq_step_inv.
Qed.

(** With a task queued, the loop pops it without waiting for an interrupt. *)
Lemma head_is_popped s n ns :
  sys_inv s -> queued (sys_exec s) = n :: ns -> (forall m, sys_phase s <> Popped m) ->
  exists s', rtc own_step s s' /\ sys_phase s' = Popped n /\ queued (sys_exec s') = ns /\
    tasks (sys_exec s') = tasks (sys_exec s) /\ sys_world s' = sys_world s.
Proof.
  destruct s as [e w fl p]. intros [Hi Hp] Hq Hpop. cbn in *.
  destruct (pop_task e) as [[n' e']|] eqn:Ep; [|apply pop_task_none in Ep; congruence].
  pose proof (pop_task_some _ _ _ Ep) as (Hq' & Ht & _). rewrite Hq in Hq'. injection Hq' as -> Hns.
  assert (forall fl, rtc own_step (MkSystem e w fl Polling) (MkSystem e' w fl (Popped n'))) as Hpoll
    by (intros; eapply rtc_l; [by apply step_pop|apply rtc_refl]).
  assert (forall fl, rtc own_step (MkSystem e w fl Awake) (MkSystem e' w true (Popped n'))) as Hawake
    by (intros; eapply rtc_l; [by apply step_sleep|apply Hpoll]).
  assert (forall fl, rtc own_step (MkSystem e w fl Testing) (MkSystem e' w true (Popped n'))) as Htest.
  { intros. eapply rtc_l; [apply step_sleep; cbn; reflexivity|]. rewrite aq_is_empty_spec.
    fold (queued e). rewrite Hq. cbn. apply Hawake. }
  destruct p as [|m| | | | |].
  - exists (MkSystem e' w fl (Popped n')). by split_and!.
  - by destruct (Hpop m).
  - exists (MkSystem e' w true (Popped n')). split_and!; try done.
    eapply rtc_l; [by apply step_sleep|]. apply Htest.
  - exists (MkSystem e' w true (Popped n')). by split_and!.
  - destruct Hp as [_ Hp]. congruence.
  - exists (MkSystem e' w true (Popped n')). by split_and!.
  - destruct Hp as [_ Hp]. congruence.
Qed.

(** With nothing queued, the loop ends in [hlt] with interrupts on. *)
Lemma idle_halts s :
  sys_inv s -> queued (sys_exec s) = [] -> (forall m, sys_phase s <> Popped m) ->
  rtc own_step s (MkSystem (sys_exec s) (sys_world s) true Halted).
Proof.
  destruct s as [e w fl p]. intros [Hi Hp] Hq Hpop. cbn in *.
  assert (pop_task e = None) as Ep
    by (destruct (pop_task e) as [[n e']|] eqn:Ep; [apply pop_task_some in Ep as [Ep _]; congruence|done]).
  assert (forall fl, rtc own_step (MkSystem e w fl Sleeping) (MkSystem e w true Halted)) as Hsleep
    by (intros; eapply rtc_l; [by apply step_sleep|apply rtc_refl]).
  assert (forall fl, rtc own_step (MkSystem e w fl Testing) (MkSystem e w true Halted)) as Htest.
  { intros. eapply rtc_l; [apply step_sleep; cbn; reflexivity|]. rewrite aq_is_empty_spec.
    fold (queued e). rewrite Hq. cbn. apply Hsleep. }
  assert (forall fl, rtc own_step (MkSystem e w fl Idle) (MkSystem e w true Halted)) as Hidle
    by (intros; eapply rtc_l; [by apply step_sleep|apply Htest]).
  assert (forall fl, rtc own_step (MkSystem e w fl Polling) (MkSystem e w true Halted)) as Hpoll
    by (intros; eapply rtc_l; [by apply step_drained|apply Hidle]).
  destruct p as [|m| | | | |]; auto.
  - by destruct (Hpop m).
  - eapply rtc_l; [by apply step_sleep|apply Hpoll].
  - destruct Hp as [-> _]. apply rtc_refl.
Qed.
End Executor.

(** ** Properties *)

Section Properties.
Context {Q : Type -> Type} {aq : ArrayQueue Q} {Fut W : Type}.
Variable poll : Z -> Fut -> W -> Poll * Fut * W * list Z.

(** C2: along every run of the kernel's main loop, with interrupts arriving between
    any two statements where they are enabled, the executor keeps its invariant
    (every cached waker belongs to a live task and wakes that task, ids are keys,
    the queue stays within its 100 slots); the processor is in [hlt], or about to
    execute it, only while the queue is empty; and whenever a task is queued and no
    other is being polled, the loop reaches the poll of that task by its own steps,
    with no further interrupt, while with nothing queued it comes to the [hlt] with
    interrupts on: a wake is never slept through, and an idle processor sleeps. *)
Theorem no_lost_wakeup (e : Executor (Q := Q)) (w : W) s :
  exec_inv e -> rtc (cpu_step poll) (MkSystem e w true Polling) s ->
  exec_inv (sys_exec s) /\
  (sys_phase s = Halted \/ sys_phase s = Sleeping -> queued (sys_exec s) = []) /\
  (sys_phase s = Halted -> interrupt_flag s = true) /\
  (forall n ns, queued (sys_exec s) = n :: ns -> (forall m, sys_phase s <> Popped m) ->
     exists s', rtc (own_step poll) s s' /\ sys_phase s' = Popped n /\ queued (sys_exec s') = ns /\
       tasks (sys_exec s') = tasks (sys_exec s) /\ sys_world s' = sys_world s) /\
  (queued (sys_exec s) = [] -> (forall m, sys_phase s <> Popped m) ->
     rtc (own_step poll) s (MkSystem (sys_exec s) (sys_world s) true Halted)).
Proof.
  intros Hi Hs. apply (cpu_steps_inv poll _ s) in Hs; [|by split].
  split_and!; [apply Hs| | |by intros; apply head_is_popped|by apply idle_halts].
  - destruct Hs as [_ Hp]. intros [E|E]; rewrite E in Hp; apply Hp.
  - destruct Hs as [_ Hp]. intros E; rewrite E in Hp; apply Hp.
Qed.

(** C24: scheduling is first in, first out and fair: when every poll wakes at most
    one task, [k] iterations of [run_ready_tasks] never panic, whatever the futures
    do, and amount to polling the first [k] queued tasks in order, each with its own
    waker: the futures left, the machine's state and the tasks woken are those of
    the reference [poll_seq], and the woken ones go behind the tasks already queued. *)
Theorem run_fair (e : Executor (Q := Q)) (w : W) k :
  exec_inv e -> (forall n f v, (length (poll n f v).2 <= 1)%nat) -> (k <= length (queued e))%nat ->
  let '(fs, w', woken) := poll_seq poll (take k (queued e)) (futures e) w in
  exists e', run_k poll k e w = Ret (take k (queued e), e', w') /\ futures e' = fs /\
    queued e' = drop k (queued e) ++ woken /\ exec_inv e'.
Proof.
  intros Hi Hw Hk. destruct (run_k_polled poll k e w Hi Hw Hk) as (ns & e' & w' & Hr & Hi' & Hl & wk & Hp & Hq).
  assert (ns = take k (queued e)) as ->.
  { apply (f_equal (take k)) in Hq. rewrite take_app_le in Hq by done.
    rewrite Hq, take_app_le, firstn_all2 by lia. done. }
  rewrite Hp. exists e'. split_and!; try done.
  apply (f_equal (drop k)) in Hq. rewrite drop_app_le in Hq by done. rewrite Hq.
  rewrite drop_app_le, skipn_all2 by lia. done.
Qed.

(** C25: [run_ready_tasks] returns: when the wakers the tasks can still invoke are
    bounded by a budget that fits in the queue's free slots, the loop ends without
    a panic after at most [length queue + budget] iterations, with the queue empty.
    The ids it went through are those queued at the start followed by all those
    woken meanwhile, and its effect on the futures and the machine is that of
    polling the tasks with these ids in this order. *)
Theorem run_ready_tasks_returns (budget : W -> nat) fuel (e : Executor (Q := Q)) (w : W) :
  within_budget poll budget ->
  exec_inv e -> (length (queued e) + budget w <= QUEUE_CAPACITY)%nat ->
  (length (queued e) + budget w < fuel)%nat ->
  exists ns e' w' woken, run_ready_tasks poll fuel e w = Ret (Some (ns, e', w')) /\
    poll_seq poll ns (futures e) w = (futures e', w', woken) /\ ns = queued e ++ woken /\
    (length ns <= length (queued e) + budget w)%nat /\ queued e' = [] /\ exec_inv e'.
Proof.
  intros Hb Hi Hc Hf.
  destruct (run_ready_tasks_drains poll budget fuel e w Hb Hi Hc Hf) as (ns & e' & w' & Hr & Hq & Hi' & (wk & Hp & Hq') & Hl).
  rewrite Hq, app_nil_r in Hq'. exists ns, e', w', wk. by split_and!.
Qed.
End Properties.

(** ** Witnesses

    Futures that count down: each poll of [S n] wakes its own task while the
    machine's energy lasts, and [0] is ready. *)

#[local] Existing Instance list_queue_queue.

Definition countdown (n : Z) (f : nat) (energy : nat) : Poll * nat * nat * list Z :=
  match f, energy with
  | O, _ => (Ready, O, energy, [])
  | S f, S energy => (Pending, f, energy, [n])
  | S f, O => (Pending, f, O, [])
  end.

Definition two_tasks : Executor (Q := list_queue) (Fut := nat) :=
  match spawn Executor_new (MkTask 0 2%nat) with
  | Ret e => match spawn e (MkTask 1 0%nat) with Ret e => e | Panic _ => Executor_new end
  | Panic _ => Executor_new
  end.

Lemma two_tasks_inv : exec_inv two_tasks.
Proof.
  unfold two_tasks.
  destruct (spawn Executor_new _) as [e|] eqn:E1; [|apply executor_new_inv].
  apply spawn_inv in E1; [|apply executor_new_inv].
  destruct (spawn e _) as [e'|] eqn:E2; [|apply executor_new_inv]. by apply spawn_inv in E2.
Qed.

Lemma countdown_wakes n f v : (length (countdown n f v).2 <= 1)%nat.
Proof. destruct f, v; cbn; lia. Qed.

Lemma countdown_budget : within_budget countdown (fun v => v).
Proof. intros n f v. destruct f, v; cbn; lia. Qed.

(** The two tasks are polled once, the processor goes idle, and an interrupt that
    wakes task 0 arrives just before interrupts are disabled: the test sees it, and
    the task is popped next. *)
Lemma no_lost_wakeup_witness :
  exists s s', rtc (cpu_step countdown) (MkSystem two_tasks 0%nat true Polling) s /\
    sys_phase s = Testing /\ queued (sys_exec s) = [0] /\
    rtc (own_step countdown) s s' /\ sys_phase s' = Popped 0.
Proof.
  assert (exists e, rtc (cpu_step countdown) (MkSystem two_tasks 0%nat true Polling) (MkSystem e 0%nat false Testing) /\
    queued e = [0]) as (e & He & Hq).
  { eexists. split.
    - eapply rtc_l; [left; eapply step_pop; vm_compute; reflexivity|].
      eapply rtc_l; [left; eapply step_poll; vm_compute; reflexivity|].
      eapply rtc_l; [left; eapply step_pop; vm_compute; reflexivity|].
      eapply rtc_l; [left; eapply step_poll; vm_compute; reflexivity|].
      eapply rtc_l; [left; eapply step_drained; vm_compute; reflexivity|].
      eapply rtc_l; [right; apply (step_interrupt _ _ _ [0] 0%nat); vm_compute; reflexivity|].
      eapply rtc_l; [left; eapply step_sleep; vm_compute; reflexivity|]. apply rtc_refl.
    - reflexivity. }
  destruct (no_lost_wakeup countdown _ _ _ two_tasks_inv He) as (_ & _ & _ & Hpop & _).
  destruct (Hpop 0 [] Hq ltac:(done)) as (s' & Hs' & Hp & _). exists (MkSystem e 0%nat false Testing), s'. by split_and!.
Defined.

Lemma run_fair_witness :
  exists e', run_k countdown 2 two_tasks 1%nat = Ret ([0; 1], e', 0%nat) /\ futures e' = {[0 := 1%nat]} /\
    queued e' = [0] /\ exec_inv e'.
Proof.
  destruct (run_fair countdown two_tasks 1%nat 2%nat two_tasks_inv countdown_wakes) as (e' & H1 & H2 & H3 & H4);
    [vm_compute; lia|]. exists e'. rewrite H2. by split_and!.
Defined.

Lemma run_ready_tasks_returns_witness :
  exists ns e' w' woken, run_ready_tasks countdown 10 two_tasks 3%nat = Ret (Some (ns, e', w')) /\
    poll_seq countdown ns (futures two_tasks) 3%nat = (futures e', w', woken) /\ ns = [0; 1] ++ woken /\
    (length ns <= 5)%nat /\ queued e' = [] /\ exec_inv e'.
Proof.
  apply (run_ready_tasks_returns countdown (fun v => v) 10 two_tasks 3%nat countdown_budget two_tasks_inv);
    vm_compute; lia.
Defined.
