(* ===== verification/Ports.v ===== *)
(** * Ports: x86 port input and output, [src/arch/ports.rs]

    The [in] and [out] instructions act on the machine's devices, a state [P] that
    is a parameter: [PortIO P] is the interface of the two instructions at each
    operand width. The six functions of the source truncate their operands to the
    registers they load. [traced P] wraps any such machine with a log of the port
    accesses, in order, so that theorems speak of what the kernel sent to the
    hardware for every behaviour of the hardware. *)

From S2P Require Import Prelude.

Class PortIO (P : Type) : Type := {
  port_out : Z -> Z -> Z -> P -> P;   (* width, port, value *)
  port_in : Z -> Z -> P -> Z * P      (* width, port *)
}.

Section Functions.
Context {P : Type} {io : PortIO P}.

Definition outb (port val : Z) (p : P) : P := port_out 8 (wrap 16 port) (wrap 8 val) p.
Definition outw (port val : Z) (p : P) : P := port_out 16 (wrap 16 port) (wrap 16 val) p.
Definition outdw (port val : Z) (p : P) : P := port_out 32 (wrap 16 port) (wrap 32 val) p.

Definition inb (port : Z) (p : P) : Z * P :=
  let '(v, p) := port_in 8 (wrap 16 port) p in (wrap 8 v, p).
Definition inw (port : Z) (p : P) : Z * P :=
  let '(v, p) := port_in 16 (wrap 16 port) p in (wrap 16 v, p).
Definition indw (port : Z) (p : P) : Z * P :=
  let '(v, p) := port_in 32 (wrap 16 port) p in (wrap 32 v, p).
End Functions.

(** ** Logged access *)

Inductive port_event : Type :=
| Out (width port val : Z)
| In (width port val : Z).

#[export] Instance port_event_eq_dec : EqDecision port_event.
Proof. solve_decision. Defined.

Definition is_out (e : port_event) : bool := match e with Out _ _ _ => true | In _ _ _ => false end.

Record traced (P : Type) : Type := MkTraced { machine : P; log : list port_event }.
Arguments machine {P}.
Arguments log {P}.
Arguments MkTraced {P}.

#[export] Instance traced_io (P : Type) {io : PortIO P} : PortIO (traced P) := {|
  port_out w port v p := MkTraced (port_out w port v (machine p)) (log p ++ [Out w port v]);
  port_in w port p :=
    let '(v, m) := port_in w port (machine p) in (v, MkTraced m (log p ++ [In w port (wrap w v)]))
|}.

(** ** Logs of the functions *)

Section Logs.
Context {P : Type} {io : PortIO P}.
Implicit Types p : traced P.

Lemma log_outb port v p : log (outb port v p) = log p ++ [Out 8 (wrap 16 port) (wrap 8 v)].
Proof. done. Qed.
Lemma log_outw port v p : log (outw port v p) = log p ++ [Out 16 (wrap 16 port) (wrap 16 v)].
Proof. done. Qed.
Lemma log_outdw port v p : log (outdw port v p) = log p ++ [Out 32 (wrap 16 port) (wrap 32 v)].
Proof. done. Qed.

Lemma log_inb port p v p' :
  inb port p = (v, p') -> log p' = log p ++ [In 8 (wrap 16 port) v] /\ 0 <= v < 256.
Proof.
  unfold inb. cbn. destruct (port_in 8 (wrap 16 port) (machine p)) as [u m]. intros [= <- <-].
  cbn. split; [done|]. apply (wrap_range 8). lia.
Qed.
Lemma log_indw port p v p' :
  indw port p = (v, p') -> log p' = log p ++ [In 32 (wrap 16 port) v] /\ 0 <= v < 2 ^ 32.
Proof.
  unfold indw. cbn. destruct (port_in 32 (wrap 16 port) (machine p)) as [u m]. intros [= <- <-].
  cbn. split; [done|]. apply (wrap_range 32). lia.
Qed.
End Logs.

#[export] Hint Rewrite @log_outb @log_outw @log_outdw : nx.

(** ** A concrete machine

    Ports that answer reads with a fixed function and ignore writes. *)
Record const_ports : Type := MkConst { answer : Z -> Z }.

#[local] Instance const_ports_io : PortIO const_ports := {|
  port_out _ _ _ p := p;
  port_in _ port p := (answer p port, p)
|}.
