(* ===== verification/Acpi.v ===== *)
(** * Acpi: ACPI table discovery and parsing, [src/devices/acpi/acpi.rs]

    The tables are packed C structures in physical memory, read through the direct
    mapping: a structure is its [layout] (fields and sizes, in order), and [field]
    reads one of them at the offset the packing gives it. Memory is a total
    function to bytes and is only read here. The state is the module's statics
    ([AcpiState]), the device manager that receives the discovered components,
    and the ports that [enable_acpi] drives. [Panic "fuel"] marks a loop that
    outlives its fuel; the theorems show it never happens. *)

From S2P Require Import Prelude Device Manager Ports.

Local Open Scope string_scope.
Local Open Scope list_scope.
Local Open Scope Z_scope.

(** ** Packed structures *)

Definition layout : Type := list (string * nat).

Fixpoint size_of (l : layout) : nat :=
  match l with [] => 0 | (_, n) :: l => n + size_of l end.

Fixpoint offset_of (f : string) (l : layout) : nat :=
  match l with
  | [] => 0
  | (g, n) :: l => if String.eqb f g then 0 else n + offset_of f l
  end.

Fixpoint field_size (f : string) (l : layout) : nat :=
  match l with
  | [] => 0
  | (g, n) :: l => if String.eqb f g then n else field_size f l
  end.

(** The field [f] of the structure at [p], for an integer field and for a byte array. *)
Definition field (m : mem) (p : Z) (l : layout) (f : string) : Z :=
  read_le m (p + Z.of_nat (offset_of f l)) (field_size f l).
Definition field_bytes (m : mem) (p : Z) (l : layout) (f : string) : list Z :=
  load_bytes m (p + Z.of_nat (offset_of f l)) (field_size f l).

Definition Rsdp : layout :=
  [("signature", 8); ("checksum", 1); ("oem_id", 6); ("revision", 1); ("rsdt_address", 4);
   ("length", 4); ("xsdt_address", 8); ("extended_checksum", 1); ("reserved", 3)]%nat.

Definition AcpiTableHeader : layout :=
  [("signature", 4); ("length", 4); ("revision", 1); ("checksum", 1); ("oem_id", 6);
   ("oem_table_id", 8); ("oem_revision", 4); ("creator_id", 4); ("creator_revision", 4)]%nat.

Definition GenericAddressStructure : layout :=
  [("address_space", 1); ("bit_width", 1); ("bit_offset", 1); ("access_size", 1); ("address", 8)]%nat.

Definition Rsdt : layout := [("header", size_of AcpiTableHeader)].
Definition Xsdt : layout := [("header", size_of AcpiTableHeader)].

Definition Facp : layout :=
  [("header", size_of AcpiTableHeader); ("firmware_ctrl", 4); ("dsdt", 4); ("reserved", 1);
   ("preferred_pm_profile", 1); ("sci_int", 2); ("smi_cmd", 4); ("acpi_enable", 1);
   ("acpi_disable", 1); ("s4bios_req", 1); ("pstate_cnt", 1); ("pm1a_evt_blk", 4);
   ("pm1b_evt_blk", 4); ("pm1a_cnt_blk", 4); ("pm1b_cnt_blk", 4); ("pm2_cnt_blk", 4);
   ("pm_tmr_blk", 4); ("gpe0_blk", 4); ("gpe1_blk", 4); ("pm1_evt_len", 1); ("pm1_cnt_len", 1);
   ("pm2_cnt_len", 1); ("pm_tmr_len", 1); ("gpe0_blk_len", 1); ("gpe1_blk_len", 1);
   ("gpe1_base", 1); ("cst_cnt", 1); ("p_lvl2_lat", 2); ("p_lvl3_lat", 2); ("flush_size", 2);
   ("flush_stride", 2); ("duty_offset", 1); ("duty_width", 1); ("day_alrm", 1); ("mon_alrm", 1);
   ("century", 1); ("iapc_boot_arch", 2); ("reserved2", 1); ("flags", 4);
   ("reset_reg", size_of GenericAddressStructure); ("reset_value", 1); ("reserved3", 3);
   ("x_firmware_ctrl", 8); ("x_dsdt", 8);
   ("x_pm1a_evt_blk", size_of GenericAddressStructure);
   ("x_pm1b_evt_blk", size_of GenericAddressStructure);
   ("x_pm1a_cnt_blk", size_of GenericAddressStructure);
   ("x_pm1b_cnt_blk", size_of GenericAddressStructure);
   ("x_pm2_cnt_blk", size_of GenericAddressStructure);
   ("x_pm_tmr_blk", size_of GenericAddressStructure);
   ("x_gpe0_blk", size_of GenericAddressStructure);
   ("x_gpe1_blk", size_of GenericAddressStructure)]%nat.

Definition Madt : layout :=
  [("header", size_of AcpiTableHeader); ("local_apic_addr", 4); ("flags", 4)]%nat.

Definition MadtEntryHeader : layout := [("entry_type", 1); ("length", 1)]%nat.

Definition MadtIoApicEntry : layout :=
  [("header", size_of MadtEntryHeader); ("io_apic_id", 1); ("reserved", 1); ("io_apic_addr", 4);
   ("global_system_interrupt_base", 4)]%nat.

Definition MadtInterruptSourceOverride : layout :=
  [("header", size_of MadtEntryHeader); ("bus", 1); ("source", 1); ("gsi", 4); ("flags", 2)]%nat.

Definition Hpet : layout :=
  [("header", size_of AcpiTableHeader); ("hardware_rev_id", 1); ("comparator_count", 1);
   ("counter_size", 1); ("reserved", 1); ("legacy_replacement", 1); ("pci_vendor_id", 2);
   ("hpet_number", 1); ("minimum_tick", 2); ("page_protection", 1);
   ("address", size_of GenericAddressStructure); ("hpet_block_id", 4); ("period", 4)]%nat.

Definition Mcfg : layout := [("header", size_of AcpiTableHeader); ("reserved", 8)]%nat.

Definition McfgAllocationL : layout :=
  [("base_address", 8); ("pci_segment_group", 2); ("start_bus", 1); ("end_bus", 1); ("reserved", 4)]%nat.

(** ** Root pointer *)

(** [bytes.iter().fold(0u8, |acc, &x| acc.wrapping_add(x))] *)
Definition sum8 (bs : list Z) : Z := foldl (fun acc x => wrap 8 (acc + x)) 0 bs.

Definition rsdp_is_valid (m : mem) (p : Z) : bool :=
  bool_decide (field_bytes m p Rsdp "signature" = str_bytes "RSD PTR ").
Definition rsdp_checksum_valid (m : mem) (p : Z) : bool := sum8 (load_bytes m p 20) =? 0.
Definition rsdp_table_address (m : mem) (p : Z) : Z :=
  if 2 <=? field m p Rsdp "revision" then field m p Rsdp "xsdt_address"
  else field m p Rsdp "rsdt_address".

Definition header_length (m : mem) (p : Z) : Z := field m p AcpiTableHeader "length".
Definition checksum_valid (m : mem) (p : Z) : bool :=
  sum8 (load_bytes m p (Z.to_nat (header_length m p))) =? 0.
Definition signature_str (m : mem) (p : Z) : string :=
  from_utf8_or "INVALID" (field_bytes m p AcpiTableHeader "signature").

Definition search_rsdp_in_range (m : mem) (start end_ phys_offset : Z) : outcome (option Z) :=
  let! start_ptr := checked_add 64 start phys_offset in
  let! end_ptr := checked_add 64 end_ phys_offset in
  match while_ret (Z.to_nat (end_ptr - start_ptr)) (fun ptr => ptr <? end_ptr)
          (fun ptr => if rsdp_is_valid m ptr && rsdp_checksum_valid m ptr
                      then inl ptr else inr (ptr + 16)) start_ptr with
  | Some (inl rsdp) => Ret (Some rsdp)
  | Some (inr _) => Ret None
  | None => Panic "fuel"
  end.

Definition find_rsdp (m : mem) (phys_offset : Z) : outcome (option Z) :=
  let! r := search_rsdp_in_range m 0x9FC00 0xA0000 phys_offset in
  match r with
  | Some rsdp => Ret (Some rsdp)
  | None => search_rsdp_in_range m 0xE0000 0x100000 phys_offset
  end.

(** ** State *)

Record IoApicInfo : Type := MkIoApicInfo { io_id : Z; io_addr : Z; io_gsi_base : Z }.
Record IsoInfo : Type := MkIsoInfo { iso_bus : Z; iso_source : Z; iso_gsi : Z; iso_flags : Z }.
Record McfgAllocation : Type := MkMcfg {
  base_address : Z; pci_segment_group : Z; start_bus : Z; end_bus : Z; mcfg_reserved : list Z
}.

(** The statics of the module. *)
Record AcpiState : Type := MkAcpi {
  madt_local_apic_addr : Z;
  ioapics : list IoApicInfo;
  isos : list IsoInfo;
  hpet_base : option Z;
  hpet_period_fs : Z;
  mcfg_allocs : list McfgAllocation
}.

Definition acpi_init : AcpiState := MkAcpi 0 [] [] None 0 [].

Definition get_local_apic_address (a : AcpiState) : option Z :=
  if madt_local_apic_addr a =? 0 then None else Some (wrap 32 (madt_local_apic_addr a)).
Definition get_hpet_address (a : AcpiState) : option Z := hpet_base a.
Definition get_hpet_period_fs (a : AcpiState) : Z := hpet_period_fs a.
Definition get_ioapics (a : AcpiState) : list IoApicInfo := ioapics a.
Definition get_isos (a : AcpiState) : list IsoInfo := isos a.
Definition get_mcfg_allocs (a : AcpiState) : list McfgAllocation := mcfg_allocs a.

Definition set_lapic v a :=
  MkAcpi v (ioapics a) (isos a) (hpet_base a) (hpet_period_fs a) (mcfg_allocs a).
Definition push_ioapic i a :=
  MkAcpi (madt_local_apic_addr a) (ioapics a ++ [i]) (isos a) (hpet_base a) (hpet_period_fs a) (mcfg_allocs a).
Definition push_iso i a :=
  MkAcpi (madt_local_apic_addr a) (ioapics a) (isos a ++ [i]) (hpet_base a) (hpet_period_fs a) (mcfg_allocs a).
Definition set_hpet base period a :=
  MkAcpi (madt_local_apic_addr a) (ioapics a) (isos a) (Some base) period (mcfg_allocs a).
Definition push_mcfg i a :=
  MkAcpi (madt_local_apic_addr a) (ioapics a) (isos a) (hpet_base a) (hpet_period_fs a) (mcfg_allocs a ++ [i]).

(** The statics with the device manager and the ports. *)
Record AcpiWorld (W P : Type) : Type := MkAW {
  acpi : AcpiState;
  manager : DeviceManager W;
  ports : P
}.
Arguments acpi {W P}.
Arguments manager {W P}.
Arguments ports {W P}.
Arguments MkAW {W P}.

(** The [DeviceInfo] of a component found by ACPI: one memory-mapped resource. *)
Definition acpi_device (dev cls a l : Z) (descr : string) : DeviceInfo :=
  MkInfo 0xffff dev cls 0x00 0x00 [MkResource MemoryMapped a l] [] descr.

Section Parsing.
Context {W P : Type} {io : PortIO P}.
Implicit Types (s : AcpiWorld W P) (m : mem).

Definition on_acpi (f : AcpiState -> AcpiState) s : AcpiWorld W P :=
  MkAW (f (acpi s)) (manager s) (ports s).
Definition register s (i : DeviceInfo) : AcpiWorld W P :=
  MkAW (acpi s) (register_device (manager s) i).2 (ports s).

(** ** FACP *)

(** [for _ in 0..n]: read the control register until SCI_EN; whether it was seen. *)
Fixpoint wait_sci_en (n : nat) (port : Z) (p : P) : bool * P :=
  match n with
  | O => (false, p)
  | S n =>
      let '(pm1a_cnt, p) := inb port p in
      if negb (pm1a_cnt .& 0x01 =? 0) then (true, p) else wait_sci_en n port p
  end.

Definition SCI_EN_TRIES : nat := Z.to_nat 3000000.

Definition enable_acpi m (facp : Z) (p : P) : P :=
  let smi_cmd := field m facp Facp "smi_cmd" in
  let acpi_enable := field m facp Facp "acpi_enable" in
  let acpi_disable := field m facp Facp "acpi_disable" in
  let pm1a_cnt_blk := field m facp Facp "pm1a_cnt_blk" in
  let p := if negb (smi_cmd =? 0) && negb (acpi_disable =? 0) then outb smi_cmd acpi_disable p else p in
  let p := if negb (smi_cmd =? 0) && negb (acpi_enable =? 0) then outb smi_cmd acpi_enable p else p in
  if negb (pm1a_cnt_blk =? 0) then (wait_sci_en SCI_EN_TRIES pm1a_cnt_blk p).2 else p.

Definition parse_facp m (table_ptr : Z) s : AcpiWorld W P :=
  MkAW (acpi s) (manager s) (enable_acpi m table_ptr (ports s)).

(** ** MADT *)

Definition ioapic_device (apic_id apic_addr gsi_base : Z) : DeviceInfo :=
  acpi_device apic_id 0x08 apic_addr 0x100
    ("ACPI IOAPIC id=" +:+ fmt_dec apic_id +:+ " gsi_base=" +:+ fmt_dec gsi_base).

(** One entry: the [match] on its type. *)
Definition madt_entry m (entry_ptr entry_len : Z) s : AcpiWorld W P :=
  match field m entry_ptr MadtEntryHeader "entry_type" with
  | 1 =>
      if Z.of_nat (size_of MadtIoApicEntry) <=? entry_len then
        let apic_id := field m entry_ptr MadtIoApicEntry "io_apic_id" in
        let apic_addr := field m entry_ptr MadtIoApicEntry "io_apic_addr" in
        let gsi_base := field m entry_ptr MadtIoApicEntry "global_system_interrupt_base" in
        register (on_acpi (push_ioapic (MkIoApicInfo apic_id apic_addr gsi_base)) s)
          (ioapic_device apic_id apic_addr gsi_base)
      else s
  | 2 =>
      if Z.of_nat (size_of MadtInterruptSourceOverride) <=? entry_len then
        on_acpi (push_iso (MkIsoInfo (field m entry_ptr MadtInterruptSourceOverride "bus")
                                     (field m entry_ptr MadtInterruptSourceOverride "source")
                                     (field m entry_ptr MadtInterruptSourceOverride "gsi")
                                     (field m entry_ptr MadtInterruptSourceOverride "flags"))) s
      else s
  | _ => s
  end.

(** [while offset < table_len] *)
Fixpoint madt_loop (fuel : nat) m (table_ptr table_len offset : Z) s : outcome (AcpiWorld W P) :=
  if offset <? table_len then
    match fuel with
    | O => Panic "fuel"
    | S fuel =>
        let entry_ptr := table_ptr + offset in
        if entry_ptr =? 0 then Ret s else
        let entry_len := field m entry_ptr MadtEntryHeader "length" in
        if entry_len =? 0 then Ret s else
        madt_loop fuel m table_ptr table_len (offset + entry_len) (madt_entry m entry_ptr entry_len s)
    end
  else Ret s.

Definition parse_madt m (table_ptr : Z) s : outcome (AcpiWorld W P) :=
  if table_ptr =? 0 then Ret s else
  if negb (checksum_valid m table_ptr) then Ret s else
  let s := on_acpi (set_lapic (field m table_ptr Madt "local_apic_addr")) s in
  let table_len := header_length m table_ptr in
  madt_loop (Z.to_nat table_len) m table_ptr table_len (Z.of_nat (size_of Madt)) s.

(** ** HPET *)

Definition hpet_device (a : Z) : DeviceInfo :=
  acpi_device 0xffff 0x04 a 0x1000 ("ACPI HPET @ " +:+ fmt_hex0x a).

Definition parse_hpet m (table_ptr : Z) s : AcpiWorld W P :=
  if table_ptr =? 0 then s else
  if negb (checksum_valid m table_ptr) then s else
  let gas_ptr := table_ptr + Z.of_nat (offset_of "address" Hpet) in
  let a := field m gas_ptr GenericAddressStructure "address" in
  if negb (a =? 0) then
    register (on_acpi (set_hpet a (field m table_ptr Hpet "period")) s) (hpet_device a)
  else s.

(** ** MCFG *)

Definition mcfg_device (a : McfgAllocation) : DeviceInfo :=
  acpi_device (pci_segment_group a) 0x06 (base_address a) 0
    ("ACPI MCFG ECAM seg=" +:+ fmt_dec (pci_segment_group a) +:+ " buses=" +:+ fmt_dec (start_bus a) +:+
     ".." +:+ fmt_dec (end_bus a) +:+ " @ " +:+ fmt_hex0x (base_address a)).

Definition read_mcfg m (p : Z) : McfgAllocation :=
  MkMcfg (field m p McfgAllocationL "base_address") (field m p McfgAllocationL "pci_segment_group")
         (field m p McfgAllocationL "start_bus") (field m p McfgAllocationL "end_bus")
         (field_bytes m p McfgAllocationL "reserved").

Fixpoint mcfg_loop (fuel : nat) m (table_ptr total_len offset : Z) s : outcome (AcpiWorld W P) :=
  if offset + Z.of_nat (size_of McfgAllocationL) <=? total_len then
    match fuel with
    | O => Panic "fuel"
    | S fuel =>
        let a := read_mcfg m (table_ptr + offset) in
        let s := register s (mcfg_device a) in
        let s := on_acpi (push_mcfg a) s in
        mcfg_loop fuel m table_ptr total_len (offset + Z.of_nat (size_of McfgAllocationL)) s
    end
  else Ret s.

Definition parse_mcfg m (table_ptr : Z) s : outcome (AcpiWorld W P) :=
  if table_ptr =? 0 then Ret s else
  let total_len := header_length m table_ptr in
  mcfg_loop (Z.to_nat total_len) m table_ptr total_len (Z.of_nat (size_of Mcfg)) s.

(** ** The table directory *)

Definition parse_specific_table (signature : list Z) m (table_phys_addr phys_offset : Z) s
    : outcome (AcpiWorld W P) :=
  let! table_virt_addr := checked_add 64 table_phys_addr phys_offset in
  if bool_decide (signature = str_bytes "FACP") then Ret (parse_facp m table_virt_addr s)
  else if bool_decide (signature = str_bytes "APIC") then parse_madt m table_virt_addr s
  else if bool_decide (signature = str_bytes "HPET") then Ret (parse_hpet m table_virt_addr s)
  else if bool_decide (signature = str_bytes "MCFG") then parse_mcfg m table_virt_addr s
  else Ret s.

Definition table_device (a l : Z) (sig : string) : DeviceInfo :=
  acpi_device 0xffff 0xFF a l ("ACPI table: " +:+ sig).

Definition print_table_info m (table_phys_addr phys_offset : Z) s : outcome (AcpiWorld W P) :=
  let! table_virt_addr := checked_add 64 table_phys_addr phys_offset in
  if table_virt_addr =? 0 then Ret s else
  if checksum_valid m table_virt_addr then
    let signature := field_bytes m table_virt_addr AcpiTableHeader "signature" in
    let length := header_length m table_virt_addr in
    let s := register s (table_device table_phys_addr length (signature_str m table_virt_addr)) in
    parse_specific_table signature m table_phys_addr phys_offset s
  else Ret s.

(** [entry_count] of [Rsdt] ([size] 4) and [Xsdt] ([size] 8). *)
Definition entry_count (size : Z) m (p : Z) : outcome Z :=
  let! n := checked_sub (header_length m p) (Z.of_nat (size_of AcpiTableHeader)) in
  Ret (n / size).

Definition table_address (size : Z) m (p index : Z) : outcome (option Z) :=
  let! n := entry_count size m p in
  if n <=? index then Ret None
  else Ret (Some (read_le m (p + Z.of_nat (size_of AcpiTableHeader) + size * index) (Z.to_nat size))).

(** [for i in 0..entry_count { if let Some(a) = table_address(i) { .. } }] *)
Fixpoint list_tables (size : Z) m (p phys_offset : Z) (is_ : list Z) s : outcome (AcpiWorld W P) :=
  match is_ with
  | [] => Ret s
  | i :: is_ =>
      let! a := table_address size m p i in
      let! s := match a with
                | Some table_phys_addr => print_table_info m table_phys_addr phys_offset s
                | None => Ret s
                end in
      list_tables size m p phys_offset is_ s
  end.

Definition parse_rsdt_xsdt m (rsdp phys_offset : Z) s : outcome (AcpiWorld W P) :=
  let! table_virt_addr := checked_add 64 (rsdp_table_address m rsdp) phys_offset in
  if negb (checksum_valid m table_virt_addr) then Ret s else
  let sig_bytes := field_bytes m table_virt_addr AcpiTableHeader "signature" in
  if bool_decide (sig_bytes = str_bytes "RSDT") then
    let! n := entry_count 4 m table_virt_addr in
    list_tables 4 m table_virt_addr phys_offset (seqZ 0 n) s
  else if bool_decide (sig_bytes = str_bytes "XSDT") then
    let! n := entry_count 8 m table_virt_addr in
    list_tables 8 m table_virt_addr phys_offset (seqZ 0 n) s
  else Ret s.

Definition init_with_offset m (phys_offset : Z) s : outcome (AcpiWorld W P) :=
  let! r := find_rsdp m phys_offset in
  match r with
  | Some rsdp => parse_rsdt_xsdt m rsdp phys_offset s
  | None => Ret s
  end.
End Parsing.

(** ** Finding the root pointer *)

Definition is_rsdp (m : mem) (p : Z) : bool := rsdp_is_valid m p && rsdp_checksum_valid m p.

(** [n] slots of 16 bytes from [base]. *)
Definition slot (base n q : Z) : Prop := exists k, 0 <= k < n /\ q = base + 16 * k.

Lemma search_rsdp_spec m start n off :
  0 <= start -> 0 <= n -> 0 <= off -> off + start + 16 * n < 2 ^ 64 ->
  exists r, search_rsdp_in_range m start (start + 16 * n) off = Ret r /\
    match r with
    | Some p => is_rsdp m p = true /\ slot (off + start) n p /\
                forall q, slot (off + start) n q -> q < p -> is_rsdp m q = false
    | None => forall q, slot (off + start) n q -> is_rsdp m q = false
    end.
Proof.
  intros H1 H2 H3 H4. unfold search_rsdp_in_range.
  rewrite !checked_add_ok by lia. cbn [outcome_bind].
  set (Inv := fun p : Z => exists k, 0 <= k /\ p = off + start + 16 * k /\
    forall j, 0 <= j < k -> is_rsdp m (off + start + 16 * j) = false).
  set (Post := fun p : Z => is_rsdp m p = true /\ Inv p /\ p < off + start + 16 * n).
  destruct (while_ret_rule Inv Post (fun p => Z.to_nat (off + start + 16 * n - p))
    (fun ptr => ptr <? start + 16 * n + off)
    (fun ptr => if rsdp_is_valid m ptr && rsdp_checksum_valid m ptr then inl ptr else inr (ptr + 16))
    (Z.to_nat (start + 16 * n + off - (start + off))) (start + off)) as (o & -> & Ho).
  - intros p Hp Hlt. apply Z.ltb_lt in Hlt. fold (is_rsdp m p).
    destruct (is_rsdp m p) eqn:E; [split; [split_and!; [done..|lia]|lia]|].
    split; [|lia]. destruct Hp as (k & Hk & -> & Hj). exists (k + 1). split_and!; [lia..|].
    intros j Hj'. destruct (decide (j = k)) as [->|]; [done|]. apply Hj. lia.
  - exists 0. split_and!; [lia..|]. intros j Hj. lia.
  - lia.
  - destruct o as [p|p].
    + destruct Ho as (Hv & (k & Hk & -> & Hj) & Hlt). eexists. split; [done|].
      split_and!; [done|exists k; split; [lia|done]|]. intros q (j & ? & ->) ?. apply Hj. lia.
    + destruct Ho as ((k & Hk & -> & Hj) & Hge). apply Z.ltb_ge in Hge.
      eexists. split; [done|]. intros q (j & ? & ->). apply Hj. lia.
Qed.

Definition rsdp_slot (off q : Z) : Prop := slot (off + 0x9FC00) 64 q \/ slot (off + 0xE0000) 8192 q.

Lemma find_rsdp_spec m off :
  0 <= off -> off + 0x100000 < 2 ^ 64 ->
  exists r, find_rsdp m off = Ret r /\
    match r with
    | Some p => is_rsdp m p = true /\ rsdp_slot off p /\
                forall q, rsdp_slot off q -> q < p -> is_rsdp m q = false
    | None => forall q, rsdp_slot off q -> is_rsdp m q = false
    end.
Proof.
  intros H1 H2. unfold find_rsdp, rsdp_slot.
  destruct (search_rsdp_spec m 0x9FC00 64 off) as (r & Hr & Hs); [lia..|].
  change (0x9FC00 + 16 * 64) with 0xA0000 in Hr. rewrite Hr. cbn [outcome_bind].
  destruct r as [p|].
  - destruct Hs as (Hv & Hp & Hf). exists (Some p). split_and!; [done|done|tauto|].
    intros q [Hq|(k & Hk & ->)] Hlt; [by apply Hf|]. destruct Hp as (j & ? & ->). lia.
  - destruct (search_rsdp_spec m 0xE0000 8192 off) as (r & Hr' & Hs'); [lia..|].
    change (0xE0000 + 16 * 8192) with 0x100000 in Hr'. rewrite Hr'. exists r. split; [done|].
    destruct r as [p|]; [|intuition]. destruct Hs' as (? & ? & ?). split_and!; [done|tauto|].
    intros q [Hq|Hq] Hlt; eauto.
Qed.

(** ** Fields of a structure whose bytes are known *)

Lemma load_bytes_sub m a n k j :
  (k + j <= n)%nat -> load_bytes m (a + Z.of_nat k) j = take j (drop k (load_bytes m a n)).
Proof.
  intros H. replace n with (k + (j + (n - k - j)))%nat by lia.
  rewrite !load_bytes_app.
  rewrite drop_app_length' by (by rewrite length_load_bytes).
  by rewrite take_app_length' by (by rewrite length_load_bytes).
Qed.

Lemma load_app_inv m a l1 l2 :
  load_bytes m a (length (l1 ++ l2)) = l1 ++ l2 ->
  load_bytes m a (length l1) = l1 /\ load_bytes m (a + Z.of_nat (length l1)) (length l2) = l2.
Proof.
  rewrite length_app, load_bytes_app. intros H.
  apply app_inj_1 in H; [done|]. by rewrite length_load_bytes.
Qed.

Lemma read_sub m a l k n :
  (k + n <= length l)%nat -> load_bytes m a (length l) = l ->
  read_le m (a + Z.of_nat k) n = le_decode (take n (drop k l)).
Proof. intros Hk Hl. unfold read_le. by rewrite (load_bytes_sub m a (length l)), Hl. Qed.

Lemma le_roundtrip w n v : 2 ^ w = 256 ^ Z.of_nat n -> in_u w v -> le_decode (le_encode n v) = v.
Proof. intros E H. rewrite le_decode_encode, <- E. by apply Z.mod_small. Qed.

(** ** The interrupt controller structures of a MADT *)

(** The entries of a table and their encoding in the ACPI specification. *)
Inductive MadtEntry : Type :=
| EIoApic (i : IoApicInfo)
| EIso (i : IsoInfo)
| EOther (entry_type : Z) (payload : list Z).

Definition encode_entry (e : MadtEntry) : list Z :=
  match e with
  | EIoApic i => [1; 12; io_id i; 0] ++ le_encode 4 (io_addr i) ++ le_encode 4 (io_gsi_base i)
  | EIso i => [2; 10; iso_bus i; iso_source i] ++ le_encode 4 (iso_gsi i) ++ le_encode 2 (iso_flags i)
  | EOther t bs => [t; 2 + Z.of_nat (length bs)] ++ bs
  end.

Definition entry_ok (e : MadtEntry) : Prop :=
  match e with
  | EIoApic i => in_u 8 (io_id i) /\ in_u 32 (io_addr i) /\ in_u 32 (io_gsi_base i)
  | EIso i => in_u 8 (iso_bus i) /\ in_u 8 (iso_source i) /\ in_u 32 (iso_gsi i) /\ in_u 16 (iso_flags i)
  | EOther t bs => t <> 1 /\ t <> 2 /\ (length bs <= 253)%nat
  end.

Definition ioapics_of (es : list MadtEntry) : list IoApicInfo :=
  omap (fun e => match e with EIoApic i => Some i | _ => None end) es.
Definition isos_of (es : list MadtEntry) : list IsoInfo :=
  omap (fun e => match e with EIso i => Some i | _ => None end) es.

Section Madt.
Context {W P : Type} {io : PortIO P}.
Implicit Types (s : AcpiWorld W P) (m : mem).

Definition apply_entry s (e : MadtEntry) : AcpiWorld W P :=
  match e with
  | EIoApic i => register (on_acpi (push_ioapic i) s) (ioapic_device (io_id i) (io_addr i) (io_gsi_base i))
  | EIso i => on_acpi (push_iso i) s
  | EOther _ _ => s
  end.

Lemma length_encode_entry e : (2 <= length (encode_entry e))%nat.
Proof. destruct e; cbn; lia. Qed.

(** The type and length bytes of an entry. *)
Lemma entry_header m p e :
  load_bytes m p (length (encode_entry e)) = encode_entry e ->
  field m p MadtEntryHeader "entry_type" = default 0 (encode_entry e !! 0%nat) /\
  field m p MadtEntryHeader "length" = Z.of_nat (length (encode_entry e)).
Proof.
  intros H. pose proof (length_encode_entry e).
  split.
  - change (read_le m (p + Z.of_nat 0) 1 = default 0 (encode_entry e !! 0%nat)).
    rewrite (read_sub m p (encode_entry e)) by (done || lia).
    destruct e; cbn -[Z.of_nat Z.add Z.mul]; rewrite ?take_0; cbn [le_decode]; lia.
  - change (read_le m (p + Z.of_nat 1) 1 = Z.of_nat (length (encode_entry e))).
    rewrite (read_sub m p (encode_entry e)) by (done || lia).
    destruct e; cbn -[Z.of_nat Z.add Z.mul]; rewrite ?take_0; cbn [le_decode]; lia.
Qed.

Lemma madt_entry_ok m p e s :
  entry_ok e -> load_bytes m p (length (encode_entry e)) = encode_entry e ->
  madt_entry m p (Z.of_nat (length (encode_entry e))) s = apply_entry s e.
Proof.
  intros Hok H. destruct (entry_header m p e H) as [Ht _]. unfold madt_entry. rewrite Ht.
  destruct e as [[i a g]|[b so g f]|t bs].
  - destruct Hok as (Hi & Ha & Hg).
    cbn -[read_le le_encode field register]. cbn in Hi, Ha, Hg.
    set (bytes := encode_entry (EIoApic (MkIoApicInfo i a g))) in H.
    assert (Hb : bytes = [1; 12; i; 0] ++ le_encode 4 a ++ le_encode 4 g) by done.
    replace (field m p MadtIoApicEntry "io_apic_id") with i.
    2: { change (i = read_le m (p + Z.of_nat 2) 1).
         rewrite (read_sub m p bytes) by (done || (cbn; lia)). cbn. lia. }
    replace (field m p MadtIoApicEntry "io_apic_addr") with a.
    2: { change (a = read_le m (p + Z.of_nat 4) 4).
         rewrite (read_sub m p bytes) by (done || (cbn; lia)). symmetry. by apply (le_roundtrip 32 4). }
    replace (field m p MadtIoApicEntry "global_system_interrupt_base") with g.
    2: { change (g = read_le m (p + Z.of_nat 8) 4).
         rewrite (read_sub m p bytes) by (done || (cbn; lia)). symmetry. by apply (le_roundtrip 32 4). }
    done.
  - destruct Hok as (Hbu & Hso & Hg & Hf).
    cbn -[read_le le_encode field]. cbn in Hbu, Hso, Hg, Hf.
    set (bytes := encode_entry (EIso (MkIsoInfo b so g f))) in H.
    replace (field m p MadtInterruptSourceOverride "bus") with b.
    2: { change (b = read_le m (p + Z.of_nat 2) 1).
         rewrite (read_sub m p bytes) by (done || (cbn; lia)). cbn. lia. }
    replace (field m p MadtInterruptSourceOverride "source") with so.
    2: { change (so = read_le m (p + Z.of_nat 3) 1).
         rewrite (read_sub m p bytes) by (done || (cbn; lia)). cbn. lia. }
    replace (field m p MadtInterruptSourceOverride "gsi") with g.
    2: { change (g = read_le m (p + Z.of_nat 4) 4).
         rewrite (read_sub m p bytes) by (done || (cbn; lia)). symmetry. by apply (le_roundtrip 32 4). }
    replace (field m p MadtInterruptSourceOverride "flags") with f.
    2: { change (f = read_le m (p + Z.of_nat 8) 2).
         rewrite (read_sub m p bytes) by (done || (cbn; lia)). symmetry. by apply (le_roundtrip 16 2). }
    done.
  - destruct Hok as (? & ? & _). cbn. destruct t as [|[[|[]|]|[|[]|]|]|]; done || lia.
Qed.

Lemma madt_loop_entries m p len es fuel offset s :
  Forall entry_ok es -> 0 < p + offset -> (length es <= fuel)%nat ->
  len = offset + Z.of_nat (length (concat (encode_entry <$> es))) ->
  load_bytes m (p + offset) (length (concat (encode_entry <$> es))) = concat (encode_entry <$> es) ->
  madt_loop fuel m p len offset s = Ret (foldl apply_entry s es).
Proof.
  intros Hok. revert fuel offset s. induction Hok as [|e es He Hes IH];
    intros fuel offset s Hp Hfuel Hlen H; cbn in Hlen, H.
  - rewrite Z.add_0_r in Hlen. subst. destruct fuel; cbn; by rewrite Z.ltb_irrefl.
  - apply load_app_inv in H as [H1 H2]. rewrite length_app in Hlen.
    pose proof (length_encode_entry e). cbn in Hfuel.
    destruct fuel as [|fuel]; [lia|]. cbn [madt_loop].
    destruct (Z.ltb_spec offset len); [|lia].
    destruct (Z.eqb_spec (p + offset) 0); [lia|].
    destruct (entry_header _ _ _ H1) as [_ ->].
    destruct (Z.eqb_spec (Z.of_nat (length (encode_entry e))) 0); [lia|].
    rewrite madt_entry_ok by done.
    rewrite IH; [done|lia|lia|lia|]. by rewrite Z.add_assoc.
Qed.

(** What a run over the entries leaves in the statics and the manager. *)
Lemma apply_entries_state es s :
  ioapics (acpi (foldl apply_entry s es)) = ioapics (acpi s) ++ ioapics_of es /\
  isos (acpi (foldl apply_entry s es)) = isos (acpi s) ++ isos_of es /\
  madt_local_apic_addr (acpi (foldl apply_entry s es)) = madt_local_apic_addr (acpi s) /\
  (fun e => info (device e)) <$> devices (manager (foldl apply_entry s es)) =
    ((fun e => info (device e)) <$> devices (manager s)) ++
    ((fun i => ioapic_device (io_id i) (io_addr i) (io_gsi_base i)) <$> ioapics_of es).
Proof.
  revert s. induction es as [|e es IH]; intros s; cbn [foldl].
  - cbn. by rewrite !app_nil_r.
  - destruct (IH (apply_entry s e)) as (-> & -> & -> & ->).
    destruct e as [i|i|t bs]; cbn; rewrite ?fmap_app; cbn; rewrite <- ?app_assoc; done.
Qed.
End Madt.

(** ** Termination on any firmware memory *)

Definition byte_mem (m : mem) : Prop := forall a, 0 <= m a < 256.

Lemma read_le_range m a n : byte_mem m -> 0 <= read_le m a n < 256 ^ Z.of_nat n.
Proof.
  intros H. unfold read_le. rewrite <- (length_load_bytes m a n) at 3.
  apply le_decode_range, Forall_forall. intros b Hb. unfold load_bytes in Hb.
  apply list_elem_of_fmap in Hb as (i & -> & _). apply H.
Qed.

Definition no_fuel {A} (o : outcome A) : Prop := o <> Panic "fuel".

Lemma no_fuel_bind {A B} (x : outcome A) (k : A -> outcome B) :
  no_fuel x -> (forall a, no_fuel (k a)) -> no_fuel (let! a := x in k a).
Proof. unfold no_fuel. destruct x; cbn; [auto|]. congruence. Qed.

Lemma no_fuel_ret {A} (a : A) : no_fuel (Ret a).
Proof. done. Qed.

Lemma no_fuel_add w x y : no_fuel (checked_add w x y).
Proof. unfold checked_add. by case_bool. Qed.

Lemma no_fuel_sub x y : no_fuel (checked_sub x y).
Proof. unfold checked_sub. by case_bool. Qed.

Create HintDb acpi discriminated.
#[export] Hint Resolve no_fuel_bind no_fuel_ret no_fuel_add no_fuel_sub : acpi.

Section Terminates.
Context {W P : Type} {io : PortIO P}.
Implicit Types (s : AcpiWorld W P) (m : mem).

Lemma search_no_fuel m start end_ off : no_fuel (search_rsdp_in_range m start end_ off).
Proof.
  apply no_fuel_bind; [auto with acpi|]. intros sp. apply no_fuel_bind; [auto with acpi|]. intros ep.
  destruct (while_ret_rule (fun _ => True) (fun _ => True) (fun p => Z.to_nat (ep - p))
    (fun ptr => ptr <? ep)
    (fun ptr => if rsdp_is_valid m ptr && rsdp_checksum_valid m ptr then inl ptr else inr (ptr + 16))
    (Z.to_nat (ep - sp)) sp) as (o & -> & _); [|done..|by destruct o].
  intros p _ H%Z.ltb_lt. destruct (_ && _); split; try done; lia.
Qed.

Lemma madt_loop_total m p len fuel offset s :
  byte_mem m -> (Z.to_nat (len - offset) <= fuel)%nat ->
  exists s', madt_loop fuel m p len offset s = Ret s'.
Proof.
  intros Hm. revert offset s. induction fuel as [|fuel IH]; intros offset s Hf; cbn [madt_loop].
  - destruct (Z.ltb_spec offset len); [lia|by eexists].
  - destruct (Z.ltb_spec offset len); [|by eexists].
    destruct (p + offset =? 0); [by eexists|].
    set (l := field m (p + offset) MadtEntryHeader "length").
    assert (0 <= l) by apply (read_le_range _ _ _ Hm).
    destruct (Z.eqb_spec l 0); [by eexists|]. apply IH. lia.
Qed.

Lemma parse_madt_total m p s : byte_mem m -> exists s', parse_madt m p s = Ret s'.
Proof.
  intros Hm. unfold parse_madt. destruct (p =? 0); [by eexists|].
  destruct (negb _); [by eexists|]. apply madt_loop_total; [done|lia].
Qed.

(** [mcfg_loop] registers and records the allocations that fit in the table. *)
Definition add_mcfg s (a : McfgAllocation) : AcpiWorld W P :=
  on_acpi (push_mcfg a) (register s (mcfg_device a)).

Lemma mcfg_loop_spec m p len fuel offset s :
  (Z.to_nat (len - offset) <= fuel)%nat ->
  mcfg_loop fuel m p len offset s =
    Ret (foldl add_mcfg s ((fun k => read_mcfg m (p + offset + 16 * k)) <$> seqZ 0 ((len - offset) / 16))).
Proof.
  change 16 with (Z.of_nat (size_of McfgAllocationL)).
  revert offset s. induction fuel as [|fuel IH]; intros offset s Hf; cbn [mcfg_loop];
    change (Z.of_nat (size_of McfgAllocationL)) with 16 in *;
    (destruct (Z.leb_spec (offset + 16) len); [try lia|by rewrite (seqZ_nil 0 ((len - offset) / 16)) by zdiv]).
  rewrite IH by lia.
  rewrite (seqZ_cons 0 ((len - offset) / 16)) by zdiv. cbn [fmap list_fmap foldl].
  rewrite Z.mul_0_r, Z.add_0_r. fold (add_mcfg s (read_mcfg m (p + offset))).
  do 2 f_equal. replace (Z.pred ((len - offset) / 16)) with ((len - (offset + 16)) / 16) by zdiv.
  rewrite <- (fmap_add_seqZ 1 0), <- list_fmap_compose. apply list_fmap_ext. intros i k _. cbn.
  f_equal. lia.
Qed.

Lemma parse_mcfg_total m p s : exists s', parse_mcfg m p s = Ret s'.
Proof.
  unfold parse_mcfg. destruct (p =? 0); [by eexists|]. rewrite mcfg_loop_spec by lia. by eexists.
Qed.

Lemma add_mcfg_allocs l s : mcfg_allocs (acpi (foldl add_mcfg s l)) = mcfg_allocs (acpi s) ++ l.
Proof.
  revert s. induction l as [|a l IH]; intros s; cbn; [by rewrite app_nil_r|].
  by rewrite IH; cbn; rewrite <- app_assoc.
Qed.

Lemma parse_specific_no_fuel sig m a off s : byte_mem m -> no_fuel (parse_specific_table sig m a off s).
Proof.
  intros Hm. apply no_fuel_bind; [auto with acpi|]. intros v.
  repeat case_bool_decide; auto with acpi.
  - by destruct (parse_madt_total m v s Hm) as [? ->].
  - by destruct (parse_mcfg_total m v s) as [? ->].
Qed.

Lemma print_table_no_fuel m a off s : byte_mem m -> no_fuel (print_table_info m a off s).
Proof.
  intros Hm. apply no_fuel_bind; [auto with acpi|]. intros v.
  destruct (v =? 0); [done|]. destruct (checksum_valid m v); [|done]. by apply parse_specific_no_fuel.
Qed.

Lemma list_tables_no_fuel size m p off is_ s : byte_mem m -> no_fuel (list_tables size m p off is_ s).
Proof.
  intros Hm. revert s. induction is_ as [|i is_ IH]; intros s; cbn; [done|].
  apply no_fuel_bind.
  - unfold table_address, entry_count. repeat (apply no_fuel_bind; [|intros]); auto with acpi. by case_bool.
  - intros [a|]; apply no_fuel_bind; auto using print_table_no_fuel with acpi.
Qed.

Lemma parse_rsdt_no_fuel m r off s : byte_mem m -> no_fuel (parse_rsdt_xsdt m r off s).
Proof.
  intros Hm. apply no_fuel_bind; [auto with acpi|]. intros v.
  destruct (negb _); [done|]. unfold entry_count.
  repeat case_bool_decide; repeat (apply no_fuel_bind; intros); auto using list_tables_no_fuel with acpi.
Qed.

Lemma init_no_fuel m off s : byte_mem m -> no_fuel (init_with_offset m off s).
Proof.
  intros Hm. unfold init_with_offset, find_rsdp.
  apply no_fuel_bind.
  - apply no_fuel_bind; [apply search_no_fuel|]. intros [r|]; [done|apply search_no_fuel].
  - intros [r|]; [by apply parse_rsdt_no_fuel|done].
Qed.

(** ** The enable handshake *)

(** The reads of [wait_sci_en]: [idle] values without SCI_EN, then the value with
    SCI_EN that ends the wait, or the end of the tries. *)
Lemma wait_sci_en_log n port (p : traced P) :
  exists idle, Forall (fun v => Z.testbit v 0 = false) idle /\
    match wait_sci_en n port p with
    | (true, p') => exists v, Z.testbit v 0 = true /\ (length idle < n)%nat /\
        log p' = log p ++ (In 8 (wrap 16 port) <$> idle ++ [v])
    | (false, p') => length idle = n /\ log p' = log p ++ (In 8 (wrap 16 port) <$> idle)
    end.
Proof.
  revert p. induction n as [|n IH]; intros p; cbn [wait_sci_en].
  - exists []. cbn. by rewrite app_nil_r.
  - destruct (inb port p) as [v p1] eqn:E. apply log_inb in E as [Hl Hv].
    change (negb (v .& 0x01 =? 0)) with (test_mask v 0). rewrite test_mask_testbit by lia.
    destruct (Z.testbit v 0) eqn:Ev.
    + exists []. split; [done|]. exists v. split_and!; [done|cbn; lia|done].
    + destruct (IH p1) as (idle & Hi & Hm). exists (v :: idle). split; [by constructor|].
      rewrite Hl in Hm. destruct (wait_sci_en n port p1) as [[] p2]; cbn [length].
      * destruct Hm as (u & ? & ? & ->). exists u. rewrite <- app_assoc. split_and!; [done|lia|done].
      * destruct Hm as [? ->]. rewrite <- app_assoc. split; [lia|done].
Qed.
End Terminates.

(** ** Properties *)

Section Properties.
Context {W P : Type} {io : PortIO P}.

(** C29: [find_rsdp] returns, for every memory, the root pointer with the lowest
    address among the 16-byte aligned slots of the EBDA and the BIOS area (a slot
    holds one when the signature and the checksum are right), and [None] exactly
    when no slot holds one. *)
Theorem find_rsdp_first m off :
  0 <= off -> off + 0x100000 < 2 ^ 64 ->
  exists r, find_rsdp m off = Ret r /\
    match r with
    | Some p => is_rsdp m p = true /\ rsdp_slot off p /\
                forall q, rsdp_slot off q -> q < p -> is_rsdp m q = false
    | None => forall q, rsdp_slot off q -> is_rsdp m q = false
    end.
Proof. apply find_rsdp_spec. Qed.

(** C8: [parse_madt] inverts the encoding of the interrupt controller structures:
    on a table whose body is the encoding of [es] (I/O APICs, interrupt source
    overrides and any other structures, in any order), it appends exactly the I/O
    APICs and the overrides, in table order and with every field intact, stores
    the local APIC address, and registers one device per I/O APIC. *)
Theorem parse_madt_reads_table m p (s : AcpiWorld W P) es :
  0 < p -> checksum_valid m p = true -> Forall entry_ok es ->
  header_length m p = 44 + Z.of_nat (length (concat (encode_entry <$> es))) ->
  load_bytes m (p + 44) (length (concat (encode_entry <$> es))) = concat (encode_entry <$> es) ->
  exists s', parse_madt m p s = Ret s' /\
    get_ioapics (acpi s') = get_ioapics (acpi s) ++ ioapics_of es /\
    get_isos (acpi s') = get_isos (acpi s) ++ isos_of es /\
    madt_local_apic_addr (acpi s') = field m p Madt "local_apic_addr" /\
    (fun e => info (device e)) <$> devices (manager s') =
      ((fun e => info (device e)) <$> devices (manager s)) ++
      ((fun i => ioapic_device (io_id i) (io_addr i) (io_gsi_base i)) <$> ioapics_of es).
Proof.
  intros Hp Hc Hok Hlen Hbody. unfold parse_madt.
  destruct (Z.eqb_spec p 0); [lia|]. rewrite Hc. cbn [negb].
  assert (length es <= length (concat (encode_entry <$> es)))%nat.
  { clear. induction es as [|e es IH]; cbn; [lia|]. rewrite length_app.
    pose proof (length_encode_entry e). lia. }
  rewrite (madt_loop_entries m p _ es) by (done || (change (size_of Madt) with 44%nat; lia)).
  eexists. split; [done|].
  destruct (apply_entries_state es (on_acpi (set_lapic (field m p Madt "local_apic_addr")) s))
    as (? & ? & ? & ?). done.
Qed.

(** C30: ACPI initialisation ends on every memory: whatever bytes the firmware areas
    and the tables hold (malformed lengths included), none of the scanning and
    parsing loops outlives its bound. *)
Theorem acpi_init_terminates m off (s : AcpiWorld W P) :
  byte_mem m -> init_with_offset m off s <> Panic "fuel".
Proof. apply init_no_fuel. Qed.

(** C31: [parse_mcfg] records exactly the allocations that fit in the table: the
    [n = (length - 44) / 16] structures from offset 44, in order, none of which
    reaches past the table's end. *)
Theorem parse_mcfg_reads_table m p (s : AcpiWorld W P) :
  p <> 0 ->
  let n := (header_length m p - 44) / 16 in
  exists s', parse_mcfg m p s = Ret s' /\
    get_mcfg_allocs (acpi s') =
      get_mcfg_allocs (acpi s) ++ ((fun k => read_mcfg m (p + 44 + 16 * k)) <$> seqZ 0 n) /\
    forall k, 0 <= k < n -> 44 + 16 * k + Z.of_nat (size_of McfgAllocationL) <= header_length m p.
Proof.
  intros Hp n. unfold parse_mcfg. destruct (Z.eqb_spec p 0); [done|].
  rewrite mcfg_loop_spec by lia. eexists. split; [done|].
  unfold get_mcfg_allocs. rewrite add_mcfg_allocs. split; [done|].
  intros k Hk. unfold n in Hk. change (Z.of_nat (size_of McfgAllocationL)) with 16. zdiv.
Qed.

(** C38: the port accesses of [enable_acpi], for every behaviour of the hardware:
    the disable command, then the enable command (each only when the table gives
    a command port and a value), then at most 3,000,000 reads of the control
    register, which stop at the first value with SCI_EN set. *)
Theorem enable_acpi_handshake m facp (p : traced P) :
  let smi_cmd := field m facp Facp "smi_cmd" in
  let command v := if negb (smi_cmd =? 0) && negb (v =? 0)
                   then [Out 8 (wrap 16 smi_cmd) (wrap 8 v)] else [] in
  let pm1a := field m facp Facp "pm1a_cnt_blk" in
  exists idle final,
    log (enable_acpi m facp p) =
      log p ++ command (field m facp Facp "acpi_disable") ++ command (field m facp Facp "acpi_enable") ++
      (In 8 (wrap 16 pm1a) <$> idle ++ final) /\
    Forall (fun v => Z.testbit v 0 = false) idle /\ Forall (fun v => Z.testbit v 0 = true) final /\
    (length final <= 1)%nat /\ (length (idle ++ final) <= SCI_EN_TRIES)%nat /\
    (final = [] -> pm1a <> 0 -> length idle = SCI_EN_TRIES) /\ (pm1a = 0 -> idle ++ final = []).
Proof.
  intros smi_cmd command pm1a. unfold enable_acpi. fold smi_cmd pm1a.
  set (p1 := if _ && negb (field m facp Facp "acpi_disable" =? 0) then _ else p).
  assert (log p1 = log p ++ command (field m facp Facp "acpi_disable")) as H1.
  { unfold p1, command. destruct (_ && _); [apply log_outb|by rewrite app_nil_r]. }
  clearbody p1.
  set (p2 := if _ && _ then _ else p1).
  assert (log p2 = log p1 ++ command (field m facp Facp "acpi_enable")) as H2.
  { unfold p2, command. destruct (_ && _); [apply log_outb|by rewrite app_nil_r]. }
  clearbody p2.
  destruct (Z.eqb_spec pm1a 0) as [Hz|Hnz]; cbn [negb].
  - exists [], []. rewrite H2, H1. cbn. rewrite app_nil_r, <- app_assoc. split_and!; try done; lia.
  - destruct (wait_sci_en_log SCI_EN_TRIES pm1a p2) as (idle & Hi & Hw).
    rewrite H2, H1 in Hw.
    destruct (wait_sci_en SCI_EN_TRIES pm1a p2) as [[] p3]; cbn [snd].
    + destruct Hw as (v & Hv & Hl & ->). exists idle, [v]. rewrite <- !app_assoc, length_app.
      split_and!; [done|done|by constructor|by cbn|cbn; lia|done|done].
    + destruct Hw as [Hl ->]. exists idle, []. rewrite <- !app_assoc, app_nil_r.
      split_and!; [done|done|by constructor|cbn; lia|lia|done|done].
Qed.
End Properties.

(** ** Concrete tables *)

#[local] Existing Instance const_ports_io.

Definition checksum_byte (bs : list Z) : Z := (- sum8 bs) `mod` 256.

(** A table: signature, length, revision, checksum, identification, body. *)
Definition make_table (sig : string) (body : list Z) : list Z :=
  let len := le_encode 4 (36 + Z.of_nat (length body)) in
  let rest := replicate 26 0 ++ body in
  str_bytes sig ++ len ++ [1; checksum_byte (str_bytes sig ++ len ++ [1] ++ rest)] ++ rest.

Definition mem_with (a : Z) (bs : list Z) : mem := store_bytes (fun _ => 0) a bs.

Definition sample_world : AcpiWorld unit const_ports :=
  MkAW acpi_init manager_new (MkConst (fun _ => 0)).

Definition sample_entries : list MadtEntry :=
  [EOther 0 [0; 0; 1; 0; 0; 0]; EIoApic (MkIoApicInfo 2 0xFEC00000 0); EIso (MkIsoInfo 0 0 2 0);
   EOther 4 [255; 0; 0; 1]].

Definition sample_madt : mem :=
  mem_with 4096 (make_table "APIC" (le_encode 4 0xFEE00000 ++ le_encode 4 1 ++
                                    concat (encode_entry <$> sample_entries))).

Definition sample_rsdp : mem :=
  mem_with 0xE0010 (str_bytes "RSD PTR " ++ [checksum_byte (str_bytes "RSD PTR ")]).

Lemma find_rsdp_first_witness :
  exists r, find_rsdp sample_rsdp 0 = Ret r /\
    match r with
    | Some p => is_rsdp sample_rsdp p = true /\ rsdp_slot 0 p /\
                forall q, rsdp_slot 0 q -> q < p -> is_rsdp sample_rsdp q = false
    | None => forall q, rsdp_slot 0 q -> is_rsdp sample_rsdp q = false
    end.
Proof. refine (find_rsdp_first sample_rsdp 0 _ _); clear; lia. Defined.

Lemma parse_madt_reads_table_witness :
  exists s', parse_madt sample_madt 4096 sample_world = Ret s' /\
    get_ioapics (acpi s') = [MkIoApicInfo 2 0xFEC00000 0] /\
    get_isos (acpi s') = [MkIsoInfo 0 0 2 0] /\
    madt_local_apic_addr (acpi s') = 0xFEE00000.
Proof.
  destruct (parse_madt_reads_table sample_madt 4096 sample_world sample_entries)
    as (s' & H1 & H2 & H3 & H4 & _).
  - lia.
  - vm_compute. reflexivity.
  - unfold sample_entries. repeat constructor; cbn; unfold in_u; lia.
  - vm_compute. reflexivity.
  - vm_compute. reflexivity.
  - exists s'. split_and!; [exact H1|exact H2|exact H3|]. rewrite H4. vm_compute. reflexivity.
Defined.

Lemma mem_with_bytes a bs : Forall (fun b => 0 <= b < 256) bs -> byte_mem (mem_with a bs).
Proof.
  intros H x. unfold mem_with. rewrite store_bytes_spec. destruct (_ && _); [|lia].
  destruct (bs !! Z.to_nat (x - a)) eqn:E; cbn; [|lia].
  rewrite Forall_forall in H. apply H. by eapply list_elem_of_lookup_2.
Qed.

Lemma acpi_init_terminates_witness : init_with_offset (mem_with 0 []) 0 sample_world <> Panic "fuel".
Proof. apply (acpi_init_terminates (mem_with 0 []) 0 sample_world). apply mem_with_bytes. constructor. Defined.

Lemma parse_mcfg_reads_table_witness :
  exists s', parse_mcfg (mem_with 4096 (make_table "MCFG" (replicate 8 0 ++ le_encode 8 0xB0000000 ++
      [0; 0; 0; 255; 0; 0; 0; 0]))) 4096 sample_world = Ret s' /\
    get_mcfg_allocs (acpi s') = [MkMcfg 0xB0000000 0 0 255 [0; 0; 0; 0]].
Proof.
  set (m := mem_with _ _).
  destruct (parse_mcfg_reads_table m 4096 sample_world) as (s' & H1 & H2 & _); [lia|].
  exists s'. split; [exact H1|]. rewrite H2. vm_compute. reflexivity.
Defined.

(** The HPET table of the ACPI HPET specification (56 bytes: event timer block id,
    base address structure at offset 40, sequence number, minimum tick, page
    protection), as firmware with the timer at [0xFED00000] provides it. *)
Definition sample_hpet : mem :=
  mem_with 4096 (make_table "HPET" (le_encode 4 0x8086A201 ++ [0; 64; 0; 0] ++ le_encode 8 0xFED00000 ++
                                    [0] ++ le_encode 2 0x64 ++ [0])).

(** The [Hpet] structure places the base address at offset 51 where the HPET
    table has it at offset 44: for a conforming table with the timer at
    [0xFED00000] (and a valid checksum), [parse_hpet] records a different address,
    read from the minimum tick and beyond, and a period of 0. *)
Theorem parse_hpet_misreads_base :
  checksum_valid sample_hpet 4096 = true /\
  read_le sample_hpet (4096 + 44) 8 = 0xFED00000 /\
  let s := parse_hpet sample_hpet 4096 sample_world in
  get_hpet_address (acpi s) = Some 0x640000 /\ get_hpet_period_fs (acpi s) = 0.
Proof. vm_compute. done. Qed.

(** A root table whose length field is 0 has a valid (empty) checksum, and the
    entry count underflows. *)
Example short_rsdt_panics :
  parse_rsdt_xsdt (store_bytes (mem_with 4096 (str_bytes "RSDT")) 16 (le_encode 4 4096)) 0 0 sample_world =
  Panic "attempt to subtract with overflow".
Proof. vm_compute. reflexivity. Qed.
