(* ===== verification/Ioapic.v ===== *)
(** * Ioapic: the I/O APIC driver, [src/hal/ioapic.rs]

    The I/O APIC is reached through two memory-mapped registers: a select register
    and a data window. [Mmio] is the interface of memory-mapped accesses;
    [IoApicSpec] states how the chip answers them (82093AA data sheet: the window
    accesses the selected register, a redirection register keeps the writable bits
    of what is stored). Everything else is the driver: the table of discovered
    chips, the search by global system interrupt (GSI), and the programming of
    redirection entries. The specification the theorems refine the driver to is a
    map from GSIs to redirection entries, [redir]. *)

From S2P Require Import Prelude Device Manager Ports Acpi.

Local Open Scope Z_scope.

(** ** The hardware *)

Class Mmio (D : Type) : Type := {
  mmio_write32 : Z -> Z -> D -> D;
  mmio_read32 : Z -> D -> Z * D
}.

(** What a redirection register holds after a store: of the low half, the vector,
    delivery mode, destination mode, polarity, trigger mode and mask are written
    and the delivery status and remote IRR bits are read-only; of the high half,
    the destination. *)
Definition redir_store (r v old : Z) : Z :=
  if Z.even r then (v .& 0x1AFFF) .| (old .& 0x5000) else v .& 0xFF000000.

Class IoApicSpec (D : Type) {hw : Mmio D} : Type := {
  present : Z -> Prop;                  (* a chip is mapped at this address *)
  selected : D -> Z -> Z;
  register_of : D -> Z -> Z -> Z;       (* chip, register *)
  select_spec b v d :
    present b ->
    selected (mmio_write32 b v d) b = wrap 8 v /\
    forall b' r, register_of (mmio_write32 b v d) b' r = register_of d b' r;
  window_write_spec b v d :
    present b -> 0x10 <= selected d b ->
    forall b' r, present b' -> register_of (mmio_write32 (b + 0x10) v d) b' r =
      if (b' =? b) && (r =? selected d b) then redir_store r v (register_of d b r)
      else register_of d b' r;
  window_read_spec b d :
    present b -> mmio_read32 (b + 0x10) d = (register_of d b (selected d b), d)
}.

(** The version register is read-only; it holds the number of the last entry. *)
Class IoApicVersion (D : Type) {hw : Mmio D} {spec : IoApicSpec D} : Type := {
  max_redir : Z -> Z;
  version_spec d b : present b -> (register_of d b 1 .>> 16) .& 0xFF = max_redir b
}.

Definition IOAPIC_REG_SELECT : Z := 0x00.
Definition IOAPIC_REG_WINDOW : Z := 0x10.

Record IoApic : Type := MkIoApic { id : Z; phys_addr : Z; gsi_base : Z; redir_entries : Z }.

Section Driver.
Context {D : Type} {hw : Mmio D}.
Implicit Types (d : D) (table : list IoApic).

Definition read_reg (base reg : Z) d : Z * D :=
  let d := mmio_write32 (base + IOAPIC_REG_SELECT) reg d in
  mmio_read32 (base + IOAPIC_REG_WINDOW) d.

Definition write_reg (base reg val : Z) d : D :=
  let d := mmio_write32 (base + IOAPIC_REG_SELECT) reg d in
  mmio_write32 (base + IOAPIC_REG_WINDOW) val d.

Definition read_id (io : IoApic) (phys_offset : Z) d : outcome (option Z * D) :=
  let! virt := checked_add 64 (phys_addr io) phys_offset in
  if virt =? 0 then Ret (None, d) else
  let '(v, d) := read_reg virt 0 d in Ret (Some (wrap 8 (v .>> 24)), d).

Definition read_version (io : IoApic) (phys_offset : Z) d : outcome (option Z * D) :=
  let! virt := checked_add 64 (phys_addr io) phys_offset in
  if virt =? 0 then Ret (None, d) else
  let '(v, d) := read_reg virt 1 d in Ret (Some (wrap 8 (v .& 0xFF)), d).

Definition read_redir_count (io : IoApic) (phys_offset : Z) d : outcome (option Z * D) :=
  let! virt := checked_add 64 (phys_addr io) phys_offset in
  if virt =? 0 then Ret (None, d) else
  let '(reg, d) := read_reg virt 1 d in
  let max_redir := (reg .>> 16) .& 0xFF in Ret (Some (max_redir + 1), d).

(** [init_from_acpi]: one entry per I/O APIC of the MADT, then the version
    registers are read for the log. *)
Definition discover (phys_offset : Z) (info : IoApicInfo) (s : list IoApic * D)
    : outcome (list IoApic * D) :=
  let '(table, d) := s in
  let! virt := checked_add 64 (io_addr info) phys_offset in
  let '(redirs, d) :=
    if negb (virt =? 0) then
      let '(reg, d) := read_reg virt 1 d in (((reg .>> 16) .& 0xFF) + 1, d)
    else (24, d) in
  Ret (table ++ [MkIoApic (io_id info) (io_addr info) (io_gsi_base info) redirs], d).

Definition log_version (phys_offset : Z) (io : IoApic) d : outcome D :=
  let! (_, d) := read_version io phys_offset d in Ret d.

Definition init_from_acpi (a : AcpiState) (phys_offset : Z) table d : outcome (list IoApic * D) :=
  match get_ioapics a with
  | [] => Ret (table, d)
  | infos =>
      let! (table, d) := for_each (discover phys_offset) infos (table, d) in
      let! d := for_each (log_version phys_offset) table d in
      Ret (table, d)
  end.

Definition list_ioapics table : list IoApic := table.

(** [find_ioapic_for_gsi] from position [i] of the table on. *)
Fixpoint find_from (i : nat) table (gsi : Z) : outcome (option (nat * Z)) :=
  match table with
  | [] => Ret None
  | io :: table =>
      let start := gsi_base io in
      let! end_ := checked_add 32 start (redir_entries io) in
      if (start <=? gsi) && (gsi <? end_) then Ret (Some (i, gsi - start))
      else find_from (S i) table gsi
  end.

Definition find_ioapic_for_gsi table (gsi : Z) : outcome (option (nat * Z)) := find_from 0 table gsi.

(** The chip and the two registers of a GSI's entry, as each of the functions
    below computes them: [None] when no chip handles it. *)
Definition locate table (phys_offset gsi : Z) : outcome (option (Z * Z * Z)) :=
  let! r := find_ioapic_for_gsi table gsi in
  match r with
  | Some (idx, local) =>
      match table !! idx with
      | Some io =>
          let! virt := checked_add 64 (phys_addr io) phys_offset in
          if virt =? 0 then Ret None else
          let! reg_low := checked_add 8 0x10 (wrap 8 (local * 2)) in
          let! reg_high := checked_add 8 reg_low 1 in
          Ret (Some (virt, reg_low, reg_high))
      | None => Ret None
      end
  | None => Ret None
  end.

Definition write_redirection_entry_for_gsi table (gsi low high phys_offset : Z) d : outcome (bool * D) :=
  let! r := locate table phys_offset gsi in
  match r with
  | Some (virt, reg_low, reg_high) =>
      let d := write_reg virt reg_high high d in
      let d := write_reg virt reg_low low d in
      Ret (true, d)
  | None => Ret (false, d)
  end.

(** The masked entry both programming loops write: vector [0x20 + irq]. *)
Definition legacy_low (irq : Z) : Z :=
  let vector := wrap 32 (0x20 + irq) .& 0xFF in (vector .& 0xFF) .| (1 .<< 16).

Definition apply_iso table (phys_offset : Z) (iso : IsoInfo) d : outcome D :=
  let! r := find_ioapic_for_gsi table (iso_gsi iso) in
  match r with
  | Some _ =>
      let! (_, d) := write_redirection_entry_for_gsi table (iso_gsi iso) (legacy_low (iso_source iso)) 0 phys_offset d in
      Ret d
  | None => Ret d
  end.

Definition apply_isos_from_acpi (a : AcpiState) table (phys_offset : Z) d : outcome D :=
  for_each (apply_iso table phys_offset) (get_isos a) d.

Definition apply_legacy table (phys_offset irq : Z) d : outcome D :=
  let! (_, d) := write_redirection_entry_for_gsi table irq (legacy_low irq) 0 phys_offset d in Ret d.

Definition apply_legacy_isa_fallback table (phys_offset : Z) d : outcome D :=
  for_each (apply_legacy table phys_offset) (seqZ 0 16) d.

(** The body of both loops of [enable_isos_for_local]. *)
Definition enable_gsi table (phys_offset local_apic_id gsi : Z) d : outcome D :=
  let! r := locate table phys_offset gsi in
  match r with
  | Some (virt, reg_low, reg_high) =>
      let '(_, d) := read_reg virt reg_high d in
      let '(low, d) := read_reg virt reg_low d in
      let high := wrap 32 (local_apic_id .<< 24) in
      let low := low .& lnotw 32 (1 .<< 16) in
      let d := write_reg virt reg_high high d in
      let d := write_reg virt reg_low low d in
      Ret d
  | None => Ret d
  end.

Definition enable_isos_for_local (a : AcpiState) table (phys_offset local_apic_id : Z) d : outcome D :=
  match get_isos a with
  | [] => Ret d
  | isos =>
      let! d := for_each (enable_gsi table phys_offset local_apic_id) (iso_gsi <$> isos) d in
      for_each (enable_gsi table phys_offset local_apic_id) (seqZ 0 16) d
  end.

Definition unmask_gsi table (gsi vector local_apic_id phys_offset : Z) d : outcome (bool * D) :=
  let! r := locate table phys_offset gsi in
  match r with
  | Some (virt, reg_low, reg_high) =>
      let '(_, d) := read_reg virt reg_high d in
      let '(low, d) := read_reg virt reg_low d in
      let low := (low .& lnotw 32 0xFF) .| (vector .& 0xFF) in
      let high := wrap 32 (local_apic_id .<< 24) in
      let low := low .& lnotw 32 (1 .<< 16) in
      let d := write_reg virt reg_high high d in
      let d := write_reg virt reg_low low d in
      Ret (true, d)
  | None => Ret (false, d)
  end.

Definition read_redirection_entry table (gsi phys_offset : Z) d : outcome (option (Z * Z) * D) :=
  let! r := locate table phys_offset gsi in
  match r with
  | Some (virt, reg_low, reg_high) =>
      let '(low, d) := read_reg virt reg_low d in
      let '(high, d) := read_reg virt reg_high d in
      Ret (Some (low, high), d)
  | None => Ret (None, d)
  end.
End Driver.

(** ** The specification: a map from GSIs to entries *)

Section Spec.
Context {D : Type} {hw : Mmio D} {spec : IoApicSpec D}.
Implicit Types (d : D) (table : list IoApic) (io : IoApic).

Definition handles (g : Z) io : bool := (gsi_base io <=? g) && (g <? gsi_base io + redir_entries io).

Definition chip_ok (off : Z) io : Prop :=
  0 <= gsi_base io /\ gsi_base io + redir_entries io < 2 ^ 32 /\ 0 <= redir_entries io <= 120 /\
  0 < phys_addr io + off < 2 ^ 64 /\ present (phys_addr io + off).

Definition table_ok (off : Z) table : Prop :=
  Forall (chip_ok off) table /\ NoDup (phys_addr <$> table).

(** The entry (low half, high half) of a GSI in the chips' registers. *)
Definition redir table (off : Z) d (g : Z) : option (Z * Z) :=
  match locate table off g with
  | Ret (Some (virt, reg_low, reg_high)) => Some (register_of d virt reg_low, register_of d virt reg_high)
  | _ => None
  end.

(** Two states with the same registers. *)
Definition same_regs d d' : Prop := forall b r, present b -> register_of d b r = register_of d' b r.

#[export] Instance same_regs_equivalence : Equivalence same_regs.
Proof.
  split.
  - by intros d b r.
  - intros d d' H b r Hb. by rewrite H.
  - intros d1 d2 d3 H H' b r Hb. by rewrite H, H'.
Qed.

(** ** Register access *)

Lemma read_reg_spec b r d :
  present b -> 0 <= r < 256 ->
  exists d', read_reg b r d = (register_of d b r, d') /\ same_regs d' d.
Proof.
  intros Hb Hr. unfold read_reg, IOAPIC_REG_SELECT, IOAPIC_REG_WINDOW. rewrite Z.add_0_r.
  destruct (select_spec b r d Hb) as [Hs Hv]. rewrite window_read_spec, Hs, Hv by done.
  rewrite wrap_small by lia. eexists. split; [done|]. intros b' r' _. apply Hv.
Qed.

Lemma write_reg_spec b r v d b' r' :
  present b -> 0x10 <= r < 256 -> present b' ->
  register_of (write_reg b r v d) b' r' =
    if (b' =? b) && (r' =? r) then redir_store r v (register_of d b r) else register_of d b' r'.
Proof.
  intros Hb Hr Hb'. unfold write_reg, IOAPIC_REG_SELECT, IOAPIC_REG_WINDOW. rewrite Z.add_0_r.
  destruct (select_spec b r d Hb) as [Hs Hv]. rewrite wrap_small in Hs by lia.
  rewrite window_write_spec by (done || lia). rewrite Hs, !Hv.
  destruct (Z.eqb_spec r' r) as [->|]; [done|]. by rewrite !andb_false_r.
Qed.

(** ** Locating an entry *)

Lemma find_from_spec off i table g :
  Forall (chip_ok off) table ->
  match find_from i table g with
  | Ret (Some (k, l)) =>
      exists j io, k = (i + j)%nat /\ table !! j = Some io /\ handles g io = true /\ l = g - gsi_base io
  | Ret None => Forall (fun io => handles g io = false) table
  | Panic _ => False
  end.
Proof.
  intros H. revert i. induction H as [|io table Hio Htab IH]; intros i; cbn [find_from]; [done|].
  destruct Hio as (H1 & H2 & H3 & _). rewrite checked_add_ok by lia. cbn [outcome_bind].
  fold (handles g io). destruct (handles g io) eqn:E.
  - exists O, io. split_and!; [lia|done..].
  - specialize (IH (S i)). destruct (find_from (S i) table g) as [[[k l]|]|]; [|by constructor|done].
    destruct IH as (j & io' & -> & ? & ? & ->). exists (S j), io'. split_and!; [lia|done..].
Qed.

Lemma locate_spec off table g :
  table_ok off table ->
  match locate table off g with
  | Ret (Some (virt, reg_low, reg_high)) =>
      exists j io, table !! j = Some io /\ handles g io = true /\ virt = phys_addr io + off /\
        reg_low = 0x10 + 2 * (g - gsi_base io) /\ reg_high = reg_low + 1 /\ present virt /\
        0x10 <= reg_low < 255
  | Ret None => Forall (fun io => handles g io = false) table
  | Panic _ => False
  end.
Proof.
  intros [Hok _]. unfold locate, find_ioapic_for_gsi.
  pose proof (find_from_spec off 0 table g Hok) as Hf.
  destruct (find_from 0 table g) as [[[k l]|]|]; cbn [outcome_bind]; [|done..].
  destruct Hf as (j & io & -> & Hj & Hh & ->). cbn [Nat.add]. rewrite Hj.
  pose proof (Forall_lookup_1 _ _ _ _ Hok Hj) as (H1 & H2 & H3 & H4 & H5).
  unfold handles in Hh. apply andb_true_iff in Hh as [?%Z.leb_le ?%Z.ltb_lt].
  rewrite checked_add_ok by lia. cbn [outcome_bind].
  destruct (Z.eqb_spec (phys_addr io + off) 0); [lia|].
  rewrite (wrap_small 8) by lia. rewrite !checked_add_ok by (cbn; lia). cbn [outcome_bind].
  rewrite checked_add_ok by (cbn; lia). cbn [outcome_bind].
  exists j, io. unfold handles. split_and!; try done; lia.
Qed.

(** Different GSIs have different entries. *)
Lemma locate_inj off table g g' v rl rh v' rl' rh' :
  table_ok off table -> locate table off g = Ret (Some (v, rl, rh)) ->
  locate table off g' = Ret (Some (v', rl', rh')) -> g <> g' -> v <> v' \/ rl <> rl'.
Proof.
  intros Hok H H' Hne.
  pose proof (locate_spec off table g Hok) as Hs. rewrite H in Hs.
  pose proof (locate_spec off table g' Hok) as Hs'. rewrite H' in Hs'.
  destruct Hs as (j & io & Hj & Hh & -> & -> & -> & _).
  destruct Hs' as (j' & io' & Hj' & Hh' & -> & -> & -> & _).
  destruct (decide (phys_addr io = phys_addr io')) as [He|]; [right|left; lia].
  assert (j = j') as ->.
  { destruct Hok as [_ Hnd]. eapply (NoDup_lookup _ _ _ (phys_addr io) Hnd);
      rewrite list_lookup_fmap; [by rewrite Hj|by rewrite Hj', He]. }
  simplify_eq. lia.
Qed.

Definition entry_store (low high : Z) (e : Z * Z) : Z * Z :=
  (redir_store 0 low e.1, redir_store 1 high e.2).

(** Storing the two halves of one entry changes that entry and no other. *)
Lemma store_entry off table g v rl rh low high d g' :
  table_ok off table -> locate table off g = Ret (Some (v, rl, rh)) ->
  redir table off (write_reg v rl low (write_reg v rh high d)) g' =
    if g' =? g then entry_store low high <$> redir table off d g' else redir table off d g'.
Proof.
  intros Hok Hl. unfold redir.
  pose proof (locate_spec off table g Hok) as Hs. rewrite Hl in Hs.
  destruct Hs as (j & io & Hj & Hh & Hv & Hrl & Hrh & Hp & Hr).
  assert (Z.even rl = true) as Hev by (rewrite Hrl, Z.even_add, Z.even_mul; done).
  assert (Z.even rh = false) as Hod by (rewrite Hrh, Z.even_add, Hev; done).
  destruct (Z.eqb_spec g' g) as [->|Hne].
  - rewrite Hl. cbn. unfold entry_store. cbn [fst snd].
    rewrite !write_reg_spec by (done || lia). rewrite !Z.eqb_refl.
    destruct (Z.eqb_spec rl rh); [lia|]. destruct (Z.eqb_spec rh rl); [lia|]. cbn [andb].
    unfold redir_store. by rewrite Hev, Hod.
  - pose proof (locate_spec off table g' Hok) as Hs'.
    destruct (locate table off g') as [[[[v' rl'] rh']|]|] eqn:Hl'; [|done..].
    destruct (locate_inj _ _ _ _ _ _ _ _ _ _ Hok Hl Hl' (not_eq_sym Hne)) as [Hd|Hd];
      destruct Hs' as (j' & io' & _ & _ & _ & Hrl' & Hrh' & Hp' & Hr');
      rewrite !write_reg_spec by (done || lia).
    + destruct (Z.eqb_spec v' v); [congruence|]. done.
    + destruct (Z.eqb_spec rl' rl); [congruence|]. destruct (Z.eqb_spec rh' rh); [lia|].
      destruct (Z.eqb_spec rl' rh); [lia|]. destruct (Z.eqb_spec rh' rl); [lia|].
      by rewrite !andb_false_r.
Qed.

Lemma redir_same off table d d' g :
  table_ok off table -> same_regs d d' -> redir table off d g = redir table off d' g.
Proof.
  intros Hok Hd. unfold redir. pose proof (locate_spec off table g Hok) as Hs.
  destruct (locate table off g) as [[[[v rl] rh]|]|]; [|done..].
  destruct Hs as (? & ? & _ & _ & _ & _ & _ & Hp & _). by rewrite !Hd.
Qed.

(** ** The operations on the map *)

Lemma write_entry_spec off table g low high d :
  table_ok off table ->
  exists d', write_redirection_entry_for_gsi table g low high off d =
      Ret (bool_decide (is_Some (redir table off d g)), d') /\
    forall g', redir table off d' g' =
      if g' =? g then entry_store low high <$> redir table off d g' else redir table off d g'.
Proof.
  intros Hok. unfold write_redirection_entry_for_gsi.
  pose proof (locate_spec off table g Hok) as Hs.
  destruct (locate table off g) as [[[[v rl] rh]|]|] eqn:Hl; cbn [outcome_bind]; [| |done].
  - eexists. split; [|by intros; apply store_entry].
    rewrite bool_decide_eq_true_2; [done|]. unfold redir. by rewrite Hl.
  - exists d. assert (redir table off d g = None) as Hn by (unfold redir; by rewrite Hl).
    rewrite Hn. split; [done|]. intros g'. destruct (Z.eqb_spec g' g) as [->|]; [by rewrite Hn|done].
Qed.

(** Reading the two halves of an entry. *)
Lemma read_halves off table g v rl rh d :
  table_ok off table -> locate table off g = Ret (Some (v, rl, rh)) ->
  exists low high d1 d2, redir table off d g = Some (low, high) /\
    read_reg v rh d = (high, d1) /\ read_reg v rl d1 = (low, d2) /\ same_regs d2 d.
Proof.
  intros Hok Hl. pose proof (locate_spec off table g Hok) as Hs. rewrite Hl in Hs.
  destruct Hs as (? & ? & _ & _ & _ & _ & Hrh & Hp & Hr).
  destruct (read_reg_spec v rh d Hp ltac:(lia)) as (d1 & E1 & S1).
  destruct (read_reg_spec v rl d1 Hp ltac:(lia)) as (d2 & E2 & S2).
  exists (register_of d v rl), (register_of d v rh), d1, d2. rewrite (S1 v rl Hp) in E2.
  split_and!; [unfold redir; by rewrite Hl|done|done|]. by transitivity d1.
Qed.

Definition enabled (apic : Z) (e : Z * Z) : Z * Z :=
  entry_store (e.1 .& lnotw 32 (1 .<< 16)) (wrap 32 (apic .<< 24)) e.

Lemma enable_gsi_spec off table apic g d :
  table_ok off table ->
  exists d', enable_gsi table off apic g d = Ret d' /\
    forall g', redir table off d' g' =
      if g' =? g then enabled apic <$> redir table off d g' else redir table off d g'.
Proof.
  intros Hok. unfold enable_gsi. pose proof (locate_spec off table g Hok) as Hs.
  destruct (locate table off g) as [[[[v rl] rh]|]|] eqn:Hl; cbn [outcome_bind]; [| |done].
  - destruct (read_halves off table g v rl rh d Hok Hl) as (low & high & d1 & d2 & Hr & -> & -> & Hsame).
    eexists. split; [done|]. intros g'. rewrite (store_entry off table g) by done.
    rewrite (redir_same off table d2 d) by done.
    destruct (Z.eqb_spec g' g) as [->|]; [|done]. by rewrite Hr.
  - exists d. split; [done|]. intros g'. destruct (Z.eqb_spec g' g) as [->|]; [|done].
    unfold redir. by rewrite Hl.
Qed.
End Spec.

(** ** Fields of an entry *)

Definition vector_of (e : Z * Z) : Z := e.1 .& 0xFF.
Definition masked (e : Z * Z) : bool := Z.testbit e.1 16.
Definition destination (e : Z * Z) : Z := e.2 .>> 24.

(** The delivery mode, destination mode, polarity and trigger mode. *)
Definition modes (e : Z * Z) : Z := e.1 .& 0xAF00.

(** Selecting bits of a stored low half. *)
Lemma store_low_land k v old :
  (0x5000 .& k) = 0 -> (0x1AFFF .& k) = k -> redir_store 0 v old .& k = v .& k.
Proof.
  intros H1 H2. unfold redir_store. cbn [Z.even].
  rewrite Z.land_lor_distr_l, <- !Z.land_assoc, H1, H2, Z.land_0_r. apply Z.lor_0_r.
Qed.

Lemma store_low_masked v old : Z.testbit (redir_store 0 v old) 16 = Z.testbit v 16.
Proof.
  unfold redir_store. cbn [Z.even]. rewrite Z.lor_spec, !Z.land_spec.
  change (Z.testbit 0x1AFFF 16) with true. change (Z.testbit 0x5000 16) with false. btauto.
Qed.

Lemma unmask_land k v : (lnotw 32 (1 .<< 16) .& k) = k -> (v .& lnotw 32 (1 .<< 16)) .& k = v .& k.
Proof. intros H. by rewrite <- Z.land_assoc, H. Qed.

Lemma unmask_testbit v : Z.testbit (v .& lnotw 32 (1 .<< 16)) 16 = false.
Proof. rewrite clear_bit_testbit by lia. by rewrite Z.eqb_refl, andb_false_r. Qed.

Lemma store_dest apic old : in_u 8 apic -> redir_store 1 (wrap 32 (apic .<< 24)) old .>> 24 = apic.
Proof.
  intros Ha. unfold in_u in Ha. unfold redir_store. cbn [Z.even].
  rewrite Z.shiftl_mul_pow2 by lia. rewrite wrap_small by lia.
  rewrite <- Z.shiftl_mul_pow2, Z.shiftr_land by lia.
  rewrite Z.shiftr_shiftl_l, Z.shiftl_0_r by lia.
  change (0xFF000000 .>> 24) with (2 ^ 8 - 1). rewrite land_ones_mod by lia. apply Z.mod_small. lia.
Qed.

Lemma legacy_low_fields irq :
  0 <= irq < 256 -> (legacy_low irq .& 0xFF) = (0x20 + irq) `mod` 256 /\ Z.testbit (legacy_low irq) 16 = true.
Proof.
  intros H. unfold legacy_low. rewrite wrap_small by lia. split.
  - rewrite Z.land_lor_distr_l, <- !Z.land_assoc. change ((1 .<< 16) .& 0xFF) with 0.
    rewrite Z.lor_0_r. change (0xFF .& (0xFF .& 0xFF)) with (2 ^ 8 - 1). apply land_ones_mod. lia.
  - rewrite Z.lor_spec. change (Z.testbit (1 .<< 16) 16) with true. apply orb_true_r.
Qed.

Lemma enabled_fields apic e :
  in_u 8 apic ->
  vector_of (enabled apic e) = vector_of e /\ modes (enabled apic e) = modes e /\
  masked (enabled apic e) = false /\ destination (enabled apic e) = apic.
Proof.
  intros Ha. unfold vector_of, modes, masked, destination, enabled, entry_store. cbn [fst snd].
  rewrite !store_low_land by done. rewrite store_low_masked, unmask_testbit, store_dest by done.
  by rewrite !unmask_land by (vm_compute; done).
Qed.

(** ** Properties *)

Section Properties.
Context {D : Type} {hw : Mmio D} {spec : IoApicSpec D}.
Implicit Types (d : D) (table : list IoApic).

(** A loop that enables the GSIs of a list. *)
Lemma enable_loop off table apic :
  table_ok off table -> in_u 8 apic ->
  forall l d0, exists d', for_each (enable_gsi table off apic) l d0 = Ret d' /\
    forall g e, redir table off d0 g = Some e ->
      exists e', redir table off d' g = Some e' /\ vector_of e' = vector_of e /\ modes e' = modes e /\
        (g ∈ l -> masked e' = false /\ destination e' = apic) /\
        (masked e = false /\ destination e = apic -> masked e' = false /\ destination e' = apic) /\
        (g ∉ l -> e' = e).
Proof.
  intros Hok Ha. induction l as [|i l IH]; intros d0; cbn [for_each].
  - exists d0. split; [done|]. intros g e He. exists e. split_and!; try done. set_solver.
  - destruct (enable_gsi_spec off table apic i d0 Hok) as (d1 & -> & H1). cbn [outcome_bind].
    destruct (IH d1) as (d2 & -> & H2). exists d2. split; [done|]. intros g e He.
    specialize (H1 g). rewrite He in H1. destruct (Z.eqb_spec g i) as [Hgi|Hgi]; [subst i|]; cbn in H1.
    + destruct (H2 g (enabled apic e) H1) as (e' & He' & Hv & Hm & Hin & Hk & Hout).
      destruct (enabled_fields apic e Ha) as (Fv & Fm & Fk & Fd). exists e'.
      split_and!; [done|congruence|congruence|intros _; apply Hk; done|intros _; apply Hk; done|set_solver].
    + destruct (H2 g e H1) as (e' & He' & Hv & Hm & Hin & Hk & Hout). exists e'.
      split_and!; try done; set_solver.
Qed.

(** The loops of [apply_isos_from_acpi] and [apply_legacy_isa_fallback]. *)
Lemma apply_isos_returns off table a d :
  table_ok off table -> exists d', apply_isos_from_acpi a table off d = Ret d'.
Proof.
  intros Hok.
  destruct (for_each_ind (fun _ (_ : D) => True) (apply_iso table off) (get_isos a) d) as (d1 & H1 & _);
    [done| |by eauto].
  intros done_ iso s _ _. unfold apply_iso, find_ioapic_for_gsi.
  pose proof (find_from_spec off 0 table (iso_gsi iso) (proj1 Hok)) as Hf.
  destruct (find_from 0 table (iso_gsi iso)) as [[[k l]|]|]; cbn [outcome_bind]; [|by eauto|done].
  destruct (write_entry_spec off table (iso_gsi iso) (legacy_low (iso_source iso)) 0 s Hok) as (s' & -> & _).
  cbn. eauto.
Qed.

Definition legacy_programmed off table d (done_ : list Z) (s : D) : Prop :=
  forall g, if decide (g ∈ done_) then forall e, redir table off d g = Some e ->
      exists e', redir table off s g = Some e' /\ vector_of e' = 0x20 + g /\ masked e' = true
    else redir table off s g = redir table off d g.

Lemma apply_legacy_step off table d done_ i s :
  table_ok off table -> 0 <= i < 16 -> legacy_programmed off table d done_ s ->
  exists s', apply_legacy table off i s = Ret s' /\ legacy_programmed off table d (done_ ++ [i]) s'.
Proof.
  intros Hok Hin Hi. unfold apply_legacy.
  destruct (write_entry_spec off table i (legacy_low i) 0 s Hok) as (s' & -> & Hr).
  exists s'. split; [done|]. intros g. specialize (Hi g). rewrite Hr.
  destruct (Z.eqb_spec g i) as [Hgi|Hne]; [subst i|].
  - rewrite decide_True by set_solver. intros e He.
    assert (exists e0, redir table off s g = Some e0) as [e0 He0].
    { destruct (decide (g ∈ done_)); [destruct (Hi e He) as (? & ? & _); eauto|rewrite Hi; eauto]. }
    rewrite He0. eexists. split; [done|]. destruct (legacy_low_fields g ltac:(lia)) as [Hv Hm].
    unfold vector_of, masked, entry_store. cbn [fst].
    rewrite store_low_land, Hv, store_low_masked, Hm by done. split; [apply Z.mod_small; lia|done].
  - destruct (decide (g ∈ done_)); [rewrite decide_True by set_solver|rewrite decide_False by set_solver]; done.
Qed.

Lemma read_redirection_spec off table g d :
  table_ok off table ->
  exists d', read_redirection_entry table g off d = Ret (redir table off d g, d') /\ same_regs d' d.
Proof.
  intros Hok. unfold read_redirection_entry. pose proof (locate_spec off table g Hok) as Hs.
  destruct (locate table off g) as [[[[v rl] rh]|]|] eqn:Hl; cbn [outcome_bind]; [| |done].
  - destruct Hs as (? & ? & _ & _ & _ & _ & Hrh & Hp & Hrl).
    destruct (read_reg_spec v rl d Hp ltac:(lia)) as (d1 & -> & S1).
    destruct (read_reg_spec v rh d1 Hp ltac:(lia)) as (d2 & -> & S2).
    exists d2. split; [|by transitivity d1]. unfold redir. rewrite Hl. by rewrite (S1 v rh Hp).
  - exists d. unfold redir. by rewrite Hl.
Qed.


(** Discovery: one table entry per I/O APIC of the MADT, with the number of entries
    its version register gives; no register changes. *)
Section Discovery.
Context {version : IoApicVersion D}.

Definition reachable (off a : Z) : Prop := 0 < a + off < 2 ^ 64 /\ present (a + off).

Definition discovered (off : Z) (infos : list IoApicInfo) : list IoApic :=
  (fun i => MkIoApic (io_id i) (io_addr i) (io_gsi_base i) (max_redir (io_addr i + off) + 1)) <$> infos.

Lemma discover_spec off infos table d :
  Forall (fun i => reachable off (io_addr i)) infos ->
  exists d', for_each (discover off) infos (table, d) = Ret (table ++ discovered off infos, d') /\ same_regs d' d.
Proof.
  intros Hall. revert table d. induction Hall as [|i infos [Hv Hp] _ IH]; intros table d; cbn [for_each].
  { exists d. by rewrite app_nil_r. }
  unfold discover at 1. rewrite checked_add_ok by lia. cbn [outcome_bind].
  destruct (Z.eqb_spec (io_addr i + off) 0); [lia|]. cbn [negb].
  destruct (read_reg_spec (io_addr i + off) 1 d Hp ltac:(lia)) as (d1 & -> & S1). cbn [outcome_bind].
  rewrite version_spec by done.
  destruct (IH (table ++ [MkIoApic (io_id i) (io_addr i) (io_gsi_base i) (max_redir (io_addr i + off) + 1)]) d1)
    as (d2 & -> & S2).
  exists d2. split; [by rewrite <- app_assoc|]. by transitivity d1.
Qed.

Lemma log_versions_spec off table d :
  Forall (fun io => reachable off (phys_addr io)) table ->
  exists d', for_each (log_version off) table d = Ret d' /\ same_regs d' d.
Proof.
  intros Hall. revert d. induction Hall as [|io table [Hv Hp] _ IH]; intros d; cbn [for_each]; [by exists d|].
  unfold log_version at 1, read_version. rewrite checked_add_ok by lia. cbn [outcome_bind].
  destruct (Z.eqb_spec (phys_addr io + off) 0); [lia|].
  destruct (read_reg_spec (phys_addr io + off) 1 d Hp ltac:(lia)) as (d1 & -> & S1). cbn [outcome_bind].
  destruct (IH d1) as (d2 & -> & S2). exists d2. split; [done|]. by transitivity d1.
Qed.

Lemma init_from_acpi_spec off a d :
  Forall (fun i => reachable off (io_addr i)) (get_ioapics a) ->
  exists d', init_from_acpi a off [] d = Ret (discovered off (get_ioapics a), d') /\ same_regs d' d.
Proof.
  intros Hall. unfold init_from_acpi. destruct (get_ioapics a) as [|i infos] eqn:E; [by exists d|]. rewrite <- E in *.
  destruct (discover_spec off (get_ioapics a) [] d Hall) as (d1 & -> & S1). cbn [outcome_bind app].
  destruct (log_versions_spec off (discovered off (get_ioapics a)) d1) as (d2 & -> & S2).
  { apply Forall_fmap. eapply Forall_impl; [exact Hall|]. done. }
  cbn [outcome_bind]. exists d2. split; [done|]. by transitivity d1.
Qed.
End Discovery.

(** The two loops of [init_hardware] together. *)
Lemma program_legacy off table a d :
  table_ok off table ->
  exists d1 d2, apply_isos_from_acpi a table off d = Ret d1 /\ apply_legacy_isa_fallback table off d1 = Ret d2 /\
    (forall g e, 0 <= g < 16 -> redir table off d1 g = Some e ->
       exists e', redir table off d2 g = Some e' /\ vector_of e' = 0x20 + g /\ masked e' = true) /\
    (forall g, ~ (0 <= g < 16) -> redir table off d2 g = redir table off d1 g).
Proof.
  intros Hok. destruct (apply_isos_returns off table a d Hok) as (d1 & H1).
  destruct (for_each_ind (legacy_programmed off table d1) (apply_legacy table off) (seqZ 0 16) d1) as (d2 & H2 & Hi).
  { intros g. by rewrite decide_False by set_solver. }
  { intros done_ i s Hin%elem_of_seqZ. apply apply_legacy_step; [done|lia]. }
  exists d1, d2. split_and!; [done|done| |].
  - intros g e Hg. specialize (Hi g). rewrite decide_True in Hi by (apply elem_of_seqZ; lia). apply Hi.
  - intros g Hg. specialize (Hi g). by rewrite decide_False in Hi by (rewrite elem_of_seqZ; lia).
Qed.

(** After the overrides and then the legacy fallback are programmed, as
    [init_hardware] does, every handled GSI below 16 is masked with the vector
    [0x20 + GSI] (IRQ 1, the keyboard, gets 0x21), whatever the overrides asked
    for, and the entries of all other GSIs are as the overrides left them. *)
Theorem legacy_interrupts_programmed off table a d :
  table_ok off table ->
  exists d1 d2, apply_isos_from_acpi a table off d = Ret d1 /\ apply_legacy_isa_fallback table off d1 = Ret d2 /\
    (forall g e, 0 <= g < 16 -> redir table off d1 g = Some e ->
       exists e', redir table off d2 g = Some e' /\ vector_of e' = 0x20 + g /\ masked e' = true) /\
    (forall g, ~ (0 <= g < 16) -> redir table off d2 g = redir table off d1 g).
Proof. apply program_legacy. Qed.


Lemma unmask_gsi_spec off table g vector apic d :
  table_ok off table -> in_u 8 vector -> in_u 8 apic ->
  exists d', unmask_gsi table g vector apic off d = Ret (bool_decide (is_Some (redir table off d g)), d') /\
    (forall g', g' <> g -> redir table off d' g' = redir table off d g') /\
    forall e, redir table off d g = Some e ->
      exists e', redir table off d' g = Some e' /\ vector_of e' = vector /\ masked e' = false /\
        destination e' = apic /\ modes e' = modes e.
Proof.
  intros Hok Hv Ha. unfold unmask_gsi. pose proof (locate_spec off table g Hok) as Hs.
  destruct (locate table off g) as [[[[v rl] rh]|]|] eqn:Hl; cbn [outcome_bind]; [| |done].
  - destruct (read_halves off table g v rl rh d Hok Hl) as (low & high & d1 & d2 & Hr & -> & -> & Hsame).
    rewrite Hr, bool_decide_eq_true_2 by done. eexists. split; [done|].
    split; [intros g' Hg'|intros e [= <-]]; rewrite (store_entry off table g) by done;
      rewrite (redir_same off table d2 d) by done.
    { destruct (Z.eqb_spec g' g); [done|done]. }
    rewrite Z.eqb_refl, Hr. eexists. split; [done|].
    unfold vector_of, masked, destination, modes, entry_store. cbn [fst snd].
    rewrite !store_low_land by done. rewrite store_low_masked, unmask_testbit, store_dest by done.
    rewrite !unmask_land by (vm_compute; done). rewrite !Z.land_lor_distr_l, <- !Z.land_assoc.
    change (lnotw 32 0xFF .& 0xFF) with 0. change (lnotw 32 0xFF .& 0xAF00) with 0xAF00.
    change (0xFF .& 0xFF) with (2 ^ 8 - 1). change (0xFF .& 0xAF00) with 0.
    rewrite !Z.land_0_r, Z.lor_0_l, Z.lor_0_r, land_ones_mod by lia.
    split_and!; try done. by apply Z.mod_small.
  - assert (redir table off d g = None) as Hn by (unfold redir; by rewrite Hl).
    exists d. rewrite Hn. done.
Qed.

End Properties.

(** ** A concrete chip

    Chips at the multiples of 32, each with its select register and its registers. *)

Record chips : Type := MkChips { sel : Z -> Z; regs : Z -> Z -> Z }.

#[local] Instance chips_hw : Mmio chips := {|
  mmio_write32 a v d :=
    if a `mod` 32 =? 0 then MkChips (fun b => if b =? a then wrap 8 v else sel d b) (regs d)
    else if a `mod` 32 =? 16 then
      let b0 := a - 16 in
      MkChips (sel d) (fun b r => if (b =? b0) && (r =? sel d b0)
                                  then if 0x10 <=? r then redir_store r v (regs d b0 r) else v
                                  else regs d b r)
    else d;
  mmio_read32 a d := (if a `mod` 32 =? 16 then regs d (a - 16) (sel d (a - 16)) else 0, d)
|}.

#[refine, local] Instance chips_spec : IoApicSpec chips := {|
  present b := b `mod` 32 = 0;
  selected := sel;
  register_of := regs
|}.
Proof.
  - intros b v d Hb. cbn. rewrite Hb, Z.eqb_refl. cbn. by rewrite Z.eqb_refl.
  - intros b v d Hb Hs b' r Hb'. cbn.
    destruct (Z.eqb_spec ((b + 16) `mod` 32) 0); [zdiv|].
    destruct (Z.eqb_spec ((b + 16) `mod` 32) 16); [|zdiv]. cbn.
    replace (b + 16 - 16) with b by lia.
    destruct (Z.eqb_spec b' b); [|done]. destruct (Z.eqb_spec r (sel d b)); [|done]. cbn.
    destruct (Z.leb_spec 16 r); [done|lia].
  - intros b d Hb. cbn. destruct (Z.eqb_spec ((b + 16) `mod` 32) 16); [|zdiv].
    by replace (b + 16 - 16) with b by lia.
Defined.

Definition sample_chips : chips := MkChips (fun _ => 0) (fun _ _ => 0x10000).
Definition sample_table : list IoApic := [MkIoApic 2 0xFEC00000 0 24].

Lemma sample_table_ok : table_ok 0 sample_table.
Proof.
  split; [|apply NoDup_singleton]. apply Forall_singleton. unfold chip_ok. cbn. split_and!; try lia; done.
Qed.

(** The override of most PCs: ISA IRQ 0 on GSI 2. *)
Definition timer_override : AcpiState := MkAcpi 0 [] [MkIsoInfo 0 0 2 0] None 0 [].


Lemma legacy_interrupts_programmed_witness :
  exists d1 d2, apply_isos_from_acpi timer_override sample_table 0 sample_chips = Ret d1 /\
    apply_legacy_isa_fallback sample_table 0 d1 = Ret d2 /\
    (forall g e, 0 <= g < 16 -> redir sample_table 0 d1 g = Some e ->
       exists e', redir sample_table 0 d2 g = Some e' /\ vector_of e' = 0x20 + g /\ masked e' = true) /\
    (forall g, ~ (0 <= g < 16) -> redir sample_table 0 d2 g = redir sample_table 0 d1 g).
Proof. exact (legacy_interrupts_programmed 0 sample_table timer_override sample_chips sample_table_ok). Defined.



(** The legacy fallback undoes an interrupt source override: with the override
    that routes the timer (ISA IRQ 0) to GSI 2, the entry of GSI 2 has the timer's
    vector 0x20 after the overrides are applied, and vector 0x22 after the fallback. *)
Theorem fallback_overwrites_override :
  (let! d1 := apply_isos_from_acpi timer_override sample_table 0 sample_chips in
   let! d2 := apply_legacy_isa_fallback sample_table 0 d1 in
   Ret (vector_of <$> redir sample_table 0 d1 2, vector_of <$> redir sample_table 0 d2 2)) =
  Ret (Some 0x20, Some 0x22).
Proof. vm_compute. reflexivity. Qed.
