(* ===== verification/VgaText.v ===== *)
(** * VgaText: the text-mode writer, [src/bootvga/vga_buffer.rs]

    The buffer of 25 rows of 80 cells is a function from row and column to a cell;
    an access outside it panics, as the source's array indexing does. The writer
    and the ports that position the hardware cursor are the state. The reference
    is a terminal without loops or bounds checks: [put] and [line_feed] on a
    screen whose rows move up by one when the last is full. *)

From S2P Require Import Prelude Device Ports.

Local Open Scope Z_scope.

Inductive Color : Type :=
| Black | Blue | Green | Cyan | Red | Magenta | Brown | LightGray
| DarkGray | LightBlue | LightGreen | LightCyan | LightRed | Pink | Yellow | White.

#[export] Instance Color_eq_dec : EqDecision Color.
Proof. solve_decision. Defined.

(** [c as u8] *)
Definition color_u8 (c : Color) : Z :=
  match c with
  | Black => 0 | Blue => 1 | Green => 2 | Cyan => 3 | Red => 4 | Magenta => 5 | Brown => 6
  | LightGray => 7 | DarkGray => 8 | LightBlue => 9 | LightGreen => 10 | LightCyan => 11
  | LightRed => 12 | Pink => 13 | Yellow => 14 | White => 15
  end.

Definition ColorCode_new (foreground background : Color) : Z :=
  wrap 8 (color_u8 background .<< 4) .| color_u8 foreground.

Record ScreenChar : Type := MkChar { ascii_character : Z; char_color : Z }.

Definition BUFFER_HEIGHT : Z := 25.
Definition BUFFER_WIDTH : Z := 80.

Definition Buffer : Type := Z -> Z -> ScreenChar.

Definition in_buffer (row col : Z) : bool :=
  (0 <=? row) && (row <? BUFFER_HEIGHT) && (0 <=? col) && (col <? BUFFER_WIDTH).

(** [buffer.chars[row][col].read()] and [.write(c)] *)
Definition chars_read (b : Buffer) (row col : Z) : outcome ScreenChar :=
  if in_buffer row col then Ret (b row col) else Panic "index out of bounds".
Definition chars_write (b : Buffer) (row col : Z) (c : ScreenChar) : outcome Buffer :=
  if in_buffer row col
  then Ret (fun i j => if (i =? row) && (j =? col) then c else b i j)
  else Panic "index out of bounds".

Record Writer : Type := MkWriter {
  row_position : Z;
  column_position : Z;
  color_code : Z;
  chars : Buffer
}.

(** The initial [WRITER], over the memory the firmware left. *)
Definition WRITER_init (b : Buffer) : Writer :=
  MkWriter (BUFFER_HEIGHT - 1) 0 (ColorCode_new Yellow Black) b.

Section Methods.
Context {P : Type} {io : PortIO P}.
Implicit Types (w : Writer) (p : P).

Definition update_cursor w p : outcome P :=
  let! r := checked_mul 16 (wrap 16 (row_position w)) (wrap 16 BUFFER_WIDTH) in
  let! pos := checked_add 16 r (wrap 16 (column_position w)) in
  let p := outb 0x3D4 0x0E p in
  let p := outb 0x3D5 (wrap 8 (pos .>> 8)) p in
  let p := outb 0x3D4 0x0F p in
  let p := outb 0x3D5 (wrap 8 (pos .& 0xFF)) p in
  Ret p.

Definition clear_row (row : Z) w : outcome Writer :=
  let blank := MkChar 32 (color_code w) in
  let! b := for_each (fun col b => chars_write b row col blank) (seqZ 0 BUFFER_WIDTH) (chars w) in
  Ret (MkWriter (row_position w) (column_position w) (color_code w) b).

Definition copy_cell (row col : Z) (b : Buffer) : outcome Buffer :=
  let! character := chars_read b row col in chars_write b (row - 1) col character.

Definition shift_up w : outcome Writer :=
  let! b := for_each (fun row b => for_each (copy_cell row) (seqZ 0 BUFFER_WIDTH) b)
              (seqZ 1 (BUFFER_HEIGHT - 1)) (chars w) in
  clear_row (BUFFER_HEIGHT - 1) (MkWriter (row_position w) (column_position w) (color_code w) b).

Definition set_pos (row col : Z) w : Writer := MkWriter row col (color_code w) (chars w).

Definition new_line w p : outcome (Writer * P) :=
  let w := set_pos (row_position w) 0 w in
  let! w := if row_position w <? BUFFER_HEIGHT - 1
            then Ret (set_pos (row_position w + 1) (column_position w) w)
            else shift_up w in
  let! p := update_cursor w p in
  Ret (w, p).

Definition write_byte (byte : Z) w p : outcome (Writer * P) :=
  if byte =? 10 then new_line w p else
  let! (w, p) := if BUFFER_WIDTH <=? column_position w then new_line w p else Ret (w, p) in
  let! w := if BUFFER_HEIGHT <=? row_position w
            then let! w := shift_up w in Ret (set_pos (BUFFER_HEIGHT - 1) (column_position w) w)
            else Ret w in
  let! b := chars_write (chars w) (row_position w) (column_position w) (MkChar byte (color_code w)) in
  let w := MkWriter (row_position w) (column_position w + 1) (color_code w) b in
  let! p := update_cursor w p in
  Ret (w, p).

(** The byte [write_string] passes on: printable ASCII and newline, otherwise 0xfe. *)
Definition printable (byte : Z) : Z := if in_range 0x20 0x7e byte || (byte =? 10) then byte else 0xfe.

Definition write_string (s : list Z) w p : outcome (Writer * P) :=
  for_each (fun byte '(w, p) => write_byte (printable byte) w p) s (w, p).

Definition set_color (foreground background : Color) w : Writer :=
  MkWriter (row_position w) (column_position w) (ColorCode_new foreground background) (chars w).

Definition set_position (row col : Z) w p : outcome (Writer * P) :=
  let w := if (row <? BUFFER_HEIGHT) && (col <? BUFFER_WIDTH) then set_pos row col w else w in
  let! p := update_cursor w p in
  Ret (w, p).

Definition clear_screen w : outcome Writer :=
  let! w := for_each clear_row (seqZ 0 BUFFER_HEIGHT) w in
  Ret (set_pos 0 0 w).
End Methods.

(** ** The reference terminal *)

Definition blank_of w : ScreenChar := MkChar 32 (color_code w).

(** Equal positions and colors, and equal cells on the screen. *)
Definition same_screen (w1 w2 : Writer) : Prop :=
  row_position w1 = row_position w2 /\ column_position w1 = column_position w2 /\
  color_code w1 = color_code w2 /\
  forall i j, in_buffer i j = true -> chars w1 i j = chars w2 i j.

#[export] Instance same_screen_equivalence : Equivalence same_screen.
Proof.
  split.
  - by intros w.
  - intros w1 w2 (? & ? & ? & H). split_and!; [done..|]. intros. by rewrite H.
  - intros w1 w2 w3 (? & ? & ? & H) (? & ? & ? & H'). split_and!; [congruence..|].
    intros. by rewrite H, H'.
Qed.

Definition scroll w : Writer :=
  MkWriter (row_position w) (column_position w) (color_code w)
    (fun i j => if i <? BUFFER_HEIGHT - 1 then chars w (i + 1) j else blank_of w).

Definition line_feed w : Writer :=
  if row_position w <? BUFFER_HEIGHT - 1 then set_pos (row_position w + 1) 0 w
  else set_pos (row_position w) 0 (scroll w).

Definition put (byte : Z) w : Writer :=
  MkWriter (row_position w) (column_position w + 1) (color_code w)
    (fun i j => if (i =? row_position w) && (j =? column_position w)
                then MkChar byte (color_code w) else chars w i j).

(** One byte of output on the terminal: a newline, or a cell after wrapping. *)
Definition emit (w : Writer) (byte : Z) : Writer :=
  if byte =? 10 then line_feed w
  else put byte (if column_position w <? BUFFER_WIDTH then w else line_feed w).

Definition writer_ok w : Prop :=
  0 <= row_position w < BUFFER_HEIGHT /\ 0 <= column_position w <= BUFFER_WIDTH.

(** The port writes that position the hardware cursor. *)
Definition cursor_writes (pos : Z) : list port_event :=
  [Out 8 0x3D4 0x0E; Out 8 0x3D5 (pos / 256); Out 8 0x3D4 0x0F; Out 8 0x3D5 (pos `mod` 256)].

(** The accesses that position the hardware cursor: bytes to the CRT controller. *)
Definition cursor_event (e : port_event) : Prop :=
  match e with Out 8 port _ => port = 0x3D4 \/ port = 0x3D5 | _ => False end.

Definition cursor_at w : list port_event :=
  cursor_writes (row_position w * BUFFER_WIDTH + column_position w).

(** ** Loops over the buffer *)

Lemma in_buffer_iff i j : in_buffer i j = true <-> 0 <= i < BUFFER_HEIGHT /\ 0 <= j < BUFFER_WIDTH.
Proof. unfold in_buffer. rewrite !andb_true_iff, !Z.leb_le, !Z.ltb_lt. tauto. Qed.

Ltac solve_in_buffer := apply in_buffer_iff; unfold BUFFER_HEIGHT, BUFFER_WIDTH in *; lia.

Lemma chars_write_ok b i j c :
  in_buffer i j = true ->
  exists b', chars_write b i j c = Ret b' /\
    forall k l, b' k l = if (k =? i) && (l =? j) then c else b k l.
Proof. intros H. unfold chars_write. rewrite H. by eexists. Qed.

Lemma clear_row_spec row w :
  0 <= row < BUFFER_HEIGHT ->
  exists b, clear_row row w = Ret (MkWriter (row_position w) (column_position w) (color_code w) b) /\
    forall i j, 0 <= j < BUFFER_WIDTH -> b i j = if i =? row then blank_of w else chars w i j.
Proof.
  intros Hr. unfold clear_row. cbv zeta.
  destruct (for_each_seqZ (fun c (b : Buffer) => forall i j, b i j =
      if (i =? row) && (0 <=? j) && (j <? c) then blank_of w else chars w i j)
    (fun col (b : Buffer) => chars_write b row col (MkChar 32 (color_code w))) 0 BUFFER_WIDTH (chars w))
    as (b & -> & Hb).
  - done.
  - intros i j. case_bools; done || lia.
  - intros c b Hc Hb. destruct (chars_write_ok b row c (blank_of w)) as (b' & Hw & Hb'); [solve_in_buffer|].
    exists b'. split; [done|]. intros i j. rewrite Hb', Hb. case_bools; done || lia.
  - eexists. split; [done|]. intros i j Hj. rewrite Hb. case_bools; done || lia.
Qed.

(** One row of [shift_up]. *)
Lemma copy_row_spec row b :
  1 <= row < BUFFER_HEIGHT ->
  exists b', for_each (copy_cell row) (seqZ 0 BUFFER_WIDTH) b = Ret b' /\
    forall i j, 0 <= j < BUFFER_WIDTH -> b' i j = if i =? row - 1 then b row j else b i j.
Proof.
  intros Hr.
  destruct (for_each_seqZ (fun c (b' : Buffer) => forall i j, 0 <= j < BUFFER_WIDTH -> b' i j =
      if (i =? row - 1) && (j <? c) then b row j else b i j)
    (copy_cell row) 0 BUFFER_WIDTH b) as (b' & -> & Hb).
  - done.
  - intros i j Hj. case_bools; done || lia.
  - intros c b1 Hc Hb. unfold copy_cell, chars_read.
    assert (in_buffer row c = true) as -> by solve_in_buffer. cbn [outcome_bind].
    destruct (chars_write_ok b1 (row - 1) c (b1 row c)) as (b2 & Hw & Hb'); [solve_in_buffer|].
    exists b2. split; [done|]. intros i j Hj. rewrite Hb'.
    destruct ((i =? row - 1) && (j =? c)) eqn:E.
    + apply andb_true_iff in E as [->%Z.eqb_eq ->%Z.eqb_eq]. rewrite Hb by lia. case_bools; done || lia.
    + rewrite Hb by done. revert E. case_bools; done || lia.
  - eexists. split; [done|]. intros i j Hj. rewrite Hb by done. case_bools; done || lia.
Qed.

Lemma shift_up_spec w : exists w', shift_up w = Ret w' /\ same_screen w' (scroll w).
Proof.
  unfold shift_up.
  destruct (for_each_seqZ (fun r (b : Buffer) => forall i j, 0 <= j < BUFFER_WIDTH -> b i j =
      if (0 <=? i) && (i <? r - 1) then chars w (i + 1) j else chars w i j)
    (fun row (b : Buffer) => for_each (copy_cell row) (seqZ 0 BUFFER_WIDTH) b) 1 (BUFFER_HEIGHT - 1) (chars w))
    as (b & -> & Hb).
  - done.
  - intros i j Hj. case_bools; done || lia.
  - intros r b Hr Hb. destruct (copy_row_spec r b) as (b' & -> & Hb'); [lia|]. exists b'. split; [done|].
    intros i j Hj. rewrite Hb' by done. destruct (Z.eqb_spec i (r - 1)) as [->|].
    + rewrite Hb by done. replace (r - 1 + 1) with r by lia. case_bools; done || lia.
    + rewrite Hb by done. case_bools; done || lia.
  - cbn [outcome_bind]. set (w1 := MkWriter _ _ _ b).
    destruct (clear_row_spec (BUFFER_HEIGHT - 1) w1) as (b' & -> & Hb'); [done|].
    eexists. split; [done|]. split_and!; [done..|]. intros i j [Hi Hj]%in_buffer_iff. cbn.
    rewrite Hb' by done. cbn. rewrite Hb by done. unfold BUFFER_HEIGHT in *. case_bools; done || lia.
Qed.

(** ** The methods against the reference *)

#[export] Instance put_proper : Proper (eq ==> same_screen ==> same_screen) put.
Proof.
  intros b ? <- w1 w2 (H1 & H2 & H3 & H4). unfold put. split_and!; cbn; [congruence..|].
  intros i j Hij. rewrite H1, H2, H3. destruct (_ && _); [done|by apply H4].
Qed.

#[export] Instance scroll_proper : Proper (same_screen ==> same_screen) scroll.
Proof.
  intros w1 w2 (H1 & H2 & H3 & H4). unfold scroll, blank_of. split_and!; cbn; [congruence..|].
  intros i j [Hi Hj]%in_buffer_iff. rewrite H3. destruct (Z.ltb_spec i (BUFFER_HEIGHT - 1)); [|done].
  apply H4. solve_in_buffer.
Qed.

#[export] Instance set_pos_proper r c : Proper (same_screen ==> same_screen) (set_pos r c).
Proof. intros w1 w2 (H1 & H2 & H3 & H4). by split_and!. Qed.

#[export] Instance line_feed_proper : Proper (same_screen ==> same_screen) line_feed.
Proof.
  intros w1 w2 H. pose proof H as (H1 & _). unfold line_feed. rewrite H1.
  destruct (_ <? _); by rewrite H.
Qed.

#[export] Instance emit_proper : Proper (same_screen ==> eq ==> same_screen) emit.
Proof.
  intros w1 w2 H b ? <-. pose proof H as (_ & H2 & _). unfold emit. rewrite H2.
  destruct (b =? 10); [by rewrite H|]. destruct (_ <? _); by rewrite H.
Qed.

Lemma foldl_emit_proper l w1 w2 :
  same_screen w1 w2 -> same_screen (foldl emit w1 l) (foldl emit w2 l).
Proof. revert w1 w2. induction l as [|b l IH]; intros w1 w2 H; cbn; [done|]. apply IH. by rewrite H. Qed.

#[export] Instance writer_ok_proper : Proper (same_screen ==> iff) writer_ok.
Proof. intros w1 w2 (H1 & H2 & _). unfold writer_ok. by rewrite H1, H2. Qed.

Lemma emit_ok w b : writer_ok w -> writer_ok (emit w b).
Proof.
  unfold writer_ok, emit, line_feed, set_pos, put, scroll, BUFFER_HEIGHT, BUFFER_WIDTH.
  intros [H1 H2]. repeat case_bool; cbn in *; repeat case_bool; cbn in *; lia.
Qed.

Section Refinement.
Context {P : Type} {io : PortIO P}.
Implicit Types (w : Writer) (p : traced P).

(** A selection of port events that excludes the cursor's. *)
Lemma filter_cursor (f : port_event -> bool) es :
  (forall v, f (Out 8 0x3D4 v) = false /\ f (Out 8 0x3D5 v) = false) ->
  Forall cursor_event es -> filter f es = [].
Proof.
  intros Hf. induction 1 as [|e es He Hes IH]; [done|]. rewrite filter_cons_False; [done|].
  destruct e as [w port v|w port v]; [|done]. cbn in He.
  assert (w = 8 /\ (port = 0x3D4 \/ port = 0x3D5)) as [-> [-> | ->]].
  { destruct w as [|w|w]; try done. by do 3 (destruct w as [w|w|]; try done); destruct w. }
  - rewrite (proj1 (Hf v)). by intros [].
  - rewrite (proj2 (Hf v)). by intros [].
Qed.

Lemma cursor_at_events w : Forall cursor_event (cursor_at w).
Proof. unfold cursor_at, cursor_writes. repeat constructor; cbn; tauto. Qed.

Lemma update_cursor_spec w p :
  writer_ok w -> exists p', update_cursor w p = Ret p' /\ log p' = log p ++ cursor_at w.
Proof.
  intros [Hr Hc]. unfold BUFFER_HEIGHT, BUFFER_WIDTH in *.
  unfold update_cursor, cursor_at, cursor_writes, BUFFER_WIDTH.
  rewrite !wrap_small by lia. rewrite checked_mul_ok by lia. cbn [outcome_bind].
  rewrite checked_add_ok by lia. cbn [outcome_bind]. eexists. split; [done|].
  rewrite !log_outb, <- !app_assoc. cbn [app].
  change (wrap 16 0x3D4) with 0x3D4. change (wrap 16 0x3D5) with 0x3D5.
  set (pos := row_position w * 80 + column_position w).
  assert (0 <= pos < 2 ^ 16) by (unfold pos; lia).
  rewrite Z.shiftr_div_pow2 by lia. change 0xFF with (2 ^ 8 - 1). rewrite (land_ones_mod pos 8) by lia.
  change (2 ^ 8) with 256. rewrite !wrap_idem by lia.
  by rewrite (wrap_small 8 (pos / 256)), (wrap_small 8 (pos `mod` 256)) by (cbn; zdiv).
Qed.

Lemma new_line_spec w p :
  writer_ok w ->
  exists w' p', new_line w p = Ret (w', p') /\ same_screen w' (line_feed w) /\ log p' = log p ++ cursor_at w'.
Proof.
  intros Hok. unfold new_line. set (w0 := set_pos (row_position w) 0 w).
  assert (exists w1, (if row_position w0 <? BUFFER_HEIGHT - 1
            then Ret (set_pos (row_position w0 + 1) (column_position w0) w0)
            else shift_up w0) = Ret w1 /\ same_screen w1 (line_feed w)) as (w1 & -> & Hs).
  { unfold line_feed. change (row_position w0) with (row_position w).
    destruct (_ <? _); [by eexists|]. destruct (shift_up_spec w0) as (w1 & -> & Hs).
    exists w1. by split. }
  cbn [outcome_bind].
  destruct (update_cursor_spec w1 p) as (p' & -> & Hp).
  { rewrite Hs. apply (emit_ok w 10 Hok). }
  by exists w1, p'.
Qed.

Lemma write_byte_spec b w p :
  writer_ok w ->
  exists w' p' pre, write_byte b w p = Ret (w', p') /\ same_screen w' (emit w b) /\
    Forall cursor_event pre /\ log p' = log p ++ pre ++ cursor_at w'.
Proof.
  intros Hok. unfold write_byte, emit.
  destruct (Z.eqb_spec b 10).
  { destruct (new_line_spec w p Hok) as (w' & p' & Hn & Hs & Hl). by exists w', p', []. }
  set (w0 := if column_position w <? BUFFER_WIDTH then w else line_feed w).
  assert (exists w1 p1 pre, (if BUFFER_WIDTH <=? column_position w then new_line w p else Ret (w, p)) = Ret (w1, p1) /\
    same_screen w1 w0 /\ Forall cursor_event pre /\ log p1 = log p ++ pre) as (w1 & p1 & pre & -> & Hs & Hpre & Hl).
  { unfold w0. destruct (Z.leb_spec BUFFER_WIDTH (column_position w)), (Z.ltb_spec (column_position w) BUFFER_WIDTH); try lia.
    - destruct (new_line_spec w p Hok) as (w1 & p1 & Hn & Hs & Hl). exists w1, p1, (cursor_at w1).
      auto using cursor_at_events.
    - exists w, p, []. by rewrite app_nil_r. }
  assert (writer_ok w0 /\ column_position w0 < BUFFER_WIDTH) as [Hok0 Hc0].
  { unfold w0. destruct (Z.ltb_spec (column_position w) BUFFER_WIDTH); [done|].
    split; [apply (emit_ok w 10 Hok)|]. unfold line_feed. by destruct (_ <? _). }
  clearbody w0. cbn [outcome_bind]. pose proof Hs as (E1 & E2 & E3 & E4). destruct Hok0 as [Hr Hc].
  destruct (Z.leb_spec BUFFER_HEIGHT (row_position w1)); [lia|]. cbn [outcome_bind].
  unfold chars_write. assert (in_buffer (row_position w1) (column_position w1) = true) as ->
    by (rewrite E1, E2; solve_in_buffer). cbn [outcome_bind].
  fold (put b w1).
  destruct (update_cursor_spec (put b w1) p1) as (p2 & -> & Hp2).
  { unfold writer_ok. cbn. unfold BUFFER_HEIGHT, BUFFER_WIDTH in *. lia. }
  cbn [outcome_bind]. exists (put b w1), p2, pre. split_and!; [done|by rewrite Hs|done|].
  by rewrite Hp2, Hl, app_assoc.
Qed.

Lemma write_string_spec s w p :
  writer_ok w ->
  exists w' p' es, write_string s w p = Ret (w', p') /\ same_screen w' (foldl emit w (printable <$> s)) /\
    writer_ok w' /\ log p' = log p ++ es /\ Forall cursor_event es /\
    (s <> [] -> exists pre, es = pre ++ cursor_at w').
Proof.
  revert w p. induction s as [|b s IH]; intros w p Hok; [by exists w, p, []; rewrite app_nil_r|].
  destruct (write_byte_spec (printable b) w p Hok) as (w1 & p1 & pre & Hw & Hs & Hpre & Hl).
  assert (writer_ok w1) as Hok1 by (rewrite Hs; by apply emit_ok).
  destruct (IH w1 p1 Hok1) as (w2 & p2 & es & Hw2 & Hs2 & Hok2 & Hl2 & Hes & Hlast).
  exists w2, p2, (pre ++ cursor_at w1 ++ es). unfold write_string in *. cbn [for_each]. rewrite Hw. cbn [outcome_bind].
  split_and!; [done| |done| | |].
  - rewrite Hs2. cbn [fmap list_fmap foldl]. by apply foldl_emit_proper.
  - rewrite Hl2, Hl. by rewrite <- !app_assoc.
  - rewrite !Forall_app. auto using cursor_at_events.
  - intros _. destruct s as [|c s].
    + cbn in Hw2. injection Hw2 as <- <-. exists pre.
      assert (es = []) as -> by (apply (app_inv_head (log p1)); by rewrite app_nil_r, <- Hl2). by rewrite app_nil_r.
    + destruct (Hlast ltac:(done)) as (pre2 & ->). exists (pre ++ cursor_at w1 ++ pre2). by rewrite <- !app_assoc.
Qed.

Lemma clear_screen_spec w :
  exists w', clear_screen w = Ret w' /\ row_position w' = 0 /\ column_position w' = 0 /\
    color_code w' = color_code w /\ forall i j, in_buffer i j = true -> chars w' i j = blank_of w.
Proof.
  unfold clear_screen.
  destruct (for_each_seqZ (fun r w' => color_code w' = color_code w /\
      forall i j, 0 <= i < r -> 0 <= j < BUFFER_WIDTH -> chars w' i j = blank_of w) clear_row 0 BUFFER_HEIGHT w)
    as (w' & -> & Hc & Hw).
  - done.
  - split; [done|]. lia.
  - intros r w1 Hr [Hc Hw]. destruct (clear_row_spec r w1) as (b & -> & Hb); [lia|].
    eexists. split; [done|]. split; [done|]. cbn. intros i j Hi Hj. rewrite Hb by done.
    unfold blank_of. rewrite Hc. destruct (Z.eqb_spec i r); [done|]. apply Hw; lia.
  - cbn. eexists. split; [done|]. cbn. split_and!; try done. intros i j [? ?]%in_buffer_iff. by apply Hw.
Qed.

(** ** Properties *)

(** C11: [write_string] implements the reference terminal for every string: it
    never indexes outside the 25x80 buffer and never overflows the cursor
    arithmetic, the screen is the one [emit] produces byte by byte (unprintable
    bytes as 0xfe, wrapping at column 80, scrolling with a blank last row), the
    position stays within the screen, the only port accesses are those of the
    hardware cursor, and the last ones put it at the writer's position. *)
Theorem write_string_refines_terminal s w p :
  writer_ok w ->
  exists w' p' es, write_string s w p = Ret (w', p') /\ same_screen w' (foldl emit w (printable <$> s)) /\
    writer_ok w' /\ log p' = log p ++ es /\ Forall cursor_event es /\
    (s <> [] -> exists pre, es = pre ++ cursor_at w').
Proof. apply write_string_spec. Qed.

(** [clear_screen] blanks all 2000 cells in the current color and homes the
    writer, from any state, and [set_position] moves to exactly the positions on
    the screen, ignores all others, and keeps the hardware cursor on the writer. *)
Theorem clear_and_position w p row col :
  writer_ok w -> 0 <= row -> 0 <= col ->
  (exists w', clear_screen w = Ret w' /\ row_position w' = 0 /\ column_position w' = 0 /\
     color_code w' = color_code w /\ forall i j, in_buffer i j = true -> chars w' i j = blank_of w) /\
  exists w' p', set_position row col w p = Ret (w', p') /\ writer_ok w' /\
    (row_position w', column_position w') =
      (if in_buffer row col then (row, col) else (row_position w, column_position w)) /\
    log p' = log p ++ cursor_at w'.
Proof.
  intros Hok Hr Hc. split; [apply clear_screen_spec|]. unfold set_position.
  set (w1 := if _ && _ then _ else _).
  assert (writer_ok w1 /\ (row_position w1, column_position w1) =
    (if in_buffer row col then (row, col) else (row_position w, column_position w))) as [Hok1 Hp1].
  { unfold w1, in_buffer. destruct (Z.leb_spec 0 row), (Z.leb_spec 0 col); try lia. cbn [andb].
    rewrite andb_true_r. destruct (Z.ltb_spec row BUFFER_HEIGHT), (Z.ltb_spec col BUFFER_WIDTH); try done.
    split; [|done]. unfold writer_ok. cbn. unfold BUFFER_HEIGHT, BUFFER_WIDTH in *. lia. }
  destruct (update_cursor_spec w1 p Hok1) as (p' & -> & Hp'). by exists w1, p'.
Qed.
End Refinement.

(** ** Witnesses *)

#[local] Existing Instance const_ports_io.

Definition sample_writer : Writer := WRITER_init (fun _ _ => MkChar 0 0).
Definition sample_ports : traced const_ports := MkTraced (MkConst (fun _ => 0)) [].

Lemma sample_writer_ok : writer_ok sample_writer.
Proof. unfold writer_ok, sample_writer, WRITER_init, BUFFER_HEIGHT, BUFFER_WIDTH. cbn. lia. Qed.

Lemma write_string_refines_terminal_witness :
  exists w' p', write_string [72; 105; 10; 200] sample_writer sample_ports = Ret (w', p') /\
    chars w' 23 0 = MkChar 72 14 /\ chars w' 24 0 = MkChar 0xfe 14 /\ column_position w' = 1 /\
    exists pre, log p' = pre ++ cursor_at w'.
Proof.
  destruct (write_string_refines_terminal [72; 105; 10; 200] sample_writer sample_ports sample_writer_ok)
    as (w' & p' & es & H1 & (_ & Hc & _ & H2) & _ & H3 & _ & H4).
  exists w', p'. split_and!; [exact H1| | |rewrite Hc; reflexivity|rewrite H3; apply H4; discriminate];
    rewrite H2 by reflexivity; reflexivity.
Defined.

Lemma clear_and_position_witness :
  exists w' p', set_position 3 90 sample_writer sample_ports = Ret (w', p') /\ row_position w' = 24.
Proof.
  destruct (clear_and_position sample_writer sample_ports 3 90 sample_writer_ok) as (_ & w' & p' & H1 & _ & H2 & _);
    [lia|lia|]. exists w', p'. split; [exact H1|]. injection H2 as -> _. reflexivity.
Defined.
