(* ===== verification/Vbe.v ===== *)
(** * Vbe: the linear framebuffer driver,
    [src/driver_framework/drivers/vbe_vga.rs]

    Drawing primitives over physical memory seen through the mapped BARs, the mode
    set through the DISPI ports, and the driver's life cycle ([probe], [start],
    [stop], [release]) with the page mappings it creates and removes. Driver instances live in
    a store ([drivers]) so that the pointer to the active one, which the free
    functions go through, is modelled as in the source; the null pointers to the
    mapper and the allocator are [None]. Pixel coordinates and pitches are far
    below 2^64, so their products are plain integers. *)

From S2P Require Import Prelude External Device Ports VgaText.

Local Open Scope string_scope.
Local Open Scope list_scope.
Local Open Scope Z_scope.

Record FbMapping : Type := MkMapping {
  virt_base : Z; phys_map_start : Z; bar_phys : Z; pages : Z
}.

Record FramebufferInfo : Type := MkFbInfo { width : Z; height : Z; bpp : Z; pitch : Z }.

(** ** The font *)

Definition FONT8X8 : list (list Z) := [
  [0x00; 0x00; 0x00; 0x00; 0x00; 0x00; 0x00; 0x00];
  [0x18; 0x3c; 0x3c; 0x18; 0x18; 0x00; 0x18; 0x00];
  [0x6c; 0x6c; 0x48; 0x00; 0x00; 0x00; 0x00; 0x00];
  [0x6c; 0x6c; 0xfe; 0x6c; 0xfe; 0x6c; 0x6c; 0x00];
  [0x18; 0x3e; 0x60; 0x3c; 0x06; 0x7c; 0x18; 0x00];
  [0x00; 0xc6; 0xcc; 0x18; 0x30; 0x66; 0xc6; 0x00];
  [0x38; 0x6c; 0x38; 0x76; 0xdc; 0xcc; 0x76; 0x00];
  [0x30; 0x30; 0x60; 0x00; 0x00; 0x00; 0x00; 0x00];
  [0x0c; 0x18; 0x30; 0x30; 0x30; 0x18; 0x0c; 0x00];
  [0x30; 0x18; 0x0c; 0x0c; 0x0c; 0x18; 0x30; 0x00];
  [0x00; 0x66; 0x3c; 0xff; 0x3c; 0x66; 0x00; 0x00];
  [0x00; 0x18; 0x18; 0x7e; 0x18; 0x18; 0x00; 0x00];
  [0x00; 0x00; 0x00; 0x00; 0x00; 0x18; 0x18; 0x30];
  [0x00; 0x00; 0x00; 0x7e; 0x00; 0x00; 0x00; 0x00];
  [0x00; 0x00; 0x00; 0x00; 0x00; 0x18; 0x18; 0x00];
  [0x06; 0x0c; 0x18; 0x30; 0x60; 0xc0; 0x80; 0x00];
  [0x7c; 0xc6; 0xce; 0xd6; 0xe6; 0xc6; 0x7c; 0x00];
  [0x18; 0x38; 0x18; 0x18; 0x18; 0x18; 0x7e; 0x00];
  [0x7c; 0xc6; 0x06; 0x1c; 0x30; 0x66; 0xfe; 0x00];
  [0x7c; 0xc6; 0x06; 0x3c; 0x06; 0xc6; 0x7c; 0x00];
  [0x0c; 0x1c; 0x3c; 0x6c; 0xfe; 0x0c; 0x1e; 0x00];
  [0xfe; 0xc0; 0xc0; 0xfc; 0x06; 0xc6; 0x7c; 0x00];
  [0x3c; 0x60; 0xc0; 0xfc; 0xc6; 0xc6; 0x7c; 0x00];
  [0xfe; 0xc6; 0x0c; 0x18; 0x30; 0x30; 0x30; 0x00];
  [0x7c; 0xc6; 0xc6; 0x7c; 0xc6; 0xc6; 0x7c; 0x00];
  [0x7c; 0xc6; 0xc6; 0x7e; 0x06; 0x0c; 0x78; 0x00];
  [0x00; 0x18; 0x18; 0x00; 0x00; 0x18; 0x18; 0x00];
  [0x00; 0x18; 0x18; 0x00; 0x00; 0x18; 0x18; 0x30];
  [0x0e; 0x1c; 0x38; 0x70; 0x38; 0x1c; 0x0e; 0x00];
  [0x00; 0x00; 0x7e; 0x00; 0x00; 0x7e; 0x00; 0x00];
  [0x70; 0x38; 0x1c; 0x0e; 0x1c; 0x38; 0x70; 0x00];
  [0x7c; 0xc6; 0x0e; 0x1c; 0x18; 0x00; 0x18; 0x00];
  [0x7c; 0xc6; 0xde; 0xde; 0xde; 0xc0; 0x78; 0x00];
  [0x10; 0x38; 0x6c; 0xc6; 0xfe; 0xc6; 0xc6; 0x00];
  [0xfc; 0x66; 0x66; 0x7c; 0x66; 0x66; 0xfc; 0x00];
  [0x3c; 0x66; 0xc0; 0xc0; 0xc0; 0x66; 0x3c; 0x00];
  [0xf8; 0x6c; 0x66; 0x66; 0x66; 0x6c; 0xf8; 0x00];
  [0xfe; 0x62; 0x68; 0x78; 0x68; 0x62; 0xfe; 0x00];
  [0xfe; 0x62; 0x68; 0x78; 0x68; 0x60; 0xf0; 0x00];
  [0x3c; 0x66; 0xc0; 0xc0; 0xce; 0x66; 0x3c; 0x00];
  [0xc6; 0xc6; 0xc6; 0xfe; 0xc6; 0xc6; 0xc6; 0x00];
  [0x7e; 0x18; 0x18; 0x18; 0x18; 0x18; 0x7e; 0x00];
  [0x1e; 0x0c; 0x0c; 0x0c; 0xcc; 0xcc; 0x78; 0x00];
  [0xe6; 0x66; 0x6c; 0x78; 0x6c; 0x66; 0xe6; 0x00];
  [0xf0; 0x60; 0x60; 0x60; 0x62; 0x66; 0xfe; 0x00];
  [0xc6; 0xee; 0xfe; 0xfe; 0xd6; 0xc6; 0xc6; 0x00];
  [0xc6; 0xe6; 0xf6; 0xde; 0xce; 0xc6; 0xc6; 0x00];
  [0x7c; 0xc6; 0xc6; 0xc6; 0xc6; 0xc6; 0x7c; 0x00];
  [0xfc; 0x66; 0x66; 0x7c; 0x60; 0x60; 0xf0; 0x00];
  [0x7c; 0xc6; 0xc6; 0xc6; 0xd6; 0xcc; 0x7a; 0x00];
  [0xfc; 0x66; 0x66; 0x7c; 0x6c; 0x66; 0xe6; 0x00];
  [0x7c; 0xc6; 0xc0; 0x7c; 0x06; 0xc6; 0x7c; 0x00];
  [0xff; 0x99; 0x18; 0x18; 0x18; 0x18; 0x3c; 0x00];
  [0xc6; 0xc6; 0xc6; 0xc6; 0xc6; 0xc6; 0x7c; 0x00];
  [0xc6; 0xc6; 0xc6; 0xc6; 0xc6; 0x6c; 0x38; 0x00];
  [0xc6; 0xc6; 0xc6; 0xd6; 0xfe; 0xee; 0xc6; 0x00];
  [0xc6; 0x6c; 0x38; 0x10; 0x38; 0x6c; 0xc6; 0x00];
  [0xcc; 0xcc; 0x98; 0x30; 0x30; 0x30; 0x78; 0x00];
  [0xfe; 0xce; 0x9c; 0x38; 0x70; 0xe6; 0xfe; 0x00];
  [0x3c; 0x30; 0x30; 0x30; 0x30; 0x30; 0x3c; 0x00];
  [0xc0; 0x60; 0x30; 0x18; 0x0c; 0x06; 0x02; 0x00];
  [0x3c; 0x0c; 0x0c; 0x0c; 0x0c; 0x0c; 0x3c; 0x00];
  [0x10; 0x38; 0x6c; 0xc6; 0x00; 0x00; 0x00; 0x00];
  [0x00; 0x00; 0x00; 0x00; 0x00; 0x00; 0x00; 0xff];
  [0x30; 0x18; 0x0c; 0x00; 0x00; 0x00; 0x00; 0x00];
  [0x00; 0x00; 0x78; 0x0c; 0x7c; 0xcc; 0x76; 0x00];
  [0xe0; 0x60; 0x7c; 0x66; 0x66; 0x66; 0xdc; 0x00];
  [0x00; 0x00; 0x7c; 0xc0; 0xc0; 0xc0; 0x7c; 0x00];
  [0x1c; 0x0c; 0x7c; 0xcc; 0xcc; 0xcc; 0x76; 0x00];
  [0x00; 0x00; 0x7c; 0xc6; 0xfe; 0xc0; 0x7c; 0x00];
  [0x3c; 0x66; 0x60; 0xf8; 0x60; 0x60; 0xf0; 0x00];
  [0x00; 0x00; 0x76; 0xcc; 0xcc; 0x7c; 0x0c; 0xf8];
  [0xe0; 0x60; 0x6c; 0x76; 0x66; 0x66; 0xe6; 0x00];
  [0x18; 0x00; 0x38; 0x18; 0x18; 0x18; 0x3c; 0x00];
  [0x0c; 0x00; 0x1c; 0x0c; 0x0c; 0xcc; 0xcc; 0x78];
  [0xe0; 0x60; 0x66; 0x6c; 0x78; 0x6c; 0xe6; 0x00];
  [0x38; 0x18; 0x18; 0x18; 0x18; 0x18; 0x3c; 0x00];
  [0x00; 0x00; 0xec; 0xfe; 0xd6; 0xd6; 0xd6; 0x00];
  [0x00; 0x00; 0xdc; 0x66; 0x66; 0x66; 0x66; 0x00];
  [0x00; 0x00; 0x7c; 0xc6; 0xc6; 0xc6; 0x7c; 0x00];
  [0x00; 0x00; 0xdc; 0x66; 0x66; 0x7c; 0x60; 0xf0];
  [0x00; 0x00; 0x76; 0xcc; 0xcc; 0x7c; 0x0c; 0x1e];
  [0x00; 0x00; 0xdc; 0x76; 0x60; 0x60; 0xf0; 0x00];
  [0x00; 0x00; 0x7e; 0xc0; 0x7c; 0x06; 0xfc; 0x00];
  [0x30; 0x30; 0xfc; 0x30; 0x30; 0x36; 0x1c; 0x00];
  [0x00; 0x00; 0xcc; 0xcc; 0xcc; 0xcc; 0x76; 0x00];
  [0x00; 0x00; 0xc6; 0xc6; 0xc6; 0x6c; 0x38; 0x00];
  [0x00; 0x00; 0xc6; 0xd6; 0xd6; 0xfe; 0x6c; 0x00];
  [0x00; 0x00; 0xc6; 0x6c; 0x38; 0x6c; 0xc6; 0x00];
  [0x00; 0x00; 0xc6; 0xc6; 0xc6; 0x7e; 0x06; 0xfc];
  [0x00; 0x00; 0xfe; 0x8c; 0x18; 0x32; 0xfe; 0x00];
  [0x0e; 0x18; 0x18; 0x70; 0x18; 0x18; 0x0e; 0x00];
  [0x18; 0x18; 0x18; 0x00; 0x18; 0x18; 0x18; 0x00];
  [0x70; 0x18; 0x18; 0x0e; 0x18; 0x18; 0x70; 0x00];
  [0x76; 0xdc; 0x00; 0x00; 0x00; 0x00; 0x00; 0x00]
].

(** [VGA8X8::get_glyph]; indexing past the table panics. *)
Definition get_glyph (ch : Z) : outcome (option (list Z)) :=
  let FIRST := 0x20 in
  let LAST := 0x7F in
  if (ch <? FIRST) || (LAST <? ch) then Ret None else
  let idx := ch - FIRST in
  match FONT8X8 !! Z.to_nat idx with
  | Some glyph => Ret (Some glyph)
  | None => Panic "index out of bounds"
  end.

Definition vbe_color_from_vga_color (c : Color) : Z :=
  match c with
  | Black => 0xFF000000
  | Blue => 0xFF0000AA
  | Green => 0xFF00AA00
  | Cyan => 0xFF00AAAA
  | Red => 0xFFAA0000
  | Magenta => 0xFFAA00AA
  | Brown => 0xFFAA5500
  | LightGray => 0xFFAAAAAA
  | DarkGray => 0xFF555555
  | LightBlue => 0xFF5555FF
  | LightGreen => 0xFF55FF55
  | LightCyan => 0xFF55FFFF
  | LightRed => 0xFFFF5555
  | Pink => 0xFFFF55FF
  | Yellow => 0xFFFFFF55
  | White => 0xFFFFFFFF
  end.

Record VbeVgaDriver : Type := MkVbe {
  started : bool;
  mappings : list FbMapping;
  fb_info : option FramebufferInfo
}.

Definition VbeVgaDriver_new : VbeVgaDriver := MkVbe false [] None.

(** ** Drawing *)

(** [ptr::write_volatile(p as *mut u32, color)] *)
Definition write32 (m : mem) (p color : Z) : mem := write_le m p 4 color.

Definition drv_pitch (d : VbeVgaDriver) : Z :=
  match fb_info d with Some i => pitch i | None => 1024 * 4 end.

Definition drv_get_framebuffer_addrs (d : VbeVgaDriver) : list Z :=
  (fun mp => virt_base mp + (bar_phys mp - phys_map_start mp)) <$> mappings d.

Definition drv_draw_pixel_at (d : VbeVgaDriver) (fb_virt x y color : Z) (m : mem) : mem :=
  let row := fb_virt + y * drv_pitch d in
  let p := row + x * 4 in
  write32 m p color.

Definition drv_draw_rect_at (d : VbeVgaDriver) (fb_virt x y w h color : Z) (m : mem) : mem :=
  for_range y (y + h) (fun yy m =>
    let row := fb_virt + yy * drv_pitch d in
    for_range x (x + w) (fun xx m => write32 m (row + xx * 4) color) m) m.

(** [x.rotate_left(k)] of a byte, [k < 8]. *)
Definition rotate_left8 (x k : Z) : Z := wrap 8 ((x .<< k) .| (x .>> (8 - k))).

(** Row [r] of the procedural glyph. *)
Definition fallback_pattern (ch r : Z) : Z :=
  let pattern := Z.lxor (wrap 8 (ch + wrap 8 r)) (ch .>> (r `mod` 8)) in
  rotate_left8 pattern (r .& 7).

(** The eight rows of pixels of a character: column [c] of row [r] is drawn when
    [bit r c] is set. *)
Definition draw_bits (d : VbeVgaDriver) (fb_virt x y color : Z) (bit : Z -> Z -> bool) (m : mem) : mem :=
  for_range 0 8 (fun r m =>
    let row := fb_virt + (y + r) * drv_pitch d in
    for_range 0 8 (fun c m => if bit r c then write32 m (row + (x + c) * 4) color else m) m) m.

Definition glyph_bit (glyph : list Z) (r c : Z) : bool :=
  negb (default 0 (glyph !! Z.to_nat r) .& (1 .<< (7 - c)) =? 0).
Definition fallback_bit (ch r c : Z) : bool := negb (fallback_pattern ch r .& (1 .<< c) =? 0).

Definition drv_draw_char_at (d : VbeVgaDriver) (fb_virt x y ch color : Z) (m : mem) : outcome mem :=
  let! g := get_glyph ch in
  match g with
  | Some glyph => Ret (draw_bits d fb_virt x y color (glyph_bit glyph) m)
  | None => Ret (draw_bits d fb_virt x y color (fallback_bit ch) m)
  end.

Fixpoint drv_draw_text_absolute (d : VbeVgaDriver) (fb_virt cx y : Z) (s : list Z) (color : Z) (m : mem)
    : outcome mem :=
  match s with
  | [] => Ret m
  | b :: s =>
      if b =? 10 then drv_draw_text_absolute d fb_virt cx y s color m else
      let! m := drv_draw_char_at d fb_virt cx y b color m in
      drv_draw_text_absolute d fb_virt (cx + 9) y s color m
  end.

(** ** Mode setting *)

Section Ports.
Context {P : Type} {io : PortIO P}.

Definition DISPI_INDEX_PORT : Z := 0x01CE.
Definition DISPI_DATA_PORT : Z := 0x01CF.

Definition set_vbe_mode_dispi (xres yres bpp : Z) (p : P) : bool * P :=
  let p := outw DISPI_INDEX_PORT 0x0 p in
  let '(id, p) := inw DISPI_DATA_PORT p in
  if (id =? 0) || (id =? 0xFFFF) then (false, p) else
  let p := outw DISPI_INDEX_PORT 0x4 p in
  let p := outw DISPI_DATA_PORT 0x00 p in
  let p := outw DISPI_INDEX_PORT 0x1 p in
  let p := outw DISPI_DATA_PORT xres p in
  let p := outw DISPI_INDEX_PORT 0x2 p in
  let p := outw DISPI_DATA_PORT yres p in
  let p := outw DISPI_INDEX_PORT 0x3 p in
  let p := outw DISPI_DATA_PORT bpp p in
  let p := outw DISPI_INDEX_PORT 0x4 p in
  let p := outw DISPI_DATA_PORT (0x01 .| 0x40) p in
  (true, p).

Definition read_dispi (index : Z) (p : P) : Z * P := inw DISPI_DATA_PORT (outw DISPI_INDEX_PORT index p).

(** The resolution read back by [start]. *)
Definition read_fb_info (old : option FramebufferInfo) (p : P) : option FramebufferInfo * P :=
  let '(xres, p) := read_dispi 0x1 p in
  let '(yres, p) := read_dispi 0x2 p in
  let '(bpp, p) := read_dispi 0x3 p in
  if negb (xres =? 0) && negb (yres =? 0)
  then (Some (MkFbInfo xres yres bpp (xres * ((bpp + 7) / 8))), p)
  else (old, p).
End Ports.

(** ** Life cycle *)

Record VbeWorld (MS FA P : Type) : Type := MkVW {
  drivers : gmap Z VbeVgaDriver;
  active_vbe : option Z;
  global_mapper : option MS;
  global_alloc : option FA;
  boot_phys_offset : Z;
  vmem : mem;
  vports : P
}.
Arguments drivers {MS FA P}.
Arguments active_vbe {MS FA P}.
Arguments global_mapper {MS FA P}.
Arguments global_alloc {MS FA P}.
Arguments boot_phys_offset {MS FA P}.
Arguments vmem {MS FA P}.
Arguments vports {MS FA P}.
Arguments MkVW {MS FA P}.

(** The pages of a BAR: first page, number of pages. *)
Definition bar_pages (bar len : Z) : outcome (Z * Z) :=
  let bar_len := if len =? 0 then 0x1000 else len in
  let phys_map_start := bar .& lnotw 64 0xFFF in
  let! e := checked_add 64 bar bar_len in
  let! e := checked_add 64 e 0xFFF in
  let phys_map_end := e .& lnotw 64 0xFFF in
  let! n := checked_sub phys_map_end phys_map_start in
  Ret (phys_map_start, n / 0x1000).

Definition vbe_probe (d : Device) : result unit string :=
  if class (info d) =? 0x03 then Ok () else Err "not a display controller".

Section Lifecycle.
Context {paging : X86Paging} {FA MS P : Type} {ops : FrameAllocator FA} {spec : FrameAllocatorSpec FA}
  {mapper : Mapper FA MS} {unmapper : Unmapper mapper} {io : PortIO P}.
Implicit Types (v : VbeWorld MS FA P).

Definition set_global_mapper_ptr (ms : option MS) v : VbeWorld MS FA P :=
  MkVW (drivers v) (active_vbe v) ms (global_alloc v) (boot_phys_offset v) (vmem v) (vports v).
Definition set_global_frame_allocator_ptr (fa : option FA) v : VbeWorld MS FA P :=
  MkVW (drivers v) (active_vbe v) (global_mapper v) fa (boot_phys_offset v) (vmem v) (vports v).
Definition set_boot_phys_offset (off : Z) v : VbeWorld MS FA P :=
  MkVW (drivers v) (active_vbe v) (global_mapper v) (global_alloc v) off (vmem v) (vports v).
Definition get_boot_phys_offset v : Z := boot_phys_offset v.

Definition set_mem (m : mem) v : VbeWorld MS FA P :=
  MkVW (drivers v) (active_vbe v) (global_mapper v) (global_alloc v) (boot_phys_offset v) m (vports v).
Definition set_vports (p : P) v : VbeWorld MS FA P :=
  MkVW (drivers v) (active_vbe v) (global_mapper v) (global_alloc v) (boot_phys_offset v) (vmem v) p.
Definition set_driver (id : Z) (d : VbeVgaDriver) v : VbeWorld MS FA P :=
  MkVW (<[id := d]> (drivers v)) (active_vbe v) (global_mapper v) (global_alloc v) (boot_phys_offset v) (vmem v) (vports v).
Definition set_active (a : option Z) v : VbeWorld MS FA P :=
  MkVW (drivers v) a (global_mapper v) (global_alloc v) (boot_phys_offset v) (vmem v) (vports v).

(** [for i in 0..page_count]: left at the first failure. *)
Fixpoint map_bar (is_ : list Z) (phys_start virt : Z) (ms : MS) (fa : FA) : MS * FA :=
  match is_ with
  | [] => (ms, fa)
  | i :: is_ =>
      let phys := phys_start + i * 0x1000 in
      let frame := frame_containing_address phys in
      let page := page_containing_address (virt + i * 0x1000) in
      let flags := PRESENT .| WRITABLE in
      match map_to page frame flags ms fa with
      | (Ok _, (ms, fa)) => map_bar is_ phys_start virt (flush page ms) fa
      | (Err _, (ms, fa)) => (ms, fa)
      end
  end.

(** The loop over the device's resources; [inl] is the early error return. *)
Fixpoint map_bars (rs : list Resource) (created : list FbMapping) v
    : outcome (string * VbeWorld MS FA P + list FbMapping * VbeWorld MS FA P) :=
  match rs with
  | [] => Ret (inr (created, v))
  | r :: rs =>
      match kind r with
      | MemoryMapped =>
          let! (start, page_count) := bar_pages (addr r) (len r) in
          if page_count =? 0 then map_bars rs created v else
          let virt := get_boot_phys_offset v +64 start in
          match global_mapper v, global_alloc v with
          | Some ms, Some fa =>
              let '(ms, fa) := map_bar (seqZ 0 page_count) start virt ms fa in
              let v := set_global_frame_allocator_ptr (Some fa) (set_global_mapper_ptr (Some ms) v) in
              map_bars rs (created ++ [MkMapping virt start (addr r) page_count]) v
          | _, _ => Ret (inl ("mapper/alloc not set", v))
          end
      | _ => map_bars rs created v
      end
  end.

Definition vbe_start (self : Z) (device : Device) v : outcome (result unit string * VbeWorld MS FA P) :=
  match drivers v !! self with
  | None => Panic "dangling driver"
  | Some d =>
      if started d then Ret (Err "already started", v) else
      let '(_, p) := set_vbe_mode_dispi 1024 768 32 (vports v) in
      let v := set_vports p v in
      let! r := map_bars (resources (info device)) [] v in
      match r with
      | inl (msg, v) => Ret (Err msg, v)
      | inr (created, v) =>
          match created with
          | [] => Ret (Err "no MMIO BARs mapped", v)
          | _ =>
              let '(fi, p) := read_fb_info (fb_info d) (vports v) in
              let v := set_vports p v in
              let v := set_driver self (MkVbe true created fi) v in
              Ret (Ok (), set_active (Some self) v)
          end
      end
  end.

(** The box [stop] clears in a framebuffer. *)
Definition clear_box (fb : Z) (m : mem) : mem :=
  let pitch := 1024 * 4 in
  for_range 100 300 (fun y m =>
    for_range 100 300 (fun x m => write32 m (fb + y * pitch + x * 4) 0) m) m.

Definition clear_mapping (mp : FbMapping) (m : mem) : outcome mem :=
  let! o := checked_sub (bar_phys mp) (phys_map_start mp) in
  let! fb := checked_add 64 (virt_base mp) o in
  if fb =? 0 then Ret m else Ret (clear_box fb m).

(** The result of [unmap] is dropped, and with it the flush. *)
Definition unmap_mapping (mp : FbMapping) (ms : MS) : MS :=
  for_range 0 (pages mp) (fun i ms =>
    (unmap (page_containing_address (virt_base mp + i * 0x1000)) ms).2) ms.

Definition vbe_stop (self : Z) v : outcome (VbeWorld MS FA P) :=
  match drivers v !! self with
  | None => Panic "dangling driver"
  | Some d =>
      if negb (started d) then Ret v else
      let! m := for_each clear_mapping (mappings d) (vmem v) in
      let v := set_mem m v in
      let v := match global_mapper v with
               | Some ms => set_global_mapper_ptr (Some (foldl (fun ms mp => unmap_mapping mp ms) ms (mappings d))) v
               | None => v
               end in
      let v := set_driver self (MkVbe false [] (fb_info d)) v in
      Ret (if decide (active_vbe v = Some self) then set_active None v else v)
  end.

Definition vbe_release (self : Z) v : outcome (VbeWorld MS FA P) := vbe_stop self v.

(** ** The functions that go through the active driver *)

Definition active_driver v : option VbeVgaDriver :=
  match active_vbe v with Some a => drivers v !! a | None => None end.

Definition get_framebuffer_addrs v : list Z :=
  match active_driver v with Some d => drv_get_framebuffer_addrs d | None => [] end.

Definition get_fb_info v : option FramebufferInfo :=
  match active_driver v with Some d => fb_info d | None => None end.

Definition draw_pixel_at (fb x y color : Z) v : VbeWorld MS FA P :=
  match active_driver v with Some d => set_mem (drv_draw_pixel_at d fb x y color (vmem v)) v | None => v end.

Definition draw_rect_at (fb x y w h color : Z) v : VbeWorld MS FA P :=
  match active_driver v with Some d => set_mem (drv_draw_rect_at d fb x y w h color (vmem v)) v | None => v end.

Definition draw_char_at (fb x y ch color : Z) v : outcome (VbeWorld MS FA P) :=
  match active_driver v with
  | Some d => let! m := drv_draw_char_at d fb x y ch color (vmem v) in Ret (set_mem m v)
  | None => Ret v
  end.

Definition draw_text_absolute (fb x y : Z) (s : list Z) (color : Z) v : outcome (VbeWorld MS FA P) :=
  match active_driver v with
  | Some d => let! m := drv_draw_text_absolute d fb x y s color (vmem v) in Ret (set_mem m v)
  | None => Ret v
  end.
End Lifecycle.

(** ** Pixels *)

(** The pixel at column [x] and row [y]. *)
Definition pix (m : mem) (fb pitch x y : Z) : Z := read_le m (fb + y * pitch + x * 4) 4.

Definition on_row (pitch x : Z) : Prop := 0 <= x /\ 4 * x + 4 <= pitch.

Lemma pix_write m fb pitch x y x' y' c :
  on_row pitch x -> on_row pitch x' ->
  pix (write32 m (fb + y * pitch + x * 4) c) fb pitch x' y' =
    if (x' =? x) && (y' =? y) then wrap 32 c else pix m fb pitch x' y'.
Proof.
  unfold on_row, pix, write32. intros Hx Hx'.
  destruct (Z.eqb_spec x' x) as [->|Hnx]; cbn [andb].
  - destruct (Z.eqb_spec y' y) as [->|Hny]; [apply read_write_le|].
    apply read_write_le_other. destruct (Z.lt_total y y') as [?|[?|?]]; [right|lia|left]; cbn; nia.
  - apply read_write_le_other. destruct (Z.lt_total y y') as [?|[?|?]]; [right|subst; lia|left]; cbn; nia.
Qed.

(** One row of a loop that draws the columns for which [bit] holds. *)
Lemma row_loop m fb pitch x y c (bit : Z -> bool) lo n i j :
  0 <= n -> (forall k, lo <= k < lo + n -> on_row pitch (x + k)) -> on_row pitch i ->
  pix (for_range lo (lo + n) (fun k (m : mem) => if bit k then write32 m (fb + y * pitch + (x + k) * 4) c else m) m) fb pitch i j =
    if (j =? y) && (x + lo <=? i) && (i <? x + lo + n) && bit (i - x) then wrap 32 c else pix m fb pitch i j.
Proof.
  intros Hn Hrow Hi.
  apply (for_range_post (fun k (m' : mem) => pix m' fb pitch i j =
    if (j =? y) && (x + lo <=? i) && (i <? x + k) && bit (i - x) then wrap 32 c else pix m fb pitch i j)).
  - lia.
  - case_bools; try done; lia.
  - intros k m' Hk H. destruct (bit k) eqn:Eb.
    + rewrite pix_write, H by auto.
      destruct (Z.eqb_spec i (x + k)) as [->|].
      * replace (x + k - x) with k by lia. rewrite Eb. case_bools; done || lia.
      * case_bools; done || lia.
    + rewrite H. destruct (Z.eqb_spec i (x + k)) as [->|].
      * replace (x + k - x) with k by lia. rewrite Eb, !andb_false_r. done.
      * case_bools; done || lia.
  - intros m' ->. by rewrite Z.add_assoc.
Qed.

Lemma draw_rect_pix d fb x y w h c m i j :
  0 <= x -> 0 <= w -> 0 <= h -> 4 * (x + w) <= drv_pitch d -> on_row (drv_pitch d) i ->
  pix (drv_draw_rect_at d fb x y w h c m) fb (drv_pitch d) i j =
    if (x <=? i) && (i <? x + w) && (y <=? j) && (j <? y + h) then wrap 32 c else pix m fb (drv_pitch d) i j.
Proof.
  intros Hx Hw Hh Hfit Hi. unfold drv_draw_rect_at.
  apply (for_range_post (fun k (m' : mem) => pix m' fb (drv_pitch d) i j =
    if (x <=? i) && (i <? x + w) && (y <=? j) && (j <? k) then wrap 32 c else pix m fb (drv_pitch d) i j)).
  - lia.
  - case_bools; done || lia.
  - intros k m' Hk H.
    refine (eq_trans (row_loop m' fb (drv_pitch d) 0 k c (fun _ => true) x w i j Hw _ Hi) _).
    + unfold on_row. lia.
    + rewrite H, Z.add_0_l, andb_true_r. case_bools; done || lia.
  - done.
Qed.

Lemma draw_bits_pix d fb x y c bit m i j :
  0 <= x -> 4 * (x + 8) <= drv_pitch d -> on_row (drv_pitch d) i ->
  pix (draw_bits d fb x y c bit m) fb (drv_pitch d) i j =
    if (x <=? i) && (i <? x + 8) && (y <=? j) && (j <? y + 8) && bit (j - y) (i - x)
    then wrap 32 c else pix m fb (drv_pitch d) i j.
Proof.
  intros Hx Hfit Hi. unfold draw_bits.
  apply (for_range_post (fun k (m' : mem) => pix m' fb (drv_pitch d) i j =
    if (x <=? i) && (i <? x + 8) && (y <=? j) && (j <? y + k) && bit (j - y) (i - x)
    then wrap 32 c else pix m fb (drv_pitch d) i j)).
  - lia.
  - case_bools; done || lia.
  - intros k m' Hk H.
    refine (eq_trans (row_loop m' fb (drv_pitch d) x (y + k) c (bit k) 0 8 i j _ _ Hi) _);
      [lia|unfold on_row; lia|]. rewrite H, Z.add_0_r.
    destruct (Z.eqb_spec j (y + k)) as [->|].
    + replace (y + k - y) with k by lia. case_bools; done || lia.
    + case_bools; done || lia.
  - done.
Qed.

Lemma font_glyphs : length FONT8X8 = 95%nat /\ Forall (fun g => length g = 8%nat) FONT8X8.
Proof. split; [done|]. repeat constructor. Qed.

Lemma get_glyph_printable ch :
  0x20 <= ch <= 0x7E -> exists g, FONT8X8 !! Z.to_nat (ch - 0x20) = Some g /\ get_glyph ch = Ret (Some g).
Proof.
  intros H. destruct font_glyphs as [Hl _].
  destruct (lookup_lt_is_Some_2 FONT8X8 (Z.to_nat (ch - 0x20))) as [g Hg]; [lia|].
  exists g. split; [done|]. unfold get_glyph.
  destruct (Z.ltb_spec ch 0x20); [lia|]. destruct (Z.ltb_spec 0x7F ch); [lia|]. cbn [orb]. by rewrite Hg.
Qed.

(** ** BAR pages *)

Lemma bar_pages_spec bar len :
  0 <= bar -> 0 <= len -> bar + Z.max len 0x1000 + 0xFFF < 2 ^ 64 ->
  exists start n, bar_pages bar len = Ret (start, n) /\ start = bar / 4096 * 4096 /\
    start + n * 4096 = (bar + (if len =? 0 then 0x1000 else len) + 4095) / 4096 * 4096 /\ 0 < n.
Proof.
  intros Hb Hl Hsum. unfold bar_pages.
  set (l := if len =? 0 then 0x1000 else len). assert (0 < l <= Z.max len 0x1000) by (unfold l; case_bool; lia).
  rewrite checked_add_ok by lia. cbn [outcome_bind]. rewrite checked_add_ok by lia. cbn [outcome_bind].
  change 0xFFF with (2 ^ 12 - 1). rewrite !land_align_down by lia.
  change (2 ^ 12) with 4096. rewrite checked_sub_ok by zdiv. cbn [outcome_bind].
  do 2 eexists. split; [done|]. split; [done|]. zdiv.
Qed.

(** ** Life cycle lemmas *)

Definition is_mmio (r : Resource) : bool := match kind r with MemoryMapped => true | _ => false end.

Definition resource_ok (off : Z) (r : Resource) : Prop :=
  0 <= addr r /\ 0 <= len r /\ addr r + Z.max (len r) 0x1000 + 0xFFF < 2 ^ 64 /\ off + addr r < 2 ^ 64.

(** A recorded mapping of a BAR. *)
Definition maps_bar (off : Z) (r : Resource) (mp : FbMapping) : Prop :=
  bar_phys mp = addr r /\ phys_map_start mp = addr r / 4096 * 4096 /\
  virt_base mp = off + phys_map_start mp /\
  phys_map_start mp + pages mp * 4096 = (addr r + (if len r =? 0 then 0x1000 else len r) + 4095) / 4096 * 4096.

(** The pages of the direct mapping, by start address, that a BAR touches, and
    those of all memory BARs of a device. *)
Definition bar_pages_at (off : Z) (r : Resource) : list Z :=
  let first := addr r / 4096 in
  let last := (addr r + (if len r =? 0 then 0x1000 else len r) - 1) / 4096 in
  (fun n => off + n * 4096) <$> seqZ first (last - first + 1).

Fixpoint device_pages (off : Z) (rs : list Resource) : list Z :=
  match rs with
  | [] => []
  | r :: rs => (if is_mmio r then bar_pages_at off r else []) ++ device_pages off rs
  end.

Lemma maps_bar_pages off r mp :
  resource_ok off r -> maps_bar off r mp ->
  (fun i => virt_base mp + i * 4096) <$> seqZ 0 (pages mp) = bar_pages_at off r.
Proof.
  intros (H1 & H2 & _) (_ & Hs & Hv & He). unfold bar_pages_at.
  set (l := if len r =? 0 then 0x1000 else len r) in *. assert (0 < l) by (unfold l; case_bool; lia).
  replace (pages mp) with ((addr r + l - 1) / 4096 - addr r / 4096 + 1) by (rewrite Hs in He; zdiv).
  apply list_eq. intros i. rewrite !list_lookup_fmap, Hv, Hs.
  destruct (decide (Z.of_nat i < (addr r + l - 1) / 4096 - addr r / 4096 + 1)).
  - rewrite !lookup_seqZ_lt by lia. cbn. f_equal. lia.
  - by rewrite !lookup_seqZ_ge by lia.
Qed.

Section LifecycleLemmas.
Context {paging : X86Paging} {FA MS P : Type} {ops : FrameAllocator FA} {spec : FrameAllocatorSpec FA}
  {mapper : Mapper FA MS} {room : MapperRoom mapper} {unmapper : Unmapper mapper} {io : PortIO P}.
Implicit Types (v : VbeWorld MS FA P) (ms : MS) (fa : FA).

(** The page tables [ms'] are [ms] with the pages of [ps], present and writable, at
    the physical addresses [off] below, all flushed. *)
Record direct_mapped (off : Z) (ps : list Z) ms ms' : Prop := {
  dm_translate a : translate ms' a = if decide (a ∈ ps) then Some (a - off) else translate ms a;
  dm_flags a : page_flags ms' a = if decide (a ∈ ps) then Some (PRESENT .| WRITABLE) else page_flags ms a;
  dm_flushed : unflushed ms' ⊆ unflushed ms
}.

Lemma direct_mapped_nil off ms : direct_mapped off [] ms ms.
Proof. split; intros; rewrite ?decide_False by (by apply not_elem_of_nil); done. Qed.

Lemma direct_mapped_app off ps qs ms ms1 ms2 :
  direct_mapped off ps ms ms1 -> direct_mapped off qs ms1 ms2 -> direct_mapped off (ps ++ qs) ms ms2.
Proof.
  intros [T1 F1 U1] [T2 F2 U2]. split; [intros a..|set_solver].
  - rewrite T2, T1. repeat case_decide; set_solver.
  - rewrite F2, F1. repeat case_decide; set_solver.
Qed.

(** Tables with enough frames left to map [n] pages. *)
Definition roomy (n : nat) fa : Prop := fa_ok fa /\ (3 * n <= size (fa_free fa))%nat.

(** One page. *)
Lemma map_one off p ms fa k :
  roomy (S k) fa -> off `mod` 4096 = 0 -> p `mod` 4096 = 0 -> translate ms p = None ->
  exists ms' fa',
    map_to (page_containing_address p) (frame_containing_address (p - off)) (PRESENT .| WRITABLE) ms fa =
      (Ok (), (ms', fa')) /\
    direct_mapped off [p] ms (flush (page_containing_address p) ms') /\ roomy k fa'.
Proof.
  intros [Hok Hfa] Ho Hp Ht.
  assert (page_start_address (page_containing_address p) = p) as Hps by (rewrite page_start_containing; zdiv).
  assert (frame_start_address (frame_containing_address (p - off)) = p - off) as Hfs
    by (rewrite frame_start_containing; zdiv).
  destruct (map_to_room (page_containing_address p) (frame_containing_address (p - off)) (PRESENT .| WRITABLE) ms fa)
    as (ms' & fa' & E & Hs); [done|by rewrite Hps|lia|].
  destruct (map_flush _ _ _ _ _ _ _ Hok E) as (Hok' & _ & Htr & Hfl & Hu). rewrite Hps, Hfs in *.
  exists ms', fa'. split; [done|]. split; [|split; [done|lia]]. split; [intros a..|done].
  - rewrite Htr. destruct (Z.eqb_spec a p); case_decide; set_solver.
  - rewrite Hfl. destruct (Z.eqb_spec a p); case_decide; set_solver.
Qed.

Lemma map_bar_direct off is_ start ms fa k :
  let ps := (fun i => off + start + i * 4096) <$> is_ in
  roomy (length ps + k) fa -> off `mod` 4096 = 0 -> start `mod` 4096 = 0 -> NoDup ps ->
  (forall a, a ∈ ps -> translate ms a = None) ->
  exists ms' fa', map_bar is_ start (off + start) ms fa = (ms', fa') /\
    direct_mapped off ps ms ms' /\ roomy k fa'.
Proof.
  revert ms fa. induction is_ as [|i is_ IH]; intros ms fa ps Hr Ho Hst Hnd Hun.
  { exists ms, fa. split_and!; [done|apply direct_mapped_nil|done]. }
  subst ps. cbn in Hr, Hnd, Hun. apply NoDup_cons in Hnd as [Hni Hnd].
  destruct (map_one off (off + start + i * 4096) ms fa (length ((fun i => off + start + i * 4096) <$> is_) + k))
    as (ms1 & fa1 & E & Hd & Hr1); [done|done|zdiv|apply Hun; by left|].
  cbn [map_bar]. change 0x1000 with 4096. replace (start + i * 4096) with (off + start + i * 4096 - off) by lia.
  rewrite E. destruct (IH (flush (page_containing_address (off + start + i * 4096)) ms1) fa1) as (ms2 & fa2 & -> & Hd2 & Hr2); try done.
  - intros a Ha. rewrite (dm_translate _ _ _ _ Hd), decide_False; [apply Hun; by right|].
    intros ->%list_elem_of_singleton. done.
  - exists ms2, fa2. split_and!; [done| |done]. by apply (direct_mapped_app off [_] _ _ _ _ Hd).
Qed.

Lemma map_bars_spec rs created v ms fa :
  0 <= boot_phys_offset v -> boot_phys_offset v `mod` 4096 = 0 ->
  Forall (resource_ok (boot_phys_offset v)) rs ->
  global_mapper v = Some ms -> global_alloc v = Some fa ->
  roomy (length (device_pages (boot_phys_offset v) rs)) fa -> NoDup (device_pages (boot_phys_offset v) rs) ->
  (forall a, a ∈ device_pages (boot_phys_offset v) rs -> translate ms a = None) ->
  exists new v' ms', map_bars rs created v = Ret (inr (created ++ new, v')) /\
    Forall2 (maps_bar (boot_phys_offset v)) (List.filter is_mmio rs) new /\
    global_mapper v' = Some ms' /\ direct_mapped (boot_phys_offset v) (device_pages (boot_phys_offset v) rs) ms ms' /\
    drivers v' = drivers v /\ active_vbe v' = active_vbe v /\ boot_phys_offset v' = boot_phys_offset v /\
    vmem v' = vmem v /\ vports v' = vports v.
Proof.
  intros Hoff Hal Hok. revert created v ms fa Hoff Hal Hok.
  induction rs as [|r rs IH]; intros created v ms fa Hoff Hal Hok Hm Ha Hr Hnd Hun.
  { exists [], v, ms. rewrite app_nil_r. split_and!; done || apply direct_mapped_nil. }
  apply Forall_cons in Hok as [Hrok Hrs]. pose proof Hrok as (H1 & H2 & H3 & H4).
  cbn [map_bars List.filter device_pages] in *.
  unfold is_mmio in *. fold is_mmio in *. destruct (kind r); try by apply (IH created v ms fa).
  destruct (bar_pages_spec (addr r) (len r) H1 H2 H3) as (st & n & -> & Hst & Hend & Hn). cbn [outcome_bind].
  destruct (Z.eqb_spec n 0); [lia|]. rewrite Hm, Ha.
  assert (get_boot_phys_offset v +64 st = boot_phys_offset v + st) as -> by (apply wrap_small; zdiv).
  assert (maps_bar (boot_phys_offset v) r (MkMapping (boot_phys_offset v + st) st (addr r) n)) as Hmp
    by (split_and!; cbn; done || lia).
  pose proof (maps_bar_pages _ _ _ Hrok Hmp) as Hps. cbn [virt_base pages] in Hps. rewrite <- Hps in *.
  rewrite length_app in Hr. apply NoDup_app in Hnd as (Hnd1 & Hdis & Hnd2).
  destruct (map_bar_direct (boot_phys_offset v) (seqZ 0 n) st ms fa (length (device_pages (boot_phys_offset v) rs)))
    as (ms1 & fa1 & -> & Hd1 & Hr1); [done|done|zdiv|done|intros; apply Hun; set_solver|].
  set (v1 := set_global_frame_allocator_ptr _ _).
  destruct (IH (created ++ [MkMapping (boot_phys_offset v + st) st (addr r) n]) v1 ms1 fa1)
    as (new & v' & ms' & -> & Hnew & Hms' & Hd' & Hrest); try done.
  { intros a Hin. rewrite (dm_translate _ _ _ _ Hd1), decide_False; [apply Hun; set_solver|].
    intros Hx. by apply (Hdis a). }
  exists (MkMapping (boot_phys_offset v + st) st (addr r) n :: new), v', ms'.
  rewrite <- app_assoc. split_and!; try done; [by constructor| |by apply Hrest..].
  by eapply direct_mapped_app.
Qed.

(** ** Unmapping *)

Definition unmap_list (ps : list Z) ms : MS :=
  foldl (fun ms a => (unmap (page_containing_address a) ms).2) ms ps.

(** [ms'] is [ms] without the pages of [ps], none of which was flushed. *)
Record unmapped (ps : list Z) ms ms' : Prop := {
  um_translate a : translate ms' a = if decide (a ∈ ps) then None else translate ms a;
  um_flags a : page_flags ms' a = if decide (a ∈ ps) then None else page_flags ms a;
  um_unflushed : unflushed ms' = list_to_set ps ∪ unflushed ms
}.

Lemma unmap_list_unmapped ps ms :
  NoDup ps -> (forall a, a ∈ ps -> a `mod` 4096 = 0 /\ is_Some (page_flags ms a)) ->
  unmapped ps ms (unmap_list ps ms).
Proof.
  revert ms. induction ps as [|p ps IH]; intros ms Hnd Hps.
  { split; [intros a; by rewrite decide_False by (by apply not_elem_of_nil)..|]. cbn. set_solver. }
  apply NoDup_cons in Hnd as [Hp Hnd]. change (unmap_list (p :: ps) ms) with (unmap_list ps (unmap (page_containing_address p) ms).2).
  destruct (Hps p) as [Hal Hfl]; [by left|].
  assert (page_start_address (page_containing_address p) = p) as Hst by (rewrite page_start_containing; zdiv).
  destruct (unmap (page_containing_address p) ms) as [ok ms1] eqn:E.
  assert (ok = true) as -> by (by rewrite <- (unmap_mapped (page_containing_address p) ms), E; [|rewrite Hst]).
  apply unmap_spec in E as (Ht & Hf & Hu). rewrite Hst in *. cbn [andb] in *.
  destruct (IH ms1 Hnd) as [T F U].
  { intros a Ha. split; [by apply Hps; right|]. rewrite Hf. destruct (Z.eqb_spec a p); [by subst|]. by apply Hps; right. }
  split; [intros a..|].
  - rewrite T, Ht. destruct (Z.eqb_spec a p); repeat case_decide; set_solver.
  - rewrite F, Hf. destruct (Z.eqb_spec a p); repeat case_decide; set_solver.
  - cbn [snd]. rewrite U, Hu. cbn. set_solver.
Qed.

Lemma unmap_mappings off rs new ms :
  Forall (resource_ok off) rs -> Forall2 (maps_bar off) (List.filter is_mmio rs) new ->
  foldl (fun ms mp => unmap_mapping mp ms) ms new = unmap_list (device_pages off rs) ms.
Proof.
  revert new ms. induction rs as [|r rs IH]; intros new ms Hok Hnew.
  { by apply Forall2_nil_inv_l in Hnew as ->. }
  apply Forall_cons in Hok as [Hr Hok]. cbn [List.filter device_pages] in *.
  destruct (is_mmio r); [|by apply IH]. apply Forall2_cons_inv_l in Hnew as (mp & new' & Hmp & Hnew & ->).
  cbn. rewrite (IH new' _ Hok Hnew). unfold unmap_list. rewrite foldl_app. f_equal.
  rewrite <- (maps_bar_pages off r mp Hr Hmp), foldl_fmap. unfold unmap_mapping, for_range.
  by rewrite Z.sub_0_r.
Qed.

Lemma maps_bar_addr off r mp :
  maps_bar off r mp -> virt_base mp + (bar_phys mp - phys_map_start mp) = off + addr r.
Proof. intros (-> & _ & -> & _). lia. Qed.

Lemma clear_mapping_returns off r mp m :
  0 <= off -> resource_ok off r -> maps_bar off r mp -> exists m', clear_mapping mp m = Ret m'.
Proof.
  intros Hoff (H1 & H2 & H3 & H4) Hm. pose proof (maps_bar_addr _ _ _ Hm) as Ha.
  destruct Hm as (Hb & Hs & Hv & _). unfold clear_mapping.
  rewrite checked_sub_ok by (rewrite Hb, Hs; zdiv). cbn [outcome_bind].
  rewrite checked_add_ok by lia. cbn [outcome_bind]. destruct (_ =? 0); by eexists.
Qed.

Lemma vbe_stop_spec self off rs new fi v ms :
  drivers v !! self = Some (MkVbe true new fi) -> active_vbe v = Some self -> 0 <= off ->
  Forall (resource_ok off) rs -> Forall2 (maps_bar off) (List.filter is_mmio rs) new ->
  global_mapper v = Some ms ->
  exists v', vbe_stop self v = Ret v' /\ get_framebuffer_addrs v' = [] /\
    drivers v' !! self = Some (MkVbe false [] fi) /\
    global_mapper v' = Some (unmap_list (device_pages off rs) ms).
Proof.
  intros Hd Hact Hoff Hok Hnew Hms. unfold vbe_stop. rewrite Hd. cbn [started negb mappings].
  destruct (for_each_ind (fun _ (_ : mem) => True) clear_mapping new (vmem v)) as (m' & -> & _); [done| |].
  { intros _ mp m0 Hin _. apply list_elem_of_lookup in Hin as [i Hi].
    destruct (Forall2_lookup_r _ _ _ _ _ Hnew Hi) as (r & Hr & Hmp).
    apply list_elem_of_lookup_2, list_elem_of_In, List.filter_In in Hr as [Hr%list_elem_of_In _].
    rewrite Forall_forall in Hok.
    destruct (clear_mapping_returns _ _ _ m0 Hoff (Hok r Hr) Hmp) as [m1 ->]. by exists m1. }
  cbn [outcome_bind]. change (global_mapper (set_mem m' v)) with (global_mapper v). rewrite Hms.
  rewrite (unmap_mappings off rs new ms Hok Hnew).
  rewrite decide_True by done. eexists. split; [done|]. split; [done|]. split; [|done].
  cbn. by rewrite lookup_insert, decide_True.
Qed.

Lemma device_pages_aligned off rs a : off `mod` 4096 = 0 -> a ∈ device_pages off rs -> a `mod` 4096 = 0.
Proof.
  intros Ho. induction rs as [|r rs IH]; cbn; [by intros ?%elem_of_nil|].
  intros [Ha|Ha]%elem_of_app; [|by apply IH]. destruct (is_mmio r); [|by apply elem_of_nil in Ha].
  unfold bar_pages_at in Ha. apply list_elem_of_fmap in Ha as (n & -> & _). zdiv.
Qed.

(** Unmapping what was mapped gives the translations there were. *)
Lemma unmapped_restores off ps ms ms' ms'' :
  (forall a, a ∈ ps -> translate ms a = None) ->
  direct_mapped off ps ms ms' -> unmapped ps ms' ms'' ->
  forall a, translate ms'' a = translate ms a /\ page_flags ms'' a = page_flags ms a.
Proof.
  intros Hun [T F _] [T' F' _] a. rewrite T', T, F', F. case_decide as Ha; [|done].
  specialize (Hun a Ha). split; [done|]. destruct (page_flags ms a) eqn:E; [|done].
  destruct (page_flags_mapped ms a) as [? ?]; [by eexists|congruence].
Qed.

(** ** Properties *)

(** C13: the life cycle of the framebuffer driver. [start] on an instance that is
    not started succeeds when the device has a memory BAR, the mapper is set, the
    BARs' pages are distinct and not mapped yet and there are frames for their page
    tables: it makes the instance the active one, maps exactly the pages the memory
    BARs touch to their physical addresses, present, writable and flushed, and
    exposes one framebuffer per memory BAR, in BAR order, at the BAR's address in
    the direct mapping. A second [start] is refused and changes nothing. [stop]
    leaves no framebuffer visible and the instance ready to start again, and takes
    back every translation and every flag, but without flushing the pages. *)
Theorem vbe_start_stop self d dev v ms fa :
  let off := boot_phys_offset v in
  let ps := device_pages off (resources (info dev)) in
  drivers v !! self = Some d -> started d = false ->
  0 <= off -> off `mod` 4096 = 0 -> Forall (resource_ok off) (resources (info dev)) ->
  List.filter is_mmio (resources (info dev)) <> [] ->
  global_mapper v = Some ms -> global_alloc v = Some fa ->
  roomy (length ps) fa -> NoDup ps -> (forall a, a ∈ ps -> translate ms a = None) ->
  exists v' ms', vbe_start self dev v = Ret (Ok (), v') /\
    get_framebuffer_addrs v' = (fun r => off + addr r) <$> List.filter is_mmio (resources (info dev)) /\
    global_mapper v' = Some ms' /\ direct_mapped off ps ms ms' /\
    vbe_start self dev v' = Ret (Err "already started", v') /\
    exists v'' d'' ms'', vbe_stop self v' = Ret v'' /\ get_framebuffer_addrs v'' = [] /\
      drivers v'' !! self = Some d'' /\ started d'' = false /\ mappings d'' = [] /\
      global_mapper v'' = Some ms'' /\
      (forall a, translate ms'' a = translate ms a /\ page_flags ms'' a = page_flags ms a) /\
      unflushed ms'' = list_to_set ps ∪ unflushed ms'.
Proof.
  intros off ps Hd Hs Hoff Hal Hok Hne Hm Ha Hroom Hnd Hun. unfold vbe_start at 1. rewrite Hd, Hs.
  destruct (set_vbe_mode_dispi 1024 768 32 (vports v)) as [b p].
  destruct (map_bars_spec (resources (info dev)) [] (set_vports p v) ms fa)
    as (new & v1 & ms' & -> & Hnew & Hms' & Hdm & Hd1 & _); [done..|].
  cbn [outcome_bind app]. change (boot_phys_offset (set_vports p v)) with off in *. fold ps in Hdm.
  destruct new as [|mp0 new0] eqn:En; [by apply Forall2_length in Hnew; destruct (List.filter _ _)|].
  rewrite <- En in *. clear En mp0 new0.
  destruct (read_fb_info (fb_info d) (vports v1)) as [fi p'].
  set (v' := set_active (Some self) _).
  assert (drivers v' !! self = Some (MkVbe true new fi)) as Hdr
    by (unfold v'; cbn; by rewrite lookup_insert, decide_True).
  assert (global_mapper v' = Some ms') as Hms'' by done.
  exists v', ms'. split_and!; [done| |done|done| |].
  - unfold get_framebuffer_addrs. change (active_driver v') with (drivers v' !! self). rewrite Hdr.
    unfold drv_get_framebuffer_addrs. cbn. clear -Hnew. induction Hnew as [|r mp rs mps H1 _ IH]; cbn; [done|].
    by rewrite (maps_bar_addr _ _ _ H1), IH.
  - unfold vbe_start. by rewrite Hdr.
  - destruct (vbe_stop_spec self off (resources (info dev)) new fi v' ms') as (v'' & Hst & Hfb & Hd'' & Hm''); [done..|].
    assert (unmapped ps ms' (unmap_list ps ms')) as Hum.
    { apply unmap_list_unmapped; [done|]. intros a Hin. split; [by eapply device_pages_aligned|].
      rewrite (dm_flags _ _ _ _ Hdm), decide_True by done. by eexists. }
    exists v'', (MkVbe false [] fi), (unmap_list ps ms'). split_and!; try done.
    + by eapply unmapped_restores.
    + apply Hum.
Qed.
End LifecycleLemmas.

(** [draw_rect_at] sets exactly the pixels of the rectangle (when it fits in
    a row of the framebuffer) and leaves every other pixel as it was. *)
Theorem draw_rect_exact d fb x y w h c m i j :
  0 <= x -> 0 <= w -> 0 <= h -> 4 * (x + w) <= drv_pitch d -> on_row (drv_pitch d) i ->
  pix (drv_draw_rect_at d fb x y w h c m) fb (drv_pitch d) i j =
    if (x <=? i) && (i <? x + w) && (y <=? j) && (j <? y + h) then wrap 32 c else pix m fb (drv_pitch d) i j.
Proof. apply draw_rect_pix. Qed.

(** C37: [draw_char_at] renders every printable ASCII character: it sets exactly
    the pixels of the 8x8 cell whose bit is set in the character's font rows (most
    significant bit on the left) and no other. *)
Theorem draw_char_exact d fb x y ch c m :
  0x20 <= ch <= 0x7E -> 0 <= x -> 4 * (x + 8) <= drv_pitch d ->
  exists g m', FONT8X8 !! Z.to_nat (ch - 0x20) = Some g /\ drv_draw_char_at d fb x y ch c m = Ret m' /\
    forall i j, on_row (drv_pitch d) i ->
      pix m' fb (drv_pitch d) i j =
        if (x <=? i) && (i <? x + 8) && (y <=? j) && (j <? y + 8) &&
           Z.testbit (default 0 (g !! Z.to_nat (j - y))) (7 - (i - x))
        then wrap 32 c else pix m fb (drv_pitch d) i j.
Proof.
  intros Hch Hx Hfit. destruct (get_glyph_printable ch Hch) as (g & Hg & Hgg).
  exists g. eexists. split; [done|]. unfold drv_draw_char_at. rewrite Hgg. cbn [outcome_bind]. split; [done|].
  intros i j Hi. rewrite draw_bits_pix by done.
  destruct (Z.leb_spec x i), (Z.ltb_spec i (x + 8)); cbn [andb]; try done.
  unfold glyph_bit. fold (test_mask (default 0 (g !! Z.to_nat (j - y))) (7 - (i - x))).
  by rewrite test_mask_testbit by lia.
Qed.

(** The font has glyphs for 0x20 to 0x7E, but [get_glyph] also admits 0x7F,
    which is the 96th entry of a table of 95: printing DEL on a framebuffer panics. *)
Theorem draw_del_panics d fb x y c m : drv_draw_char_at d fb x y 0x7F c m = Panic "index out of bounds".
Proof. reflexivity. Qed.

(** [stop] clears a box of 200 by 200 pixels at (100, 100) in every mapping,
    whatever the size of its BAR: for a BAR of at most one page (a register BAR),
    every byte of the box lies beyond the pages mapped for it. *)
Theorem stop_writes_past_bar off r mp m :
  0 <= off -> 0 < off + addr r -> resource_ok off r -> maps_bar off r mp -> len r <= 4096 ->
  exists m', clear_mapping mp m = Ret m' /\
    forall i j, 100 <= i < 300 -> 100 <= j < 300 ->
      pix m' (off + addr r) 4096 i j = 0 /\
      virt_base mp + pages mp * 4096 <= off + addr r + j * 4096 + i * 4.
Proof.
  intros Hoff Hpos (H1 & H2 & H3 & H4) Hm Hlen. pose proof (maps_bar_addr _ _ _ Hm) as Ha.
  destruct Hm as (Hb & Hs & Hv & Hend). unfold clear_mapping.
  rewrite checked_sub_ok by (rewrite Hb, Hs; zdiv). cbn [outcome_bind].
  rewrite checked_add_ok by lia. cbn [outcome_bind]. rewrite Ha.
  destruct (Z.eqb_spec (off + addr r) 0); [lia|].
  eexists. split; [done|]. intros i j Hi Hj. split.
  - change (clear_box (off + addr r) m) with (drv_draw_rect_at VbeVgaDriver_new (off + addr r) 100 100 200 200 0 m).
    change 4096 with (drv_pitch VbeVgaDriver_new).
    rewrite draw_rect_pix by (try (unfold on_row); cbn; lia). case_bools; done || lia.
  - rewrite Hv. revert Hend. case_bool; intros; zdiv.
Qed.

(** ** Witnesses *)

#[local] Existing Instance paging_by_address.
#[local] Existing Instance const_ports_io.

#[local] Existing Instance frame_pool.
#[local] Existing Instance frame_pool_spec.
#[local] Existing Instance flat_tables.
#[local] Existing Instance flat_room.
#[local] Existing Instance flat_unmap.

(** Ten free frames. *)
Definition ten_frames : gset Z := list_to_set (seqZ 1 10).

Definition sample_vbe (ms : flat_table) : VbeWorld flat_table (gset Z) const_ports :=
  MkVW {[ 1 := VbeVgaDriver_new ]} None (Some ms) (Some ten_frames) 0x10000000000 (fun _ => 0) (MkConst (fun _ => 0)).

Definition sample_bar : Resource := MkResource MemoryMapped 0xFEBF0000 0x1000.
Definition sample_bar2 : Resource := MkResource MemoryMapped 0xFD000800 0x1000.
Definition sample_display : Device :=
  MkDevice 7 (MkInfo 0x1234 0x1111 0x03 0x00 0x00 [MkResource IO 0x3C0 16; sample_bar; sample_bar2] [] "VGA").

Lemma vbe_start_stop_witness :
  exists v' ms' v'' ms'', vbe_start 1 sample_display (sample_vbe (∅, ∅)) = Ret (Ok (), v') /\
    get_framebuffer_addrs v' = [0x100FEBF0000; 0x100FD000800] /\ global_mapper v' = Some ms' /\
    translate ms' 0x100FEBF0000 = Some 0xFEBF0000 /\ translate ms' 0x100FD001000 = Some 0xFD001000 /\
    vbe_stop 1 v' = Ret v'' /\ global_mapper v'' = Some ms'' /\ translate ms'' 0x100FEBF0000 = None.
Proof.
  destruct (vbe_start_stop 1 VbeVgaDriver_new sample_display (sample_vbe (∅, ∅)) (∅, ∅) ten_frames)
    as (v' & ms' & H1 & H2 & H3 & H4 & _ & v'' & d'' & ms'' & H5 & _ & _ & _ & _ & H6 & H7 & _).
  - reflexivity.
  - reflexivity.
  - cbn. lia.
  - reflexivity.
  - repeat constructor; cbn; lia.
  - discriminate.
  - reflexivity.
  - reflexivity.
  - split; [done|]. vm_compute. lia.
  - apply (bool_decide_unpack _). vm_compute. exact I.
  - reflexivity.
  - exists v', ms', v'', ms''. split_and!; [exact H1|rewrite H2; reflexivity|exact H3| | |exact H5|exact H6|].
    + rewrite (dm_translate _ _ _ _ H4). reflexivity.
    + rewrite (dm_translate _ _ _ _ H4). reflexivity.
    + rewrite (proj1 (H7 _)). reflexivity.
Defined.

(** [start] ignores a page that is mapped already and [stop] unmaps it all the
    same: a mapping that was there before the driver is gone after it. *)
Example stop_unmaps_foreign_page :
  let ms : flat_table := ({[0x100FEBF0000 := (0x5000, 3)]}, ∅) in
  match vbe_start 1 sample_display (sample_vbe ms) with
  | Ret (Ok _, v') =>
      match vbe_stop 1 v' with
      | Ret v'' => translate ms 0x100FEBF0000 = Some 0x5000 /\
          (fun ms'' => translate ms'' 0x100FEBF0000) <$> global_mapper v'' = Some None
      | Panic _ => False
      end
  | _ => False
  end.
Proof. vm_compute. done. Qed.

Lemma draw_rect_exact_witness :
  pix (drv_draw_rect_at VbeVgaDriver_new 0 5 5 2 2 7 (fun _ => 0)) 0 4096 6 6 = 7.
Proof.
  refine (eq_trans (draw_rect_exact VbeVgaDriver_new 0 5 5 2 2 7 (fun _ => 0) 6 6 _ _ _ _ _) _);
    try (unfold on_row; cbn; lia). reflexivity.
Defined.

Lemma draw_char_exact_witness :
  exists m', drv_draw_char_at VbeVgaDriver_new 0 0 0 0x41 7 (fun _ => 0) = Ret m' /\ pix m' 0 4096 3 0 = 7.
Proof.
  destruct (draw_char_exact VbeVgaDriver_new 0 0 0 0x41 7 (fun _ => 0)) as (g & m' & Hg & H1 & H2); [lia|lia|cbn; lia|].
  exists m'. split; [exact H1|]. vm_compute in Hg. injection Hg as <-.
  refine (eq_trans (H2 3 0 _) _); [unfold on_row; cbn; lia|reflexivity].
Defined.

Lemma stop_writes_past_bar_witness :
  let mp := MkMapping 0x100FEBF0000 0xFEBF0000 0xFEBF0000 1 in
  exists m', clear_mapping mp (fun _ => 1) = Ret m' /\
    forall i j, 100 <= i < 300 -> 100 <= j < 300 ->
      pix m' (0x10000000000 + 0xFEBF0000) 4096 i j = 0 /\
      virt_base mp + pages mp * 4096 <= 0x10000000000 + 0xFEBF0000 + j * 4096 + i * 4.
Proof.
  intros mp. apply (stop_writes_past_bar 0x10000000000 sample_bar mp (fun _ => 1)).
  - lia.
  - cbn. lia.
  - unfold resource_ok. cbn. lia.
  - repeat split; vm_compute; reflexivity.
  - cbn. lia.
Defined.
