(* ===== verification/Console.v ===== *)
(** * Console: text consoles on framebuffers,
    [src/driver_framework/drivers/console.rs], and the printing path of
    [src/bootvga/vga_buffer.rs] ([_print]) and [src/bootvga/vga_helpers.rs]

    A console keeps a cursor on a grid of character cells of one framebuffer. The
    printing path formats a string, offers it to the first framebuffer's console
    and otherwise writes it to the boot text buffer. The lock on the console list
    is held while a console is removed, used and put back at its index, so the
    list is updated in place. *)

From S2P Require Import Prelude External Device Ports VgaText Vbe.

Local Open Scope string_scope.
Local Open Scope list_scope.
Local Open Scope Z_scope.

Record Console : Type := MkConsole {
  fb_virt : Z; cols : Z; rows : Z; cur_x : Z; cur_y : Z; fg : Z; bg : Z; char_w : Z; char_h : Z
}.

Definition set_cursor (x y : Z) (c : Console) : Console :=
  MkConsole (fb_virt c) (cols c) (rows c) x y (fg c) (bg c) (char_w c) (char_h c).

Definition newline (c : Console) : Console := set_cursor 0 (cur_y c + 1) c.

(** [usize::saturating_sub] *)
Definition sat_sub (x y : Z) : Z := Z.max 0 (x - y).

Record ConWorld (MS FA P : Type) : Type := MkCW {
  consoles : list Console;
  writer : Writer;
  vbe : VbeWorld MS FA P
}.
Arguments consoles {MS FA P}.
Arguments writer {MS FA P}.
Arguments vbe {MS FA P}.
Arguments MkCW {MS FA P}.

(** The loop that clears the rows that scrolled in: words, then single bytes. *)
Definition clear_words (fuel : nat) (color p end_ : Z) (m : mem) : option (Z * mem) :=
  while_fuel fuel (fun '(p, _) => p <? end_)
    (fun '(p, m) => if 4 <=? wrap 64 (end_ - p) then (p + 4, write32 m p color) else (p + 1, write8 m p 0))
    (p, m).

Section Methods.
Context {paging : X86Paging} {FA MS P : Type} {io : PortIO P}.
Implicit Types (v : VbeWorld MS FA P) (w : ConWorld MS FA P) (c : Console).

(** The index of the console of a framebuffer, created on first use. *)
Definition get_or_create_console (fb : Z) (cs : list Console) v : nat * list Console :=
  match list_find (fun c => fb_virt c = fb) cs with
  | Some (i, _) => (i, cs)
  | None =>
      let '(cols, rows, cw, ch) :=
        match get_fb_info v with
        | Some i =>
            let cols := width i / 9 in
            let rows := height i / 8 in
            (if cols =? 0 then 80 else cols, if rows =? 0 then 25 else rows, 9, 8)
        | None => (80, 25, 9, 8)
        end in
      (length cs, cs ++ [MkConsole fb cols rows 0 0 0xFFFFFFFF 0x00000000 cw ch])
  end.

Definition scroll_pitch v : Z := match get_fb_info v with Some i => pitch i | None => 1024 * 4 end.

Definition console_scroll_mut (lines : Z) c v : outcome (Console * VbeWorld MS FA P) :=
  if lines =? 0 then Ret (c, v) else
  let pitch := scroll_pitch v in
  if rows c <=? lines then
    let v := draw_rect_at (fb_virt c) 0 0 (cols c * char_w c) (rows c * char_h c) (bg c) v in
    Ret (set_cursor 0 0 c, v)
  else
    let move_height := (rows c - lines) * char_h c in
    let src_offset := lines * char_h c * pitch in
    let move_bytes := move_height * pitch in
    let base := fb_virt c in
    let m := store_bytes (vmem v) base (load_bytes (vmem v) (base + src_offset) (Z.to_nat move_bytes)) in
    let clear_start := (rows c - lines) * char_h c * pitch in
    let clear_bytes := lines * char_h c * pitch in
    let p := base + clear_start in
    match clear_words (Z.to_nat clear_bytes) (bg c) p (p + clear_bytes) m with
    | Some (_, m) => Ret (c, set_mem m v)
    | None => Panic "fuel"
    end.

(** [newline] with the scroll check both callers make. *)
Definition newline_scroll c v : outcome (Console * VbeWorld MS FA P) :=
  let c := newline c in
  if rows c <=? cur_y c then
    let! (c, v) := console_scroll_mut 1 c v in
    Ret (set_cursor (cur_x c) (rows c - 1) c, v)
  else Ret (c, v).

Definition print_byte (fb b : Z) c v : outcome (Console * VbeWorld MS FA P) :=
  match b with
  | 10 => newline_scroll c v
  | 13 => Ret (set_cursor 0 (cur_y c) c, v)
  | 8 =>
      let c := if 0 <? cur_x c then set_cursor (cur_x c - 1) (cur_y c) c
               else if 0 <? cur_y c then set_cursor (sat_sub (cols c) 1) (cur_y c - 1) c
               else c in
      Ret (c, draw_rect_at fb (cur_x c * char_w c) (cur_y c * char_h c) (char_w c) (char_h c) (bg c) v)
  | 9 =>
      let next := (cur_x c / 8 + 1) * 8 in
      Ret (if cols c <=? next then newline c else set_cursor next (cur_y c) c, v)
  | _ =>
      let! v := draw_char_at fb (cur_x c * char_w c) (cur_y c * char_h c) b (fg c) v in
      let c := set_cursor (cur_x c + 1) (cur_y c) c in
      if cols c <=? cur_x c then newline_scroll c v else Ret (c, v)
  end.

Definition print_bytes (fb : Z) (s : list Z) c v : outcome (Console * VbeWorld MS FA P) :=
  for_each (fun b '(c, v) => print_byte fb b c v) s (c, v).

(** [console_print_first]: [false] when there is no framebuffer. *)
Definition console_print_first (s : list Z) w : outcome (bool * ConWorld MS FA P) :=
  match get_framebuffer_addrs (vbe w) with
  | [] =>
      let! (wr, p) := write_string s (writer w) (vports (vbe w)) in
      Ret (false, MkCW (consoles w) wr (set_vports p (vbe w)))
  | fb :: _ =>
      let '(idx, cs) := get_or_create_console fb (consoles w) (vbe w) in
      match cs !! idx with
      | None => Panic "removal index out of bounds"
      | Some c =>
          let! (c, v) := print_bytes fb s c (vbe w) in
          Ret (true, MkCW (<[idx := c]> cs) (writer w) v)
      end
  end.

Definition console_clear_first w : outcome (ConWorld MS FA P) :=
  match get_framebuffer_addrs (vbe w) with
  | [] => let! wr := clear_screen (writer w) in Ret (MkCW (consoles w) wr (vbe w))
  | fb :: _ =>
      let '(idx, cs) := get_or_create_console fb (consoles w) (vbe w) in
      match cs !! idx with
      | None => Panic "removal index out of bounds"
      | Some c =>
          let v := draw_rect_at (fb_virt c) 0 0 (cols c * char_w c) (rows c * char_h c) (bg c) (vbe w) in
          Ret (MkCW (<[idx := set_cursor 0 0 c]> cs) (writer w) v)
      end
  end.

Definition console_set_colors_first (f b : Z) w : ConWorld MS FA P :=
  match get_framebuffer_addrs (vbe w) with
  | [] => w
  | fb :: _ =>
      let '(idx, cs) := get_or_create_console fb (consoles w) (vbe w) in
      let set c := MkConsole (fb_virt c) (cols c) (rows c) (cur_x c) (cur_y c) f b (char_w c) (char_h c) in
      MkCW (alter set idx cs) (writer w) (vbe w)
  end.

Definition console_set_cursor_first (col row : Z) w : ConWorld MS FA P :=
  match get_framebuffer_addrs (vbe w) with
  | [] => w
  | fb :: _ =>
      let '(idx, cs) := get_or_create_console fb (consoles w) (vbe w) in
      let set c := set_cursor (Z.min col (sat_sub (cols c) 1)) (Z.min row (sat_sub (rows c) 1)) c in
      MkCW (alter set idx cs) (writer w) (vbe w)
  end.

(** ** The printing path *)

(** Formatting into a [String] does not fail; [s] is the formatted text. *)
Definition vbe_try_print (s : list Z) w : outcome (bool * ConWorld MS FA P) := console_print_first s w.

Definition _print (s : list Z) w : outcome (ConWorld MS FA P) :=
  let! (handled, w) := vbe_try_print s w in
  if handled then Ret w else
  let! (wr, p) := write_string s (writer w) (vports (vbe w)) in
  Ret (MkCW (consoles w) wr (set_vports p (vbe w))).

Definition vbe_print_only (s : list Z) w : outcome (ConWorld MS FA P) :=
  match get_framebuffer_addrs (vbe w) with
  | [] => Ret w
  | _ => let! (_, w) := console_print_first s w in Ret w
  end.

(** The macros [println!], [setcolor!], [setpos!] and [cls!]. *)
Definition println (s : list Z) w : outcome (ConWorld MS FA P) := _print (s ++ [10]) w.

Definition setcolor (f b : Color) w : ConWorld MS FA P :=
  let w := console_set_colors_first (vbe_color_from_vga_color f) (vbe_color_from_vga_color b) w in
  MkCW (consoles w) (set_color f b (writer w)) (vbe w).

Definition setpos (row col : Z) w : outcome (ConWorld MS FA P) :=
  let w := console_set_cursor_first col row w in
  let! (wr, p) := set_position row col (writer w) (vports (vbe w)) in
  Ret (MkCW (consoles w) wr (set_vports p (vbe w))).

Definition cls w : outcome (ConWorld MS FA P) :=
  let! w := console_clear_first w in
  let! wr := clear_screen (writer w) in
  Ret (MkCW (consoles w) wr (vbe w)).
End Methods.

(** ** Scrolling *)

(** Clearing a whole number of words. *)
Lemma clear_words_spec k color p m :
  0 <= p -> p + 4 * Z.of_nat k < 2 ^ 64 ->
  exists m', clear_words (4 * k) color p (p + 4 * Z.of_nat k) m = Some (p + 4 * Z.of_nat k, m') /\
    forall x, m' x = if (p <=? x) && (x <? p + 4 * Z.of_nat k)
                     then default 0 (le_encode 4 color !! Z.to_nat ((x - p) `mod` 4)) else m x.
Proof.
  assert (forall k fuel p m, 0 <= p -> p + 4 * Z.of_nat k < 2 ^ 64 -> (k <= fuel)%nat ->
    exists m', clear_words fuel color p (p + 4 * Z.of_nat k) m = Some (p + 4 * Z.of_nat k, m') /\
    forall x, m' x = if (p <=? x) && (x <? p + 4 * Z.of_nat k)
                     then default 0 (le_encode 4 color !! Z.to_nat ((x - p) `mod` 4)) else m x) as H.
  2: { intros. apply H; lia. }
  clear k p m. induction k as [|k IH]; intros fuel p m Hp Hb Hf.
  - exists m. split; [|intros x; case_bools; done || lia]. unfold clear_words.
    replace (p + 4 * Z.of_nat 0) with p by lia. destruct fuel; cbn; by rewrite Z.ltb_irrefl.
  - destruct fuel as [|fuel]; [lia|]. unfold clear_words. cbn [while_fuel].
    destruct (Z.ltb_spec p (p + 4 * Z.of_nat (S k))); [|lia].
    rewrite wrap_small by lia. destruct (Z.leb_spec 4 (p + 4 * Z.of_nat (S k) - p)); [|lia].
    fold (clear_words fuel color (p + 4) (p + 4 * Z.of_nat (S k)) (write32 m p color)).
    replace (p + 4 * Z.of_nat (S k)) with (p + 4 + 4 * Z.of_nat k) by lia.
    destruct (IH fuel (p + 4) (write32 m p color)) as (m' & -> & Hm'); [lia|lia|lia|].
    exists m'. split; [done|]. intros x. rewrite Hm'.
    unfold write32, write_le. rewrite store_bytes_spec, length_le_encode.
    destruct (decide (p <= x < p + 4)).
    + case_bools; try lia. do 2 f_equal. rewrite Z.mod_small by lia. done.
    + destruct (decide (p + 4 <= x < p + 4 + 4 * Z.of_nat k)).
      * case_bools; try lia. do 3 f_equal.
        replace (x - p) with ((x - (p + 4)) + 1 * 4) by lia. by rewrite Z.mod_add.
      * case_bools; done || lia.
Qed.

Section Invariant.
Context {paging : X86Paging} {FA MS P : Type} {io : PortIO P}.
Implicit Types (v : VbeWorld MS FA P) (w : ConWorld MS FA P) (c : Console).

(** The grid of a console lies in its framebuffer. *)
Record grid_ok (pitch : Z) c : Prop := {
  grid_char_h : char_h c = 8;
  grid_cols : 0 < cols c;
  grid_rows : 0 < rows c;
  grid_fb : 0 <= fb_virt c;
  grid_end : fb_virt c + rows c * 8 * pitch < 2 ^ 64
}.

Definition on_screen c : Prop := 0 <= cur_x c < cols c /\ 0 <= cur_y c < rows c.

Lemma grid_ok_cursor pitch x y c : grid_ok pitch c -> grid_ok pitch (set_cursor x y c).
Proof. intros []. by split. Qed.

Lemma scroll_one c v :
  1 < rows c -> 0 < scroll_pitch v -> grid_ok (scroll_pitch v) c ->
  let row_bytes := 8 * scroll_pitch v in
  exists m', console_scroll_mut 1 c v = Ret (c, set_mem m' v) /\
    forall o, m' (fb_virt c + o) =
      if (0 <=? o) && (o <? (rows c - 1) * row_bytes) then vmem v (fb_virt c + o + row_bytes)
      else if ((rows c - 1) * row_bytes <=? o) && (o <? rows c * row_bytes)
           then default 0 (le_encode 4 (bg c) !! Z.to_nat (o `mod` 4))
           else vmem v (fb_virt c + o).
Proof.
  intros Hr Hp [Hh _ _ Hfb Hend] rb. unfold console_scroll_mut. cbn [Z.eqb].
  destruct (Z.leb_spec (rows c) 1); [lia|]. rewrite Hh. set (pt := scroll_pitch v) in *.
  set (m1 := store_bytes _ _ _). set (p := fb_virt c + (rows c - 1) * 8 * pt).
  destruct (clear_words_spec (Z.to_nat (2 * pt)) (bg c) p m1) as (m' & Hm' & Hx); [unfold p; nia|unfold p; nia|].
  replace (4 * Z.to_nat (2 * pt))%nat with (Z.to_nat (1 * 8 * pt)) in Hm' by lia.
  replace (4 * Z.of_nat (Z.to_nat (2 * pt))) with (1 * 8 * pt) in Hm', Hx by lia.
  rewrite Hm'. exists m'. split; [done|]. intros o. rewrite Hx. unfold p, m1.
  assert ((fb_virt c + o - (fb_virt c + (rows c - 1) * 8 * pt)) `mod` 4 = o `mod` 4) as ->.
  { replace (fb_virt c + o - (fb_virt c + (rows c - 1) * 8 * pt)) with (o + (- (rows c - 1) * 2 * pt) * 4) by lia.
    by rewrite Z.mod_add. }
  rewrite copy_block_spec.
  replace (fb_virt c + 1 * 8 * pt + (fb_virt c + o - fb_virt c)) with (fb_virt c + o + rb) by (unfold rb; lia).
  assert (0 <= (rows c - 1) * 8 * pt) by nia. unfold rb. case_bools; done || nia.
Qed.

(** The drawing functions only change memory. *)
Lemma draw_rect_pitch fb x y wd h col v : scroll_pitch (draw_rect_at fb x y wd h col v) = scroll_pitch v.
Proof. unfold draw_rect_at. by destruct (active_driver v). Qed.

Lemma newline_scroll_ok c v :
  0 < scroll_pitch v -> grid_ok (scroll_pitch v) c -> 0 <= cur_y c < rows c ->
  exists c' v', newline_scroll c v = Ret (c', v') /\ grid_ok (scroll_pitch v) c' /\ on_screen c' /\
    scroll_pitch v' = scroll_pitch v.
Proof.
  intros Hp Hg Hy. pose proof Hg as [Hh Hc Hr Hfb Hend]. unfold newline_scroll.
  change (rows (newline c)) with (rows c). change (cur_y (newline c)) with (cur_y c + 1).
  destruct (Z.leb_spec (rows c) (cur_y c + 1)).
  - destruct (decide (rows c = 1)) as [H1|].
    + unfold console_scroll_mut. cbn [Z.eqb]. change (rows (newline c)) with (rows c).
      destruct (Z.leb_spec (rows c) 1); [|lia]. cbn [outcome_bind]. do 2 eexists. split; [done|].
      split; [by apply grid_ok_cursor, grid_ok_cursor, grid_ok_cursor|]. split.
      * split; cbn; lia.
      * apply draw_rect_pitch.
    + destruct (scroll_one (newline c) v) as (m' & -> & _); [cbn; lia|done|by apply grid_ok_cursor|].
      cbn [outcome_bind]. do 2 eexists. split; [done|].
      split; [by apply grid_ok_cursor, grid_ok_cursor|]. split; [split; cbn; lia|done].
  - do 2 eexists. split; [done|]. split; [by apply grid_ok_cursor|]. split; [split; cbn; lia|done].
Qed.

Lemma draw_char_ret fb x y b col v :
  b <> 0x7F -> exists v', draw_char_at fb x y b col v = Ret v' /\ scroll_pitch v' = scroll_pitch v.
Proof.
  intros Hb. unfold draw_char_at. destruct (active_driver v) as [d|] eqn:E; [|by eexists].
  assert (exists m, drv_draw_char_at d fb x y b col (vmem v) = Ret m) as [m ->].
  { unfold drv_draw_char_at. destruct (decide (0x20 <= b <= 0x7E)) as [Hp|Hp].
    - destruct (get_glyph_printable b Hp) as (g & _ & ->). by eexists.
    - unfold get_glyph. destruct (Z.ltb_spec b 0x20), (Z.ltb_spec 0x7F b); try lia; by eexists. }
  by eexists.
Qed.

Definition no_tab_or_del (b : Z) : Prop := b <> 9 /\ b <> 0x7F.

Lemma print_byte_ok fb b c v :
  no_tab_or_del b -> 0 < scroll_pitch v -> grid_ok (scroll_pitch v) c -> on_screen c ->
  exists c' v', print_byte fb b c v = Ret (c', v') /\ grid_ok (scroll_pitch v) c' /\ on_screen c' /\
    scroll_pitch v' = scroll_pitch v.
Proof.
  intros [H9 H7F] Hp Hg [Hx Hy].
  assert (forall b', b' = b -> b' <> 10 -> b' <> 13 -> b' <> 8 -> exists c' v',
    (let! v := draw_char_at fb (cur_x c * char_w c) (cur_y c * char_h c) b' (fg c) v in
     let c := set_cursor (cur_x c + 1) (cur_y c) c in
     if cols c <=? cur_x c then newline_scroll c v else Ret (c, v)) = Ret (c', v') /\
    grid_ok (scroll_pitch v) c' /\ on_screen c' /\ scroll_pitch v' = scroll_pitch v) as Hchar.
  { intros b' -> _ _ _. destruct (draw_char_ret fb (cur_x c * char_w c) (cur_y c * char_h c) b (fg c) v H7F)
      as (v1 & -> & Hv1). cbn [outcome_bind]. cbn [cols cur_x set_cursor].
    rewrite <- Hv1 in *. destruct (Z.leb_spec (cols c) (cur_x c + 1)).
    - apply newline_scroll_ok; [done|by apply grid_ok_cursor|done].
    - do 2 eexists. split; [done|]. split; [by apply grid_ok_cursor|]. split; [split; cbn; lia|done]. }
  unfold print_byte. destruct (decide (b = 10)) as [->|]; [by apply newline_scroll_ok|].
  destruct (decide (b = 13)) as [->|].
  { do 2 eexists. split; [done|]. split; [by apply grid_ok_cursor|]. split; [split; cbn; lia|done]. }
  destruct (decide (b = 8)) as [->|].
  { do 2 eexists. split; [done|]. rewrite draw_rect_pitch. unfold on_screen, sat_sub.
    destruct (Z.ltb_spec 0 (cur_x c)); [|destruct (Z.ltb_spec 0 (cur_y c))]; cbn;
      (split; [done || by apply grid_ok_cursor|]); (split; [|done]); lia. }
  specialize (Hchar b eq_refl ltac:(done) ltac:(done) ltac:(done)).
  destruct b as [|[[[[]|[]|]|[[]|[]|]|]|[[[]|[]|]|[[]|[]|]|]|]|]; try done; exact Hchar.
Qed.

Lemma print_bytes_ok fb s c v :
  Forall no_tab_or_del s -> 0 < scroll_pitch v -> grid_ok (scroll_pitch v) c -> on_screen c ->
  exists c' v', print_bytes fb s c v = Ret (c', v') /\ grid_ok (scroll_pitch v) c' /\ on_screen c'.
Proof.
  intros Hs. revert c v. induction Hs as [|b s Hb Hs IH]; intros c v Hp Hg Ho; [by exists c, v|].
  destruct (print_byte_ok fb b c v Hb Hp Hg Ho) as (c1 & v1 & H1 & Hg1 & Ho1 & Hv1).
  rewrite <- Hv1 in Hp, Hg1.
  destruct (IH c1 v1 Hp Hg1 Ho1) as (c2 & v2 & H2 & Hg2 & Ho2).
  exists c2, v2. rewrite <- Hv1. unfold print_bytes in *. cbn [for_each]. by rewrite H1.
Qed.

(** Printing keeps a console on its framebuffer. *)
Lemma scroll_fb lines c v c' v' : console_scroll_mut lines c v = Ret (c', v') -> fb_virt c' = fb_virt c.
Proof.
  unfold console_scroll_mut. destruct (lines =? 0); [by intros [= <- _]|].
  destruct (rows c <=? lines); [by intros [= <- _]|].
  destruct (clear_words _ _ _ _ _) as [[]|]; [by intros [= <- _]|done].
Qed.

Lemma newline_scroll_fb c v c' v' : newline_scroll c v = Ret (c', v') -> fb_virt c' = fb_virt c.
Proof.
  unfold newline_scroll. destruct (_ <=? _); [|by intros [= <- _]].
  destruct (console_scroll_mut 1 (newline c) v) as [[c1 v1]|] eqn:E; [|done].
  apply scroll_fb in E. by intros [= <- _].
Qed.

Lemma print_byte_fb fb b c v c' v' : print_byte fb b c v = Ret (c', v') -> fb_virt c' = fb_virt c.
Proof.
  unfold print_byte. intros H.
  repeat match type of H with
  | newline_scroll _ _ = _ => by apply newline_scroll_fb in H
  | Ret _ = Ret _ => injection H as <- _; repeat case_match; done
  | context [draw_char_at ?a1 ?a2 ?a3 ?a4 ?a5 ?a6] =>
      destruct (draw_char_at a1 a2 a3 a4 a5 a6); cbn [outcome_bind] in H; [|done]
  | context [if ?x <=? ?y then _ else _] => destruct (x <=? y)
  | context [match ?x with _ => _ end] => destruct x
  end.
Qed.

Lemma print_bytes_fb fb s c v c' v' : print_bytes fb s c v = Ret (c', v') -> fb_virt c' = fb_virt c.
Proof.
  revert c v. unfold print_bytes. induction s as [|b s IH]; intros c v H; cbn in H; [by injection H as <- _|].
  destruct (print_byte fb b c v) as [[c1 v1]|] eqn:E; [|done]. apply print_byte_fb in E.
  cbn in H. apply IH in H. congruence.
Qed.

Lemma get_or_create_spec fb cs v :
  let '(i, cs') := get_or_create_console fb cs v in
  exists c, cs' !! i = Some c /\ fb_virt c = fb /\
    (forall j d, cs' !! j = Some d -> (j < i)%nat -> fb_virt d <> fb) /\
    (forall j d, cs !! j = Some d -> cs' !! j = Some d).
Proof.
  unfold get_or_create_console. destruct (list_find _ cs) as [[i c]|] eqn:E.
  - apply list_find_Some in E as (H1 & H2 & H3). exists c. split_and!; [done|done| |done]. intros. by eapply H3.
  - apply list_find_None in E. rewrite Forall_lookup in E.
    set (dims := match get_fb_info v with Some _ => _ | None => _ end). destruct dims as [[[co ro] cw] ch].
    eexists. split; [by apply list_lookup_middle|]. split; [done|]. split.
    + intros j d Hd Hj. rewrite lookup_app_l in Hd by done. by eapply E.
    + intros j d Hd. by apply lookup_app_l_Some.
Qed.

(** ** Properties *)

(** C15: printing on a framebuffer console: any text without tab and DEL is printed
    without a panic, and the cursor stays on the character grid through wrapping,
    newlines, backspaces and scrolling. *)
Theorem console_cursor_on_screen fb s c v :
  Forall no_tab_or_del s -> 0 < scroll_pitch v -> grid_ok (scroll_pitch v) c -> on_screen c ->
  exists c' v', print_bytes fb s c v = Ret (c', v') /\ grid_ok (scroll_pitch v) c' /\ on_screen c'.
Proof. apply print_bytes_ok. Qed.

(** Scrolling a console by one line moves every text row but the first up by
    one text row, fills the last row with the background color, and
    touches no byte outside the console's rows. *)
Theorem console_scroll_moves_rows c v :
  1 < rows c -> 0 < scroll_pitch v -> grid_ok (scroll_pitch v) c ->
  let row_bytes := 8 * scroll_pitch v in
  exists m', console_scroll_mut 1 c v = Ret (c, set_mem m' v) /\
    forall o, m' (fb_virt c + o) =
      if (0 <=? o) && (o <? (rows c - 1) * row_bytes) then vmem v (fb_virt c + o + row_bytes)
      else if ((rows c - 1) * row_bytes <=? o) && (o <? rows c * row_bytes)
           then default 0 (le_encode 4 (bg c) !! Z.to_nat (o `mod` 4))
           else vmem v (fb_virt c + o).
Proof. apply scroll_one. Qed.

(** A tab near the end of the last line moves the cursor below the screen: the
    branch that starts a new line for a tab does not check for scrolling. *)
Theorem tab_leaves_screen fb c v :
  on_screen c -> cols c <= (cur_x c / 8 + 1) * 8 -> cur_y c = rows c - 1 ->
  exists c', print_byte fb 9 c v = Ret (c', v) /\ cur_y c' = rows c' /\ ~ on_screen c'.
Proof.
  intros Ho Hc Hy. unfold print_byte. destruct (Z.leb_spec (cols c) ((cur_x c / 8 + 1) * 8)); [|lia].
  exists (newline c). unfold on_screen. cbn. split_and!; [done|lia|lia].
Qed.

(** C40: without a framebuffer, [_print] writes its text twice to the boot text
    buffer: [console_print_first] falls back to the writer and still reports
    [false], upon which [_print] falls back to the writer again. *)
Theorem print_without_framebuffer_twice s w :
  get_framebuffer_addrs (vbe w) = [] ->
  _print s w =
    let! (wr, p) := write_string (s ++ s) (writer w) (vports (vbe w)) in
    Ret (MkCW (consoles w) wr (set_vports p (vbe w))).
Proof.
  intros H. unfold _print, vbe_try_print, console_print_first. rewrite H.
  assert (forall l1 l2 (x : Writer * P), for_each (fun byte '(w, p) => write_byte (printable byte) w p) (l1 ++ l2) x =
    let! y := for_each (fun byte '(w, p) => write_byte (printable byte) w p) l1 x in
    for_each (fun byte '(w, p) => write_byte (printable byte) w p) l2 y) as Happ.
  { induction l1 as [|b l1 IH]; intros l2 [w0 p0]; cbn; [done|].
    destruct (write_byte (printable b) w0 p0) as [[w1 p1]|]; cbn; [apply IH|done]. }
  unfold write_string. rewrite Happ.
  destruct (for_each _ s (writer w, vports (vbe w))) as [[wr p]|]; cbn; [|done].
  by destruct (for_each _ s (wr, p)) as [[wr' p']|].
Qed.

(** With a framebuffer, [_print] goes to the first framebuffer's console only:
    the text buffer and the consoles of other framebuffers are unchanged, and the
    console is created once and found again afterwards. *)
Theorem print_with_framebuffer s w fb rest w' :
  get_framebuffer_addrs (vbe w) = fb :: rest -> _print s w = Ret w' ->
  writer w' = writer w /\
  (forall i c, consoles w !! i = Some c -> fb_virt c <> fb -> consoles w' !! i = Some c) /\
  exists c, list_find (fun c => fb_virt c = fb) (consoles w') =
    Some ((get_or_create_console fb (consoles w) (vbe w)).1, c).
Proof.
  intros Hfb. unfold _print, vbe_try_print, console_print_first. rewrite Hfb.
  pose proof (get_or_create_spec fb (consoles w) (vbe w)) as Hgc.
  destruct (get_or_create_console fb (consoles w) (vbe w)) as [idx cs].
  destruct Hgc as (c & Hc & Hcfb & Hfirst & Hpre). rewrite Hc. cbn [outcome_bind].
  destruct (print_bytes fb s c (vbe w)) as [[c' v']|] eqn:E; [|done]. cbn. intros [= <-].
  apply print_bytes_fb in E. cbn. split; [done|]. split.
  - intros i c0 Hi Hne. rewrite list_lookup_insert_ne; [by apply Hpre|]. intros ->.
    apply Hpre in Hi. congruence.
  - exists c'. apply list_find_Some. split_and!.
    + apply list_lookup_insert_eq. by eapply lookup_lt_Some.
    + congruence.
    + intros j y Hj Hlt. rewrite list_lookup_insert_ne in Hj by lia. by eapply Hfirst.
Qed.
End Invariant.

(** ** Printing on the boot screen

    Before a framebuffer is active every message goes to the text buffer: printing
    succeeds, leaves everything but the text and the hardware cursor as it was, and
    the boot screen stays in place. *)

Section BootScreen.
Context {FA MS P : Type} {io : PortIO P}.
Implicit Types (w : ConWorld MS FA (traced P)).

Definition boot_screen w : Prop := get_framebuffer_addrs (vbe w) = [] /\ writer_ok (writer w).

Definition con_log w : list port_event := log (vports (vbe w)).

(** [w'] is [w] after output to the text buffer only. *)
Definition printed w w' : Prop :=
  boot_screen w' /\ consoles w' = consoles w /\ (exists p, vbe w' = set_vports p (vbe w)) /\
  exists es, con_log w' = con_log w ++ es /\ Forall cursor_event es.

Lemma printed_trans w1 w2 w3 : printed w1 w2 -> printed w2 w3 -> printed w1 w3.
Proof.
  intros (_ & Hc & (p & Hv) & es & Hl & He) (Hb & Hc' & (p' & Hv') & es' & Hl' & He').
  split_and!; [done|congruence| |].
  - exists p'. by rewrite Hv', Hv.
  - exists (es ++ es'). rewrite Hl', Hl, app_assoc. split; [done|]. by apply Forall_app.
Qed.

Lemma printed_refl w : boot_screen w -> printed w w.
Proof.
  intros Hb. split_and!; [done|done| |].
  - exists (vports (vbe w)). by destruct (vbe w).
  - exists []. by rewrite app_nil_r.
Qed.

Lemma write_boot s w :
  boot_screen w ->
  exists wr p, write_string s (writer w) (vports (vbe w)) = Ret (wr, p) /\
    printed w (MkCW (consoles w) wr (set_vports p (vbe w))).
Proof.
  intros [Hfb Hok].
  destruct (write_string_spec s (writer w) (vports (vbe w)) Hok) as (wr & p & es & H & _ & Hok' & Hl & He & _).
  exists wr, p. split; [done|]. split_and!; [done|done|by exists p|by exists es].
Qed.

Lemma console_print_boot s w :
  boot_screen w -> exists w', console_print_first s w = Ret (false, w') /\ boot_screen w' /\ printed w w'.
Proof.
  intros Hb. unfold console_print_first. rewrite (proj1 Hb).
  destruct (write_boot s w Hb) as (wr & p & -> & Hp). eexists. split; [done|]. split; [apply Hp|done].
Qed.

Lemma print_boot s w : boot_screen w -> exists w', _print s w = Ret w' /\ boot_screen w' /\ printed w w'.
Proof.
  intros Hb. unfold _print, vbe_try_print. destruct (console_print_boot s w Hb) as (w1 & -> & Hb1 & Hp1).
  cbn [outcome_bind]. destruct (write_boot s w1 Hb1) as (wr & p & -> & Hp2). eexists. split; [done|].
  split; [apply Hp2|]. by eapply printed_trans.
Qed.
End BootScreen.

(** ** Witnesses *)

#[local] Existing Instance const_ports_io.

(** A framebuffer of 1024x768 pixels at [0x1000000], and none. *)
Definition sample_fb : VbeWorld unit unit const_ports :=
  MkVW {[ 1 := MkVbe true [MkMapping 0x1000000 0x1000000 0x1000000 768] (Some (MkFbInfo 1024 768 32 4096)) ]}
    (Some 1) None None 0 (fun _ => 0) (MkConst (fun _ => 0)).
Definition sample_no_fb : VbeWorld unit unit const_ports :=
  MkVW ∅ None None None 0 (fun _ => 0) (MkConst (fun _ => 0)).

Definition sample_console (x y : Z) : Console := MkConsole 0x1000000 113 96 x y 0xFFFFFFFF 0 9 8.
Definition sample_cw (v : VbeWorld unit unit const_ports) : ConWorld unit unit const_ports :=
  MkCW [] (WRITER_init (fun _ _ => MkChar 0 0)) v.

Lemma sample_grid_ok x y : grid_ok 4096 (sample_console x y).
Proof. split; cbn; lia. Qed.

Lemma console_cursor_on_screen_witness :
  exists c' v', print_bytes 0x1000000 [72; 105; 10; 8] (sample_console 112 95) sample_fb = Ret (c', v') /\
    grid_ok 4096 c' /\ on_screen c'.
Proof.
  apply (console_cursor_on_screen 0x1000000 [72; 105; 10; 8] (sample_console 112 95) sample_fb).
  - repeat constructor; lia.
  - vm_compute. reflexivity.
  - exact (sample_grid_ok 112 95).
  - unfold on_screen. cbn. lia.
Defined.

Lemma console_scroll_moves_rows_witness :
  exists m', console_scroll_mut 1 (sample_console 0 0) sample_fb = Ret (sample_console 0 0, set_mem m' sample_fb) /\
    m' 0x1000000 = vmem sample_fb (0x1000000 + 8 * 4096).
Proof.
  destruct (console_scroll_moves_rows (sample_console 0 0) sample_fb) as (m' & H1 & H2).
  - cbn. lia.
  - vm_compute. reflexivity.
  - exact (sample_grid_ok 0 0).
  - exists m'. split; [exact H1|]. exact (H2 0).
Defined.

Lemma tab_leaves_screen_witness :
  exists c', print_byte 0x1000000 9 (sample_console 112 95) sample_fb = Ret (c', sample_fb) /\
    cur_y c' = rows c' /\ ~ on_screen c'.
Proof.
  apply (tab_leaves_screen 0x1000000 (sample_console 112 95) sample_fb).
  - unfold on_screen. cbn. lia.
  - apply Z.leb_le. reflexivity.
  - reflexivity.
Defined.

Lemma print_without_framebuffer_twice_witness :
  _print [65] (sample_cw sample_no_fb) =
    let! (wr, p) := write_string [65; 65] (writer (sample_cw sample_no_fb)) (vports sample_no_fb) in
    Ret (MkCW [] wr (set_vports p sample_no_fb)).
Proof. apply (print_without_framebuffer_twice [65] (sample_cw sample_no_fb)). reflexivity. Defined.

Lemma print_with_framebuffer_witness :
  exists w', _print [13] (sample_cw sample_fb) = Ret w' /\ writer w' = writer (sample_cw sample_fb).
Proof.
  eexists. split; [reflexivity|].
  refine (proj1 (print_with_framebuffer [13] (sample_cw sample_fb) 0x1000000 [] _ _ _)); reflexivity.
Defined.

(** The text screen at power-on. *)
Definition sample_boot : ConWorld unit unit (traced const_ports) :=
  MkCW [] sample_writer (MkVW ∅ None None None 0 (fun _ => 0) sample_ports).

Lemma sample_boot_screen : boot_screen sample_boot.
Proof. split; [reflexivity|exact sample_writer_ok]. Qed.
