(* ===== verification/Interrupts.v ===== *)
(** * Interrupts: the interrupt table, the local APIC and the streams fed by
    interrupt handlers

    [src/arch/idt.rs], [src/arch/interrupts.rs], [src/hal/apic.rs],
    [src/devices/PIT/pit.rs], and the pattern both PS/2 drivers use to hand bytes
    from their interrupt handler to a task: a bounded queue and an [AtomicWaker]
    ([src/driver_framework/drivers/ps2kbd.rs], [ps2mouse.rs]).

    The handlers a vector can have are named ([Handler]); a driver's handler is
    known by the driver. The [x86_64] crate refuses to index some of the exception
    vectors: [idt_indexable] is a parameter. The PIC, used for the end of interrupt
    when there is no local APIC, is an operation on a state. *)

From S2P Require Import Prelude External Device Manager Ports Acpi Ioapic.

Local Open Scope string_scope.
Local Open Scope list_scope.
Local Open Scope Z_scope.

(** ** The local APIC *)

Definition LAPIC_ID : Z := 0x20.
Definition LAPIC_EOI : Z := 0xB0.
Definition LAPIC_SVR : Z := 0xF0.
Definition LAPIC_SVR_APIC_ENABLE : Z := 0x100.

Section Lapic.
Context {D : Type} {hw : Mmio D}.

(** [LAPIC_BASE] (0: not initialised) and the memory-mapped registers. *)
Record Lapic : Type := MkLapic { lapic_base : Z; lapic_hw : D }.

Definition is_initialized (l : Lapic) : bool := negb (lapic_base l =? 0).

Definition init_lapic_phys (phys_addr phys_offset : Z) (l : Lapic) : outcome (bool * Lapic) :=
  let! virt := checked_add 64 phys_addr phys_offset in
  if virt =? 0 then Ret (false, l) else
  let svr_addr := virt + LAPIC_SVR in
  let '(svr, d) := mmio_read32 svr_addr (lapic_hw l) in
  let d := mmio_write32 svr_addr (svr .| LAPIC_SVR_APIC_ENABLE) d in
  Ret (true, MkLapic virt d).

Definition lapic_init_from_acpi (a : AcpiState) (phys_offset : Z) (l : Lapic) : outcome (bool * Lapic) :=
  match get_local_apic_address a with
  | Some lapic_phys => init_lapic_phys lapic_phys phys_offset l
  | None => Ret (false, l)
  end.

Definition send_eoi (l : Lapic) : Lapic :=
  if lapic_base l =? 0 then l
  else MkLapic (lapic_base l) (mmio_write32 (lapic_base l + LAPIC_EOI) 0 (lapic_hw l)).

Definition local_apic_id (l : Lapic) : option Z * Lapic :=
  if lapic_base l =? 0 then (None, l)
  else
    let '(id, d) := mmio_read32 (lapic_base l + LAPIC_ID) (lapic_hw l) in
    (Some (wrap 8 ((id .>> 24) .& 0xFF)), MkLapic (lapic_base l) d).
End Lapic.
Arguments Lapic : clear implicits.

(** ** Vectors of the PIC *)

Definition PIC_1_OFFSET : Z := 32.
Definition PIC_2_OFFSET : Z := PIC_1_OFFSET + 8.

Inductive InterruptIndex : Type := Timer | Keyboard.

Definition as_u8 (i : InterruptIndex) : Z :=
  match i with Timer => PIC_1_OFFSET | Keyboard => PIC_1_OFFSET + 1 end.

(** The 8259 pair: acknowledging a vector. *)
Class Pics (PS : Type) : Type := { notify_end_of_interrupt : Z -> PS -> PS }.

Section Eoi.
Context {D PS : Type} {hw : Mmio D} {pics : Pics PS}.

(** What every handler does last: the local APIC when it is initialised, otherwise
    the PIC, for the handler's vector. *)
Definition end_of_interrupt (vector : Z) (l : Lapic D) (ps : PS) : Lapic D * PS :=
  if is_initialized l then (send_eoi l, ps) else (l, notify_end_of_interrupt vector ps).

(** The timer's handler, [pit::void]. *)
Definition pit_void (l : Lapic D) (ps : PS) : Lapic D * PS := end_of_interrupt (as_u8 Timer) l ps.

(** [default_irq_handler], its message apart. *)
Definition default_irq (l : Lapic D) (ps : PS) : Lapic D * PS := end_of_interrupt 0 l ps.
End Eoi.

(** ** The interrupt descriptor table *)

Inductive Handler : Type :=
| division_by_zero | debug_error | overflow | bre | invalid_opcode | dno | breakpoint
| double_fault | invalid_tss | snp | ssf | gpf | pf
| default_irq_handler
| driver_handler (name : string).

#[export] Instance Handler_eq_dec : EqDecision Handler.
Proof. solve_decision. Defined.

Abbreviation Idt := (gmap Z Handler).

(** The table [ensure_idt_initialized] builds: the exceptions at their vectors and
    the default handler at 32 to 255. *)
Definition new_idt : Idt :=
  list_to_map [(0, division_by_zero); (1, debug_error); (4, overflow); (5, bre); (6, invalid_opcode);
    (7, dno); (3, breakpoint); (8, double_fault); (10, invalid_tss); (11, snp); (12, ssf); (13, gpf); (14, pf)]
  ∪ list_to_map ((fun v => (v, default_irq_handler)) <$> seqZ 32 224).

Class X86Idt : Type := {
  idt_indexable : Z -> bool;
  idt_indexable_irq v : 32 <= v <= 255 -> idt_indexable v = true
}.

Section Table.
Context {x86 : X86Idt}.

(** [IDT_PTR]: [None] until first use. *)
Definition ensure_idt_initialized (idt : option Idt) : Idt := default new_idt idt.

Definition set_handler (vector : Z) (h : Handler) (idt : option Idt) : outcome (option Idt) :=
  let t := ensure_idt_initialized idt in
  if idt_indexable vector then Ret (Some (<[vector := h]> t)) else Panic "reserved exception vector".

Definition register_irq_handler (vector : Z) (h : Handler) (idt : option Idt) : outcome (option Idt) :=
  set_handler vector h idt.

Definition unregister_irq_handler (vector : Z) (idt : option Idt) : outcome (option Idt) :=
  set_handler vector default_irq_handler idt.

(** The registration loop of a driver's [start]: every interrupt resource gets the
    handler and enters the driver's list once. *)
Fixpoint register_vectors (h : Handler) (rs : list Resource) (reg : list Z) (idt : option Idt)
    : outcome (list Z * option Idt) :=
  match rs with
  | [] => Ret (reg, idt)
  | r :: rs =>
      match kind r with
      | Interrupt vector =>
          let! idt := register_irq_handler vector h idt in
          let reg := if bool_decide (vector ∈ reg) then reg else reg ++ [vector] in
          register_vectors h rs reg idt
      | _ => register_vectors h rs reg idt
      end
  end.

(** The loop of [stop] and [release]. *)
Definition unregister_vectors (reg : list Z) (idt : option Idt) : outcome (option Idt) :=
  for_each unregister_irq_handler reg idt.

Definition handler_at (idt : option Idt) (v : Z) : option Handler := ensure_idt_initialized idt !! v.

Definition interrupt_vectors (rs : list Resource) : list Z :=
  omap (fun r => match kind r with Interrupt v => Some v | _ => None end) rs.

(** ** Lemmas *)

Lemma set_handler_spec v h idt :
  idt_indexable v = true ->
  exists idt', set_handler v h idt = Ret (Some idt') /\
    forall u, handler_at (Some idt') u = if u =? v then Some h else handler_at idt u.
Proof.
  intros Hv. unfold set_handler. rewrite Hv. eexists. split; [done|]. intros u.
  unfold handler_at. change (ensure_idt_initialized (Some ?t)) with t. rewrite lookup_insert.
  destruct (Z.eqb_spec u v) as [->|]; [by rewrite decide_True|by rewrite decide_False].
Qed.

Lemma register_vectors_spec h rs reg idt :
  Forall (fun v => 32 <= v <= 255) (interrupt_vectors rs) -> NoDup reg ->
  exists reg' idt', register_vectors h rs reg idt = Ret (reg', idt') /\ NoDup reg' /\
    (forall v, v ∈ reg' <-> v ∈ reg \/ v ∈ interrupt_vectors rs) /\
    forall u, handler_at idt' u =
      if bool_decide (u ∈ interrupt_vectors rs) then Some h else handler_at idt u.
Proof.
  revert reg idt. induction rs as [|r rs IH]; intros reg idt Hv Hnd.
  { exists reg, idt. split_and!; [done|done|set_solver|done]. }
  cbn [register_vectors]. unfold interrupt_vectors in *. cbn in *. destruct (kind r) as [| |vector| |]; try by apply IH.
  apply Forall_cons in Hv as [Hv Hrs].
  destruct (set_handler_spec vector h idt (idt_indexable_irq _ Hv)) as (idt1 & E & Hh).
  unfold register_irq_handler. rewrite E. cbn [outcome_bind].
  set (reg1 := if bool_decide (vector ∈ reg) then reg else reg ++ [vector]).
  assert (NoDup reg1 /\ forall v, v ∈ reg1 <-> v ∈ reg \/ v = vector) as [Hnd1 Hin1].
  { unfold reg1. case_bool_decide; [split; [done|set_solver]|]. split; [|set_solver].
    apply NoDup_app. split_and!; [done|set_solver|apply NoDup_singleton]. }
  destruct (IH reg1 (Some idt1) Hrs Hnd1) as (reg' & idt' & -> & Hnd' & Hin' & Hh').
  exists reg', idt'. split_and!; [done|done|set_solver|]. intros u. rewrite Hh', Hh.
  repeat case_bool_decide; destruct (Z.eqb_spec u vector); set_solver.
Qed.

Lemma unregister_vectors_spec reg idt :
  Forall (fun v => 32 <= v <= 255) reg ->
  exists idt', unregister_vectors reg idt = Ret idt' /\
    forall u, handler_at idt' u = if bool_decide (u ∈ reg) then Some default_irq_handler else handler_at idt u.
Proof.
  revert idt. unfold unregister_vectors. induction reg as [|v reg IH]; intros idt Hv.
  { exists idt. split; [done|]. intros u. by rewrite bool_decide_eq_false_2 by set_solver. }
  apply Forall_cons in Hv as [Hv Hreg]. cbn [for_each].
  destruct (set_handler_spec v default_irq_handler idt (idt_indexable_irq _ Hv)) as (idt1 & E & Hh).
  unfold unregister_irq_handler at 1. rewrite E. cbn [outcome_bind].
  destruct (IH (Some idt1) Hreg) as (idt' & -> & Hh'). exists idt'. split; [done|]. intros u. rewrite Hh', Hh.
  repeat case_bool_decide; destruct (Z.eqb_spec u v); set_solver.
Qed.
End Table.

(** The vectors the table has from the start. *)
Lemma new_idt_irq v : 32 <= v <= 255 -> new_idt !! v = Some default_irq_handler.
Proof.
  intros Hv. unfold new_idt. apply lookup_union_Some_raw. right. split.
  - apply not_elem_of_list_to_map. cbn. set_unfold. lia.
  - apply elem_of_list_to_map.
    + rewrite <- list_fmap_compose. cbn. rewrite list_fmap_id. apply NoDup_seqZ.
    + apply list_elem_of_fmap. exists v. split; [done|]. apply elem_of_seqZ. lia.
Qed.

(** ** Streams fed by an interrupt handler

    The handler pushes an item (dropping it when the queue is full) and wakes the
    task registered with the [AtomicWaker]; [poll_next] pops, registers its waker,
    and pops again. The interrupt can arrive between any two of these steps.
    [AtomicWaker]: [register] stores a waker, [wake] takes it and wakes its task,
    [take] removes it. *)

Section Stream.
Context {Q : Type -> Type} {aq : ArrayQueue Q} {A : Type}.

(** Where the consuming task is: not running, about to pop, after an empty pop,
    after registering its waker. *)
Inductive consumer : Type := Parked | BeforePop | AfterEmptyPop | AfterRegister.

(** [scheduled]: the task's id is in the executor's queue. [accepted] and
    [delivered] record the history. *)
Record StreamState : Type := MkStream {
  queue : Q A;
  waker : bool;
  scheduled : bool;
  at_ : consumer;
  accepted : list A;
  delivered : list A
}.

Definition stream_new (capacity : nat) : StreamState :=
  MkStream (aq_new capacity) false true Parked [] [].

(** The handler: [let _ = queue.push(x); WAKER.wake()]. *)
Definition irq_push (x : A) (s : StreamState) : StreamState :=
  let '(q, acc) := match aq_push x (queue s) with
                   | Some q => (q, accepted s ++ [x])
                   | None => (queue s, accepted s)
                   end in
  MkStream q false (scheduled s || waker s) (at_ s) acc (delivered s).

(** The first pop of [poll_next]. *)
Definition first_pop (s : StreamState) : StreamState :=
  match aq_pop (queue s) with
  | Some (x, q) => MkStream q (waker s) (scheduled s) BeforePop (accepted s) (delivered s ++ [x])
  | None => MkStream (queue s) (waker s) (scheduled s) AfterEmptyPop (accepted s) (delivered s)
  end.

(** [WAKER.register(cx.waker())] *)
Definition register_waker (s : StreamState) : StreamState :=
  MkStream (queue s) true (scheduled s) AfterRegister (accepted s) (delivered s).

(** The second pop: [Pending], or the item after [WAKER.take()]. *)
Definition second_pop (s : StreamState) : StreamState :=
  match aq_pop (queue s) with
  | Some (x, q) => MkStream q false (scheduled s) BeforePop (accepted s) (delivered s ++ [x])
  | None => MkStream (queue s) (waker s) (scheduled s) Parked (accepted s) (delivered s)
  end.

(** [poll_next] with no interrupt in between: the whole function. *)
Definition poll_next (s : StreamState) : StreamState :=
  let s := first_pop s in
  match at_ s with
  | AfterEmptyPop => second_pop (register_waker s)
  | _ => s
  end.

Inductive stream_step : StreamState -> StreamState -> Prop :=
| step_irq x s : stream_step s (irq_push x s)
| step_resume s :
    at_ s = Parked -> scheduled s = true ->
    stream_step s (MkStream (queue s) (waker s) false BeforePop (accepted s) (delivered s))
| step_first_pop s : at_ s = BeforePop -> stream_step s (first_pop s)
| step_register s : at_ s = AfterEmptyPop -> stream_step s (register_waker s)
| step_second_pop s : at_ s = AfterRegister -> stream_step s (second_pop s).

Record stream_inv (s : StreamState) : Prop := {
  inv_fifo : accepted s = delivered s ++ aq_contents (queue s);
  inv_wake : at_ s = AfterRegister \/ at_ s = Parked -> waker s = true \/ scheduled s = true;
  inv_parked : at_ s = Parked -> aq_contents (queue s) <> [] -> scheduled s = true
}.

Lemma irq_push_inv x s : stream_inv s -> stream_inv (irq_push x s).
Proof.
  intros [H1 H2 H3]. unfold irq_push. pose proof (aq_push_spec _ x (queue s)) as Hp.
  assert (at_ s = AfterRegister \/ at_ s = Parked -> scheduled s || waker s = true) as Hw.
  { intros Ha. destruct (H2 Ha) as [-> | ->]; [apply orb_true_r|done]. }
  destruct (aq_push x (queue s)) as [q|]; split; cbn; auto.
  destruct Hp as (_ & -> & _). by rewrite H1, app_assoc.
Qed.

Lemma stream_step_inv s s' : stream_inv s -> stream_step s s' -> stream_inv s'.
Proof.
  intros Hinv Hs. destruct Hs as [x s|s Ha Hsch|s Ha|s Ha|s Ha]; [by apply irq_push_inv|..];
    destruct Hinv as [H1 H2 H3].
  - split; cbn; [done|naive_solver|done].
  - unfold first_pop. pose proof (aq_pop_spec _ (queue s)) as Hp.
    destruct (aq_pop (queue s)) as [[x q]|]; split; cbn; try naive_solver.
    destruct Hp as [Hp _]. by rewrite H1, Hp, <- app_assoc.
  - split; cbn; [done|by left|done].
  - unfold second_pop. pose proof (aq_pop_spec _ (queue s)) as Hp.
    destruct (aq_pop (queue s)) as [[x q]|]; split; cbn; try naive_solver.
    destruct Hp as [Hp _]. by rewrite H1, Hp, <- app_assoc.
Qed.

Lemma stream_new_inv n : stream_inv (stream_new n).
Proof. split; cbn; rewrite ?aq_new_contents; naive_solver. Qed.

Lemma stream_reachable_inv n s : rtc stream_step (stream_new n) s -> stream_inv s.
Proof.
  intros H. remember (stream_new n) as s0 eqn:E. assert (stream_inv s0) as Hi by (subst; apply stream_new_inv).
  clear E. induction H; eauto using stream_step_inv.
Qed.

(** The function is the sequence of its steps. *)
Lemma poll_next_steps s : at_ s = BeforePop -> rtc stream_step s (poll_next s).
Proof.
  intros Ha. unfold poll_next. destruct (at_ (first_pop s)) eqn:E;
    try (apply rtc_once; by apply step_first_pop).
  eapply rtc_l; [by apply step_first_pop|]. eapply rtc_l; [by apply step_register|].
  apply rtc_once. by apply step_second_pop.
Qed.

(** C7: whatever the interleaving of interrupts with [poll_next], a parked task
    with an item in the queue is always scheduled (no wake-up is lost), and the
    items the queue accepted are delivered exactly once, in order: what was
    accepted is what was delivered followed by what is queued. *)
Theorem stream_no_lost_wakeup n s :
  rtc stream_step (stream_new n) s ->
  accepted s = delivered s ++ aq_contents (queue s) /\
  (at_ s = Parked -> aq_contents (queue s) <> [] -> scheduled s = true) /\
  (at_ s = Parked -> waker s = true \/ scheduled s = true).
Proof. intros H. apply stream_reachable_inv in H as [H1 H2 H3]. split_and!; auto. Qed.
End Stream.
Arguments StreamState : clear implicits.

(** C34: the vectors of a driver: [start] installs the driver's handler on exactly
    the interrupt vectors of the device and records each once; [stop] (or
    [release]) gives exactly those vectors the default handler back and touches no
    other vector, so a driver that is started and stopped on a fresh table leaves
    the table as it was. *)
Theorem driver_vectors_roundtrip {x86 : X86Idt} h rs idt :
  Forall (fun v => 32 <= v <= 255) (interrupt_vectors rs) ->
  exists reg idt1 idt2, register_vectors h rs [] idt = Ret (reg, idt1) /\
    unregister_vectors reg idt1 = Ret idt2 /\ NoDup reg /\ (forall v, v ∈ reg <-> v ∈ interrupt_vectors rs) /\
    (forall u, handler_at idt1 u = if bool_decide (u ∈ interrupt_vectors rs) then Some h else handler_at idt u) /\
    (forall u, handler_at idt2 u =
       if bool_decide (u ∈ interrupt_vectors rs) then Some default_irq_handler else handler_at idt u) /\
    (idt = None -> forall u, handler_at idt2 u = handler_at idt u).
Proof.
  intros Hv. destruct (register_vectors_spec h rs [] idt Hv (NoDup_nil_2 )) as (reg & idt1 & -> & Hnd & Hin & H1).
  assert (forall v, v ∈ reg <-> v ∈ interrupt_vectors rs) as Hin' by set_solver.
  destruct (unregister_vectors_spec reg idt1) as (idt2 & E2 & H2).
  { apply Forall_forall. intros v Hr. rewrite Forall_forall in Hv. apply Hv. by apply Hin'. }
  assert (forall u, handler_at idt2 u =
       if bool_decide (u ∈ interrupt_vectors rs) then Some default_irq_handler else handler_at idt u) as H3.
  { intros u. rewrite H2, H1. rewrite (bool_decide_ext _ _ (Hin' u)). by case_bool_decide. }
  exists reg, idt1, idt2. split_and!; try done. intros -> u. rewrite H3.
  case_bool_decide as Hu; [|done]. rewrite Forall_forall in Hv. symmetry. apply new_idt_irq. by apply Hv.
Qed.

(** ** Witnesses *)

#[local] Existing Instance list_queue_queue.

Lemma stream_no_lost_wakeup_witness :
  let s := irq_push 7 (stream_new (Q := list_queue) 100) in
  accepted s = [7] /\ scheduled s = true.
Proof.
  intros s. destruct (stream_no_lost_wakeup 100 s) as (H1 & H2 & _).
  - apply rtc_once. constructor.
  - split; [exact H1|]. apply H2; [reflexivity|discriminate].
Defined.

#[local] Instance all_vectors : X86Idt := {| idt_indexable _ := true; idt_indexable_irq _ _ := eq_refl |}.

Lemma driver_vectors_roundtrip_witness :
  exists reg idt1 idt2,
    register_vectors (driver_handler "kbd") [MkResource (Interrupt 0x21) 0 0] [] None = Ret (reg, idt1) /\
    unregister_vectors reg idt1 = Ret idt2 /\ forall u, handler_at idt2 u = handler_at None u.
Proof.
  destruct (driver_vectors_roundtrip (driver_handler "kbd") [MkResource (Interrupt 0x21) 0 0] None)
    as (reg & idt1 & idt2 & H1 & H2 & _ & _ & _ & _ & H3).
  - repeat constructor; lia.
  - exists reg, idt1, idt2. split; [exact H1|]. split; [exact H2|]. exact (H3 eq_refl).
Defined.
