(* ===== verification/Ps2Kbd.v ===== *)
(** * Ps2Kbd: the PS/2 keyboard driver,
    [src/driver_framework/drivers/ps2kbd.rs]

    The driver registers its interrupt handler, which queues scancodes for the
    stream of [Interrupts]; [getline] enables the keyboard port, decodes scancodes
    into a line with echo and editing, and disables the port. The decoder is the
    [pc-keyboard] crate: [PcKeyboard] is its interface. The messages and the echo
    go through [Console]; the ports are those of the console's world. *)

From S2P Require Import Prelude External Device Manager Ports Acpi Ioapic VgaText Vbe Console Interrupts.

Local Open Scope string_scope.
Local Open Scope list_scope.
Local Open Scope Z_scope.

Inductive DecodedKey : Type :=
| Unicode (character : Z)
| RawKey (key : Z).

(** [pc_keyboard::Keyboard]: one byte of scancode set 1 may complete an event (or
    be an error), and an event may produce a key. *)
Class PcKeyboard (K : Type) : Type := {
  KeyEvent : Type;
  Keyboard_new : K;
  add_byte : Z -> K -> result (option KeyEvent) unit * K;
  process_keyevent : KeyEvent -> K -> option DecodedKey * K
}.

(** [char] to UTF-8, as [print!("{}", c)] writes it. *)
Definition encode_utf8 (c : Z) : list Z :=
  if c <? 0x80 then [c]
  else if c <? 0x800 then [0xC0 .| (c .>> 6); 0x80 .| (c .& 0x3F)]
  else if c <? 0x10000 then [0xE0 .| (c .>> 12); 0x80 .| ((c .>> 6) .& 0x3F); 0x80 .| (c .& 0x3F)]
  else [0xF0 .| (c .>> 18); 0x80 .| ((c .>> 12) .& 0x3F); 0x80 .| ((c .>> 6) .& 0x3F); 0x80 .| (c .& 0x3F)].

(** ** The controller *)

Section Controller.
Context {P : Type} {io : PortIO P}.

Definition read_status_port (p : P) : Z * P := inb 0x64 p.

Fixpoint wait_input_clear_local (max_loops : nat) (p : P) : bool * P :=
  match max_loops with
  | O => (false, p)
  | S n =>
      let '(status, p) := read_status_port p in
      if status .& 0x02 =? 0 then (true, p) else wait_input_clear_local n p
  end.

Definition write_controller_cmd_local (cmd : Z) (p : P) : bool * P :=
  match wait_input_clear_local (Z.to_nat 10000) p with
  | (false, p) => (false, p)
  | (true, p) => (true, outb 0x64 cmd p)
  end.

(** The end of [start]: a bounded wait, then the disable command in any case. *)
Definition disable_at_start (p : P) : P :=
  let '(_, p) := wait_input_clear_local (Z.to_nat 10000) p in outb 0x64 0xAD p.
End Controller.

(** ** The driver *)

Section Driver.
Context {x86 : X86Idt} {Q : Type -> Type} {aq : ArrayQueue Q} {FA MS P D PS K : Type} {io : PortIO P}
  {hw : Mmio D} {pics : Pics PS} {kb : PcKeyboard K}.
Implicit Types (w : ConWorld MS FA P).

(** [Ps2KbdDriver] and the statics it uses. *)
Record KbdWorld : Type := MkKbd {
  registered_vectors : list Z;
  scancodes : option (StreamState Q Z);
  kbd_idt : option Idt;
  kbd_con : ConWorld MS FA P
}.

Definition on_ports (p : P) w : ConWorld MS FA P := MkCW (consoles w) (writer w) (set_vports p (vbe w)).

Definition Ps2Kbd_irq_handler : Handler := driver_handler "Ps2KbdDriver::irq_handler".

(** [irq_handler]: the scancode to the queue when it exists, then the end of
    interrupt. *)
Definition kbd_irq (l : Lapic D) (ps : PS) (st : option (StreamState Q Z)) (p : P)
    : option (StreamState Q Z) * P * (Lapic D * PS) :=
  let '(scancode, p) := inb 0x60 p in
  (irq_push scancode <$> st, p, end_of_interrupt (as_u8 Keyboard) l ps).

(** [SCANCODE_QUEUE.try_init_once] *)
Definition init_queue_if_needed (st : option (StreamState Q Z)) : option (StreamState Q Z) :=
  Some (default (stream_new 100) st).

Definition kbd_probe (d : Device) : result unit string :=
  if (class (info d) =? 0x09) || contains (description (info d)) "PS/2 Keyboard"
  then Ok () else Err "not a PS/2 keyboard".

Definition msg_start : list Z := str_bytes "[kbd] PS/2 keyboard port disabled by default at start()" ++ [10].

Definition kbd_start (d : Device) (k : KbdWorld) : outcome (result unit string * KbdWorld) :=
  let st := init_queue_if_needed (scancodes k) in
  let! (reg, idt) := register_vectors Ps2Kbd_irq_handler (resources (info d)) (registered_vectors k) (kbd_idt k) in
  let w := on_ports (disable_at_start (vports (vbe (kbd_con k)))) (kbd_con k) in
  let! (_, w) := console_print_first msg_start w in
  Ret (Ok (), MkKbd reg st idt w).

Definition kbd_stop (k : KbdWorld) : outcome KbdWorld :=
  let! idt := unregister_vectors (registered_vectors k) (kbd_idt k) in
  Ret (MkKbd (registered_vectors k) (scancodes k) idt (kbd_con k)).

Definition kbd_release (k : KbdWorld) : outcome KbdWorld :=
  let! idt := unregister_vectors (registered_vectors k) (kbd_idt k) in
  Ret (MkKbd [] (scancodes k) idt (kbd_con k)).

(** ** Line input *)

Definition set_keyboard_port (cmd : Z) (warning done_ : list Z) w : outcome (ConWorld MS FA P) :=
  let '(ok, p) := write_controller_cmd_local cmd (vports (vbe w)) in
  let w := on_ports p w in
  let! (_, w) := console_print_first (if ok then done_ else warning) w in
  Ret w.

Definition enable_keyboard_port w : outcome (ConWorld MS FA P) :=
  set_keyboard_port 0xAE
    (str_bytes "[kbd] Warning: failed to enable PS/2 keyboard port (0xAE)" ++ [10])
    (str_bytes "[kbd] PS/2 keyboard port enabled" ++ [10]) w.

Definition disable_keyboard_port w : outcome (ConWorld MS FA P) :=
  set_keyboard_port 0xAD
    (str_bytes "[kbd] Warning: failed to disable PS/2 keyboard port (0xAD)" ++ [10])
    (str_bytes "[kbd] PS/2 keyboard port disabled" ++ [10]) w.

(** The decoder on one scancode: [keyboard.add_byte], then [process_keyevent]. *)
Definition decode (sc : Z) (k : K) : option DecodedKey * K :=
  match add_byte sc k with
  | (Ok (Some ev), k) => process_keyevent ev k
  | (_, k) => (None, k)
  end.

(** The loop over the scancodes received so far: the line when Enter was typed
    ([None]: still waiting), the rest of the scancodes and the console. *)
Fixpoint getline_loop (scs : list Z) (k : K) (buf : list Z) w
    : outcome (option (list Z) * list Z * ConWorld MS FA P) :=
  match scs with
  | [] => Ret (None, [], w)
  | sc :: scs =>
      match decode sc k with
      | (Some (Unicode 10), _) | (Some (Unicode 13), _) =>
          let! w := println [] w in
          let! w := disable_keyboard_port w in
          Ret (Some buf, scs, w)
      | (Some (Unicode 8), k) =>
          match buf with
          | [] => getline_loop scs k buf w
          | _ => let! w := _print [8; 32; 8] w in getline_loop scs k (removelast buf) w
          end
      | (Some (Unicode c), k) => let! w := _print (encode_utf8 c) w in getline_loop scs k (buf ++ [c]) w
      | (Some (RawKey _), k) | (None, k) => getline_loop scs k buf w
      end
  end.

Definition getline (scs : list Z) w : outcome (option (list Z) * list Z * ConWorld MS FA P) :=
  let! w := enable_keyboard_port w in
  getline_loop scs Keyboard_new [] w.

(** [print_keypresses] on one scancode; the name of a raw key is a parameter. *)
Definition print_keypress (debug : Z -> list Z) (sc : Z) (s : K * ConWorld MS FA P)
    : outcome (K * ConWorld MS FA P) :=
  let '(k, w) := s in
  match decode sc k with
  | (Some (Unicode c), k) => let! w := _print (encode_utf8 c) w in Ret (k, w)
  | (Some (RawKey r), k) => let! w := _print (debug r) w in Ret (k, w)
  | (None, k) => Ret (k, w)
  end.

(** ** What is typed *)

(** The characters of a sequence of scancodes. *)
Fixpoint typed (scs : list Z) (k : K) : list Z :=
  match scs with
  | [] => []
  | sc :: scs =>
      match decode sc k with
      | (Some (Unicode c), k) => c :: typed scs k
      | (_, k) => typed scs k
      end
  end.
End Driver.

(** The line of a sequence of characters, read from the left with a stack: the
    specification of line editing. *)
Fixpoint edit (cs rev_line : list Z) : option (list Z) :=
  match cs with
  | [] => None
  | c :: cs =>
      if (c =? 10) || (c =? 13) then Some (reverse rev_line)
      else if c =? 8 then edit cs (tail rev_line)
      else edit cs (c :: rev_line)
  end.

(** A character that is stored in the line. *)
Definition plain (c : Z) : Prop := c <> 10 /\ c <> 13 /\ c <> 8.

Lemma edit_plain t rev_line cs : Forall plain t -> edit (t ++ cs) rev_line = edit cs (reverse t ++ rev_line).
Proof.
  intros H. revert rev_line. induction H as [|c t (H1 & H2 & H3) _ IH]; intros rev_line; [done|]. cbn [app edit].
  destruct (Z.eqb_spec c 10); [done|]. destruct (Z.eqb_spec c 13); [done|]. destruct (Z.eqb_spec c 8); [done|].
  cbn [orb]. by rewrite IH, reverse_cons, <- app_assoc.
Qed.

Lemma removelast_snoc {A} (l : list A) x : removelast (l ++ [x]) = l.
Proof. apply removelast_last. Qed.

Section Lines.
Context {FA MS P K : Type} {io : PortIO P} {kb : PcKeyboard K}.
Implicit Types (w : ConWorld MS FA P).

(** Every exit of the loop with a line is the edited line. *)
Lemma getline_loop_edit scs (k : K) rev_line w r rest w' :
  getline_loop scs k (reverse rev_line) w = Ret (r, rest, w') -> r = edit (typed scs k) rev_line.
Proof.
  revert k rev_line w. induction scs as [|sc scs IH]; intros k rev_line w H; cbn [getline_loop typed] in *.
  { by injection H as <- _ _. }
  destruct (decode sc k) as [[[c|key]|] k1]; [|by eapply IH..].
  destruct (decide (c = 10 \/ c = 13)) as [Hc|Hc].
  - cbn [edit]. assert ((c =? 10) || (c =? 13) = true) as -> by (destruct Hc as [-> | ->]; done).
    destruct Hc as [-> | ->];
      (destruct (println [] w) as [w1|]; cbn in H; [|done]);
      (destruct (disable_keyboard_port w1) as [w2|]; cbn in H; [|done]); by injection H as <- _ _.
  - destruct (decide (c = 8)) as [->|H8].
    + cbn [edit]. cbn. destruct rev_line as [|x rl]; [exact (IH k1 [] w H)|].
      rewrite reverse_cons in H. destruct (reverse rl ++ [x]) eqn:E; [by destruct (reverse rl)|]. rewrite <- E in H.
      destruct (_print [8; 32; 8] w) as [w1|]; cbn in H; [|done]. rewrite removelast_snoc in H. by eapply IH.
    + assert ((let! w := _print (encode_utf8 c) w in getline_loop scs k1 (reverse rev_line ++ [c]) w) = Ret (r, rest, w')) as H'.
      { destruct c as [|[[[[]|[]|]|[[]|[]|]|]|[[[]|[]|]|[[]|[]|]|]|]|]; tauto || exact H. }
      cbn [edit]. destruct (Z.eqb_spec c 10); [tauto|]. destruct (Z.eqb_spec c 13); [tauto|].
      destruct (Z.eqb_spec c 8); [done|]. cbn [orb].
      destruct (_print (encode_utf8 c) w) as [w1|]; cbn in H'; [|done].
      rewrite <- reverse_cons in H'. by eapply IH.
Qed.
End Lines.

(** ** Line input on the boot screen *)

Section BootScreen.
Context {FA MS P K : Type} {io : PortIO P} {kb : PcKeyboard K}.
Implicit Types (w : ConWorld MS FA (traced P)).

Lemma set_port_boot cmd m1 m2 w : boot_screen w -> exists w', set_keyboard_port cmd m1 m2 w = Ret w' /\ boot_screen w'.
Proof.
  intros Hb. unfold set_keyboard_port. destruct (write_controller_cmd_local cmd (vports (vbe w))) as [ok p].
  destruct (console_print_boot (if ok then m2 else m1) (on_ports p w)) as (w1 & -> & Hb1 & _); [done|]. by exists w1.
Qed.

Lemma getline_loop_boot scs (k : K) buf w :
  boot_screen w -> exists r rest w', getline_loop scs k buf w = Ret (r, rest, w').
Proof.
  revert k buf w. induction scs as [|sc scs IH]; intros k buf w Hb; cbn [getline_loop]; [by eauto|].
  destruct (decode sc k) as [[[c|key]|] k1]; [|by apply IH..].
  assert (exists r rest w', (let! w := println [] w in let! w := disable_keyboard_port w in
    Ret (Some buf, scs, w)) = Ret (r, rest, w')) as Hnl.
  { unfold println. destruct (print_boot ([] ++ [10]) w Hb) as (w1 & -> & Hb1 & _). cbn [outcome_bind].
    destruct (set_port_boot 0xAD
      (str_bytes "[kbd] Warning: failed to disable PS/2 keyboard port (0xAD)" ++ [10])
      (str_bytes "[kbd] PS/2 keyboard port disabled" ++ [10]) w1 Hb1) as (w2 & E & _).
    unfold disable_keyboard_port. rewrite E. cbn. by eauto. }
  assert (forall s k buf', exists r rest w', (let! w := _print s w in getline_loop scs k buf' w) = Ret (r, rest, w')) as Hpr.
  { intros s k' buf'. destruct (print_boot s w Hb) as (w1 & -> & Hb1 & _). by apply IH. }
  destruct c as [|[[[[]|[]|]|[[]|[]|]|]|[[[]|[]|]|[[]|[]|]|]|]|]; try apply Hpr; try exact Hnl.
  destruct buf; [by apply IH|apply Hpr].
Qed.

(** C14: [getline] on the boot screen always comes back with the edited line: it
    never panics; once Enter has been typed it returns the characters typed so
    far with the backspaces applied (and waits until then), whatever the key
    decoder does; typing a text and Enter returns the text, and a character
    followed by a backspace leaves no trace. *)
Theorem getline_returns_line scs w :
  boot_screen w ->
  exists rest w', getline scs w = Ret (edit (typed scs (Keyboard_new (K := K))) [], rest, w') /\
    (forall t more, Forall plain t -> typed scs (Keyboard_new (K := K)) = t ++ 10 :: more ->
       edit (typed scs (Keyboard_new (K := K))) [] = Some t) /\
    (forall t c more, plain c -> Forall plain t ->
       edit (t ++ c :: 8 :: more) [] = edit (t ++ more) []).
Proof.
  intros Hb. unfold getline.
  destruct (set_port_boot 0xAE
    (str_bytes "[kbd] Warning: failed to enable PS/2 keyboard port (0xAE)" ++ [10])
    (str_bytes "[kbd] PS/2 keyboard port enabled" ++ [10]) w Hb) as (w1 & E & Hb1).
  unfold enable_keyboard_port. rewrite E. cbn [outcome_bind].
  destruct (getline_loop_boot scs (Keyboard_new (K := K)) [] w1 Hb1) as (r & rest & w2 & Hr).
  exists rest, w2. split_and!.
  - rewrite Hr. by rewrite (getline_loop_edit scs Keyboard_new [] w1 r rest w2 Hr).
  - intros t more Ht ->. rewrite edit_plain by done. cbn. by rewrite app_nil_r, reverse_involutive.
  - intros t c more Hc Ht. rewrite !edit_plain by done. destruct Hc as (H1 & H2 & H3). cbn [edit].
    destruct (Z.eqb_spec c 10); [done|]. destruct (Z.eqb_spec c 13); [done|]. destruct (Z.eqb_spec c 8); [done|].
    done.
Qed.
End BootScreen.

(** ** Witnesses *)

#[local] Existing Instance const_ports_io.

(** A decoder for which every scancode is its character. *)
#[local] Instance direct_keys : PcKeyboard unit := {|
  KeyEvent := Z;
  Keyboard_new := tt;
  add_byte sc k := (Ok (Some sc), k);
  process_keyevent ev k := (Some (Unicode ev), k)
|}.

Lemma getline_returns_line_witness :
  exists rest w', getline (K := unit) [111; 120; 8; 107; 13] sample_boot = Ret (Some [111; 107], rest, w').
Proof.
  destruct (getline_returns_line (K := unit) [111; 120; 8; 107; 13] sample_boot) as (rest & w' & H & _).
  - split; [reflexivity|exact sample_writer_ok].
  - exists rest, w'. exact H.
Defined.
