(* ===== verification/Ps2Mouse.v ===== *)
(** * Ps2Mouse: the PS/2 mouse driver,
    [src/driver_framework/drivers/ps2mouse.rs]

    The interrupt handler assembles three-byte packets and queues them for the
    stream of [Interrupts]; the event loop moves a software cursor, which is drawn
    on the first framebuffer over a saved background; [start] drives the PS/2
    controller. The typed global instance is whether the pointer is set (there is
    one driver object). *)

From S2P Require Import Prelude External Device Manager Ports Acpi Ioapic VgaText Vbe Interrupts.

Local Open Scope string_scope.
Local Open Scope list_scope.
Local Open Scope Z_scope.

Record MousePacket : Type := MkPacket { buttons : Z; dx : Z; dy : Z }.

(** [Ps2MouseDriver] *)
Record MouseDriver : Type := MkMouse {
  registered_vectors : list Z;
  pkt_state : Z;
  pkt_buf : Z * Z * Z;
  cursor_x : Z;
  cursor_y : Z;
  saved_bg : option (Z * Z * list Z)
}.

Definition Ps2MouseDriver_new : MouseDriver := MkMouse [] 0 (0, 0, 0) 40 40 None.

(** ** Packets *)

(** The state machine of the handler on one byte: the new state and buffer, and
    the packet when one is complete. *)
Definition packet_byte (b : Z) (s : Z * (Z * Z * Z)) : Z * (Z * Z * Z) * option MousePacket :=
  let '(state, (b0, b1, b2)) := s in
  match state with
  | 0 => if b .& 0x08 =? 0 then (0, (b0, b1, b2), None) else (1, (b, b1, b2), None)
  | 1 => (2, (b0, b, b2), None)
  | 2 => (0, (b0, b1, b), Some (MkPacket b0 (as_signed 8 b1) (as_signed 8 b)))
  | _ => (0, (b0, b1, b2), None)
  end.

(** The packets of a sequence of bytes. *)
Fixpoint packets (bs : list Z) (s : Z * (Z * Z * Z)) : list MousePacket * (Z * (Z * Z * Z)) :=
  match bs with
  | [] => ([], s)
  | b :: bs =>
      let '(s, p) := packet_byte b s in
      let '(ps, s) := packets bs s in
      (match p with Some p => p :: ps | None => ps end, s)
  end.

(** ** The cursor *)

Definition W : Z := 12.
Definition H : Z := 16.

Definition ARROW : list Z :=
  [0x800; 0xC00; 0xE00; 0xF00; 0xF80; 0xFC0;
   0xFE0; 0xFF0; 0xFE0; 0xFC0; 0xF80; 0xF00;
   0xE00; 0xC00; 0x800; 0x000].

Definition arrow_bit (row col : Z) : bool :=
  negb (default 0 (ARROW !! Z.to_nat row) .& (1 .<< (W - 1 - col)) =? 0).

(** [x] clamped to [0..max] as the source does it: the upper bound last. *)
Definition clamp (x max : Z) : Z :=
  let c := if x <? 0 then 0 else x in if max <? c then max else c.

Section Cursor.
Context {MS FA P : Type}.
Implicit Types (v : VbeWorld MS FA P).

(** The two nested loops of the restore and of the arrow: column [c] of row [r] of
    the cell at [(x, y)] is painted when [bit r c]. *)
Definition paint (fb x y : Z) (bit : Z -> Z -> bool) (color : Z -> Z -> Z) v : VbeWorld MS FA P :=
  for_range 0 H (fun r v =>
    for_range 0 W (fun c v => if bit r c then draw_pixel_at fb (x + c) (y + r) (color r c) v else v) v) v.

(** Pixel [i] of the captured background, row by row. *)
Definition capture (fb pitch bx by_ : Z) (m : mem) : list Z :=
  (fun i => read_le m (fb + (by_ + i / W) * pitch + (bx + i `mod` W) * 4) 4) <$> seqZ 0 (W * H).

(** [info.width as i32] is the width itself: it was read from a 16-bit port. *)
Definition redraw_cursor (d : MouseDriver) v : MouseDriver * VbeWorld MS FA P :=
  match get_framebuffer_addrs v with
  | [] => (d, v)
  | fb :: _ =>
      match get_fb_info v with
      | None => (d, v)
      | Some i =>
          let max_x := width i - W in
          let max_y := height i - H in
          let bx := wrap 64 (clamp (cursor_x d) max_x) in
          let by_ := wrap 64 (clamp (cursor_y d) max_y) in
          let v :=
            match saved_bg d with
            | Some (px, py, vec) =>
                if negb (px =? bx) || negb (py =? by_)
                then paint fb px py (fun _ _ => true) (fun r c => default 0 (vec !! Z.to_nat (r * W + c))) v
                else v
            | None => v
            end in
          let bg := capture fb (pitch i) bx by_ (vmem v) in
          let v := paint fb bx by_ arrow_bit (fun _ _ => 0xFFFFFFFF) v in
          (MkMouse (registered_vectors d) (pkt_state d) (pkt_buf d) (cursor_x d) (cursor_y d)
             (Some (bx, by_, bg)), v)
      end
  end.

Definition move_to (x y : Z) (d : MouseDriver) : MouseDriver :=
  MkMouse (registered_vectors d) (pkt_state d) (pkt_buf d) x y (saved_bg d).

(** [set_cursor_pos]; [instance] is whether the global pointer is set. *)
Definition set_cursor_pos (instance : bool) (x y : Z) (d : MouseDriver) v : MouseDriver * VbeWorld MS FA P :=
  if instance then redraw_cursor (move_to x y d) v else (d, v).

(** One delta: clamped to 16 pixels, scaled by 1/1. *)
Definition scaled_delta (d : Z) : Z :=
  let d := if 16 <? d then 16 else if d <? -16 then -16 else d in Z.quot (d * 1) 1.

(** The body of [mouse_event_loop]. *)
Definition handle_packet (instance : bool) (pkt : MousePacket) (d : MouseDriver) v
    : MouseDriver * VbeWorld MS FA P :=
  if instance then
    let dx := scaled_delta (dx pkt) in
    let dy := scaled_delta (dy pkt) in
    let screen_dy := - dy in
    redraw_cursor (move_to (sat_add_i32 (cursor_x d) dx) (sat_add_i32 (cursor_y d) screen_dy) d) v
  else (d, v).
End Cursor.

(** ** The controller *)

Section Controller.
Context {P : Type} {io : PortIO P}.

Definition read_status (p : P) : Z * P := inb 0x64 p.
Definition read_data (p : P) : Z * P := inb 0x60 p.

Fixpoint wait_input_clear (max_loops : nat) (p : P) : bool * P :=
  match max_loops with
  | O => (false, p)
  | S n =>
      let '(status, p) := read_status p in
      if status .& 0x02 =? 0 then (true, p) else wait_input_clear n p
  end.

Fixpoint wait_for_data (max_loops : nat) (p : P) : option Z * P :=
  match max_loops with
  | O => (None, p)
  | S n =>
      let '(status, p) := read_status p in
      if negb (status .& 0x01 =? 0) then
        let '(v, p) := read_data p in (Some v, p)
      else wait_for_data n p
  end.

Definition LOOPS : nat := Z.to_nat 10000.

Definition write_controller_cmd (cmd : Z) (p : P) : bool * P :=
  match wait_input_clear LOOPS p with
  | (false, p) => (false, p)
  | (true, p) => (true, outb 0x64 cmd p)
  end.

Definition write_controller_data (data : Z) (p : P) : bool * P :=
  match wait_input_clear LOOPS p with
  | (false, p) => (false, p)
  | (true, p) => (true, outb 0x60 data p)
  end.

Definition read_controller_config (p : P) : option Z * P :=
  match write_controller_cmd 0x20 p with
  | (false, p) => (None, p)
  | (true, p) => wait_for_data LOOPS p
  end.

Definition write_mouse_data (data : Z) (p : P) : bool * P :=
  match write_controller_cmd 0xD4 p with
  | (false, p) => (false, p)
  | (true, p) =>
      match wait_input_clear LOOPS p with
      | (false, p) => (false, p)
      | (true, p) => (true, outb 0x60 data p)
      end
  end.

(** [for attempt in 0..retries]; every answer other than an acknowledgement goes to
    the next attempt. *)
Fixpoint send_attempts (cmd : Z) (attempts : list Z) (retries : Z) (p : P) : bool * P :=
  match attempts with
  | [] => (false, p)
  | attempt :: attempts =>
      match write_mouse_data cmd p with
      | (false, p) => send_attempts cmd attempts retries p
      | (true, p) =>
          match wait_for_data LOOPS p with
          | (Some resp, p) =>
              if resp =? 0xFA then (true, p)
              else if resp =? 0xFE then
                if retries <=? attempt + 1 then (false, p) else send_attempts cmd attempts retries p
              else send_attempts cmd attempts retries p
          | (None, p) => send_attempts cmd attempts retries p
          end
      end
  end.

Definition send_mouse_cmd_with_ack (cmd retries : Z) (p : P) : bool * P :=
  send_attempts cmd (seqZ 0 retries) retries p.

(** [while (read_status() & 0x01) != 0 { read_data() }] *)
Fixpoint flush_output (fuel : nat) (p : P) : option P :=
  match fuel with
  | O => None
  | S n =>
      let '(status, p) := read_status p in
      if negb (status .& 0x01 =? 0) then let '(_, p) := read_data p in flush_output n p else Some p
  end.

(** The controller part of [start]. *)
Definition enable_mouse (fuel : nat) (p : P) : option P :=
  let '(_, p) := write_controller_cmd 0xA8 p in
  match flush_output fuel p with
  | None => None
  | Some p =>
      let p :=
        match read_controller_config p with
        | (Some cfg, p) =>
            let want := cfg .| 0x02 in
            if negb (want =? cfg) then
              match write_controller_cmd 0x60 p with
              | (true, p) => (write_controller_data want p).2
              | (false, p) => p
              end
            else p
        | (None, p) => p
        end in
      Some (send_mouse_cmd_with_ack 0xF4 4 p).2
  end.
End Controller.

(** ** The driver *)

Section Driver.
Context {x86 : X86Idt} {Q : Type -> Type} {aq : ArrayQueue Q} {P D PS : Type} {io : PortIO P}
  {hw : Mmio D} {pics : Pics PS}.

Record MouseWorld : Type := MkMW {
  mouse : MouseDriver;
  instance : bool;
  mouse_vector : Z;
  mouse_stream : option (StreamState Q MousePacket);
  mouse_idt : option Idt;
  mouse_ports : P
}.

Definition Ps2Mouse_irq_handler : Handler := driver_handler "Ps2MouseDriver::irq_handler".

Definition mouse_irq (l : Lapic D) (ps : PS) (w : MouseWorld) : MouseWorld * (Lapic D * PS) :=
  let '(b, p) := inb 0x60 (mouse_ports w) in
  let d := mouse w in
  let '(d, st) :=
    if instance w then
      let '(state, buf, pkt) := packet_byte b (pkt_state d, pkt_buf d) in
      (MkMouse (registered_vectors d) state buf (cursor_x d) (cursor_y d) (saved_bg d),
       match pkt with Some pkt => irq_push pkt <$> mouse_stream w | None => mouse_stream w end)
    else (d, mouse_stream w) in
  (MkMW d (instance w) (mouse_vector w) st (mouse_idt w) p, end_of_interrupt (mouse_vector w) l ps).

Definition mouse_probe (d : Device) : result unit string :=
  if (class (info d) =? 0x09) || contains (description (info d)) "PS/2 Mouse" ||
     contains (description (info d)) "Mouse"
  then Ok () else Err "not a PS/2 mouse".

(** [start]: the vectors, the global instance, then the controller. [Panic "fuel"]
    stands for a flush loop that does not end within the fuel. *)
Definition mouse_start (fuel : nat) (dev : Device) (w : MouseWorld) : outcome (result unit string * MouseWorld) :=
  let d := mouse w in
  let! (reg, idt) := register_vectors Ps2Mouse_irq_handler (resources (info dev)) (registered_vectors d) (mouse_idt w) in
  let vector := default (mouse_vector w) (last (interrupt_vectors (resources (info dev)))) in
  let d := MkMouse reg (pkt_state d) (pkt_buf d) (cursor_x d) (cursor_y d) (saved_bg d) in
  match enable_mouse fuel (mouse_ports w) with
  | None => Panic "fuel"
  | Some p => Ret (Ok (), MkMW d true vector (mouse_stream w) idt p)
  end.

Definition mouse_stop (w : MouseWorld) : outcome MouseWorld :=
  let! idt := unregister_vectors (registered_vectors (mouse w)) (mouse_idt w) in
  Ret (MkMW (mouse w) (instance w) (mouse_vector w) (mouse_stream w) idt (mouse_ports w)).

Definition mouse_release (w : MouseWorld) : outcome MouseWorld :=
  let d := mouse w in
  let! idt := unregister_vectors (registered_vectors d) (mouse_idt w) in
  Ret (MkMW (MkMouse [] (pkt_state d) (pkt_buf d) (cursor_x d) (cursor_y d) (saved_bg d))
         false (mouse_vector w) (mouse_stream w) idt (mouse_ports w)).

(** [MousePacketStream::new] *)
Definition mouse_stream_new (w : MouseWorld) : MouseWorld :=
  MkMW (mouse w) (instance w) (mouse_vector w) (Some (default (stream_new 256) (mouse_stream w)))
    (mouse_idt w) (mouse_ports w).
End Driver.

(** ** Packet framing *)

Definition encode_packet (p : MousePacket) : list Z := [buttons p; wrap 8 (dx p); wrap 8 (dy p)].

Definition packet_ok (p : MousePacket) : Prop :=
  Z.testbit (buttons p) 3 = true /\ -128 <= dx p < 128 /\ -128 <= dy p < 128.

(** A byte that cannot start a packet. *)
Definition noise (b : Z) : Prop := Z.testbit b 3 = false.

Lemma as_signed_wrap8 x : -128 <= x < 128 -> as_signed 8 (wrap 8 x) = x.
Proof.
  intros Hx. unfold as_signed, wrap. change (2 ^ (8 - 1)) with 128. change (2 ^ 8) with 256.
  case_bool; zdiv.
Qed.

Lemma header_bit b : (b .& 0x08 =? 0) = negb (Z.testbit b 3).
Proof.
  rewrite <- (test_mask_testbit b 3) by lia. unfold test_mask. by rewrite negb_involutive.
Qed.

Lemma packets_noise g bs buf : Forall noise g -> packets (g ++ bs) (0, buf) = packets bs (0, buf).
Proof.
  intros Hg. induction Hg as [|b g Hb _ IH]; [done|]. cbn [app packets packet_byte]. destruct buf as [[b0 b1] b2].
  rewrite header_bit, Hb. cbn [negb]. rewrite IH. by destruct (packets bs _).
Qed.

Lemma packets_one p bs buf :
  packet_ok p ->
  packets (encode_packet p ++ bs) (0, buf) =
    let '(ps, s) := packets bs (0, (buttons p, wrap 8 (dx p), wrap 8 (dy p))) in (p :: ps, s).
Proof.
  intros (Hb & Hx & Hy). unfold encode_packet. cbn [app packets packet_byte]. destruct buf as [[b0 b1] b2].
  rewrite header_bit, Hb. cbn -[as_signed wrap]. rewrite !as_signed_wrap8 by lia.
  destruct (packets bs _). by destruct p.
Qed.

(** C35: the handler's state machine decodes the byte stream of a PS/2 mouse: for
    packets with the always-one bit in their first byte, any bytes without it in
    between are skipped, and exactly the packets sent come out, in order, with the
    movements as signed values; the machine ends in its initial state. *)
Theorem packets_framing (l : list (list Z * MousePacket)) buf :
  Forall (fun '(g, p) => Forall noise g /\ packet_ok p) l ->
  exists buf', packets (concat ((fun '(g, p) => g ++ encode_packet p) <$> l)) (0, buf) = (snd <$> l, (0, buf')).
Proof.
  intros Hl. revert buf. induction Hl as [|[g p] l [Hg Hp] _ IH]; intros buf; [by exists buf|].
  cbn [fmap list_fmap concat]. rewrite <- app_assoc, packets_noise, packets_one by done.
  destruct (IH (buttons p, wrap 8 (dx p), wrap 8 (dy p))) as [buf' ->]. by exists buf'.
Qed.

(** ** The cursor and its background *)

Section Background.
Context {MS FA P : Type}.
Variables (fb : Z) (vd : VbeVgaDriver).
Implicit Types (v : VbeWorld MS FA P) (B : Z -> Z -> Z).

(** The active driver, with its framebuffer first. *)
Definition active v : Prop := active_driver v = Some vd.

Definition scr v (i j : Z) : Z := pix (vmem v) fb (drv_pitch vd) i j.

Lemma paint_spec x y bit color v :
  active v -> 0 <= x -> 4 * (x + W) <= drv_pitch vd ->
  active (paint fb x y bit color v) /\
  forall i j, on_row (drv_pitch vd) i ->
    scr (paint fb x y bit color v) i j =
      if (x <=? i) && (i <? x + W) && (y <=? j) && (j <? y + H) && bit (j - y) (i - x)
      then wrap 32 (color (j - y) (i - x)) else scr v i j.
Proof.
  intros Ha Hx Hfit. unfold paint.
  apply (for_range_post (fun r v' => active v' /\ forall i j, on_row (drv_pitch vd) i -> scr v' i j =
    if (x <=? i) && (i <? x + W) && (y <=? j) && (j <? y + r) && bit (j - y) (i - x)
    then wrap 32 (color (j - y) (i - x)) else scr v i j)); [done|split; [done|]; intros; case_bools; done || lia| |done].
  intros r v1 Hr [Ha1 H1].
  apply (for_range_post (fun c v' => active v' /\ forall i j, on_row (drv_pitch vd) i -> scr v' i j =
    if (j =? y + r) && (x <=? i) && (i <? x + c) && bit (j - y) (i - x)
    then wrap 32 (color (j - y) (i - x)) else scr v1 i j)); [done|split; [done|]; intros; case_bools; done || lia| |].
  - intros c v2 Hc [Ha2 H2]. destruct (bit r c) eqn:Eb.
    + assert (active (draw_pixel_at fb (x + c) (y + r) (color r c) v2)) as Ha3.
      { unfold draw_pixel_at. by rewrite Ha2. }
      split; [done|]. intros i j Hi. unfold scr at 1, draw_pixel_at. rewrite Ha2. cbn [vmem set_mem].
      unfold drv_draw_pixel_at. rewrite pix_write by (done || (unfold on_row, W in *; lia)).
      fold (scr v2 i j). rewrite H2 by done.
      destruct (Z.eqb_spec i (x + c)) as [->|]; [destruct (Z.eqb_spec j (y + r)) as [->|]|]; cbn [andb].
      * replace (y + r - y) with r by lia. replace (x + c - x) with c by lia. rewrite Eb. case_bools; done || lia.
      * done.
      * case_bools; done || lia.
    + split; [done|]. intros i j Hi. rewrite H2 by done.
      destruct (Z.eqb_spec i (x + c)) as [->|]; [destruct (Z.eqb_spec j (y + r)) as [->|]|]; cbn [andb].
      * replace (y + r - y) with r by lia. replace (x + c - x) with c by lia. by rewrite Eb, !andb_false_r.
      * done.
      * case_bools; done || lia.
  - intros v2 [Ha2 H2]. split; [done|]. intros i j Hi. rewrite H2, H1 by done. case_bools; done || lia.
Qed.

(** The screen with the arrow at [(x, y)] over a background. *)
Definition arrow_at (x y i j : Z) : bool :=
  (x <=? i) && (i <? x + W) && (y <=? j) && (j <? y + H) && arrow_bit (j - y) (i - x).
Definition overlay B (x y i j : Z) : Z := if arrow_at x y i j then 0xFFFFFFFF else B i j.

(** [vec] is the cell of the background at [(x, y)], row by row. *)
Definition saves B (x y : Z) (vec : list Z) : Prop :=
  forall r c, 0 <= r < H -> 0 <= c < W -> vec !! Z.to_nat (r * W + c) = Some (B (x + c) (y + r)).

(** The cursor shown at [(x, y)] over the background [B]. *)
Definition cursor_over B (x y : Z) (d : MouseDriver) v : Prop :=
  active v /\ (forall i j, in_u 32 (B i j)) /\
  (exists vec, saved_bg d = Some (x, y, vec) /\ saves B x y vec) /\
  forall i j, on_row (drv_pitch vd) i -> scr v i j = overlay B x y i j.

(** A position whose cell is inside the row. *)
Definition fits (x y : Z) : Prop := 0 <= x /\ 0 <= y /\ 4 * (x + W) <= drv_pitch vd.

Lemma capture_saves v B x y :
  (forall i j, on_row (drv_pitch vd) i -> scr v i j = B i j) -> fits x y ->
  saves B x y (capture fb (drv_pitch vd) x y (vmem v)).
Proof.
  intros HB (Hx & Hy & Hf) r c Hr Hc. unfold capture. rewrite list_lookup_fmap.
  assert (seqZ 0 (W * H) !! Z.to_nat (r * W + c) = Some (r * W + c)) as ->.
  { apply lookup_seqZ. unfold W, H in *. lia. }
  cbn [fmap option_fmap option_map]. f_equal.
  replace ((r * W + c) / W) with r by (unfold W in *; zdiv).
  replace ((r * W + c) `mod` W) with c by (unfold W in *; zdiv).
  rewrite <- HB by (unfold on_row, W in *; lia). done.
Qed.

(** Painting the saved cell back gives the background. *)
Lemma restore_background B x y d v vec :
  cursor_over B x y d v -> saved_bg d = Some (x, y, vec) -> fits x y ->
  let v' := paint fb x y (fun _ _ => true) (fun r c => default 0 (vec !! Z.to_nat (r * W + c))) v in
  active v' /\ forall i j, on_row (drv_pitch vd) i -> scr v' i j = B i j.
Proof.
  intros (Ha & HB & (vec' & Hs & Hv) & Hscr) Hsaved (Hx & Hy & Hf) v'.
  assert (vec' = vec) as -> by congruence.
  destruct (paint_spec x y (fun _ _ => true) (fun r c => default 0 (vec !! Z.to_nat (r * W + c))) v Ha Hx Hf) as [Ha' Hp].
  split; [done|]. intros i j Hi. unfold v'. rewrite Hp, Hscr by done. unfold overlay, arrow_at.
  destruct ((x <=? i) && (i <? x + W) && (y <=? j) && (j <? y + H)) eqn:E; cbn [andb]; [|done].
  rewrite !andb_true_iff, !Z.leb_le, !Z.ltb_lt in E.
  rewrite (Hv (j - y) (i - x)) by lia. cbn. replace (x + (i - x)) with i by lia.
  replace (y + (j - y)) with j by lia. apply wrap_small. apply HB.
Qed.

(** Capturing and drawing the arrow over a screen that shows [B]. *)
Lemma draw_over B x y d v :
  active v -> (forall i j, in_u 32 (B i j)) ->
  (forall i j, on_row (drv_pitch vd) i -> scr v i j = B i j) -> fits x y ->
  cursor_over B x y
    (MkMouse (registered_vectors d) (pkt_state d) (pkt_buf d) (cursor_x d) (cursor_y d)
       (Some (x, y, capture fb (drv_pitch vd) x y (vmem v))))
    (paint fb x y arrow_bit (fun _ _ => 0xFFFFFFFF) v).
Proof.
  intros Ha HB Hscr Hf. destruct Hf as (Hx & Hy & Hfit).
  destruct (paint_spec x y arrow_bit (fun _ _ => 0xFFFFFFFF) v Ha Hx Hfit) as [Ha' Hp].
  split_and!; [done|done| |].
  - eexists. split; [done|]. by apply capture_saves.
  - intros i j Hi. rewrite Hp, Hscr by done. done.
Qed.

(** Where the cursor of a driver is shown. *)
Definition shown_x (i : FramebufferInfo) (d : MouseDriver) : Z := clamp (cursor_x d) (width i - W).
Definition shown_y (i : FramebufferInfo) (d : MouseDriver) : Z := clamp (cursor_y d) (height i - H).

Definition screen_ok (i : FramebufferInfo) v : Prop :=
  active v /\ (exists rest, drv_get_framebuffer_addrs vd = fb :: rest) /\ fb_info vd = Some i /\
  W <= width i < 2 ^ 32 /\ H <= height i < 2 ^ 32 /\ 4 * width i <= pitch i.

Lemma shown_fits i d v : screen_ok i v -> fits (shown_x i d) (shown_y i d) /\
  wrap 64 (shown_x i d) = shown_x i d /\ wrap 64 (shown_y i d) = shown_y i d.
Proof.
  intros (_ & _ & Hi & Hw & Hh & Hp). unfold fits, drv_pitch. rewrite Hi.
  assert (0 <= shown_x i d <= width i - W /\ 0 <= shown_y i d <= height i - H) as [? ?].
  { unfold shown_x, shown_y, clamp. repeat case_bool; lia. }
  split; [lia|]. split; apply wrap_small; unfold W, H in *; lia.
Qed.

Lemma redraw_moves i B x y d v :
  screen_ok i v -> cursor_over B x y d v -> fits x y -> (shown_x i d, shown_y i d) <> (x, y) ->
  let '(d', v') := redraw_cursor d v in
  cursor_over B (shown_x i d) (shown_y i d) d' v'.
Proof.
  intros Hok Hc Hf Hne. destruct (shown_fits i d v Hok) as (Hf' & Ex & Ey).
  destruct Hok as (Ha & (rest & Hfb) & Hi & _). pose proof Hc as (_ & HB & (vec & Hs & _) & _).
  unfold redraw_cursor, get_framebuffer_addrs, get_fb_info. rewrite Ha, Hfb, Hi, Hs.
  fold (shown_x i d) (shown_y i d). rewrite Ex, Ey.
  assert (negb (x =? shown_x i d) || negb (y =? shown_y i d) = true) as ->.
  { destruct (Z.eqb_spec x (shown_x i d)), (Z.eqb_spec y (shown_y i d)); try done. congruence. }
  destruct (restore_background B x y d v vec Hc Hs Hf) as [Ha' Hs'].
  assert (pitch i = drv_pitch vd) as -> by (unfold drv_pitch; by rewrite Hi).
  by apply draw_over.
Qed.

Lemma redraw_in_place i B x y d v :
  screen_ok i v -> cursor_over B x y d v -> (shown_x i d, shown_y i d) = (x, y) ->
  let '(d', v') := redraw_cursor d v in cursor_over (overlay B x y) x y d' v'.
Proof.
  intros Hok Hc He. injection He as Hx Hy. destruct (shown_fits i d v Hok) as (Hf & Ex & Ey).
  destruct Hok as (Ha & (rest & Hfb) & Hi & _). destruct Hc as (_ & HB & (vec & Hs & _) & Hscr).
  unfold redraw_cursor, get_framebuffer_addrs, get_fb_info. rewrite Ha, Hfb, Hi, Hs.
  fold (shown_x i d) (shown_y i d). rewrite Ex, Ey, Hx, Hy, !Z.eqb_refl. cbn [negb orb].
  assert (pitch i = drv_pitch vd) as -> by (unfold drv_pitch; by rewrite Hi).
  rewrite Hx, Hy in Hf. apply draw_over; try done. intros a b. unfold overlay. destruct (arrow_at x y a b); [|apply HB].
  unfold in_u. lia.
Qed.

(** C12: moving the cursor preserves the screen under it: when the cursor is shown
    over a background [B] and [redraw_cursor] shows it elsewhere, the screen is
    again exactly [B] with the arrow at the new place, and the saved cell is [B]'s,
    so any sequence of moves leaves no trace. *)
Theorem redraw_preserves_background i B x y d v :
  screen_ok i v -> cursor_over B x y d v -> fits x y -> (shown_x i d, shown_y i d) <> (x, y) ->
  let '(d', v') := redraw_cursor d v in
  cursor_over B (shown_x i d) (shown_y i d) d' v'.
Proof. apply redraw_moves. Qed.

(** Redrawing the cursor where it already is (a click without movement, or a
    move against a screen edge) captures the arrow itself as the background: the
    cursor is then shown over a background that contains the arrow, and moving it
    away leaves a copy of the arrow on the screen. *)
Theorem redraw_in_place_leaves_trail i B x y d v x' y' :
  screen_ok i v -> cursor_over B x y d v -> fits x y -> (shown_x i d, shown_y i d) = (x, y) ->
  let '(d1, v1) := redraw_cursor d v in
  let d1 := move_to x' y' d1 in
  (shown_x i d1, shown_y i d1) <> (x, y) ->
  let '(_, v2) := redraw_cursor d1 v1 in
  scr v2 x y = 0xFFFFFFFF.
Proof.
  intros Hok Hc Hf He. pose proof (redraw_in_place i B x y d v Hok Hc He) as H1.
  destruct (redraw_cursor d v) as [d1 v1]. cbv zeta. intros Hne.
  assert (screen_ok i v1) as Hok1 by (split; [apply H1|apply Hok]).
  assert (cursor_over (overlay B x y) x y (move_to x' y' d1) v1) as H1' by exact H1.
  pose proof (redraw_moves i (overlay B x y) x y (move_to x' y' d1) v1 Hok1 H1' Hf Hne) as H2.
  destruct (redraw_cursor (move_to x' y' d1) v1) as [d2 v2]. destruct H2 as (_ & _ & _ & Hscr).
  rewrite Hscr by (destruct Hf as (? & ? & ?); unfold on_row, W in *; lia).
  unfold overlay at 1. destruct (arrow_at _ _ x y); [done|]. unfold overlay, arrow_at.
  rewrite !Z.sub_diag. unfold W, H. case_bools; done || lia.
Qed.
End Background.

(** ** Bounded waits *)

Section Bounds.
Context {P : Type} {io : PortIO P}.
Implicit Types p : traced P.

(** [p'] is reached from [p] with at most [n] port accesses. *)
Definition within (n : nat) p p' : Prop := (length (log p') <= length (log p) + n)%nat.

Lemma within_trans n k p1 p2 p3 : within n p1 p2 -> within k p2 p3 -> within (n + k) p1 p3.
Proof. unfold within. lia. Qed.

Lemma inb_within port p v p' : inb port p = (v, p') -> within 1 p p'.
Proof. intros [E _]%log_inb. unfold within. rewrite E, length_app. cbn. lia. Qed.

Lemma outb_within port v p : within 1 p (outb port v p).
Proof. unfold within. rewrite log_outb, length_app. cbn. lia. Qed.

Lemma wait_input_clear_within n p b p' : wait_input_clear n p = (b, p') -> within n p p'.
Proof.
  revert p. induction n as [|n IH]; intros p; cbn; [intros [= <- <-]; unfold within; lia|].
  unfold read_status. destruct (inb 0x64 p) as [v p1] eqn:E. apply inb_within in E.
  destruct (_ =? 0); [intros [= <- <-]; unfold within in *; lia|].
  intros H%IH. unfold within in *. lia.
Qed.

Lemma wait_for_data_within n p r p' :
  wait_for_data n p = (r, p') ->
  within (n + 1) p p' /\ forall v, r = Some v -> last (log p') = Some (In 8 0x60 v).
Proof.
  revert p. induction n as [|n IH]; intros p; cbn; [intros [= <- <-]; split; [unfold within; lia|done]|].
  unfold read_status, read_data. destruct (inb 0x64 p) as [s p1] eqn:E. apply inb_within in E.
  destruct (negb _).
  - destruct (inb 0x60 p1) as [v p2] eqn:E2. pose proof (inb_within _ _ _ _ E2). apply log_inb in E2 as [E2 _].
    intros [= <- <-]. split; [unfold within in *; lia|]. intros u [= <-]. by rewrite E2, last_snoc.
  - intros [H1 H2]%IH. split; [unfold within in *; lia|done].
Qed.

Lemma write_controller_cmd_within cmd p b p' : write_controller_cmd cmd p = (b, p') -> within (LOOPS + 1) p p'.
Proof.
  unfold write_controller_cmd. destruct (wait_input_clear LOOPS p) as [[] p1] eqn:E;
    apply wait_input_clear_within in E; intros [= <- <-]; [|unfold within in *; lia].
  eapply within_trans; [exact E|apply outb_within].
Qed.

Lemma write_mouse_data_within data p b p' : write_mouse_data data p = (b, p') -> within (2 * LOOPS + 2) p p'.
Proof.
  unfold write_mouse_data. destruct (write_controller_cmd 0xD4 p) as [[] p1] eqn:E;
    apply write_controller_cmd_within in E; [|intros [= <- <-]; unfold within in *; lia].
  destruct (wait_input_clear LOOPS p1) as [[] p2] eqn:E2; apply wait_input_clear_within in E2;
    intros [= <- <-]; [|unfold within in *; lia].
  replace (2 * LOOPS + 2)%nat with (LOOPS + 1 + LOOPS + 1)%nat by lia.
  eapply within_trans; [eapply within_trans; [exact E|exact E2]|apply outb_within].
Qed.

Lemma send_attempts_within cmd attempts retries p b p' :
  send_attempts cmd attempts retries p = (b, p') ->
  within (length attempts * (3 * LOOPS + 3)) p p' /\ (b = true -> last (log p') = Some (In 8 0x60 0xFA)).
Proof.
  revert p. induction attempts as [|a attempts IH]; intros p; cbn [send_attempts length].
  { intros [= <- <-]. split; [unfold within; lia|done]. }
  destruct (write_mouse_data cmd p) as [[] p1] eqn:E; apply write_mouse_data_within in E.
  2: { intros [H1 H2]%IH. split; [unfold within in *; lia|done]. }
  destruct (wait_for_data LOOPS p1) as [[resp|] p2] eqn:E2; apply wait_for_data_within in E2 as [E2 Hl].
  2: { intros [H1 H2]%IH. split; [unfold within in *; lia|done]. }
  destruct (Z.eqb_spec resp 0xFA) as [->|].
  { intros [= <- <-]. split; [unfold within in *; lia|]. intros _. by apply Hl. }
  destruct (resp =? 0xFE); [destruct (retries <=? a + 1)|].
  - intros [= <- <-]. split; [unfold within in *; lia|done].
  - intros [H1 H2]%IH. split; [unfold within in *; lia|done].
  - intros [H1 H2]%IH. split; [unfold within in *; lia|done].
Qed.

(** C36: sending a mouse command never hangs, for every behaviour of the controller:
    with [retries] attempts it makes at most [retries * 30003] port accesses, and
    it reports success only when the last thing it read was the mouse's
    acknowledgement 0xFA. *)
Theorem send_mouse_cmd_bounded cmd retries p b p' :
  0 <= retries -> send_mouse_cmd_with_ack cmd retries p = (b, p') ->
  Z.of_nat (length (log p')) <= Z.of_nat (length (log p)) + retries * 30003 /\
  (b = true -> last (log p') = Some (In 8 0x60 0xFA)).
Proof.
  intros Hr [H1 H2]%send_attempts_within. split; [|done]. unfold within in H1. rewrite length_seqZ in H1.
  assert (Z.of_nat LOOPS = 10000) by (unfold LOOPS; lia). nia.
Qed.
End Bounds.

(** ** Without a controller *)

#[local] Existing Instance const_ports_io.
#[local] Existing Instance list_queue_queue.

(** A machine without a PS/2 controller: reads of its ports give all ones. *)
Definition no_controller : const_ports := MkConst (fun _ => 0xFF).

Lemma wait_no_controller n : wait_input_clear n no_controller = (false, no_controller).
Proof. induction n as [|n IH]; [done|]. exact IH. Qed.

Lemma flush_no_controller n : flush_output n no_controller = None.
Proof. induction n as [|n IH]; [done|]. exact IH. Qed.

(** On a machine without a PS/2 controller, where its ports read as 0xFF, the
    flush loop of [start] never ends: the output-full bit stays set, so no amount
    of iterations gets past it. *)
Theorem mouse_start_hangs_without_controller fuel : enable_mouse fuel no_controller = None.
Proof.
  unfold enable_mouse, write_controller_cmd. rewrite wait_no_controller. by rewrite flush_no_controller.
Qed.

(** ** Witnesses *)

Lemma packets_framing_witness :
  exists buf', packets [0; 0x09; 5; 0xFF; 0x28; 0x80; 0x7F] (0, (0, 0, 0)) =
    ([MkPacket 0x09 5 (-1); MkPacket 0x28 (-128) 127], (0, buf')).
Proof.
  apply (packets_framing [([0], MkPacket 0x09 5 (-1)); ([], MkPacket 0x28 (-128) 127)] (0, 0, 0)).
  unfold noise, packet_ok. repeat constructor; cbn; lia.
Defined.

Definition cursor_info : FramebufferInfo := MkFbInfo 1024 768 32 4096.
Definition cursor_vbe : VbeVgaDriver :=
  MkVbe true [MkMapping 0x1000000 0x1000000 0x1000000 768] (Some cursor_info).
Definition cursor_world : VbeWorld unit unit const_ports :=
  MkVW {[ 1 := cursor_vbe ]} (Some 1) None None 0 (fun _ => 0) (MkConst (fun _ => 0)).

Lemma cursor_world_ok : screen_ok 0x1000000 cursor_vbe cursor_info cursor_world.
Proof. unfold screen_ok. split_and!; try done; [by eexists|..]; unfold W, H, cursor_info; cbn; lia. Qed.

(** The cursor drawn at its initial position over a black screen. *)
Definition shown : MouseDriver * VbeWorld unit unit const_ports :=
  (MkMouse [] 0 (0, 0, 0) 40 40 (Some (40, 40, capture 0x1000000 4096 40 40 (vmem cursor_world))),
   paint 0x1000000 40 40 arrow_bit (fun _ _ => 0xFFFFFFFF) cursor_world).

Lemma zero_pix i j : pix (fun _ => 0) 0x1000000 4096 i j = 0.
Proof. reflexivity. Qed.

Lemma shown_over : cursor_over 0x1000000 cursor_vbe (fun _ _ => 0) 40 40 shown.1 shown.2.
Proof.
  apply (draw_over 0x1000000 cursor_vbe (fun _ _ => 0) 40 40 Ps2MouseDriver_new cursor_world).
  - reflexivity.
  - intros i j. unfold in_u. lia.
  - intros i j _. apply zero_pix.
  - unfold fits, W, drv_pitch. cbn. lia.
Qed.

Lemma shown_ok : screen_ok 0x1000000 cursor_vbe cursor_info shown.2.
Proof. split; [apply shown_over|apply cursor_world_ok]. Qed.

Lemma redraw_preserves_background_witness :
  let '(d', v') := redraw_cursor (move_to 2000 (-5) shown.1) shown.2 in
  cursor_over 0x1000000 cursor_vbe (fun _ _ => 0) 1012 0 d' v'.
Proof.
  apply (redraw_preserves_background 0x1000000 cursor_vbe cursor_info (fun _ _ => 0) 40 40
           (move_to 2000 (-5) shown.1) shown.2 shown_ok shown_over).
  - unfold fits, W, drv_pitch. cbn. lia.
  - vm_compute. discriminate.
Defined.

Lemma redraw_in_place_leaves_trail_witness :
  let '(d1, v1) := redraw_cursor shown.1 shown.2 in
  let '(_, v2) := redraw_cursor (move_to 500 500 d1) v1 in
  scr 0x1000000 cursor_vbe v2 40 40 = 0xFFFFFFFF.
Proof.
  pose proof (redraw_in_place_leaves_trail 0x1000000 cursor_vbe cursor_info (fun _ _ => 0) 40 40 shown.1 shown.2 500 500
    shown_ok shown_over) as Ht.
  destruct (redraw_cursor shown.1 shown.2) as [d1 v1]. apply Ht.
  - unfold fits, W, drv_pitch. cbn. lia.
  - reflexivity.
  - unfold shown_x, shown_y. cbn. vm_compute. discriminate.
Defined.

Lemma send_mouse_cmd_bounded_witness :
  let p := MkTraced no_controller [] in
  Z.of_nat (length (log (send_mouse_cmd_with_ack 0xF4 1 p).2)) <= 30003.
Proof.
  intros p. destruct (send_mouse_cmd_with_ack 0xF4 1 p) as [b p'] eqn:E.
  pose proof (send_mouse_cmd_bounded 0xF4 1 p b p' ltac:(lia) E) as [Hb _]. cbn in Hb. exact Hb.
Defined.
