(* ===== verification/Pci.v ===== *)
(** * Pci: PCI enumeration, [src/devices/pci.rs]

    Configuration space is reached through the ECAM windows of the MCFG table
    (memory-mapped dwords) and, for the capability list, through the ports
    [0xCF8]/[0xCFC]. Both are operations on the machine state [C]. Each function
    found is described by a [DeviceInfo] and handed to the device manager, which
    merges or registers it. *)

From S2P Require Import Prelude Device Manager Ports Acpi Ioapic.

Local Open Scope string_scope.
Local Open Scope list_scope.
Local Open Scope Z_scope.

Definition pci_config_address (bus slot func offset : Z) : Z :=
  0x80000000 .| (bus .<< 16) .| (slot .<< 11) .| (func .<< 8) .| (offset .& 0xfc).

(** The shift that brings byte [off] of a dword to its low end. *)
Definition byte_shift (off : Z) : Z := (off .& 3) * 8.

(** What the walk of the capability list has found so far. *)
Record Found : Type := MkFound { f_resources : list Resource; f_capabilities : list Capability }.

Definition push_resource (r : Resource) (f : Found) : Found := MkFound (f_resources f ++ [r]) (f_capabilities f).
Definition push_capability (c : Capability) (f : Found) : Found := MkFound (f_resources f) (f_capabilities f ++ [c]).

(** The BAR the MSI-X probe uses: the [bir]-th of the memory resources. *)
Definition msix_bar (resources : list Resource) (bir : Z) : option Resource :=
  List.filter (fun r => match kind r with MemoryMapped => true | _ => false end) resources !! Z.to_nat bir.

Section Scan.
Context {C M : Type} {io : PortIO C} {hw : Mmio C}.
Implicit Types (c : C) (mgr : DeviceManager M).

(** ** Port access *)

Definition pci_write (bus slot func offset val : Z) c : C :=
  let c := outdw 0xCF8 (pci_config_address bus slot func offset) c in outdw 0xCFC val c.

Definition pci_read (bus slot func offset : Z) c : Z * C :=
  let c := outdw 0xCF8 (pci_config_address bus slot func offset) c in indw 0xCFC c.

(** ** ECAM access *)

Definition ecam_addr (base bus slot func : Z) : outcome Z :=
  let! a := checked_add 64 base (bus .<< 20) in
  let! a := checked_add 64 a (slot .<< 15) in
  checked_add 64 a (func .<< 12).

Definition ecam_dword (phys off : Z) : Z := phys + 4 * ((off .& 0xFC) / 4).
Definition ecam_read (phys off : Z) c : Z * C := mmio_read32 (ecam_dword phys off) c.
Definition ecam_write (phys off val : Z) c : C := mmio_write32 (ecam_dword phys off) val c.

(** ** Base address registers *)

(** One iteration of [while bar_index < 6]: how many registers it consumed, the
    resource it found. *)
Definition scan_bar (phys bar_index : Z) c : Z * option Resource * C :=
  let off := 0x10 + bar_index * 4 in
  let '(orig, c) := ecam_read phys off c in
  if (orig =? 0) || (orig =? 0xFFFFFFFF) then (1, None, c) else
  if orig .& 0x1 =? 0x1 then
    let c := ecam_write phys off 0xFFFFFFFF c in
    let '(mask, c) := ecam_read phys off c in
    let c := ecam_write phys off orig c in
    let mask32 := mask .& 0xFFFFFFFC in
    let size := wrap 32 (lnotw 32 mask32 + 1) in
    (1, Some (MkResource IO (orig .& 0xFFFFFFFC) size), c)
  else
  let mem_type := (orig .>> 1) .& 0x3 in
  if mem_type =? 0x2 then
    let off_high := 0x10 + (bar_index + 1) * 4 in
    let '(orig_high, c) := ecam_read phys off_high c in
    let c := ecam_write phys off 0xFFFFFFFF c in
    let c := ecam_write phys off_high 0xFFFFFFFF c in
    let '(mask_low, c) := ecam_read phys off c in
    let '(mask_high, c) := ecam_read phys off_high c in
    let c := ecam_write phys off orig c in
    let c := ecam_write phys off_high orig_high c in
    let mask64 := (mask_high .<< 32) .| mask_low in
    let mask64_base := mask64 .& lnotw 64 0xF in
    let size := lnotw 64 mask64_base +64 1 in
    (2, Some (MkResource MemoryMapped ((orig_high .<< 32) .| (orig .& 0xFFFFFFF0)) size), c)
  else
    let c := ecam_write phys off 0xFFFFFFFF c in
    let '(mask, c) := ecam_read phys off c in
    let c := ecam_write phys off orig c in
    let mask32 := mask .& lnotw 32 0xF in
    let size := wrap 32 (lnotw 32 mask32 + 1) in
    (1, Some (MkResource MemoryMapped (orig .& 0xFFFFFFF0) size), c).

(** The loop; each iteration consumes at least one register, so 6 are enough. *)
Fixpoint scan_bars (fuel : nat) (phys bar_index : Z) (rs : list Resource) c : list Resource * C :=
  match fuel with
  | O => (rs, c)
  | S fuel =>
      if bar_index <? 6 then
        let '(n, r, c) := scan_bar phys bar_index c in
        scan_bars fuel phys (bar_index + n) (rs ++ option_list r) c
      else (rs, c)
  end.

(** ** Capabilities *)

Definition cap_power (bus slot func cap_ptr cap_dword : Z) (f : Found) c : Found * C :=
  let pmcap := (cap_dword .>> 16) .& 0xFFFF in
  let '(pmcsr_dword, c) := pci_read bus slot func (wrap 8 (cap_ptr + 4) .& 0xFC) c in
  let pmcsr := (pmcsr_dword .>> byte_shift (cap_ptr + 4)) .& 0xFFFF in
  (push_capability (PowerManagement pmcap pmcsr) f, c).

Definition cap_msi (bus slot func cap_ptr : Z) (f : Found) c : Found * C :=
  let '(ctrl_dword, c) := pci_read bus slot func (wrap 8 (cap_ptr + 2) .& 0xFC) c in
  let ctrl := (ctrl_dword .>> byte_shift (cap_ptr + 2)) .& 0xFFFF in
  let multiple_message_capable := (ctrl .>> 1) .& 0x7 in
  let vectors := wrap 8 (1 .<< multiple_message_capable) in
  let addr64 := negb (ctrl .& (1 .<< 7) =? 0) in
  let maskable := negb (ctrl .& (1 .<< 8) =? 0) in
  let off_addr := wrap 8 (cap_ptr + 4) in
  let '(daddr, c) := pci_read bus slot func (off_addr .& 0xFC) c in
  let msg_addr_low := (daddr .>> byte_shift off_addr) .& 0xFFFFFFFF in
  let '(msg_addr, msg_data, c) :=
    if addr64 then
      let off_addr_hi := wrap 8 (off_addr + 4) in
      let '(daddr_hi, c) := pci_read bus slot func (off_addr_hi .& 0xFC) c in
      let msg_addr_high := (daddr_hi .>> byte_shift off_addr_hi) .& 0xFFFFFFFF in
      let off_data := wrap 8 (off_addr + 8) in
      let '(ddata, c) := pci_read bus slot func (off_data .& 0xFC) c in
      ((msg_addr_high .<< 32) .| msg_addr_low, (ddata .>> byte_shift off_data) .& 0xFFFF, c)
    else
      let off_data := wrap 8 (off_addr + 4) in
      let '(ddata, c) := pci_read bus slot func (off_data .& 0xFC) c in
      (msg_addr_low, (ddata .>> byte_shift off_data) .& 0xFFFF, c) in
  (push_resource (MkResource (Msi vectors addr64 maskable msg_addr msg_data) 0 0) f, c).

Definition cap_pcie (bus slot func cap_ptr : Z) (f : Found) c : Found * C :=
  let '(d0, c) := pci_read bus slot func (cap_ptr .& 0xFC) c in
  let '(d1, c) := pci_read bus slot func (wrap 8 (cap_ptr + 4) .& 0xFC) c in
  (push_capability (PciExpress d0 d1) f, c).

Definition cap_msix (off bus slot func cap_ptr : Z) (f : Found) c : Found * C :=
  let '(dword1, c) := pci_read bus slot func (wrap 8 (cap_ptr + 4) .& 0xFC) c in
  let dword1_shifted := dword1 .>> byte_shift (cap_ptr + 4) in
  let bir := dword1_shifted .& 0x7 in
  let table_offset := dword1_shifted .& 0xFFFFFFF8 in
  let '(dword0, c) := pci_read bus slot func (wrap 8 (cap_ptr + 2) .& 0xFC) c in
  let table_size := ((dword0 .>> byte_shift (cap_ptr + 2)) .& 0x7FF) + 1 in
  let '(table_present, first_entry_masked, c) :=
    if negb (off =? 0) then
      match msix_bar (f_resources f) bir with
      | Some bar =>
          let table_phys := addr bar +64 table_offset in
          let virt := off +64 table_phys in
          let '(vctrl, c) := mmio_read32 (virt + 12) c in
          (true, negb (vctrl .& 0x1 =? 0), c)
      | None => (false, false, c)
      end
    else (false, false, c) in
  (push_resource (MkResource (Msix bir table_offset table_size table_present first_entry_masked) 0 0) f, c).

Definition cap_other (bus slot func cap_ptr cap_id : Z) (f : Found) c : Found * C :=
  let '(r0, c) := pci_read bus slot func (cap_ptr .& 0xFC) c in
  let '(r1, c) := pci_read bus slot func (wrap 8 (cap_ptr + 4) .& 0xFC) c in
  (push_capability (Other cap_id r0 r1) f, c).

(** [while cap_ptr != 0 && caps_searched < 48]: [n] capabilities left to search. *)
Fixpoint walk_caps (n : nat) (off bus slot func cap_ptr : Z) (f : Found) c : Found * C :=
  match n with
  | O => (f, c)
  | S n =>
      if cap_ptr =? 0 then (f, c) else
      let '(cap_dword, c) := pci_read bus slot func (cap_ptr .& 0xFC) c in
      let cap_id := cap_dword .& 0xFF in
      let next_ptr := (cap_dword .>> 8) .& 0xFF in
      let '(f, c) :=
        match cap_id with
        | 0x01 => cap_power bus slot func cap_ptr cap_dword f c
        | 0x05 => cap_msi bus slot func cap_ptr f c
        | 0x10 => cap_pcie bus slot func cap_ptr f c
        | 0x11 => cap_msix off bus slot func cap_ptr f c
        | _ => cap_other bus slot func cap_ptr cap_id f c
        end in
      walk_caps n off bus slot func next_ptr f c
  end.

Definition MAX_CAPS : nat := 48.

(** ** A function *)

(** The description of the function at [phys], whose first dword was [dword]. *)
Definition describe (off bus slot func phys dword : Z) c : DeviceInfo * C :=
  let vendor := dword .& 0xFFFF in
  let device := (dword .>> 16) .& 0xFFFF in
  let '(class_dword, c) := mmio_read32 (phys + 8) c in
  let prog_if := (class_dword .>> 8) .& 0xFF in
  let subclass := (class_dword .>> 16) .& 0xFF in
  let class := (class_dword .>> 24) .& 0xFF in
  let '(rs, c) := scan_bars 6 phys 0 [] c in
  let '(intr_dword, c) := ecam_read phys 0x3C c in
  let irq_line := intr_dword .& 0xFF in
  let rs := if negb (irq_line =? 0) && negb (irq_line =? 0xFF)
            then rs ++ [MkResource (Interrupt irq_line) 0 0] else rs in
  let '(status, c) := pci_read bus slot func 0x04 c in
  let status_word := (status .>> 16) .& 0xFFFF in
  let '(f, c) :=
    if negb (status_word .& (1 .<< 4) =? 0) then
      let '(p, c) := pci_read bus slot func 0x34 c in
      walk_caps MAX_CAPS off bus slot func (p .& 0xFF) (MkFound rs []) c
    else (MkFound rs [], c) in
  (MkInfo vendor device class subclass prog_if (f_resources f) (f_capabilities f)
     ("PCI " +:+ fmt_hex 2 bus +:+ ":" +:+ fmt_hex 2 slot +:+ "." +:+ fmt_hex 1 func), c).

(** Merge into a known device, or register. *)
Definition publish (i : DeviceInfo) mgr : DeviceManager M :=
  match merge_or_register mgr i with
  | (Some _, mgr) => mgr
  | (None, mgr) => (register_device mgr i).2
  end.

Definition no_device (vendor : Z) : bool := (vendor =? 0xFFFF) || (vendor =? 0x0000).

Definition scan_function (off base bus slot func : Z) (s : DeviceManager M * C) : outcome (DeviceManager M * C) :=
  let '(mgr, c) := s in
  let! cfg_addr_f := ecam_addr base bus slot func in
  let phys_f := off +64 cfg_addr_f in
  let '(dword, c) := mmio_read32 phys_f c in
  if no_device (dword .& 0xFFFF) then Ret (mgr, c) else
  let '(i, c) := describe off bus slot func phys_f dword c in
  Ret (publish i mgr, c).

Definition scan_slot (off base bus slot : Z) (s : DeviceManager M * C) : outcome (DeviceManager M * C) :=
  let '(mgr, c) := s in
  let! cfg_addr := ecam_addr base bus slot 0 in
  let phys := off +64 cfg_addr in
  let '(dword0, c) := mmio_read32 phys c in
  if no_device (dword0 .& 0xFFFF) then Ret (mgr, c) else
  let '(header_dword, c) := mmio_read32 (phys + 12) c in
  let header_type := (header_dword .>> 16) .& 0xFF in
  let max_funcs := if negb (header_type .& 0x80 =? 0) then 8 else 1 in
  for_each (scan_function off base bus slot) (seqZ 0 max_funcs) (mgr, c).

Definition scan_bus (off base bus : Z) (s : DeviceManager M * C) : outcome (DeviceManager M * C) :=
  for_each (scan_slot off base bus) (seqZ 0 32) s.

(** [for bus in start_bus..=end_bus] *)
Definition scan_segment (off : Z) (a : McfgAllocation) (s : DeviceManager M * C) : outcome (DeviceManager M * C) :=
  for_each (scan_bus off (base_address a)) (seqZ (start_bus a) (end_bus a - start_bus a + 1)) s.

(** ** The fallback by ports *)

Definition legacy_slot (bus slot : Z) c : C :=
  let '(vendor_device, c) := pci_read bus slot 0 0 c in
  if no_device (vendor_device .& 0xFFFF) then c else
  let '(header_dword, c) := pci_read bus slot 0 0x0C c in
  let header_type := (header_dword .>> 16) .& 0xFF in
  let max_funcs := if negb (header_type .& 0x80 =? 0) then 8 else 1 in
  for_range 0 max_funcs (fun func c => (pci_read bus slot func 0 c).2) c.

Definition legacy_scan c : C :=
  for_range 0 256 (fun bus c => for_range 0 32 (fun slot c => legacy_slot bus slot c) c) c.

Definition scan_and_register_with_phys_offset (a : AcpiState) (off : Z) mgr c : outcome (DeviceManager M * C) :=
  match get_mcfg_allocs a with
  | [] => Ret (mgr, legacy_scan c)
  | mcfgs => for_each (scan_segment off) mcfgs (mgr, c)
  end.

Definition scan_and_register (a : AcpiState) mgr c : outcome (DeviceManager M * C) :=
  scan_and_register_with_phys_offset a 0 mgr c.
End Scan.

(** ** Configuration registers

    A configuration dword keeps the writable bits of what is stored and its
    read-only bits; a read returns it and changes nothing. *)
Class ConfigSpec (C : Type) {hw : Mmio C} : Type := {
  cfg_dword : Z -> Prop;
  cfg_reg : C -> Z -> Z;
  cfg_wmask : Z -> Z;
  cfg_ro : Z -> Z;
  cfg_read a c : cfg_dword a -> mmio_read32 a c = (cfg_reg c a, c);
  cfg_write a v c a' :
    cfg_dword a -> cfg_dword a' ->
    cfg_reg (mmio_write32 a v c) a' =
      if a' =? a then (v .& cfg_wmask a) .| cfg_ro a else cfg_reg c a'
}.

(** The base address registers of a function, as the PCI specification defines
    them: absent, an I/O range, a 32-bit or a 64-bit memory range, of [2^k] bytes
    at a naturally aligned base; [flags] are the type and prefetch bits. *)
Inductive Bar : Type :=
| BarNone
| BarIo (k base : Z)
| Bar32 (k flags base : Z)
| Bar64 (k flags base : Z).

Definition bar_slots (b : Bar) : Z := match b with Bar64 _ _ _ => 2 | _ => 1 end.

Definition bar_resource (b : Bar) : option Resource :=
  match b with
  | BarNone => None
  | BarIo k base => Some (MkResource IO base (2 ^ k))
  | Bar32 k _ base | Bar64 k _ base => Some (MkResource MemoryMapped base (2 ^ k))
  end.

(** *** Bits *)

Lemma hi_mask w k : 0 <= k <= w -> lnotw w (2 ^ k - 1) = 2 ^ w - 2 ^ k.
Proof.
  intros H. assert (2 ^ k <= 2 ^ w) by (apply Z.pow_le_mono_r; lia). assert (0 < 2 ^ k) by lia.
  rewrite lnotw_eq by lia. lia.
Qed.

Lemma ones_land w x : 0 <= w -> 0 <= x < 2 ^ w -> (2 ^ w - 1) .& x = x.
Proof. intros. rewrite Z.land_comm, land_ones_mod by lia. by apply Z.mod_small. Qed.

(** The size of a range from its mask. *)
Lemma size_of_mask w k : 0 <= k < w -> wrap w (lnotw w (2 ^ w - 2 ^ k) + 1) = 2 ^ k.
Proof.
  intros H. assert (2 ^ k < 2 ^ w) by (apply Z.pow_lt_mono_r; lia). assert (0 < 2 ^ k) by lia.
  rewrite lnotw_eq by lia. rewrite wrap_small by lia. lia.
Qed.

Lemma pow2_mod n k : 0 <= n <= k -> 2 ^ k `mod` 2 ^ n = 0.
Proof.
  intros H. replace k with ((k - n) + n) by lia. rewrite Z.pow_add_r by lia. apply Z.mod_mul. lia.
Qed.

Lemma mask_mod n k w : 0 <= n <= k -> k <= w -> (2 ^ w - 2 ^ k) `mod` 2 ^ n = 0.
Proof.
  intros H1 H2. by rewrite Zminus_mod, !pow2_mod by lia.
Qed.

Lemma multiple_mod n k x : 0 <= n <= k -> x `mod` 2 ^ k = 0 -> x `mod` 2 ^ n = 0.
Proof.
  intros H1 H2. apply Z.mod_divide in H2 as [q ->]; [|lia]. apply Z.mod_divide; [lia|].
  replace k with ((k - n) + n) by lia. rewrite Z.pow_add_r by lia. exists (q * 2 ^ (k - n)). lia.
Qed.

(** A register with base [x] and flags [t] below bit [n], in a range of [2^k]. *)
Section Flags.
Context (w n k t : Z).
Hypothesis (Hn : 0 <= n <= k) (Hk : k < w) (Ht : 0 <= t < 2 ^ n).

Lemma flags_pow : 2 ^ n <= 2 ^ k /\ 2 ^ k < 2 ^ w /\ 0 < 2 ^ n.
Proof using Hn Hk. split_and!; [apply Z.pow_le_mono_r; lia|apply Z.pow_lt_mono_r; lia|lia]. Qed.

Lemma flags_base x : 0 <= x -> x `mod` 2 ^ n = 0 -> x + t < 2 ^ w -> (x + t) .& lnotw w (2 ^ n - 1) = x.
Proof using Hn Hk Ht.
  intros Hx Hm Hxt. rewrite land_align_down by lia.
  replace ((x + t) / 2 ^ n) with (x / 2 ^ n); [rewrite (Z.mul_comm (x / 2 ^ n)); symmetry; apply Z.div_exact; lia|].
  apply Z.div_unique with (r := t); [lia|]. rewrite (proj2 (Z.div_exact x (2 ^ n) ltac:(lia)) Hm) at 1. lia.
Qed.

Lemma flags_mask : ((2 ^ w - 1) .& lnotw w (2 ^ k - 1)) .| t = 2 ^ w - 2 ^ k + t.
Proof using Hn Hk Ht.
  destruct flags_pow as (H1 & H2 & H3). rewrite hi_mask, ones_land by lia.
  apply (lor_low n); [lia|lia|]. apply mask_mod; lia.
Qed.

Lemma flags_mask_base : (2 ^ w - 2 ^ k + t) .& lnotw w (2 ^ n - 1) = 2 ^ w - 2 ^ k.
Proof using Hn Hk Ht.
  destruct flags_pow as (H1 & H2 & H3). apply flags_base; [lia|apply mask_mod; lia|lia].
Qed.

(** Storing the original value restores it. *)
Lemma flags_restore x :
  0 <= x -> x `mod` 2 ^ k = 0 -> x + t < 2 ^ w -> ((x + t) .& lnotw w (2 ^ k - 1)) .| t = x + t.
Proof using Hn Hk Ht.
  intros Hx Hm Hxt. destruct flags_pow as (H1 & H2 & H3). rewrite land_align_down by lia.
  replace ((x + t) / 2 ^ k * 2 ^ k) with x.
  - apply (lor_low n); [lia|lia|]. by apply (multiple_mod n k).
  - replace ((x + t) / 2 ^ k) with (x / 2 ^ k); [rewrite (Z.mul_comm (x / 2 ^ k)); apply Z.div_exact; lia|].
    apply Z.div_unique with (r := t); [lia|]. rewrite (proj2 (Z.div_exact x (2 ^ k) ltac:(lia)) Hm) at 1. lia.
Qed.
End Flags.

Lemma land_1 x : x .& 0x1 = x `mod` 2.
Proof. exact (land_ones_mod x 1 ltac:(lia)). Qed.

Lemma land_3 x : x .& 0x3 = x `mod` 4.
Proof. exact (land_ones_mod x 2 ltac:(lia)). Qed.

Section Bars.
Context {C : Type} {hw : Mmio C} {cfg : ConfigSpec C}.
Implicit Types (c : C).

Definition bar_addr (phys i : Z) : Z := phys + 0x10 + 4 * i.

Lemma bar_dword phys i : 0 <= i <= 6 -> ecam_dword phys (0x10 + i * 4) = bar_addr phys i.
Proof.
  intros Hi. unfold ecam_dword, bar_addr.
  change 0xFC with (lnotw 8 (2 ^ 2 - 1)). rewrite land_align_down by lia.
  change (2 ^ 2) with 4. zdiv.
Qed.

(** Register [i] of the function at [phys] is the BAR [b]. *)
Definition has_bar c (phys i : Z) (b : Bar) : Prop :=
  let a := bar_addr phys i in
  match b with
  | BarNone => cfg_reg c a = 0
  | BarIo k base =>
      2 <= k < 32 /\ 0 < base < 2 ^ 32 /\ base `mod` 2 ^ k = 0 /\
      cfg_wmask a = lnotw 32 (2 ^ k - 1) /\ cfg_ro a = 1 /\ cfg_reg c a = base + 1
  | Bar32 k flags base =>
      4 <= k < 32 /\ 0 < base < 2 ^ 32 /\ base `mod` 2 ^ k = 0 /\ (flags = 0 \/ flags = 8) /\
      cfg_wmask a = lnotw 32 (2 ^ k - 1) /\ cfg_ro a = flags /\ cfg_reg c a = base + flags
  | Bar64 k flags base =>
      4 <= k < 64 /\ 0 <= base < 2 ^ 64 /\ base `mod` 2 ^ k = 0 /\ (flags = 4 \/ flags = 12) /\
      cfg_wmask a = lnotw 64 (2 ^ k - 1) `mod` 2 ^ 32 /\ cfg_ro a = flags /\
      cfg_reg c a = base `mod` 2 ^ 32 + flags /\
      cfg_wmask (bar_addr phys (i + 1)) = lnotw 64 (2 ^ k - 1) / 2 ^ 32 /\
      cfg_ro (bar_addr phys (i + 1)) = 0 /\ cfg_reg c (bar_addr phys (i + 1)) = base / 2 ^ 32
  end.

Definition cfg_same c c' : Prop := forall a, cfg_dword a -> cfg_reg c' a = cfg_reg c a.

(** What a store of all ones and then of the original leaves and shows. *)
Lemma probe_reg a orig c :
  cfg_dword a -> cfg_reg c a = orig -> (orig .& cfg_wmask a) .| cfg_ro a = orig ->
  mmio_read32 a (mmio_write32 a 0xFFFFFFFF c) =
    ((0xFFFFFFFF .& cfg_wmask a) .| cfg_ro a, mmio_write32 a 0xFFFFFFFF c) /\
  cfg_same c (mmio_write32 a orig (mmio_write32 a 0xFFFFFFFF c)).
Proof.
  intros Ha Ho Hr. split; [rewrite cfg_read, cfg_write, Z.eqb_refl by done; done|].
  intros b Hb. rewrite !cfg_write by done. destruct (Z.eqb_spec b a) as [->|]; [congruence|done].
Qed.

Lemma scan_none phys i c :
  0 <= i < 6 -> (forall j, 0 <= j <= 6 -> cfg_dword (bar_addr phys j)) -> has_bar c phys i BarNone ->
  scan_bar phys i c = (1, None, c).
Proof.
  intros Hi Hd Hreg. unfold scan_bar, ecam_read. rewrite bar_dword, cfg_read by (lia || apply Hd; lia).
  by rewrite Hreg.
Qed.

Lemma scan_io phys i k base c :
  0 <= i < 6 -> (forall j, 0 <= j <= 6 -> cfg_dword (bar_addr phys j)) -> has_bar c phys i (BarIo k base) ->
  exists c', scan_bar phys i c = (1, Some (MkResource IO base (2 ^ k)), c') /\ cfg_same c c'.
Proof.
  intros Hi Hd (Hk & Hb & Hm & Hw & Hro & Hreg). unfold scan_bar, ecam_read, ecam_write.
  rewrite bar_dword by lia. set (a := bar_addr phys i) in *. assert (cfg_dword a) as Ha by (apply Hd; lia).
  rewrite cfg_read, Hreg by done.
  pose proof (multiple_mod 2 k base ltac:(lia) Hm) as H4. change (2 ^ 2) with 4 in H4.
  destruct (Z.eqb_spec (base + 1) 0); [lia|]. destruct (Z.eqb_spec (base + 1) 0xFFFFFFFF); [zdiv|]. cbn [orb].
  rewrite land_1. destruct (Z.eqb_spec ((base + 1) `mod` 2) 0x1); [|zdiv].
  assert (base + 1 < 2 ^ 32) by zdiv.
  destruct (probe_reg a (base + 1) c Ha Hreg) as [-> Hs].
  { rewrite Hw, Hro. apply (flags_restore 32 2 k 1); lia. }
  eexists. split; [|exact Hs]. do 2 f_equal. f_equal.
  change 0xFFFFFFFC with (lnotw 32 (2 ^ 2 - 1)). change 0xFFFFFFFF with (2 ^ 32 - 1).
  rewrite Hw, Hro, (flags_mask 32 2 k 1), (flags_mask_base 32 2 k 1), (flags_base 32 2 k 1) by (done || lia).
  by rewrite size_of_mask by lia.
Qed.

Lemma scan_mem32 phys i k t base c :
  0 <= i < 6 -> (forall j, 0 <= j <= 6 -> cfg_dword (bar_addr phys j)) -> has_bar c phys i (Bar32 k t base) ->
  exists c', scan_bar phys i c = (1, Some (MkResource MemoryMapped base (2 ^ k)), c') /\ cfg_same c c'.
Proof.
  intros Hi Hd (Hk & Hb & Hm & Ht & Hw & Hro & Hreg). unfold scan_bar, ecam_read, ecam_write.
  rewrite bar_dword by lia. set (a := bar_addr phys i) in *. assert (cfg_dword a) as Ha by (apply Hd; lia).
  rewrite cfg_read, Hreg by done.
  pose proof (multiple_mod 4 k base ltac:(lia) Hm) as H16. change (2 ^ 4) with 16 in H16.
  destruct (Z.eqb_spec (base + t) 0); [lia|]. destruct (Z.eqb_spec (base + t) 0xFFFFFFFF); [zdiv|]. cbn [orb].
  rewrite land_1, land_3, Z.shiftr_div_pow2 by lia. change (2 ^ 1) with 2.
  destruct (Z.eqb_spec ((base + t) `mod` 2) 0x1); [zdiv|].
  destruct (Z.eqb_spec (((base + t) / 2) `mod` 4) 0x2); [zdiv|].
  assert (base + t < 2 ^ 32) by zdiv. assert (0 <= t < 2 ^ 4) by lia.
  destruct (probe_reg a (base + t) c Ha Hreg) as [-> Hs].
  { rewrite Hw, Hro. apply (flags_restore 32 4 k t); lia. }
  eexists. split; [|exact Hs]. do 2 f_equal. f_equal.
  change 0xFFFFFFF0 with (lnotw 32 (2 ^ 4 - 1)). change 0xF with (2 ^ 4 - 1). change 0xFFFFFFFF with (2 ^ 32 - 1).
  rewrite Hw, Hro, (flags_mask 32 4 k t), (flags_mask_base 32 4 k t), (flags_base 32 4 k t) by (done || lia).
  by rewrite size_of_mask by lia.
Qed.
(** The two halves of the writable bits of a 64-bit range. *)
Lemma mask_halves k :
  4 <= k < 64 ->
  let X := lnotw 64 (2 ^ k - 1) in
  if k <=? 32 then X `mod` 2 ^ 32 = lnotw 32 (2 ^ k - 1) /\ X / 2 ^ 32 = 2 ^ 32 - 1
  else X `mod` 2 ^ 32 = 0 /\ X / 2 ^ 32 = lnotw 32 (2 ^ (k - 32) - 1).
Proof.
  intros Hk X. unfold X. rewrite hi_mask by lia. destruct (Z.leb_spec k 32).
  - rewrite hi_mask by lia. assert (2 ^ k <= 2 ^ 32) by (apply Z.pow_le_mono_r; lia). assert (0 < 2 ^ k) by lia.
    replace (2 ^ 64 - 2 ^ k) with ((2 ^ 32 - 2 ^ k) + (2 ^ 32 - 1) * 2 ^ 32) by lia.
    rewrite Z.mod_add, Z.div_add by lia. rewrite Z.mod_small, Z.div_small by lia. lia.
  - rewrite hi_mask by lia.
    replace (2 ^ 64 - 2 ^ k) with (0 + (2 ^ 32 - 2 ^ (k - 32)) * 2 ^ 32).
    + rewrite Z.mod_add, Z.div_add, Z.mod_0_l, Z.div_0_l by lia. lia.
    + replace k with ((k - 32) + 32) at 2 by lia. rewrite Z.pow_add_r by lia. lia.
Qed.

(** Restoring the two halves of a 64-bit base. *)
Lemma restore_halves k t base :
  4 <= k < 64 -> 0 <= base < 2 ^ 64 -> base `mod` 2 ^ k = 0 -> 0 <= t < 2 ^ 4 ->
  let X := lnotw 64 (2 ^ k - 1) in
  ((base `mod` 2 ^ 32 + t) .& (X `mod` 2 ^ 32)) .| t = base `mod` 2 ^ 32 + t /\
  ((base / 2 ^ 32) .& (X / 2 ^ 32)) .| 0 = base / 2 ^ 32.
Proof.
  intros Hk Hb Hm Ht X. pose proof (mask_halves k Hk) as HX. fold X in HX. rewrite Z.lor_0_r.
  pose proof (multiple_mod 4 k base ltac:(lia) Hm) as H16.
  assert (0 <= base / 2 ^ 32 < 2 ^ 32) by zdiv.
  assert (0 <= base `mod` 2 ^ 32 /\ base `mod` 2 ^ 32 + t < 2 ^ 32) as [? ?]
    by (change (2 ^ 4) with 16 in *; zdiv).
  destruct (Z.leb_spec k 32); destruct HX as [-> ->].
  - split; [|rewrite Z.land_comm; by apply ones_land].
    assert ((base `mod` 2 ^ 32) `mod` 2 ^ k = 0) as Hlo.
    { apply Z.mod_divide in Hm as [q ->]; [|lia]. replace 32 with ((32 - k) + k) by lia.
      rewrite Z.pow_add_r, Z.mul_mod_distr_r by lia. apply Z.mod_mul. lia. }
    destruct (decide (k = 32)) as [->|]; [|by apply (flags_restore 32 4 k t); lia].
    rewrite Z.mod_mod in Hlo by lia. rewrite Hlo, land_align_down, Z.div_small by lia. done.
  - assert (base `mod` 2 ^ 32 = 0) as -> by (apply (multiple_mod 32 k); [lia|done]).
    split; [by rewrite Z.land_0_r|]. rewrite land_align_down by lia.
    rewrite Z.mul_comm. symmetry. apply Z.div_exact; [lia|].
    apply Z.mod_divide in Hm as [q ->]; [|lia]. replace k with ((k - 32) + 32) at 1 by lia.
    rewrite Z.pow_add_r, Z.mul_assoc, Z.div_mul by lia. apply Z.mod_mul. lia.
Qed.

(** The mask read back from both halves. *)
Lemma probed_halves k t :
  4 <= k < 64 -> 0 <= t < 2 ^ 4 ->
  let X := lnotw 64 (2 ^ k - 1) in
  (((0xFFFFFFFF .& (X / 2 ^ 32)) .| 0) .<< 32) .| ((0xFFFFFFFF .& (X `mod` 2 ^ 32)) .| t) = 2 ^ 64 - 2 ^ k + t.
Proof.
  intros Hk Ht X. assert (X = 2 ^ 64 - 2 ^ k) as HX by (apply hi_mask; lia).
  assert (2 ^ k < 2 ^ 64) by (apply Z.pow_lt_mono_r; lia). assert (0 < 2 ^ k) by lia.
  pose proof (mask_mod 4 k 64 ltac:(lia) ltac:(lia)) as H16. rewrite <- HX in H16.
  change 0xFFFFFFFF with (2 ^ 32 - 1). change (2 ^ 4) with 16 in *.
  rewrite Z.lor_0_r, !ones_land by zdiv.
  rewrite (lor_low 4 (X `mod` 2 ^ 32)) by (try lia; change (2 ^ 4) with 16; zdiv).
  rewrite Z.shiftl_mul_pow2, (lor_low 32) by (try lia; zdiv). rewrite <- HX. zdiv.
Qed.

Lemma scan_mem64 phys i k t base c :
  0 <= i < 6 -> (forall j, 0 <= j <= 6 -> cfg_dword (bar_addr phys j)) -> has_bar c phys i (Bar64 k t base) ->
  exists c', scan_bar phys i c = (2, Some (MkResource MemoryMapped base (2 ^ k)), c') /\ cfg_same c c'.
Proof.
  intros Hi Hd (Hk & Hb & Hm & Ht & Hw & Hro & Hreg & Hw' & Hro' & Hreg').
  unfold scan_bar, ecam_read, ecam_write. rewrite !bar_dword by lia.
  set (a := bar_addr phys i) in *. set (a' := bar_addr phys (i + 1)) in *.
  assert (cfg_dword a) as Ha by (apply Hd; lia). assert (cfg_dword a') as Ha' by (apply Hd; lia).
  assert (a' <> a) as Hne by (unfold a, a', bar_addr; lia).
  pose proof (multiple_mod 4 k base ltac:(lia) Hm) as H16. change (2 ^ 4) with 16 in H16.
  assert (0 <= t < 2 ^ 4) as Ht4 by lia. set (lo := base `mod` 2 ^ 32) in *.
  assert (lo `mod` 16 = 0 /\ 0 <= lo < 2 ^ 32) as [Hlo Hlo'] by (unfold lo; zdiv).
  rewrite cfg_read, Hreg by done.
  destruct (Z.eqb_spec (lo + t) 0); [lia|]. destruct (Z.eqb_spec (lo + t) 0xFFFFFFFF); [zdiv|]. cbn [orb].
  rewrite land_1, land_3, Z.shiftr_div_pow2 by lia. change (2 ^ 1) with 2.
  destruct (Z.eqb_spec ((lo + t) `mod` 2) 0x1); [zdiv|].
  destruct (Z.eqb_spec (((lo + t) / 2) `mod` 4) 0x2); [|zdiv].
  destruct (restore_halves k t base Hk Hb Hm Ht4) as [HL HH].
  rewrite !cfg_read, Hreg' by done. rewrite !cfg_write, !Z.eqb_refl by done.
  destruct (Z.eqb_spec a a'); [congruence|].
  eexists. split.
  - do 2 f_equal. f_equal. rewrite Hw, Hro, Hw', Hro', probed_halves by done. f_equal.
    + change 0xFFFFFFF0 with (lnotw 32 (2 ^ 4 - 1)). rewrite (flags_base 32 4 4 t) by (done || lia || zdiv).
      rewrite Z.shiftl_mul_pow2, (lor_low 32) by (lia || apply Z.mod_mul; lia). unfold lo. zdiv.
    + change 0xF with (2 ^ 4 - 1). rewrite (flags_mask_base 64 4 k t) by lia. apply size_of_mask; lia.
  - intros b Hcb. rewrite !cfg_write by done.
    destruct (Z.eqb_spec b a') as [->|]; [rewrite Hw', Hro', Hreg'; exact HH|].
    destruct (Z.eqb_spec b a) as [->|]; [rewrite Hw, Hro, Hreg; exact HL|]. done.
Qed.

(** ** The whole header *)

(** The BARs from register [i] on, filling the six registers. *)
Fixpoint bars_at c (phys i : Z) (bars : list Bar) : Prop :=
  match bars with
  | [] => i = 6
  | b :: bars => has_bar c phys i b /\ bars_at c phys (i + bar_slots b) bars
  end.

Lemma has_bar_same c c' phys i b :
  (forall j, 0 <= j <= 6 -> cfg_dword (bar_addr phys j)) -> 0 <= i < 6 -> cfg_same c c' ->
  has_bar c phys i b -> has_bar c' phys i b.
Proof.
  intros Hd Hi Hs Hb. pose proof (Hs _ (Hd i ltac:(lia))) as H1. pose proof (Hs _ (Hd (i + 1) ltac:(lia))) as H2.
  destruct b; cbn in *; rewrite ?H1, ?H2; done.
Qed.

Lemma bars_at_index c phys i bars : bars_at c phys i bars -> 0 <= i -> i <= 6.
Proof.
  revert i. induction bars as [|b bars IH]; intros i; cbn; [lia|]. intros [_ H] Hi.
  apply IH in H; destruct b; cbn in *; lia.
Qed.

Lemma scan_bar_spec phys i b c :
  0 <= i < 6 -> (forall j, 0 <= j <= 6 -> cfg_dword (bar_addr phys j)) -> has_bar c phys i b ->
  exists c', scan_bar phys i c = (bar_slots b, bar_resource b, c') /\ cfg_same c c'.
Proof.
  intros Hi Hd Hb. destruct b as [|k base|k t base|k t base].
  - exists c. by rewrite scan_none.
  - by apply scan_io.
  - by apply (scan_mem32 phys i k t base).
  - by apply (scan_mem64 phys i k t base).
Qed.

Lemma scan_bars_spec fuel phys i bars rs c :
  (forall j, 0 <= j <= 6 -> cfg_dword (bar_addr phys j)) -> 0 <= i -> bars_at c phys i bars ->
  6 - i <= Z.of_nat fuel ->
  exists c', scan_bars fuel phys i rs c = (rs ++ omap bar_resource bars, c') /\ cfg_same c c'.
Proof.
  intros Hd. revert i bars rs c. induction fuel as [|fuel IH]; intros i bars rs c Hi Hb Hf.
  - exists c. destruct bars as [|b bars]; [by rewrite app_nil_r|].
    destruct Hb as [_ Hb]. apply bars_at_index in Hb; destruct b; cbn in *; lia.
  - cbn [scan_bars]. destruct bars as [|b bars]; cbn [bars_at] in Hb.
    + subst i. exists c. by rewrite app_nil_r.
    + destruct Hb as [Hb1 Hb2]. assert (i < 6) by (apply bars_at_index in Hb2; destruct b; cbn in *; lia).
      destruct (Z.ltb_spec i 6); [|lia].
      destruct (scan_bar_spec phys i b c ltac:(lia) Hd Hb1) as (c1 & -> & Hs1).
      destruct (IH (i + bar_slots b) bars (rs ++ option_list (bar_resource b)) c1) as (c2 & -> & Hs2).
      * destruct b; cbn; lia.
      * clear -Hs1 Hb2 Hd Hi. assert (0 <= i + bar_slots b) as Hj by (destruct b; cbn; lia).
        revert Hj Hb2. generalize (i + bar_slots b). clear i Hi. induction bars as [|b' bars IHb]; intros j Hj; cbn; [done|].
        intros [H1 H2]. split.
        -- eapply has_bar_same; [done| |done|done].
           apply bars_at_index in H2; destruct b'; cbn in *; lia.
        -- apply IHb; [destruct b'; cbn; lia|done].
      * destruct b; cbn; lia.
      * exists c2. split; [|intros a Ha; by rewrite Hs2, Hs1].
        rewrite <- app_assoc. do 2 f_equal. cbn. by destruct (bar_resource b).
Qed.
End Bars.

Lemma publish_finds {M : Type} (i : DeviceInfo) (mgr : DeviceManager M) :
  exists e, e ∈ devices (publish i mgr) /\ same_ids i e.
Proof.
  unfold publish, merge_or_register. destruct (list_find (same_ids i) (devices mgr)) as [[k e]|] eqn:E.
  - apply list_find_Some in E as (Hk & [H1 H2] & _). eexists. split.
    + cbn. eapply list_elem_of_lookup_2, (list_lookup_insert_eq _ k). by eapply lookup_lt_Some.
    + done.
  - eexists. split; [cbn; apply elem_of_app; right; by apply list_elem_of_singleton|done].
Qed.

(** ** Properties *)

(** C10: sizing the base address registers: for every valid arrangement of I/O,
    32-bit and 64-bit memory ranges over the six registers, the scan reports
    exactly those ranges, in order, with their base and their size of [2^k] bytes,
    and every configuration register has its original value afterwards. *)
Theorem scan_bars_exact {C : Type} {hw : Mmio C} {cfg : ConfigSpec C} phys bars (c : C) :
  (forall j, 0 <= j <= 6 -> cfg_dword (bar_addr phys j)) -> bars_at c phys 0 bars ->
  exists c', scan_bars 6 phys 0 [] c = (omap bar_resource bars, c') /\
    forall a, cfg_dword a -> cfg_reg c' a = cfg_reg c a.
Proof. intros Hd Hb. apply (scan_bars_spec 6 phys 0 bars [] c); [done|lia|done|lia]. Qed.

(** The configuration address is faithful: bus, slot, function and the dword
    of the offset are recovered from it, so different registers have different
    addresses. *)
Theorem config_address_fields bus slot func offset :
  0 <= bus < 256 -> 0 <= slot < 32 -> 0 <= func < 8 -> 0 <= offset < 256 ->
  let a := pci_config_address bus slot func offset in
  (a .>> 16) .& 0xFF = bus /\ (a .>> 11) .& 0x1F = slot /\ (a .>> 8) .& 0x7 = func /\
  a .& 0xFC = offset / 4 * 4 /\ Z.testbit a 31 = true /\ 0 <= a < 2 ^ 32.
Proof.
  intros Hb Hs Hf Ho a.
  assert (a = 0x80000000 + bus * 2 ^ 16 + slot * 2 ^ 11 + func * 2 ^ 8 + offset / 4 * 4) as Ha.
  { unfold a, pci_config_address. rewrite !Z.shiftl_mul_pow2 by lia.
    change 0xfc with (lnotw 8 (2 ^ 2 - 1)). rewrite land_align_down by lia. change (2 ^ 2) with 4.
    rewrite (lor_low 24 0x80000000) by (lia || done).
    change (2 ^ 16) with 65536. change (2 ^ 11) with 2048. change (2 ^ 8) with 256.
    rewrite (lor_low 16 (0x80000000 + bus * 65536)) by (lia || (change (2 ^ 16) with 65536; zdiv)).
    rewrite (lor_low 11 (0x80000000 + bus * 65536 + slot * 2048)) by (lia || (change (2 ^ 11) with 2048; zdiv)).
    rewrite (lor_low 8 (0x80000000 + bus * 65536 + slot * 2048 + func * 256)) by (lia || (change (2 ^ 8) with 256; zdiv)). lia. }
  clearbody a. assert (0 <= offset / 4 * 4 < 256 /\ (offset / 4 * 4) `mod` 4 = 0) as [Ho1 Ho2] by zdiv.
  set (o := offset / 4 * 4) in *. clearbody o.
  change (2 ^ 16) with 65536 in Ha. change (2 ^ 11) with 2048 in Ha. change (2 ^ 8) with 256 in Ha.
  assert (0 <= a < 2 ^ 32) as Har by (cbn; lia).
  change 0xFF with (2 ^ 8 - 1). change 0x1F with (2 ^ 5 - 1). change 0x7 with (2 ^ 3 - 1).
  rewrite !land_ones_mod, !Z.shiftr_div_pow2 by lia.
  change (2 ^ 16) with 65536. change (2 ^ 11) with 2048. change (2 ^ 8) with 256.
  change (2 ^ 5) with 32. change (2 ^ 3) with 8.
  split_and!; try zdiv.
  - change 0xFC with ((2 ^ 8 - 1) .& lnotw 8 (2 ^ 2 - 1)).
    rewrite Z.land_assoc, land_ones_mod by lia. rewrite land_align_down by (try apply Z.mod_pos_bound; lia).
    change (2 ^ 2) with 4. change (2 ^ 8) with 256. zdiv.
  - rewrite Z.testbit_true by lia. change (2 ^ 31) with 2147483648. zdiv.
Qed.

(** Devices are merged by vendor and device id alone: two functions of the
    same model, such as two identical network cards in different slots, end up as
    one registered device that lists the resources of both. *)
Theorem identical_functions_merged {M : Type} (mgr : DeviceManager M) (i1 i2 : DeviceInfo) :
  vendor_id i1 = vendor_id i2 -> device_id i1 = device_id i2 ->
  length (devices (publish i2 (publish i1 mgr))) = length (devices (publish i1 mgr)) /\
  exists e, e ∈ devices (publish i2 (publish i1 mgr)) /\ same_ids i1 e /\
    forall r, r ∈ resources i2 -> existsb (fun er => same_resource er r) (resources (info (device e))) = true.
Proof.
  intros Hv Hd.
  assert (exists k e, list_find (same_ids i2) (devices (publish i1 mgr)) = Some (k, e)) as (k & e & Hf).
  { destruct (publish_finds i1 mgr) as (e & He & H1 & H2).
    destruct (list_find (same_ids i2) (devices (publish i1 mgr))) as [[k e']|] eqn:E; [by eauto|].
    apply list_find_None in E. rewrite Forall_forall in E. destruct (E e He). split; congruence. }
  set (m1 := publish i1 mgr) in *. unfold publish, merge_or_register. rewrite Hf. cbn [devices snd].
  pose proof Hf as (Hk & [H1 H2] & _)%list_find_Some. split; [by rewrite length_insert|].
  eexists. split; [eapply list_elem_of_lookup_2, (list_lookup_insert_eq _ k); by eapply lookup_lt_Some|].
  split; [split; cbn; congruence|]. intros r Hr. cbn. by apply push_all_has; [apply same_resource_refl|].
Qed.

(** Without an ECAM window nothing is registered: the fallback only reads. *)
Lemma legacy_scan_registers_nothing {C M : Type} {io : PortIO C} {hw : Mmio C} a off (mgr : DeviceManager M) (c : C) :
  get_mcfg_allocs a = [] -> exists c', scan_and_register_with_phys_offset a off mgr c = Ret (mgr, c').
Proof. intros E. unfold scan_and_register_with_phys_offset. rewrite E. by eexists. Qed.

(** The MSI-X table's BAR is looked up by its rank among the memory BARs: for a
    function with an I/O BAR 0 and memory BARs 1 and 2, indicator 1 finds BAR 2. *)
Example msix_bar_by_rank :
  msix_bar (omap bar_resource [BarIo 5 0xC000; Bar32 12 0 0xFEB00000; Bar32 16 0 0xFEC00000; BarNone; BarNone; BarNone]) 1 =
  Some (MkResource MemoryMapped 0xFEC00000 0x10000).
Proof. reflexivity. Qed.

(** ** Witnesses *)

(** A machine whose configuration dwords are those from 0x1000 to 0x10FF, in words
    with masks; the BARs are an I/O range, a 32-bit and a 64-bit memory range. *)
Definition sample_bars : list Bar := [BarIo 5 0xC000; Bar32 12 8 0xFEB00000; Bar64 33 4 0x800000000; BarNone; BarNone].

Definition sample_masks (a : Z) : Z * Z :=
  if a =? 0x1010 then (lnotw 32 (2 ^ 5 - 1), 1)
  else if a =? 0x1014 then (lnotw 32 (2 ^ 12 - 1), 8)
  else if a =? 0x1018 then (0, 4)
  else if a =? 0x101C then (0xFFFFFFFE, 0)
  else (0, 0).

#[local] Instance regs_hw : Mmio (Z -> Z) := {|
  mmio_write32 a v c := fun b => if b =? a then (v .& (sample_masks a).1) .| (sample_masks a).2 else c b;
  mmio_read32 a c := (c a, c)
|}.

#[refine, local] Instance regs_spec : ConfigSpec (Z -> Z) := {|
  cfg_dword _ := True;
  cfg_reg c a := c a;
  cfg_wmask a := (sample_masks a).1;
  cfg_ro a := (sample_masks a).2
|}.
Proof. - done. - done. Defined.

Definition sample_header (a : Z) : Z :=
  if a =? 0x1010 then 0xC001
  else if a =? 0x1014 then 0xFEB00008
  else if a =? 0x1018 then 4
  else if a =? 0x101C then 8
  else 0.

Lemma scan_bars_exact_witness :
  exists c', scan_bars 6 0x1000 0 [] sample_header =
    ([MkResource IO 0xC000 32; MkResource MemoryMapped 0xFEB00000 4096; MkResource MemoryMapped 0x800000000 (2 ^ 33)], c') /\
    forall a, True -> c' a = sample_header a.
Proof.
  destruct (scan_bars_exact 0x1000 sample_bars sample_header) as (c' & H1 & H2).
  - done.
  - vm_compute. intuition congruence.
  - exists c'. split; [exact H1|exact H2].
Defined.

Lemma config_address_fields_witness : pci_config_address 1 2 3 0x10 = 0x80011310 /\
  (pci_config_address 1 2 3 0x10 .>> 16) .& 0xFF = 1.
Proof.
  split; [reflexivity|]. apply (config_address_fields 1 2 3 0x10); lia.
Defined.

Lemma identical_functions_merged_witness :
  let nic slot := MkInfo 0x8086 0x100E 2 0 0 [MkResource MemoryMapped (0xFEB00000 + slot * 0x20000) 0x20000] [] "PCI" in
  length (devices (publish (nic 4) (publish (nic 3) (manager_new (W := unit))))) = 1%nat.
Proof.
  intros nic. exact (proj1 (identical_functions_merged (manager_new (W := unit)) (nic 3) (nic 4) eq_refl eq_refl)).
Defined.
