(* ===== verification/Processor.v ===== *)
(** * Processor: CPU feature detection and set-up of [src/arch/processor.rs]

    [CpuFeatures] and [detect_cpu_features] over the CPUID instruction, and
    [enable_sse], [disable_pit_timer] and [enable_cpu_features] over the control
    registers, the ports and the screen (every message of the source is printed
    through [Console.println]). CPUID and the control-register types of the [x86_64]
    crate are an interface: reading and writing flags, and the crate's refusal to
    write an inconsistent XCR0. Detection is compared with the bit positions that
    the processor manuals give to the features. *)

From S2P Require Import Prelude External Device Ports VgaText Vbe Console.

Local Open Scope string_scope.
Local Open Scope list_scope.
Local Open Scope Z_scope.

(** ** The hardware interface *)

Record CpuidResult : Type := MkCpuid { eax : Z; ebx : Z; ecx : Z; edx : Z }.

Definition X87 : Z := 0.
Definition SSE : Z := 1.
Definition AVX : Z := 2.
Definition MONITOR_COPROCESSOR : Z := 1.
Definition EMULATE_COPROCESSOR : Z := 2.
Definition OSFXSR : Z := 9.
Definition OSXMMEXCPT_ENABLE : Z := 10.

(** [Cr0::read] and the like return the flags the crate knows; [XCr0::write]
    asserts that the flags are consistent. *)
Class ControlRegs (C : Type) : Type := {
  cpuid : C -> Z -> Z -> CpuidResult;
  cr0_read : C -> Z;
  cr0_write : Z -> C -> C;
  cr4_read : C -> Z;
  cr4_write : Z -> C -> C;
  xcr0_read : C -> Z;
  xcr0_write : Z -> C -> outcome C
}.

Class ControlRegsSpec (C : Type) {regs : ControlRegs C} : Type := {
  cr0_known : Z;
  cr4_known : Z;
  xcr0_valid : Z -> bool;
  cr0_known_bits : Z.testbit cr0_known MONITOR_COPROCESSOR = true;
  cr4_known_bits : Z.testbit cr4_known OSFXSR = true /\ Z.testbit cr4_known OSXMMEXCPT_ENABLE = true;
  cr0_read_known c : cr0_read c .& cr0_known = cr0_read c;
  cr4_read_known c : cr4_read c .& cr4_known = cr4_read c;
  xcr0_read_valid c : xcr0_valid (xcr0_read c) = true;
  cr0_write_spec v c :
    v .& cr0_known = v ->
    cr0_read (cr0_write v c) = v /\ cr4_read (cr0_write v c) = cr4_read c /\ xcr0_read (cr0_write v c) = xcr0_read c;
  cr4_write_spec v c :
    v .& cr4_known = v ->
    cr4_read (cr4_write v c) = v /\ cr0_read (cr4_write v c) = cr0_read c /\ xcr0_read (cr4_write v c) = xcr0_read c;
  (* AVX state may be added to a valid value that has the SSE state *)
  xcr0_valid_avx v : xcr0_valid v = true -> xcr0_valid (v .| (1 .<< AVX)) = Z.testbit v SSE;
  xcr0_write_spec v c :
    if xcr0_valid v
    then exists c', xcr0_write v c = Ret c' /\ xcr0_read c' = v /\ cr0_read c' = cr0_read c /\ cr4_read c' = cr4_read c
    else exists msg, xcr0_write v c = Panic msg
}.

(** ** Features *)

Module Features.
Record CpuFeatures : Type := MkFeatures {
  vendor : list Z;
  fpu : bool; vme : bool; de : bool; pse : bool; tsc : bool; msr : bool; pae : bool; mce : bool; cx8 : bool;
  apic : bool; sep : bool; mtrr : bool; pge : bool; mca : bool; cmov : bool; pat : bool; pse36 : bool;
  psn : bool; clfsh : bool; ds : bool; acpi : bool; mmx : bool; fxsr : bool; sse : bool; sse2 : bool;
  ss : bool; htt : bool; tm : bool; ia64 : bool; pbe : bool; sse3 : bool; pclmulqdq : bool; dtes64 : bool;
  monitor : bool; ds_cpl : bool; vmx : bool; smx : bool; est : bool; tm2 : bool; ssse3 : bool;
  cnxt_id : bool; sdbg : bool; fma : bool; cx16 : bool; xtpr : bool; pdcm : bool; pcid : bool; dca : bool;
  sse4_1 : bool; sse4_2 : bool; x2apic : bool; movbe : bool; popcnt : bool; tsc_deadline : bool; aes : bool;
  xsave : bool; osxsave : bool; avx : bool; f16c : bool; rdrand : bool; hypervisor : bool; syscall : bool;
  mp : bool; nx : bool; mmxext : bool; fxsr_opt : bool; pdpe1gb : bool; rdtscp : bool; lm : bool;
  threednowext : bool; threednow : bool; lahf_lm : bool; cmp_legacy : bool; svm : bool; extapic : bool;
  cr8_legacy : bool; abm : bool; sse4a : bool; misalignsse : bool; threednowprefetch : bool; osvw : bool;
  ibs : bool; xop : bool; skinit : bool; wdt : bool; lwp : bool; fma4 : bool; tce : bool; nodeid_msr : bool;
  tbm : bool; topoext : bool; perfctr_core : bool; perfctr_nb : bool; bpext : bool; ptsc : bool;
  perfctr_llc : bool; mwaitx : bool; fsgsbase : bool; tsc_adjust : bool; sgx : bool; bmi1 : bool; hle : bool;
  avx2 : bool; fdp_excptn_only : bool; smep : bool; bmi2 : bool; rep_movsb_stosb : bool; invpcid : bool;
  rtm : bool; rdt_m : bool; dep_fpu_cs_ds : bool; mpx : bool; rdt_a : bool; avx512f : bool; avx512dq : bool;
  rdseed : bool; adx : bool; smap : bool; avx512ifma : bool; pcommit : bool; clflushopt : bool; clwb : bool;
  intel_pt : bool; avx512pf : bool; avx512er : bool; avx512cd : bool; sha : bool; avx512bw : bool;
  avx512vl : bool; prefetchwt1 : bool; avx512vbmi : bool; umip : bool; pku : bool; ospke : bool;
  waitpkg : bool; avx512vbmi2 : bool; cet_ss : bool; gfni : bool; vaes : bool; vpclmulqdq : bool;
  avx512vnni : bool; avx512bitalg : bool; tme : bool; avx512vpopcntdq : bool; la57 : bool; rdpid : bool;
  keylocker : bool; bus_lock_detect : bool; cldemote : bool; movdiri : bool; movdir64b : bool; enqcmd : bool;
  sgx_lc : bool; pks : bool
}.

(** The flags with the names of their fields. *)
Definition flags (f : CpuFeatures) : list (string * bool) := [
  ("fpu", fpu f); ("vme", vme f); ("de", de f); ("pse", pse f); ("tsc", tsc f); ("msr", msr f);
  ("pae", pae f); ("mce", mce f); ("cx8", cx8 f); ("apic", apic f); ("sep", sep f); ("mtrr", mtrr f);
  ("pge", pge f); ("mca", mca f); ("cmov", cmov f); ("pat", pat f); ("pse36", pse36 f); ("psn", psn f);
  ("clfsh", clfsh f); ("ds", ds f); ("acpi", acpi f); ("mmx", mmx f); ("fxsr", fxsr f); ("sse", sse f);
  ("sse2", sse2 f); ("ss", ss f); ("htt", htt f); ("tm", tm f); ("ia64", ia64 f); ("pbe", pbe f);
  ("sse3", sse3 f); ("pclmulqdq", pclmulqdq f); ("dtes64", dtes64 f); ("monitor", monitor f);
  ("ds_cpl", ds_cpl f); ("vmx", vmx f); ("smx", smx f); ("est", est f); ("tm2", tm2 f); ("ssse3", ssse3 f);
  ("cnxt_id", cnxt_id f); ("sdbg", sdbg f); ("fma", fma f); ("cx16", cx16 f); ("xtpr", xtpr f);
  ("pdcm", pdcm f); ("pcid", pcid f); ("dca", dca f); ("sse4_1", sse4_1 f); ("sse4_2", sse4_2 f);
  ("x2apic", x2apic f); ("movbe", movbe f); ("popcnt", popcnt f); ("tsc_deadline", tsc_deadline f);
  ("aes", aes f); ("xsave", xsave f); ("osxsave", osxsave f); ("avx", avx f); ("f16c", f16c f);
  ("rdrand", rdrand f); ("hypervisor", hypervisor f); ("syscall", syscall f); ("mp", mp f); ("nx", nx f);
  ("mmxext", mmxext f); ("fxsr_opt", fxsr_opt f); ("pdpe1gb", pdpe1gb f); ("rdtscp", rdtscp f); ("lm", lm f);
  ("threednowext", threednowext f); ("threednow", threednow f); ("lahf_lm", lahf_lm f);
  ("cmp_legacy", cmp_legacy f); ("svm", svm f); ("extapic", extapic f); ("cr8_legacy", cr8_legacy f);
  ("abm", abm f); ("sse4a", sse4a f); ("misalignsse", misalignsse f);
  ("threednowprefetch", threednowprefetch f); ("osvw", osvw f); ("ibs", ibs f); ("xop", xop f);
  ("skinit", skinit f); ("wdt", wdt f); ("lwp", lwp f); ("fma4", fma4 f); ("tce", tce f);
  ("nodeid_msr", nodeid_msr f); ("tbm", tbm f); ("topoext", topoext f); ("perfctr_core", perfctr_core f);
  ("perfctr_nb", perfctr_nb f); ("bpext", bpext f); ("ptsc", ptsc f); ("perfctr_llc", perfctr_llc f);
  ("mwaitx", mwaitx f); ("fsgsbase", fsgsbase f); ("tsc_adjust", tsc_adjust f); ("sgx", sgx f);
  ("bmi1", bmi1 f); ("hle", hle f); ("avx2", avx2 f); ("fdp_excptn_only", fdp_excptn_only f);
  ("smep", smep f); ("bmi2", bmi2 f); ("rep_movsb_stosb", rep_movsb_stosb f); ("invpcid", invpcid f);
  ("rtm", rtm f); ("rdt_m", rdt_m f); ("dep_fpu_cs_ds", dep_fpu_cs_ds f); ("mpx", mpx f); ("rdt_a", rdt_a f);
  ("avx512f", avx512f f); ("avx512dq", avx512dq f); ("rdseed", rdseed f); ("adx", adx f); ("smap", smap f);
  ("avx512ifma", avx512ifma f); ("pcommit", pcommit f); ("clflushopt", clflushopt f); ("clwb", clwb f);
  ("intel_pt", intel_pt f); ("avx512pf", avx512pf f); ("avx512er", avx512er f); ("avx512cd", avx512cd f);
  ("sha", sha f); ("avx512bw", avx512bw f); ("avx512vl", avx512vl f); ("prefetchwt1", prefetchwt1 f);
  ("avx512vbmi", avx512vbmi f); ("umip", umip f); ("pku", pku f); ("ospke", ospke f); ("waitpkg", waitpkg f);
  ("avx512vbmi2", avx512vbmi2 f); ("cet_ss", cet_ss f); ("gfni", gfni f); ("vaes", vaes f);
  ("vpclmulqdq", vpclmulqdq f); ("avx512vnni", avx512vnni f); ("avx512bitalg", avx512bitalg f);
  ("tme", tme f); ("avx512vpopcntdq", avx512vpopcntdq f); ("la57", la57 f); ("rdpid", rdpid f);
  ("keylocker", keylocker f); ("bus_lock_detect", bus_lock_detect f); ("cldemote", cldemote f);
  ("movdiri", movdiri f); ("movdir64b", movdir64b f); ("enqcmd", enqcmd f); ("sgx_lc", sgx_lc f);
  ("pks", pks f)].

Definition flag (name : string) (f : CpuFeatures) : option bool :=
  snd <$> find (fun x => String.eqb x.1 name) (flags f).
(** The four bytes of a register, lowest first. *)
Definition reg_bytes (r : Z) : list Z :=
  [wrap 8 (r .& 0xFF); wrap 8 ((r .>> 8) .& 0xFF); wrap 8 ((r .>> 16) .& 0xFF); wrap 8 ((r .>> 24) .& 0xFF)].

(** The extended leaf is read only when the processor has it; its flags are
    otherwise left at their default. *)
Definition detect_cpu_features {C : Type} {regs : ControlRegs C} (c : C) : CpuFeatures :=
  let vendor_result := cpuid c 0 0 in
  let max_extended := eax (cpuid c 0x80000000 0) in
  let extended := 0x80000001 <=? max_extended in
  let xecx := ecx (cpuid c 0x80000001 0) in
  let xedx := edx (cpuid c 0x80000001 0) in
  let ecx1 := ecx (cpuid c 1 0) in
  let edx1 := edx (cpuid c 1 0) in
  let ebx7 := ebx (cpuid c 7 0) in
  let ecx7 := ecx (cpuid c 7 0) in
  {| vendor := reg_bytes (ebx vendor_result) ++ reg_bytes (edx vendor_result) ++ reg_bytes (ecx vendor_result);
    fpu := test_mask edx1 0; vme := test_mask edx1 1; de := test_mask edx1 2; pse := test_mask edx1 3;
    tsc := test_mask edx1 4; msr := test_mask edx1 5; pae := test_mask edx1 6; mce := test_mask edx1 7;
    cx8 := test_mask edx1 8; apic := test_mask edx1 9; sep := test_mask edx1 11; mtrr := test_mask edx1 12;
    pge := test_mask edx1 13; mca := test_mask edx1 14; cmov := test_mask edx1 15; pat := test_mask edx1 16;
    pse36 := test_mask edx1 17; psn := test_mask edx1 18; clfsh := test_mask edx1 19;
    ds := test_mask edx1 21; acpi := test_mask edx1 22; mmx := test_mask edx1 23; fxsr := test_mask edx1 24;
    sse := test_mask edx1 25; sse2 := test_mask edx1 26; ss := test_mask edx1 27; htt := test_mask edx1 28;
    tm := test_mask edx1 29; ia64 := test_mask edx1 30; pbe := test_mask edx1 31; sse3 := test_mask ecx1 0;
    pclmulqdq := test_mask ecx1 1; dtes64 := test_mask ecx1 2; monitor := test_mask ecx1 3;
    ds_cpl := test_mask ecx1 4; vmx := test_mask ecx1 5; smx := test_mask ecx1 6; est := test_mask ecx1 7;
    tm2 := test_mask ecx1 8; ssse3 := test_mask ecx1 9; cnxt_id := test_mask ecx1 10;
    sdbg := test_mask ecx1 11; fma := test_mask ecx1 12; cx16 := test_mask ecx1 13;
    xtpr := test_mask ecx1 14; pdcm := test_mask ecx1 15; pcid := test_mask ecx1 17;
    dca := test_mask ecx1 18; sse4_1 := test_mask ecx1 19; sse4_2 := test_mask ecx1 20;
    x2apic := test_mask ecx1 21; movbe := test_mask ecx1 22; popcnt := test_mask ecx1 23;
    tsc_deadline := test_mask ecx1 24; aes := test_mask ecx1 25; xsave := test_mask ecx1 26;
    osxsave := test_mask ecx1 27; avx := test_mask ecx1 28; f16c := test_mask ecx1 29;
    rdrand := test_mask ecx1 30; hypervisor := test_mask ecx1 31; syscall := extended && test_mask xedx 11;
    mp := extended && test_mask xedx 19; nx := extended && test_mask xedx 20;
    mmxext := extended && test_mask xedx 22; fxsr_opt := extended && test_mask xedx 25;
    pdpe1gb := extended && test_mask xedx 26; rdtscp := extended && test_mask xedx 27;
    lm := extended && test_mask xedx 29; threednowext := extended && test_mask xedx 30;
    threednow := extended && test_mask xedx 31; lahf_lm := extended && test_mask xecx 0;
    cmp_legacy := extended && test_mask xecx 1; svm := extended && test_mask xecx 2;
    extapic := extended && test_mask xecx 3; cr8_legacy := extended && test_mask xecx 4;
    abm := extended && test_mask xecx 5; sse4a := extended && test_mask xecx 6;
    misalignsse := extended && test_mask xecx 7; threednowprefetch := extended && test_mask xecx 8;
    osvw := extended && test_mask xecx 9; ibs := extended && test_mask xecx 10;
    xop := extended && test_mask xecx 11; skinit := extended && test_mask xecx 12;
    wdt := extended && test_mask xecx 13; lwp := extended && test_mask xecx 15;
    fma4 := extended && test_mask xecx 16; tce := extended && test_mask xecx 17;
    nodeid_msr := extended && test_mask xecx 19; tbm := extended && test_mask xecx 21;
    topoext := extended && test_mask xecx 22; perfctr_core := extended && test_mask xecx 23;
    perfctr_nb := extended && test_mask xecx 24; bpext := extended && test_mask xecx 26;
    ptsc := extended && test_mask xecx 27; perfctr_llc := extended && test_mask xecx 28;
    mwaitx := extended && test_mask xecx 29; fsgsbase := test_mask ebx7 0; tsc_adjust := test_mask ebx7 1;
    sgx := test_mask ebx7 2; bmi1 := test_mask ebx7 3; hle := test_mask ebx7 4; avx2 := test_mask ebx7 5;
    fdp_excptn_only := test_mask ebx7 6; smep := test_mask ebx7 7; bmi2 := test_mask ebx7 8;
    rep_movsb_stosb := test_mask ebx7 9; invpcid := test_mask ebx7 10; rtm := test_mask ebx7 11;
    rdt_m := test_mask ebx7 12; dep_fpu_cs_ds := test_mask ebx7 13; mpx := test_mask ebx7 14;
    rdt_a := test_mask ebx7 15; avx512f := test_mask ebx7 16; avx512dq := test_mask ebx7 17;
    rdseed := test_mask ebx7 18; adx := test_mask ebx7 19; smap := test_mask ebx7 20;
    avx512ifma := test_mask ebx7 21; pcommit := test_mask ebx7 22; clflushopt := test_mask ebx7 23;
    clwb := test_mask ebx7 24; intel_pt := test_mask ebx7 25; avx512pf := test_mask ebx7 26;
    avx512er := test_mask ebx7 27; avx512cd := test_mask ebx7 28; sha := test_mask ebx7 29;
    avx512bw := test_mask ebx7 30; avx512vl := test_mask ebx7 31; prefetchwt1 := test_mask ecx7 0;
    avx512vbmi := test_mask ecx7 1; umip := test_mask ecx7 2; pku := test_mask ecx7 3;
    ospke := test_mask ecx7 4; waitpkg := test_mask ecx7 5; avx512vbmi2 := test_mask ecx7 6;
    cet_ss := test_mask ecx7 7; gfni := test_mask ecx7 8; vaes := test_mask ecx7 9;
    vpclmulqdq := test_mask ecx7 10; avx512vnni := test_mask ecx7 11; avx512bitalg := test_mask ecx7 12;
    tme := test_mask ecx7 13; avx512vpopcntdq := test_mask ecx7 14; la57 := test_mask ecx7 15;
    rdpid := test_mask ecx7 16; keylocker := test_mask ecx7 17; bus_lock_detect := test_mask ecx7 18;
    cldemote := test_mask ecx7 19; movdiri := test_mask ecx7 20; movdir64b := test_mask ecx7 21;
    enqcmd := test_mask ecx7 22; sgx_lc := test_mask ecx7 23; pks := test_mask ecx7 24 |}.
End Features.
Export Features (CpuFeatures, MkFeatures, flags, flag, reg_bytes, detect_cpu_features).

(** ** Enabling *)

Section Enable.
Context {C FA MS P : Type} {regs : ControlRegs C} {io : PortIO P}.
Implicit Types (c : C) (w : ConWorld MS FA P) (f : CpuFeatures).

(** [Cr0Flags::remove], [insert] on the flags read, and writing them back. *)
Definition enable_sse c : C :=
  let cr0 := cr0_read c in
  let cr0 := cr0 .& lnotw 64 (1 .<< EMULATE_COPROCESSOR) in
  let cr0 := cr0 .| (1 .<< MONITOR_COPROCESSOR) in
  let c := cr0_write cr0 c in
  let cr4 := cr4_read c in
  let cr4 := cr4 .| ((1 .<< OSFXSR) .| (1 .<< OSXMMEXCPT_ENABLE)) in
  cr4_write cr4 c.

Definition say (s : string) w : outcome (ConWorld MS FA P) := println (str_bytes s) w.

(** [if features.x { println!(...) }], one after the other. *)
Definition report (x : bool * string) w : outcome (ConWorld MS FA P) :=
  let '(b, msg) := x in if b then say msg w else Ret w.

Definition on_con_ports (g : P -> P) w : ConWorld MS FA P :=
  MkCW (consoles w) (writer w) (set_vports (g (vports (vbe w))) (vbe w)).

Definition disable_pit_timer w : outcome (ConWorld MS FA P) :=
  let w := on_con_ports (outb 0x43 0x30) w in
  let w := on_con_ports (outb 0x40 0x00) w in
  let w := on_con_ports (outb 0x40 0x00) w in
  say "[CPU] Disabled PIT timer, switched to TSC timing" w.

Definition sse_messages f : list (bool * string) := [
  (Features.sse2 f, "[CPU] Enabled SSE2"); (Features.sse3 f, "[CPU] Enabled SSE3");
  (Features.ssse3 f, "[CPU] Enabled SSSE3"); (Features.sse4_1 f, "[CPU] Enabled SSE4.1");
  (Features.sse4_2 f, "[CPU] Enabled SSE4.2")].

Definition later_messages f : list (bool * string) := [
  (Features.avx2 f, "[CPU] Enabled AVX2"); (Features.f16c f, "[CPU] Enabled F16C");
  (Features.fma f, "[CPU] Enabled FMA"); (Features.avx512f f, "[CPU] Enabled AVX-512F");
  (Features.avx512dq f, "[CPU] Enabled AVX-512DQ"); (Features.avx512ifma f, "[CPU] Enabled AVX-512IFMA");
  (Features.avx512pf f, "[CPU] Enabled AVX-512PF"); (Features.avx512er f, "[CPU] Enabled AVX-512ER");
  (Features.avx512cd f, "[CPU] Enabled AVX-512CD"); (Features.avx512bw f, "[CPU] Enabled AVX-512BW");
  (Features.avx512vl f, "[CPU] Enabled AVX-512VL"); (Features.avx512vbmi f, "[CPU] Enabled AVX-512VBMI");
  (Features.avx512vbmi2 f, "[CPU] Enabled AVX-512VBMI2");
  (Features.avx512vnni f, "[CPU] Enabled AVX-512VNNI");
  (Features.avx512bitalg f, "[CPU] Enabled AVX-512BITALG");
  (Features.avx512vpopcntdq f, "[CPU] Enabled AVX-512VPOPCNTDQ"); (Features.mmx f, "[CPU] Enabled MMX");
  (Features.mmxext f, "[CPU] Enabled MMXEXT"); (Features.threednow f, "[CPU] Enabled 3DNow!");
  (Features.threednowext f, "[CPU] Enabled 3DNow!Ext"); (Features.aes f, "[CPU] Enabled AES");
  (Features.sha f, "[CPU] Enabled SHA"); (Features.rdrand f, "[CPU] Enabled RDRAND");
  (Features.rdseed f, "[CPU] Enabled RDSEED"); (Features.adx f, "[CPU] Enabled ADX");
  (Features.bmi1 f, "[CPU] Enabled BMI1"); (Features.bmi2 f, "[CPU] Enabled BMI2");
  (Features.popcnt f, "[CPU] Enabled POPCNT")].

Definition enable_avx c : outcome C :=
  let xcr0 := xcr0_read c in
  let xcr0 := xcr0 .| (1 .<< AVX) in
  xcr0_write xcr0 c.

Definition sse_step f c w : outcome (C * ConWorld MS FA P) :=
  if Features.sse f then
    let c := enable_sse c in
    let! w := say "[CPU] Enabled SSE" w in Ret (c, w)
  else Ret (c, w).

Definition tsc_step f w : outcome (ConWorld MS FA P) :=
  if Features.tsc f then
    let! w := say "[CPU] Enabled TSC" w in disable_pit_timer w
  else Ret w.

Definition avx_step f c w : outcome (C * ConWorld MS FA P) :=
  if Features.avx f && Features.osxsave f then
    let! c := enable_avx c in
    let! w := say "[CPU] Enabled AVX" w in Ret (c, w)
  else Ret (c, w).

Definition enable_cpu_features f c w : outcome (C * ConWorld MS FA P) :=
  let! (c, w) := sse_step f c w in
  let! w := tsc_step f w in
  let! w := for_each report (sse_messages f) w in
  let! (c, w) := avx_step f c w in
  let! w := for_each report (later_messages f) w in
  Ret (c, w).
End Enable.

(** ** The architecture

    The bit of every feature as the processor manuals define it (CPUID leaf,
    register, bit). *)

Inductive reg : Type := RBX | RCX | RDX.

#[export] Instance reg_eq_dec : EqDecision reg.
Proof. solve_decision. Defined.

Definition reg_of (r : reg) (x : CpuidResult) : Z :=
  match r with RBX => ebx x | RCX => ecx x | RDX => edx x end.

Definition in_register (leaf : Z) (r : reg) (l : list (string * Z)) : list (string * Z * reg * Z) :=
  (fun '(name, b) => (name, leaf, r, b)) <$> l.

Definition architecture : list (string * Z * reg * Z) :=
  in_register 1 RDX [
    ("fpu", 0); ("vme", 1); ("de", 2); ("pse", 3); ("tsc", 4); ("msr", 5); ("pae", 6); ("mce", 7);
    ("cx8", 8); ("apic", 9); ("sep", 11); ("mtrr", 12); ("pge", 13); ("mca", 14); ("cmov", 15); ("pat", 16);
    ("pse36", 17); ("psn", 18); ("clfsh", 19); ("ds", 21); ("acpi", 22); ("mmx", 23); ("fxsr", 24);
    ("sse", 25); ("sse2", 26); ("ss", 27); ("htt", 28); ("tm", 29); ("ia64", 30); ("pbe", 31)] ++
  in_register 1 RCX [
    ("sse3", 0); ("pclmulqdq", 1); ("dtes64", 2); ("monitor", 3); ("ds_cpl", 4); ("vmx", 5); ("smx", 6);
    ("est", 7); ("tm2", 8); ("ssse3", 9); ("cnxt_id", 10); ("sdbg", 11); ("fma", 12); ("cx16", 13);
    ("xtpr", 14); ("pdcm", 15); ("pcid", 17); ("dca", 18); ("sse4_1", 19); ("sse4_2", 20); ("x2apic", 21);
    ("movbe", 22); ("popcnt", 23); ("tsc_deadline", 24); ("aes", 25); ("xsave", 26); ("osxsave", 27);
    ("avx", 28); ("f16c", 29); ("rdrand", 30); ("hypervisor", 31)] ++
  in_register 0x80000001 RDX [
    ("syscall", 11); ("mp", 19); ("nx", 20); ("mmxext", 22); ("fxsr_opt", 25); ("pdpe1gb", 26);
    ("rdtscp", 27); ("lm", 29); ("threednowext", 30); ("threednow", 31)] ++
  in_register 0x80000001 RCX [
    ("lahf_lm", 0); ("cmp_legacy", 1); ("svm", 2); ("extapic", 3); ("cr8_legacy", 4); ("abm", 5);
    ("sse4a", 6); ("misalignsse", 7); ("threednowprefetch", 8); ("osvw", 9); ("ibs", 10); ("xop", 11);
    ("skinit", 12); ("wdt", 13); ("lwp", 15); ("fma4", 16); ("tce", 17); ("nodeid_msr", 19); ("tbm", 21);
    ("topoext", 22); ("perfctr_core", 23); ("perfctr_nb", 24); ("bpext", 26); ("ptsc", 27);
    ("perfctr_llc", 28); ("mwaitx", 29)] ++
  in_register 7 RBX [
    ("fsgsbase", 0); ("tsc_adjust", 1); ("sgx", 2); ("bmi1", 3); ("hle", 4); ("avx2", 5);
    ("fdp_excptn_only", 6); ("smep", 7); ("bmi2", 8); ("rep_movsb_stosb", 9); ("invpcid", 10); ("rtm", 11);
    ("rdt_m", 12); ("dep_fpu_cs_ds", 13); ("mpx", 14); ("rdt_a", 15); ("avx512f", 16); ("avx512dq", 17);
    ("rdseed", 18); ("adx", 19); ("smap", 20); ("avx512ifma", 21); ("pcommit", 22); ("clflushopt", 23);
    ("clwb", 24); ("intel_pt", 25); ("avx512pf", 26); ("avx512er", 27); ("avx512cd", 28); ("sha", 29);
    ("avx512bw", 30); ("avx512vl", 31)] ++
  in_register 7 RCX [
    ("prefetchwt1", 0); ("avx512vbmi", 1); ("umip", 2); ("pku", 3); ("ospke", 4); ("waitpkg", 5);
    ("avx512vbmi2", 6); ("cet_ss", 7); ("gfni", 8); ("vaes", 9); ("vpclmulqdq", 10); ("avx512vnni", 11);
    ("avx512bitalg", 12); ("tme", 13); ("avx512vpopcntdq", 14); ("la57", 16); ("rdpid", 22);
    ("keylocker", 23); ("bus_lock_detect", 24); ("cldemote", 25); ("movdiri", 27); ("movdir64b", 28);
    ("enqcmd", 29); ("sgx_lc", 30); ("pks", 31)].

(** The features whose bit the source has wrong, from bit 15 of its list on. *)
Definition misplaced : list string :=
  ["la57"; "rdpid"; "keylocker"; "bus_lock_detect"; "cldemote"; "movdiri"; "movdir64b"; "enqcmd"; "sgx_lc"; "pks"].

(** Whether the processor has the leaf, as the source asks: only for the extended one. *)
Definition has_leaf {C : Type} {regs : ControlRegs C} (c : C) (leaf : Z) : bool :=
  if leaf =? 0x80000001 then 0x80000001 <=? eax (cpuid c 0x80000000 0) else true.

(** ** Lemmas: detection *)

(** Where the source reads each feature. *)
Definition source_bit (name : string) (b : Z) : Z :=
  match list_find (fun m => m = name) misplaced with Some (k, _) => 15 + Z.of_nat k | None => b end.

Lemma flag_lookup (l : list (string * bool)) name b :
  NoDup (fst <$> l) -> (name, b) ∈ l -> snd <$> find (fun x => String.eqb x.1 name) l = Some b.
Proof.
  induction l as [|[n v] l IH]; intros Hnd Hin; [by apply not_elem_of_nil in Hin|].
  cbn in Hnd. apply NoDup_cons in Hnd as [Hn Hnd]. cbn [find fst].
  apply elem_of_cons in Hin as [[= <- <-]|Hin]; [by rewrite String.eqb_refl|].
  destruct (String.eqb_spec n name) as [->|]; [|by apply IH].
  destruct Hn. by apply (list_elem_of_fmap_2 fst l (name, b)).
Qed.

Section DetectLemmas.
Context {C : Type} {regs : ControlRegs C}.
Implicit Types c : C.

Definition source_value c (x : string * Z * reg * Z) : string * bool :=
  let '(name, leaf, r, b) := x in
  (name, has_leaf c leaf && test_mask (reg_of r (cpuid c leaf 0)) (source_bit name b)).

Lemma flags_detect c : flags (detect_cpu_features c) = source_value c <$> architecture.
Proof. reflexivity. Qed.

Lemma architecture_names c : NoDup (fst <$> flags (detect_cpu_features c)).
Proof.
  rewrite flags_detect. change (fst <$> (source_value c <$> architecture)) with ((fun x => x.1.1.1) <$> architecture).
  apply (bool_decide_unpack _). vm_compute. exact I.
Qed.

Lemma flag_detect c name leaf r b :
  (name, leaf, r, b) ∈ architecture ->
  flag name (detect_cpu_features c) =
    Some (has_leaf c leaf && Z.testbit (reg_of r (cpuid c leaf 0)) (source_bit name b)).
Proof.
  intros Hin. unfold flag.
  assert (0 <= source_bit name b) as Hb.
  { unfold source_bit. destruct (list_find _ misplaced) as [[k ?]|]; [lia|].
    assert (Forall (fun x => 0 <= x.2) architecture) as Hall by (apply (bool_decide_unpack _); vm_compute; exact I).
    rewrite Forall_forall in Hall. apply (Hall _ Hin). }
  rewrite <- test_mask_testbit by done. apply flag_lookup; [apply architecture_names|].
  rewrite flags_detect. apply list_elem_of_fmap. by exists (name, leaf, r, b).
Qed.
End DetectLemmas.

(** ** Lemmas: enabling *)

Definition pit_event (e : port_event) : bool :=
  match e with Out _ port _ | In _ port _ => (0x40 <=? port) && (port <=? 0x43) end.

(** The commands that stop channel 0 of the PIT: mode 0, count 0. *)
Definition pit_off : list port_event := [Out 8 0x43 0x30; Out 8 0x40 0; Out 8 0x40 0].

Section EnableLemmas.
Context {C FA MS P : Type} {regs : ControlRegs C} {spec : ControlRegsSpec C} {io : PortIO P}.
Implicit Types (c : C) (w : ConWorld MS FA (traced P)) (f : CpuFeatures).

Definition pit_log w : list port_event := filter pit_event (con_log w).

(** The boot screen after messages: nothing was sent to the PIT. *)
Lemma printed_pit w w' : printed w w' -> pit_log w' = pit_log w.
Proof.
  intros (_ & _ & _ & es & Hl & He). unfold pit_log. rewrite Hl, filter_app, (filter_cursor pit_event es) by done.
  apply app_nil_r.
Qed.

Lemma say_boot s w : boot_screen w -> exists w', say s w = Ret w' /\ printed w w'.
Proof.
  intros Hb. unfold say, println. destruct (print_boot (str_bytes s ++ [10]) w Hb) as (w' & H & _ & Hp). by exists w'.
Qed.

Lemma report_boot ms w : boot_screen w -> exists w', for_each report ms w = Ret w' /\ printed w w'.
Proof.
  revert w. induction ms as [|[b m] ms IH]; intros w Hb; cbn [for_each].
  { exists w. split; [done|]. by apply printed_refl. }
  assert (exists w', report (b, m) w = Ret w' /\ printed w w') as (w1 & -> & H1).
  { cbn. destruct b; [by apply say_boot|]. exists w. split; [done|]. by apply printed_refl. }
  cbn [outcome_bind]. destruct (IH w1) as (w2 & -> & H2); [apply H1|]. exists w2. split; [done|]. by eapply printed_trans.
Qed.

Lemma disable_pit_boot w :
  boot_screen w ->
  exists w', disable_pit_timer w = Ret w' /\ boot_screen w' /\ pit_log w' = pit_log w ++ pit_off /\
    exists p, vbe w' = set_vports p (vbe w).
Proof.
  intros Hb. unfold disable_pit_timer.
  destruct (say_boot "[CPU] Disabled PIT timer, switched to TSC timing"
    (on_con_ports (outb 0x40 0x00) (on_con_ports (outb 0x40 0x00) (on_con_ports (outb 0x43 0x30) w)))) as (w' & -> & Hp).
  { exact Hb. }
  exists w'. split; [done|]. split; [apply Hp|]. split; [|destruct Hp as (_ & _ & (p & ->) & _); by exists p].
  rewrite (printed_pit _ _ Hp). unfold pit_log, con_log. cbn.
  by rewrite <- !app_assoc, filter_app.
Qed.

(** [enable_sse] on the registers. *)
Lemma enable_sse_spec c :
  cr0_read (enable_sse c) = (cr0_read c .& lnotw 64 (1 .<< EMULATE_COPROCESSOR)) .| (1 .<< MONITOR_COPROCESSOR) /\
  cr4_read (enable_sse c) = cr4_read c .| ((1 .<< OSFXSR) .| (1 .<< OSXMMEXCPT_ENABLE)) /\
  xcr0_read (enable_sse c) = xcr0_read c.
Proof.
  unfold enable_sse. set (v0 := _ .| (1 .<< MONITOR_COPROCESSOR)).
  assert (v0 .& cr0_known = v0) as H0.
  { apply Z.bits_inj'. intros n Hn. unfold v0. rewrite Z.land_spec, !Z.lor_spec, !Z.land_spec.
    rewrite <- (cr0_read_known c), Z.land_spec.
    rewrite (Z.shiftl_1_l MONITOR_COPROCESSOR), Z.pow2_bits_eqb by (unfold MONITOR_COPROCESSOR; lia).
    destruct (Z.eqb_spec MONITOR_COPROCESSOR n) as [<-|]; [by rewrite cr0_known_bits, !orb_true_r|]. btauto. }
  destruct (cr0_write_spec v0 c H0) as (R0 & R4 & Rx). rewrite R4.
  set (v4 := _ .| (_ .| _)).
  assert (v4 .& cr4_known = v4) as H4.
  { apply Z.bits_inj'. intros n Hn. unfold v4. rewrite Z.land_spec, !Z.lor_spec, !Z.shiftl_1_l.
    rewrite <- (cr4_read_known c), Z.land_spec, !Z.pow2_bits_eqb by (unfold OSFXSR, OSXMMEXCPT_ENABLE; lia).
    destruct cr4_known_bits as [K1 K2].
    destruct (Z.eqb_spec OSFXSR n) as [<-|]; [by rewrite K1, !orb_true_r|].
    destruct (Z.eqb_spec OSXMMEXCPT_ENABLE n) as [<-|]; [by rewrite K2, !orb_true_r|]. btauto. }
  destruct (cr4_write_spec v4 (cr0_write v0 c) H4) as (S4 & S0 & Sx). rewrite S4, S0, Sx. done.
Qed.

Lemma sse_step_boot f c w :
  boot_screen w ->
  exists w', sse_step f c w = Ret (if Features.sse f then enable_sse c else c, w') /\ printed w w'.
Proof.
  intros Hb. unfold sse_step. destruct (Features.sse f).
  - destruct (say_boot "[CPU] Enabled SSE" w Hb) as (w1 & -> & P1). by exists w1.
  - exists w. split; [done|]. by apply printed_refl.
Qed.

Lemma tsc_step_boot f w :
  boot_screen w ->
  exists w', tsc_step f w = Ret w' /\ boot_screen w' /\
    pit_log w' = pit_log w ++ (if Features.tsc f then pit_off else []) /\ exists p, vbe w' = set_vports p (vbe w).
Proof.
  intros Hb. unfold tsc_step.
  destruct (Features.tsc f); [|exists w; rewrite app_nil_r; split_and!; [done..|apply (printed_refl w Hb)]].
  destruct (say_boot "[CPU] Enabled TSC" w Hb) as (w1 & -> & P1). cbn [outcome_bind].
  destruct (disable_pit_boot w1) as (w2 & -> & B2 & L2 & p & V2); [apply P1|].
  exists w2. rewrite L2, (printed_pit _ _ P1). split_and!; [done..|]. exists p.
  destruct P1 as (_ & _ & (p1 & E1) & _). by rewrite V2, E1.
Qed.

Lemma avx_step_boot f c w :
  boot_screen w -> (Features.avx f && Features.osxsave f = true -> Z.testbit (xcr0_read c) SSE = true) ->
  exists c' w', avx_step f c w = Ret (c', w') /\ printed w w' /\
    cr0_read c' = cr0_read c /\ cr4_read c' = cr4_read c /\
    xcr0_read c' = if Features.avx f && Features.osxsave f then xcr0_read c .| (1 .<< AVX) else xcr0_read c.
Proof.
  intros Hb Hx. unfold avx_step.
  destruct (Features.avx f && Features.osxsave f); [|by exists c, w; split; [|split; [apply printed_refl|]]].
  unfold enable_avx. pose proof (xcr0_write_spec (xcr0_read c .| (1 .<< AVX)) c) as Hw.
  rewrite xcr0_valid_avx, Hx in Hw by (done || apply xcr0_read_valid).
  destruct Hw as (c' & -> & H1 & H2 & H3). cbn [outcome_bind].
  destruct (say_boot "[CPU] Enabled AVX" w Hb) as (w' & -> & P'). by exists c', w'.
Qed.
End EnableLemmas.

(** ** Properties *)

Lemma reg_bytes_decode r : le_decode (reg_bytes r) = wrap 32 r.
Proof.
  unfold reg_bytes. change 0xFF with (2 ^ 8 - 1). rewrite !land_ones_mod, !Z.shiftr_div_pow2 by lia.
  unfold wrap. cbn [le_decode]. rewrite !Zmod_mod.
  change (2 ^ 8) with 256. change (2 ^ 16) with 65536. change (2 ^ 24) with 16777216. change (2 ^ 32) with 4294967296.
  zdiv.
Qed.

(** C18: feature detection against the architecture: of the 154 flags, every flag but
    ten equals the CPUID bit the processor manuals define for it (and is false when
    its extended leaf is missing); the remaining ten, from [la57] to [pks], take
    the bits 15 to 24 of leaf 7 ECX instead of their own. The vendor string is the
    twelve bytes of EBX, EDX and ECX of leaf 0. *)
Theorem detect_reads_architecture {C : Type} {regs : ControlRegs C} (c : C) :
  let f := detect_cpu_features c in
  Forall (fun '(name, leaf, r, b) =>
      flag name f = Some (has_leaf c leaf && Z.testbit (reg_of r (cpuid c leaf 0)) b))
    (filter (fun x => x.1.1.1 ∉ misplaced) architecture) /\
  (fun name => flag name f) <$> misplaced = (fun b => Some (Z.testbit (ecx (cpuid c 7 0)) b)) <$> seqZ 15 10 /\
  fst <$> flags f = (fun x => x.1.1.1) <$> architecture /\
  length (flags f) = 154%nat /\ length (Features.vendor f) = 12%nat /\
  le_decode (Features.vendor f) =
    wrap 32 (ebx (cpuid c 0 0)) + 2 ^ 32 * (wrap 32 (edx (cpuid c 0 0)) + 2 ^ 32 * wrap 32 (ecx (cpuid c 0 0))).
Proof.
  intros f. split_and!; [| |reflexivity|reflexivity|reflexivity|].
  - apply Forall_forall. intros [[[name leaf] r] b] [Hm Hin]%list_elem_of_filter. cbn [fst] in Hm.
    unfold f. rewrite (flag_detect c name leaf r b Hin). do 3 f_equal. unfold source_bit.
    destruct (list_find _ misplaced) as [[k m]|] eqn:E; [|done].
    apply list_find_Some in E as (E & -> & _). destruct Hm. by eapply list_elem_of_lookup_2.
  - cbn [misplaced fmap list_fmap]. unfold f.
    rewrite (flag_detect c "la57" 7 RCX 16), (flag_detect c "rdpid" 7 RCX 22), (flag_detect c "keylocker" 7 RCX 23),
      (flag_detect c "bus_lock_detect" 7 RCX 24), (flag_detect c "cldemote" 7 RCX 25), (flag_detect c "movdiri" 7 RCX 27),
      (flag_detect c "movdir64b" 7 RCX 28), (flag_detect c "enqcmd" 7 RCX 29), (flag_detect c "sgx_lc" 7 RCX 30),
      (flag_detect c "pks" 7 RCX 31) by (apply (bool_decide_unpack _); vm_compute; exact I).
    reflexivity.
  - change (Features.vendor f) with
      (reg_bytes (ebx (cpuid c 0 0)) ++ reg_bytes (edx (cpuid c 0 0)) ++ reg_bytes (ecx (cpuid c 0 0))).
    rewrite <- !reg_bytes_decode. unfold reg_bytes. cbn [app le_decode].
    change (2 ^ 32) with 4294967296. lia.
Qed.

Lemma enable_cpu_features_spec {C FA MS P : Type} {regs : ControlRegs C} {spec : ControlRegsSpec C}
    {io : PortIO P} f (c : C) (w : ConWorld MS FA (traced P)) :
  boot_screen w ->
  (Features.avx f && Features.osxsave f = true -> Z.testbit (xcr0_read c) SSE = true) ->
  exists c' w', enable_cpu_features f c w = Ret (c', w') /\ boot_screen w' /\ (exists p, vbe w' = set_vports p (vbe w)) /\
    pit_log w' = pit_log w ++ (if Features.tsc f then pit_off else []) /\
    forall i, 0 <= i < 64 ->
      Z.testbit (cr0_read c') i =
        (if Features.sse f && (i =? EMULATE_COPROCESSOR) then false
         else Features.sse f && (i =? MONITOR_COPROCESSOR) || Z.testbit (cr0_read c) i) /\
      Z.testbit (cr4_read c') i =
        (Features.sse f && ((i =? OSFXSR) || (i =? OSXMMEXCPT_ENABLE)) || Z.testbit (cr4_read c) i) /\
      Z.testbit (xcr0_read c') i =
        (Features.avx f && Features.osxsave f && (i =? AVX) || Z.testbit (xcr0_read c) i).
Proof.
  intros Hb Hx. unfold enable_cpu_features. destruct (enable_sse_spec c) as (S0 & S4 & Sx).
  destruct (sse_step_boot f c w Hb) as (w1 & -> & P1). cbn [outcome_bind].
  set (c1 := if Features.sse f then enable_sse c else c).
  assert (xcr0_read c1 = xcr0_read c) as Ex by (unfold c1; by destruct (Features.sse f)).
  destruct (tsc_step_boot f w1) as (w2 & -> & B2 & L2 & p2 & E2); [apply P1|]. cbn [outcome_bind].
  destruct (report_boot (sse_messages f) w2 B2) as (w3 & -> & P3). cbn [outcome_bind].
  destruct (avx_step_boot f c1 w3) as (c4 & w4 & -> & P4 & R0 & R4 & Rx); [apply P3|by rewrite Ex|]. cbn [outcome_bind].
  destruct (report_boot (later_messages f) w4) as (w5 & -> & P5); [apply P4|]. cbn [outcome_bind].
  exists c4, w5. split_and!; [done|apply P5| | |].
  { destruct P1 as (_ & _ & (p1 & E1) & _), P3 as (_ & _ & (p3 & E3) & _),
      P4 as (_ & _ & (p4 & E4) & _), P5 as (_ & _ & (p5 & E5) & _).
    exists p5. by rewrite E5, E4, E3, E2, E1. }
  { by rewrite (printed_pit _ _ P5), (printed_pit _ _ P4), (printed_pit _ _ P3), L2, (printed_pit _ _ P1). }
  intros i Hi. rewrite R0, R4, Rx, Ex. unfold c1.
  destruct (Features.sse f), (Features.avx f && Features.osxsave f); rewrite ?S0, ?S4; cbn [andb orb];
    rewrite ?Z.lor_spec, ?Z.land_spec, ?Z.lor_spec, ?lnotw_testbit, ?Z.shiftl_1_l, ?Z.pow2_bits_eqb by (done || lia);
    unfold EMULATE_COPROCESSOR, MONITOR_COPROCESSOR, OSFXSR, OSXMMEXCPT_ENABLE, AVX; split_and!; try done; case_bools;
    try lia; try done; btauto.
Qed.

(** Enabling the features on the boot screen never panics (given that the SSE
    state is enabled in XCR0 when AVX is to be): with SSE, CR0 loses EM and gains
    MP and CR4 gains OSFXSR and OSXMMEXCPT; with AVX and OSXSAVE, XCR0 gains AVX;
    every other bit of the three registers keeps its value, and the PIT is stopped
    exactly when the TSC takes over. *)
Theorem enable_cpu_features_registers {C FA MS P : Type} {regs : ControlRegs C} {spec : ControlRegsSpec C}
    {io : PortIO P} f (c : C) (w : ConWorld MS FA (traced P)) :
  boot_screen w ->
  (Features.avx f && Features.osxsave f = true -> Z.testbit (xcr0_read c) SSE = true) ->
  exists c' w', enable_cpu_features f c w = Ret (c', w') /\ boot_screen w' /\
    pit_log w' = pit_log w ++ (if Features.tsc f then pit_off else []) /\
    forall i, 0 <= i < 64 ->
      Z.testbit (cr0_read c') i =
        (if Features.sse f && (i =? EMULATE_COPROCESSOR) then false
         else Features.sse f && (i =? MONITOR_COPROCESSOR) || Z.testbit (cr0_read c) i) /\
      Z.testbit (cr4_read c') i =
        (Features.sse f && ((i =? OSFXSR) || (i =? OSXMMEXCPT_ENABLE)) || Z.testbit (cr4_read c) i) /\
      Z.testbit (xcr0_read c') i =
        (Features.avx f && Features.osxsave f && (i =? AVX) || Z.testbit (xcr0_read c) i).
Proof.
  intros Hb Hx. destruct (enable_cpu_features_spec f c w Hb Hx) as (c' & w' & H & Hb' & _ & Hl & Hr).
  by exists c', w'.
Qed.

(** ** Witnesses *)

#[local] Existing Instance const_ports_io.

(** Three registers that hold what is written, and a CPUID table. *)
Record sample_cpu : Type := MkCpu { s_cpuid : Z -> CpuidResult; s_cr0 : Z; s_cr4 : Z; s_xcr0 : Z }.

Definition s_valid (v : Z) : bool := negb (Z.testbit v AVX) || Z.testbit v SSE.

#[local] Instance sample_regs : ControlRegs sample_cpu := {|
  cpuid c leaf _ := s_cpuid c leaf;
  cr0_read c := s_cr0 c .& 0xFFFF;
  cr0_write v c := MkCpu (s_cpuid c) v (s_cr4 c) (s_xcr0 c);
  cr4_read c := s_cr4 c .& 0xFFFF;
  cr4_write v c := MkCpu (s_cpuid c) (s_cr0 c) v (s_xcr0 c);
  xcr0_read c := if s_valid (s_xcr0 c) then s_xcr0 c else 1;
  xcr0_write v c :=
    if s_valid v then Ret (MkCpu (s_cpuid c) (s_cr0 c) (s_cr4 c) v)
    else Panic "AVX cannot be enabled without enabling SSE"
|}.

#[refine, local] Instance sample_regs_spec : ControlRegsSpec sample_cpu := {|
  cr0_known := 0xFFFF; cr4_known := 0xFFFF; xcr0_valid := s_valid
|}.
Proof.
  - reflexivity.
  - split; reflexivity.
  - intros c. cbn. by rewrite <- Z.land_assoc, Z.land_diag.
  - intros c. cbn. by rewrite <- Z.land_assoc, Z.land_diag.
  - intros c. cbn. by destruct (s_valid (s_xcr0 c)) eqn:E.
  - intros v c Hv. cbn. by rewrite Hv.
  - intros v c Hv. cbn. by rewrite Hv.
  - intros v _. unfold s_valid. rewrite !Z.lor_spec.
    change (Z.testbit (1 .<< AVX) AVX) with true. change (Z.testbit (1 .<< AVX) SSE) with false.
    by rewrite orb_true_r, orb_false_r.
  - intros v c. cbn. destruct (s_valid v) eqn:E; [|by eexists]. eexists. split; [done|]. cbn. by rewrite E.
Defined.

(** A processor with SSE, AVX, OSXSAVE and a TSC; CR0 has EM set. *)
Definition sample_cpuid (leaf : Z) : CpuidResult :=
  if leaf =? 1 then MkCpuid 0 0 0x18000000 0x02000010 else MkCpuid 0 0 0x10000 0.

Definition sample_processor : sample_cpu := MkCpu sample_cpuid 0x5 0x20 0x3.

Lemma enable_cpu_features_registers_witness :
  exists c' w', enable_cpu_features (detect_cpu_features sample_processor) sample_processor sample_boot = Ret (c', w') /\
    pit_log w' = pit_off /\ Z.testbit (cr0_read c') EMULATE_COPROCESSOR = false /\
    Z.testbit (xcr0_read c') AVX = true.
Proof.
  destruct (enable_cpu_features_registers (detect_cpu_features sample_processor) sample_processor sample_boot)
    as (c' & w' & H & _ & Hl & Hr).
  - exact sample_boot_screen.
  - reflexivity.
  - exists c', w'. split_and!; [exact H|exact Hl| |].
    + destruct (Hr EMULATE_COPROCESSOR) as (-> & _); [unfold EMULATE_COPROCESSOR; lia|reflexivity].
    + destruct (Hr AVX) as (_ & _ & ->); [unfold AVX; lia|reflexivity].
Defined.

(** On this processor, which has five-level paging (leaf 7 ECX bit 16) and no
    RDPID, the flags say the opposite. *)
Example la57_read_as_rdpid :
  flag "la57" (detect_cpu_features sample_processor) = Some false /\
  flag "rdpid" (detect_cpu_features sample_processor) = Some true.
Proof. split; reflexivity. Qed.
