(* ===== verification/TscTimer.v ===== *)
(** * TscTimer: the TSC-deadline timer of [src/arch/tsc_timer.rs]

    [rdtsc], [write_msr], the timer's interrupt handler and [init]: the feature
    test, mapping the HPET's main counter, calibrating the TSC against it, and
    arming the first deadline. The time-stamp counter, the model-specific registers
    and the memory-mapped HPET are operations on the machine state; [ClockSpec]
    says that both counters advance with time. The wait for the HPET runs with
    fuel: 1001 rounds are enough when the counter advances, and no fuel is when it
    is stopped. *)

From S2P Require Import Prelude External Device Manager Ports Acpi Ioapic Interrupts VgaText Vbe Console Processor.

Local Open Scope Z_scope.

(** ** The hardware *)

Class TscHw (D : Type) : Type := {
  rdtsc_op : D -> (Z * Z) * D;              (* EDX, EAX *)
  wrmsr_op : Z -> Z -> Z -> D -> D;         (* ECX, EAX, EDX *)
  mmio_read64 : Z -> D -> Z * D
}.

Definition IA32_TSC_DEADLINE : Z := 0x6E0.
Definition HPET_MAIN_COUNTER_OFFSET : Z := 0xF0.
Definition PERIOD_CYCLES_init : Z := 10000000.

Definition tsc_handler : Handler := driver_handler "tsc_timer_handler".

(** [u128::saturating_mul] *)
Definition sat_mul_u128 (x y : Z) : Z := Z.min (2 ^ 128 - 1) (x * y).

Section Timer.
Context {D PS : Type} {tsc : TscHw D} {hw : Mmio D} {pics : Pics PS}.
Implicit Types (d : D).

Definition rdtsc d : Z * D :=
  let '((high, low), d) := rdtsc_op d in ((high .<< 32) .| low, d).

Definition write_msr (msr val : Z) d : D :=
  let low := wrap 32 val in
  let high := wrap 32 (val .>> 32) in
  wrmsr_op msr low high d.

(** Programming the next deadline, one period from now. *)
Definition arm (period : Z) d : D :=
  let '(now, d) := rdtsc d in
  let next := now +64 period in
  write_msr IA32_TSC_DEADLINE next d.

Definition tsc_timer_handler (period : Z) (l : Lapic D) (ps : PS) : Lapic D * PS :=
  let d := arm period (lapic_hw l) in
  end_of_interrupt (as_u8 Timer) (MkLapic (lapic_base l) d) ps.

(** ** Calibration *)

(** [while read_volatile(main_virt).wrapping_sub(h1) < 1000 { nop }] *)
Fixpoint wait_hpet (fuel : nat) (main_virt h1 : Z) d : option D :=
  match fuel with
  | O => None
  | S fuel =>
      let '(h, d) := mmio_read64 main_virt d in
      if wrap 64 (h - h1) <? 1000 then wait_hpet fuel main_virt h1 d else Some d
  end.

(** The period for the two differences, or the old one. *)
Definition calibrated (hdelta tdelta period_fs desired_ms old : Z) : outcome Z :=
  if hdelta =? 0 then Ret old else
  let num := sat_mul_u128 tdelta 1000000000000000 in
  let den := sat_mul_u128 hdelta period_fs in
  if den =? 0 then Ret old else
  let tsc_hz := num / den in
  let! p := checked_mul 128 tsc_hz desired_ms in
  let cycles := p / 1000 in
  if 0 <? cycles then Ret (wrap 64 cycles) else Ret old.

Definition calibrate (fuel : nat) (main_virt period_fs desired_ms old : Z) d : outcome (Z * D) :=
  let '(h1, d) := mmio_read64 main_virt d in
  let '(t1, d) := rdtsc d in
  match wait_hpet fuel main_virt h1 d with
  | None => Panic "fuel"
  | Some d =>
      let '(h2, d) := mmio_read64 main_virt d in
      let '(t2, d) := rdtsc d in
      let hdelta := wrap 64 (h2 - h1) in
      let tdelta := wrap 64 (t2 - t1) in
      let! period := calibrated hdelta tdelta period_fs desired_ms old in
      Ret (period, d)
  end.

(** ** Initialisation *)

Section Init.
Context {paging : X86Paging} {FA MS C : Type} {ops : FrameAllocator FA} {spec : FrameAllocatorSpec FA}
  {mapper : Mapper FA MS} {regs : ControlRegs C} {x86 : X86Idt}.

(** [translate_addr(..).is_some()] *)
Definition is_mapped (ms : MS) (a : Z) : bool :=
  match translate ms (page_start_address (page_containing_address a)) with Some _ => true | None => false end.

(** The mapping loop; [false] when [map_to] fails. *)
Fixpoint map_hpet (is_ : list Z) (page_start phys_offset : Z) (ms : MS) (fa : FA) : bool * (MS * FA) :=
  match is_ with
  | [] => (true, (ms, fa))
  | i :: is_ =>
      let phys_page := page_start + i * 0x1000 in
      let virt_page_addr := phys_offset +64 phys_page in
      if is_mapped ms virt_page_addr then map_hpet is_ page_start phys_offset ms fa else
      let page := page_containing_address virt_page_addr in
      let flags := PRESENT .| WRITABLE in
      match map_to page (frame_containing_address phys_page) flags ms fa with
      | (Ok _, (ms, fa)) => map_hpet is_ page_start phys_offset (flush page ms) fa
      | (Err _, (ms, fa)) => (false, (ms, fa))
      end
  end.

Record TimerWorld : Type := MkTimer {
  t_mapper : MS; t_alloc : FA; t_idt : option Idt; period_cycles : Z; t_hw : D
}.

(** The HPET part: [false] is the early return. *)
Definition use_hpet (fuel : nat) (a : AcpiState) (phys_offset desired_ms : Z) (w : TimerWorld)
    : outcome (bool * TimerWorld) :=
  match get_hpet_address a with
  | Some hpet_base =>
      if hpet_base <? 0x100000000 then
        let main_phys := hpet_base + HPET_MAIN_COUNTER_OFFSET in
        let page_start := main_phys .& lnotw 64 0xFFF in
        let offset_in_page := main_phys .& 0xFFF in
        let needed := (offset_in_page + 8 + 0xFFF) / 0x1000 in
        let '(ok, (ms, fa)) := map_hpet (seqZ 0 needed) page_start phys_offset (t_mapper w) (t_alloc w) in
        let w := MkTimer ms fa (t_idt w) (period_cycles w) (t_hw w) in
        if negb ok then Ret (false, w) else
        let! main_virt := checked_add 64 main_phys phys_offset in
        let period_fs := get_hpet_period_fs a in
        if negb (period_fs =? 0) then
          let! (period, d) := calibrate fuel main_virt period_fs desired_ms (period_cycles w) (t_hw w) in
          Ret (true, MkTimer ms fa (t_idt w) period d)
        else Ret (true, w)
      else Ret (true, w)
  | None => Ret (true, w)
  end.

Definition tsc_init (fuel : nat) (c : C) (a : AcpiState) (phys_offset desired_ms : Z) (w : TimerWorld)
    : outcome (bool * TimerWorld) :=
  let feats := detect_cpu_features c in
  if negb (Features.msr feats) || negb (Features.tsc_deadline feats) || negb (Features.tsc feats) then Ret (false, w) else
  let! (ok, w) := use_hpet fuel a phys_offset desired_ms w in
  if negb ok then Ret (false, w) else
  let! idt := register_irq_handler (as_u8 Timer) tsc_handler (t_idt w) in
  Ret (true, MkTimer (t_mapper w) (t_alloc w) idt (period_cycles w) (arm (period_cycles w) (t_hw w))).
End Init.
End Timer.
Arguments TimerWorld : clear implicits.

(** ** Clocks that run

    The counters as unbounded counts: a read returns the count modulo 2^64, and
    between two reads the HPET moves on by at least one tick and at most 2^32. *)

Class ClockSpec (D : Type) {tsc : TscHw D} (main_virt : Z) : Type := {
  hpet_of : D -> Z;
  tsc_of : D -> Z;
  deadline_of : D -> Z;
  read_hpet_spec d :
    exists d', mmio_read64 main_virt d = (wrap 64 (hpet_of d), d') /\
      hpet_of d < hpet_of d' <= hpet_of d + 2 ^ 32 /\ tsc_of d <= tsc_of d';
  rdtsc_spec d :
    exists high low d', rdtsc_op d = ((high, low), d') /\ in_u 32 high /\ in_u 32 low /\
      high * 2 ^ 32 + low = wrap 64 (tsc_of d) /\
      hpet_of d <= hpet_of d' <= hpet_of d + 2 ^ 32 /\ tsc_of d <= tsc_of d';
  wrmsr_spec low high d :
    in_u 32 low -> in_u 32 high -> deadline_of (wrmsr_op IA32_TSC_DEADLINE low high d) = high * 2 ^ 32 + low
}.

Section Lemmas.
Context {D : Type} {tsc : TscHw D} {main : Z} {clock : ClockSpec D main}.
Implicit Types d : D.

Lemma rdtsc_ok d :
  exists d', rdtsc d = (wrap 64 (tsc_of d), d') /\
    hpet_of d <= hpet_of d' <= hpet_of d + 2 ^ 32 /\ tsc_of d <= tsc_of d'.
Proof.
  destruct (rdtsc_spec (main_virt := main) d) as (hi & lo & d' & E & Hh & Hl & Hv & Hp & Ht).
  exists d'. unfold rdtsc. rewrite E. split; [|done]. f_equal. rewrite <- Hv, Z.shiftl_mul_pow2 by lia.
  unfold in_u in *. apply (lor_low 32); [lia|lia|]. by rewrite Z.mod_mul.
Qed.

(** A write of a 64-bit value to the deadline register. *)
Lemma write_msr_ok v d : in_u 64 v -> deadline_of (write_msr IA32_TSC_DEADLINE v d) = v.
Proof.
  intros Hv. unfold write_msr, in_u in *. rewrite Z.shiftr_div_pow2 by lia.
  rewrite (wrmsr_spec (main_virt := main)) by (apply wrap_range; lia).
  unfold wrap. change (2 ^ 32) with 4294967296. change (2 ^ 64) with 18446744073709551616 in Hv. zdiv.
Qed.

Lemma arm_ok period d : deadline_of (arm period d) = wrap 64 (wrap 64 (tsc_of d) + period).
Proof.
  unfold arm. destruct (rdtsc_ok d) as (d' & -> & _). apply write_msr_ok. apply wrap_range. lia.
Qed.

(** The difference of two readings is the true one while it is below 2^64. *)
Lemma reading_diff x y : 0 <= x - y < 2 ^ 64 -> wrap 64 (wrap 64 x - wrap 64 y) = x - y.
Proof. intros H. unfold wrap. rewrite <- Zminus_mod. by apply Z.mod_small. Qed.

(** The machine after a read of the HPET and after a read of the TSC. *)
Definition after_hpet d : D := (mmio_read64 main d).2.
Definition after_tsc d : D := (rdtsc_op d).2.

Lemma read_hpet_ok d :
  mmio_read64 main d = (wrap 64 (hpet_of d), after_hpet d) /\
  hpet_of d < hpet_of (after_hpet d) <= hpet_of d + 2 ^ 32.
Proof.
  unfold after_hpet. destruct (read_hpet_spec (main_virt := main) d) as (d' & -> & ? & _). done.
Qed.

(** [k + 1] reads of the HPET, of which the last is the first to find it 1000 ticks
    or more past [h]. *)
Definition waits (h : Z) d (k : nat) : Prop :=
  1000 <= hpet_of (Nat.iter k after_hpet d) - h /\
  forall j, (j < k)%nat -> hpet_of (Nat.iter j after_hpet d) - h < 1000.

(** The wait ends: with [n] ticks missing, [n + 1] readings are enough. *)
Lemma wait_hpet_ends n fuel h d :
  0 <= hpet_of d - h <= 2 ^ 62 -> 1000 - (hpet_of d - h) <= Z.of_nat n -> (n < fuel)%nat -> Z.of_nat n <= 1000 ->
  exists k, (k <= n)%nat /\ wait_hpet fuel main (wrap 64 h) d = Some (Nat.iter (S k) after_hpet d) /\
    waits h d k /\ hpet_of (Nat.iter (S k) after_hpet d) - h <= hpet_of d - h + (Z.of_nat n + 1) * 2 ^ 32.
Proof.
  revert fuel d. induction n as [|n IH]; intros fuel d Hd Hn Hf Hsmall; (destruct fuel as [|fuel]; [lia|]); cbn [wait_hpet];
    destruct (read_hpet_ok d) as [-> Hh]; rewrite reading_diff by lia.
  - destruct (Z.ltb_spec (hpet_of d - h) 1000); [lia|]. exists 0%nat.
    split_and!; [lia|done| |cbn [Nat.iter nat_rect]; lia]. split; [done|lia].
  - destruct (Z.ltb_spec (hpet_of d - h) 1000).
    2: { exists 0%nat. split_and!; [lia|done| |cbn [Nat.iter nat_rect]; lia]. split; [done|lia]. }
    destruct (IH fuel (after_hpet d)) as (k & Hk & -> & [W1 W2] & Hb); [lia|lia|lia|lia|].
    exists (S k). rewrite <- !Nat.iter_succ_r in *. split_and!; [lia|done| |lia]. split; [done|].
    intros [|j] Hj; [done|]. rewrite Nat.iter_succ_r. apply W2. lia.
Qed.

(** The computed period, and how far its two roundings are from the exact quotient. *)
Definition period_for (tdelta hdelta period_fs ms : Z) : Z :=
  tdelta * 10 ^ 15 / (hdelta * period_fs) * ms / 1000.

Lemma calibrated_ok hdelta tdelta period_fs ms old :
  0 < hdelta < 2 ^ 64 -> 0 <= tdelta < 2 ^ 64 -> 0 < period_fs < 2 ^ 32 -> 0 < ms < 2 ^ 14 ->
  let cycles := period_for tdelta hdelta period_fs ms in
  calibrated hdelta tdelta period_fs ms old = Ret (if 0 <? cycles then wrap 64 cycles else old) /\
  let exact := tdelta * 10 ^ 15 * ms in
  let unit_ := hdelta * period_fs * 1000 in
  cycles * unit_ <= exact < (cycles + 1) * unit_ + ms * (hdelta * period_fs).
Proof.
  intros Hh Ht Hp Hm. unfold calibrated, sat_mul_u128, period_for. change (10 ^ 15) with 1000000000000000.
  destruct (Z.eqb_spec hdelta 0); [lia|].
  assert (0 <= tdelta * 1000000000000000 < 2 ^ 114) as Hnum by (change (2 ^ 114) with (2 ^ 64 * 2 ^ 50); nia).
  assert (0 < hdelta * period_fs < 2 ^ 96) as Hden by (change (2 ^ 96) with (2 ^ 64 * 2 ^ 32); nia).
  rewrite !Z.min_r by lia. set (num := tdelta * 1000000000000000) in *. set (den := hdelta * period_fs) in *.
  destruct (Z.eqb_spec den 0); [lia|].
  assert (0 <= num / den <= num) by (split; [apply Z.div_pos; lia|apply Z.div_le_upper_bound; nia]).
  rewrite checked_mul_ok by (change (2 ^ 128) with (2 ^ 114 * 2 ^ 14); nia). cbn [outcome_bind].
  split; [by destruct (0 <? _)|].
  pose proof (Z.mul_div_le num den ltac:(lia)). pose proof (Z.mul_succ_div_gt num den ltac:(lia)).
  set (hz := num / den) in *. pose proof (Z.mul_div_le (hz * ms) 1000 ltac:(lia)).
  pose proof (Z.mul_succ_div_gt (hz * ms) 1000 ltac:(lia)). set (cy := hz * ms / 1000) in *. cbn. split; nia.
Qed.
End Lemmas.

Section InitLemmas.
Context {D : Type} {tsc : TscHw D} {main : Z} {clock : ClockSpec D main}.
Context {paging : X86Paging} {FA MS C : Type} {ops : FrameAllocator FA} {spec : FrameAllocatorSpec FA}
  {mapper : Mapper FA MS} {regs : ControlRegs C} {x86 : X86Idt}.

(** The machine at the moments of one calibration that starts at [d]: the readings
    taken are [hpet_of d] and [tsc_of] after it, and, [k + 1] readings later,
    [hpet_of] and [tsc_of] again. *)
Definition at_t1 (d : D) : D := after_hpet (main := main) d.
Definition at_h2 (k : nat) (d : D) : D := Nat.iter (S k) (after_hpet (main := main)) (after_tsc (at_t1 d)).
Definition at_t2 (k : nat) (d : D) : D := after_hpet (main := main) (at_h2 k d).

Lemma after_tsc_ok (d : D) :
  rdtsc d = (wrap 64 (tsc_of d), after_tsc d) /\ hpet_of d <= hpet_of (after_tsc d) <= hpet_of d + 2 ^ 32.
Proof.
  destruct (rdtsc_ok (main := main) d) as (d' & E & H & _).
  assert (d' = after_tsc d) as -> by (unfold rdtsc, after_tsc in *; destruct (rdtsc_op d) as [[hi lo] d0]; by injection E).
  done.
Qed.

Lemma calibrate_ok fuel period_fs ms old (d : D) :
  (1000 < fuel)%nat -> 0 < period_fs < 2 ^ 32 -> 0 < ms < 2 ^ 14 ->
  exists k, (k <= 1000)%nat /\ waits (main := main) (hpet_of d) (after_tsc (at_t1 d)) k /\
    let hdelta := hpet_of (at_h2 k d) - hpet_of d in
    let tdelta := wrap 64 (tsc_of (at_t2 k d) - tsc_of (at_t1 d)) in
    let cycles := period_for tdelta hdelta period_fs ms in
    let den := hdelta * period_fs in
    1000 <= hdelta /\
    cycles * (den * 1000) <= tdelta * 10 ^ 15 * ms < (cycles + 1) * (den * 1000) + ms * den /\
    calibrate fuel main period_fs ms old d =
      Ret (if 0 <? cycles then wrap 64 cycles else old, after_tsc (at_t2 k d)).
Proof.
  intros Hf Hp Hm. unfold calibrate.
  destruct (read_hpet_ok (main := main) d) as [-> H1]. fold (at_t1 d) in *.
  destruct (after_tsc_ok (at_t1 d)) as [-> H2].
  destruct (wait_hpet_ends (main := main) 1000 fuel (hpet_of d) (after_tsc (at_t1 d))) as (k & Hk & -> & Hw & Hb); [lia..|].
  fold (at_h2 k d) in *. destruct (read_hpet_ok (main := main) (at_h2 k d)) as [-> H4]. fold (at_t2 k d) in *.
  destruct (after_tsc_ok (at_t2 k d)) as [-> _]. exists k.
  assert (1000 <= hpet_of (at_h2 k d) - hpet_of d < 2 ^ 64) as Hd.
  { split; [|lia]. destruct Hw as [Hw _]. unfold at_h2. rewrite Nat.iter_succ.
    pose proof (read_hpet_ok (main := main) (Nat.iter k (after_hpet (main := main)) (after_tsc (at_t1 d)))) as [_ H]. lia. }
  split; [done|]. split; [done|]. split; [lia|]. rewrite reading_diff by lia.
  assert (wrap 64 (wrap 64 (tsc_of (at_t2 k d)) - wrap 64 (tsc_of (at_t1 d))) =
    wrap 64 (tsc_of (at_t2 k d) - tsc_of (at_t1 d))) as -> by (unfold wrap; by rewrite <- Zminus_mod).
  destruct (calibrated_ok (hpet_of (at_h2 k d) - hpet_of d) (wrap 64 (tsc_of (at_t2 k d) - tsc_of (at_t1 d))) period_fs ms old)
    as [-> Hr]; [lia|by apply wrap_range|done|done|]. by split.
Qed.

Lemma map_hpet_mapped is_ page off (ms : MS) (fa : FA) :
  Forall (fun i => is_mapped ms (off +64 (page + i * 0x1000)) = true) is_ ->
  map_hpet is_ page off ms fa = (true, (ms, fa)).
Proof. induction 1 as [|i is_ Hi _ IH]; cbn [map_hpet]; [done|]. by rewrite Hi. Qed.

Lemma register_timer (idt : option Idt) :
  exists idt', register_irq_handler (as_u8 Timer) tsc_handler idt = Ret (Some idt') /\
    forall u, handler_at (Some idt') u = if u =? as_u8 Timer then Some tsc_handler else handler_at idt u.
Proof.
  apply set_handler_spec. apply idt_indexable_irq. change (as_u8 Timer) with 32. lia.
Qed.
End InitLemmas.

(** ** Properties *)

Section Properties.
Context {D : Type} {tsc : TscHw D}.
Context {paging : X86Paging} {FA MS C : Type} {ops : FrameAllocator FA} {spec : FrameAllocatorSpec FA}
  {mapper : Mapper FA MS} {regs : ControlRegs C} {x86 : X86Idt}.

(** C17: the timer starts: on a processor with the TSC-deadline timer and an HPET
    below 4 GiB that runs and is mapped, [init] ends after at most 1001 rounds of
    waiting, installs the handler on the timer's vector and on no other, and arms
    the deadline one period after the count read last. The period comes from four
    readings: the HPET, then the TSC, and again when the wait has seen the HPET 1000
    ticks on; it is the TSC difference scaled by the HPET difference to [ms]
    milliseconds, with a rounding error of less than [1 + ms / 1000] cycles, and the
    old period is kept only when the result is 0. *)
Theorem tsc_init_calibrates base off {clock : ClockSpec D (base + HPET_MAIN_COUNTER_OFFSET + off)}
    fuel (c : C) a ms (w : TimerWorld D FA MS) :
  Features.msr (detect_cpu_features c) = true -> Features.tsc_deadline (detect_cpu_features c) = true ->
  Features.tsc (detect_cpu_features c) = true ->
  get_hpet_address a = Some base -> 0 <= base < 2 ^ 32 -> base + HPET_MAIN_COUNTER_OFFSET + off < 2 ^ 64 ->
  0 < get_hpet_period_fs a < 2 ^ 32 -> 0 < ms < 2 ^ 14 -> (1000 < fuel)%nat ->
  (forall i, 0 <= i < 2 -> is_mapped (t_mapper w) (off +64 (((base + HPET_MAIN_COUNTER_OFFSET) .& lnotw 64 0xFFF) + i * 0x1000)) = true) ->
  exists w' k, tsc_init fuel c a off ms w = Ret (true, w') /\
    (let main := base + HPET_MAIN_COUNTER_OFFSET + off in
     let d := t_hw w in
     let d1 := after_hpet (main := main) d in
     let d2 := Nat.iter (S k) (after_hpet (main := main)) (after_tsc d1) in
     let d3 := after_hpet (main := main) d2 in
     let hdelta := hpet_of d2 - hpet_of d in
     let tdelta := wrap 64 (tsc_of d3 - tsc_of d1) in
     let den := hdelta * get_hpet_period_fs a in
     let cycles := period_for tdelta hdelta (get_hpet_period_fs a) ms in
     (k <= 1000)%nat /\ waits (main := main) (hpet_of d) (after_tsc d1) k /\ 1000 <= hdelta /\
     period_cycles w' = (if 0 <? cycles then wrap 64 cycles else period_cycles w) /\
     cycles * (den * 1000) <= tdelta * 10 ^ 15 * ms < (cycles + 1) * (den * 1000) + ms * den /\
     deadline_of (t_hw w') = wrap 64 (tsc_of (after_tsc d3) + period_cycles w')) /\
    (forall u, handler_at (t_idt w') u = if u =? as_u8 Timer then Some tsc_handler else handler_at (t_idt w) u) /\
    t_mapper w' = t_mapper w /\ t_alloc w' = t_alloc w.
Proof.
  intros Hmsr Hdl Htsc Ha Hb Hov Hp Hm Hf Hmap. unfold tsc_init. rewrite Hmsr, Hdl, Htsc. cbn [negb orb].
  unfold use_hpet. rewrite Ha. destruct (Z.ltb_spec base 0x100000000); [|lia].
  assert (0 <= (base + HPET_MAIN_COUNTER_OFFSET) .& 0xFFF < 4096) as Hoff.
  { change 0xFFF with (2 ^ 12 - 1). rewrite land_ones_mod by lia. change (2 ^ 12) with 4096. apply Z.mod_pos_bound. lia. }
  rewrite map_hpet_mapped.
  2: { apply Forall_forall. intros i [Hi1 Hi2]%elem_of_seqZ. apply Hmap. split; [done|].
       apply (Z.lt_le_trans _ _ _ Hi2). zdiv. }
  cbn [negb t_hw t_idt period_cycles]. rewrite checked_add_ok by done.
  cbn [outcome_bind]. destruct (Z.eqb_spec (get_hpet_period_fs a) 0); [lia|]. cbn [negb].
  destruct (calibrate_ok (main := base + HPET_MAIN_COUNTER_OFFSET + off) fuel (get_hpet_period_fs a) ms (period_cycles w) (t_hw w))
    as (k & Hk & Hw & Hh & Hbound & ->); [done..|].
  cbn [outcome_bind negb t_idt]. destruct (register_timer (t_idt w)) as (idt' & -> & Hidt). cbn [outcome_bind].
  eexists _, k. split; [reflexivity|]. split; [|split; [exact Hidt|done]].
  split; [done|]. split; [apply Hw|]. split; [apply Hh|]. split; [done|]. split; [apply Hbound|].
  cbn [t_hw period_cycles]. rewrite arm_ok. unfold wrap. by rewrite Zplus_mod_idemp_l.
Qed.
End Properties.

(** A stopped HPET: the source never starts the counter, and when the firmware has
    not either, the calibration waits for ever, whatever the fuel. *)
Theorem stopped_hpet_hangs {D : Type} {tsc : TscHw D} main h (d : D) fuel :
  mmio_read64 main d = (h, d) -> wait_hpet fuel main h d = None.
Proof.
  intros E. induction fuel as [|fuel IH]; cbn [wait_hpet]; [done|]. rewrite E, Z.sub_diag.
  destruct (Z.ltb_spec (wrap 64 0) 1000) as [|H]; [done|]. by vm_compute in H.
Qed.

(** ** Witnesses *)

(** A machine whose counters are its clock: the TSC runs at 3 cycles per HPET tick,
    and every read takes one tick. *)
Record clock_machine : Type := MkClock { ticks : Z; msr_deadline : Z }.

#[local] Instance clock_hw : TscHw clock_machine := {|
  rdtsc_op d := ((wrap 64 (3 * ticks d) / 2 ^ 32, wrap 64 (3 * ticks d) `mod` 2 ^ 32), d);
  wrmsr_op r low high d := MkClock (ticks d) (if r =? IA32_TSC_DEADLINE then high * 2 ^ 32 + low else msr_deadline d);
  mmio_read64 _ d := (wrap 64 (ticks d), MkClock (ticks d + 1) (msr_deadline d))
|}.

#[refine, local] Instance clock_runs main : ClockSpec clock_machine main := {|
  hpet_of := ticks; tsc_of d := 3 * ticks d; deadline_of := msr_deadline
|}.
Proof.
  - intros d. eexists. split; [done|]. cbn. lia.
  - intros d. eexists _, _, d. split; [done|]. pose proof (wrap_range 64 (3 * ticks d) ltac:(lia)) as Hr.
    unfold in_u. change (2 ^ 64) with (2 ^ 32 * 2 ^ 32) in Hr. split_and!; try lia.
    + apply Z.div_pos; lia.
    + apply Z.div_lt_upper_bound; lia.
    + apply Z.mod_pos_bound. lia.
    + apply Z.mod_pos_bound. lia.
    + rewrite Z.mul_comm. symmetry. apply Z.div_mod. lia.
  - intros low high d _ _. reflexivity.
Defined.

#[local] Existing Instance paging_by_address.
#[local] Existing Instance sample_regs.
#[local] Existing Instance frame_pool.
#[local] Existing Instance frame_pool_spec.
#[local] Existing Instance flat_tables.
#[local] Existing Instance all_vectors.

Definition timer_cpu : sample_cpu := MkCpu (fun _ => MkCpuid 0 0 0x01000000 0x30) 0 0 3.
Definition timer_acpi : AcpiState := MkAcpi 0 [] [] (Some 0xFED00000) 69841279 [].
Definition timer_world : TimerWorld clock_machine (gset Z) flat_table :=
  MkTimer ({[0xFED00000 := (0xFED00000, 3); 0xFED01000 := (0xFED01000, 3)]}, ∅) ∅ None PERIOD_CYCLES_init (MkClock 500 0).

Lemma tsc_init_calibrates_witness :
  exists w' k, tsc_init 2000 timer_cpu timer_acpi 0 10 timer_world = Ret (true, w') /\ (k <= 1000)%nat /\
    handler_at (t_idt w') 32 = Some tsc_handler /\
    deadline_of (ClockSpec := clock_runs (0xFED00000 + HPET_MAIN_COUNTER_OFFSET + 0)) (t_hw w') =
      wrap 64 (3 * (500 + 1 + Z.of_nat (S k) + 1) + period_cycles w').
Proof.
  destruct (tsc_init_calibrates 0xFED00000 0 2000 timer_cpu timer_acpi 10 timer_world)
    as (w' & k & H & (Hk & _ & _ & _ & _ & Hd) & Hh & _);
    [reflexivity|reflexivity|reflexivity|reflexivity|lia|unfold HPET_MAIN_COUNTER_OFFSET; lia|cbn; lia|lia|lia| |].
  - intros i Hi. assert (i = 0 \/ i = 1) as [->| ->] by lia; reflexivity.
  - exists w', k. split_and!; [exact H|exact Hk|rewrite Hh; reflexivity|]. rewrite Hd.
    assert (forall k d, ticks (Nat.iter k (after_hpet (main := 0xFED00000 + HPET_MAIN_COUNTER_OFFSET + 0)) d) = ticks d + Z.of_nat k) as Hit.
    { clear. intros k d. induction k as [|k IH]; [cbn; lia|]. rewrite Nat.iter_succ.
      unfold after_hpet at 1. cbn -[Nat.iter Z.of_nat]. rewrite IH. lia. }
    unfold after_tsc, after_hpet at 1. cbn -[Nat.iter Z.of_nat]. rewrite Hit. reflexivity.
Defined.

(** The period found on this machine: 10 ms at three cycles per 69.841279 ns. *)
Example sample_period :
  match tsc_init 2000 timer_cpu timer_acpi 0 10 timer_world with
  | Ret (_, w') => period_cycles w' = 429545
  | Panic _ => False
  end.
Proof. vm_compute. reflexivity. Qed.
