(* ===== verification/Hal.v ===== *)
(** * Hal: the hardware abstraction layer of [src/hal/hal.rs]

    [init_cpu], [init_acpi] and [init_hardware] compose the components: CPU set-up
    (Processor), ACPI (Acpi), the local APIC (Interrupts) and the I/O APICs
    (Ioapic), with the messages printed through Console. The physical memory that
    ACPI reads is the memory of the direct mapping, and the ports are those of the
    screen's world, handed to the ACPI code and back. Messages of the ACPI and I/O
    APIC code are not modelled (see there). *)

From S2P Require Import Prelude External Device Manager Ports Acpi Ioapic VgaText Vbe Console Interrupts Processor.

Local Open Scope string_scope.
Local Open Scope list_scope.
Local Open Scope Z_scope.

Record CpuInfo : Type := MkCpuInfo { cpu_vendor : list Z; features : CpuFeatures }.

Inductive AcpiStatus : Type := Enabled | TablesFound | NotAvailable.

(** [core::str::from_utf8(vendor).unwrap_or("Unknown")] *)
Definition get_cpu_vendor_string (vendor : list Z) : string := from_utf8_or "Unknown" vendor.

Section Hal.
Context {C FA MS P D M : Type} {regs : ControlRegs C} {io : PortIO P} {hw : Mmio D}.

(** The state the layer initialises. *)
Record HalWorld : Type := MkHal {
  h_cpu : C;
  h_con : ConWorld MS FA P;
  h_acpi : AcpiState;
  h_mgr : DeviceManager M;
  h_lapic : Lapic D;
  h_ioapics : list IoApic
}.
Implicit Types (w : HalWorld).

Definition set_con (con : ConWorld MS FA P) w : HalWorld :=
  MkHal (h_cpu w) con (h_acpi w) (h_mgr w) (h_lapic w) (h_ioapics w).

Definition hal_say (s : string) w : outcome HalWorld :=
  let! con := say s (h_con w) in Ret (set_con con w).

Definition init_cpu w : outcome (CpuInfo * HalWorld) :=
  let! w := hal_say "[HAL] Initializing CPU features..." w in
  let c := enable_sse (h_cpu w) in
  let f := detect_cpu_features c in
  let! con := say ("[HAL] CPU Vendor: " +:+ get_cpu_vendor_string (Features.vendor f)) (h_con w) in
  let! (c, con) := enable_cpu_features f c con in
  let! con := say "[HAL] CPU features initialized successfully" con in
  Ret (MkCpuInfo (Features.vendor f) f, MkHal c con (h_acpi w) (h_mgr w) (h_lapic w) (h_ioapics w)).

(** The memory ACPI reads: the direct mapping. *)
Definition phys_mem w : mem := vmem (vbe (h_con w)).

Definition is_acpi_available (phys_offset : Z) w : outcome bool :=
  let! r := find_rsdp (phys_mem w) phys_offset in
  Ret (match r with Some _ => true | None => false end).

(** [acpi::init_with_offset] on the layer's state. *)
Definition acpi_step (phys_offset : Z) w : outcome HalWorld :=
  let! s := init_with_offset (phys_mem w) phys_offset (MkAW (h_acpi w) (h_mgr w) (vports (vbe (h_con w)))) in
  Ret (MkHal (h_cpu w) (on_con_ports (fun _ => ports s) (h_con w)) (acpi s) (manager s) (h_lapic w) (h_ioapics w)).

Definition init_acpi (phys_offset : Z) w : outcome (AcpiStatus * HalWorld) :=
  let! w := hal_say "[HAL] Initializing ACPI subsystem..." w in
  let! found := is_acpi_available phys_offset w in
  if found then
    let! w := acpi_step phys_offset w in
    let! w := hal_say "[HAL] ACPI initialized and enabled" w in
    Ret (Enabled, w)
  else
    let! w := hal_say "[HAL] ACPI not available on this system" w in
    Ret (NotAvailable, w).

Definition init_lapic (phys_offset : Z) w : outcome HalWorld :=
  let! (ok, l) := lapic_init_from_acpi (h_acpi w) phys_offset (h_lapic w) in
  let w := MkHal (h_cpu w) (h_con w) (h_acpi w) (h_mgr w) l (h_ioapics w) in
  hal_say (if (ok : bool) then "[HAL] Local APIC initialized" else "[HAL] Local APIC not initialized or not present") w.

(** Discovery, overrides, legacy fallback. *)
Definition init_ioapics (phys_offset : Z) w : outcome HalWorld :=
  let a := h_acpi w in
  let base := lapic_base (h_lapic w) in
  let! (table, d) := init_from_acpi a phys_offset (h_ioapics w) (lapic_hw (h_lapic w)) in
  let! d := apply_isos_from_acpi a table phys_offset d in
  let! d := apply_legacy_isa_fallback table phys_offset d in
  Ret (MkHal (h_cpu w) (h_con w) a (h_mgr w) (MkLapic base d) table).

Definition rule : string := "[HAL] =========================================".

Definition init_hardware (phys_offset : Z) w : outcome (CpuInfo * AcpiStatus * HalWorld) :=
  let! w := for_each hal_say [rule; "[HAL] Hardware Abstraction Layer Initialization"; rule] w in
  let! (cpu_info, w) := init_cpu w in
  let! (acpi_status, w) := init_acpi phys_offset w in
  let! w := init_lapic phys_offset w in
  let! w := init_ioapics phys_offset w in
  let! w := for_each hal_say [rule; "[HAL] Hardware initialization complete"; rule] w in
  Ret (cpu_info, acpi_status, w).
End Hal.
Arguments HalWorld : clear implicits.

(** ** Lemmas *)

Section Lemmas.
Context {C FA MS P D M : Type} {regs : ControlRegs C} {cspec : ControlRegsSpec C} {io : PortIO P} {hw : Mmio D}.
Implicit Types (w : HalWorld C FA MS (traced P) D M).

(** Everything but the screen's text and the ports is as in [w]. *)
Definition screen_only w w' : Prop :=
  boot_screen (h_con w') /\ (exists p, vbe (h_con w') = set_vports p (vbe (h_con w))) /\
  h_cpu w' = h_cpu w /\ h_acpi w' = h_acpi w /\ h_mgr w' = h_mgr w /\ h_lapic w' = h_lapic w /\ h_ioapics w' = h_ioapics w.

Lemma hal_say_boot s w : boot_screen (h_con w) -> exists w', hal_say s w = Ret w' /\ screen_only w w'.
Proof.
  intros Hb. unfold hal_say. destruct (say_boot s (h_con w) Hb) as (con & -> & Hp). cbn [outcome_bind].
  eexists. split; [done|]. destruct Hp as (? & _ & ? & _). by split_and!.
Qed.

Lemma says_boot l w : boot_screen (h_con w) -> exists w', for_each hal_say l w = Ret w' /\ screen_only w w'.
Proof.
  revert w. induction l as [|s l IH]; intros w Hb; cbn [for_each].
  { exists w. split; [done|]. split_and!; try done. exists (vports (vbe (h_con w))). by destruct (vbe (h_con w)). }
  destruct (hal_say_boot s w Hb) as (w1 & -> & Hb1 & (p1 & V1) & R1). cbn [outcome_bind].
  destruct (IH w1 Hb1) as (w2 & -> & Hb2 & (p2 & V2) & R2). exists w2. split; [done|].
  split_and!; [done| |intuition congruence..]. exists p2. by rewrite V2, V1.
Qed.


(** The stages, on the boot screen. *)
Lemma init_cpu_boot w :
  boot_screen (h_con w) ->
  (Features.avx (detect_cpu_features (enable_sse (h_cpu w))) &&
   Features.osxsave (detect_cpu_features (enable_sse (h_cpu w))) = true -> Z.testbit (xcr0_read (h_cpu w)) SSE = true) ->
  exists w', init_cpu w =
      Ret (MkCpuInfo (Features.vendor (detect_cpu_features (enable_sse (h_cpu w)))) (detect_cpu_features (enable_sse (h_cpu w))), w') /\
    boot_screen (h_con w') /\ (exists p, vbe (h_con w') = set_vports p (vbe (h_con w))) /\
    h_acpi w' = h_acpi w /\ h_mgr w' = h_mgr w /\ h_lapic w' = h_lapic w /\ h_ioapics w' = h_ioapics w.
Proof.
  intros Hb Hx. unfold init_cpu.
  destruct (hal_say_boot "[HAL] Initializing CPU features..." w Hb) as (w1 & -> & B1 & (p1 & V1) & Ec & Ea & Em & El & Ei).
  cbn [outcome_bind]. rewrite Ec, Ea, Em, El, Ei. set (f := detect_cpu_features (enable_sse (h_cpu w))) in *.
  destruct (say_boot ("[HAL] CPU Vendor: " +:+ get_cpu_vendor_string (Features.vendor f)) (h_con w1) B1)
    as (con2 & -> & B2 & _ & (p2 & V2) & _). cbn [outcome_bind].
  destruct (enable_cpu_features_spec f (enable_sse (h_cpu w)) con2 B2) as (c3 & con3 & -> & B3 & (p3 & V3) & _).
  { intros H. destruct (enable_sse_spec (h_cpu w)) as (_ & _ & ->). by apply Hx. }
  cbn [outcome_bind].
  destruct (say_boot "[HAL] CPU features initialized successfully" con3 B3) as (con4 & -> & B4 & _ & (p4 & V4) & _).
  cbn [outcome_bind]. eexists. split; [done|]. split_and!; try done. exists p4. cbn. by rewrite V4, V3, V2, V1.
Qed.

(** What parsing the tables yields, whatever the ports answer. *)
Definition tables_give (off : Z) w (a : AcpiState) : Prop :=
  forall p : traced P, exists s, init_with_offset (phys_mem w) off (MkAW (h_acpi w) (h_mgr w) p) = Ret s /\ acpi s = a.

Lemma init_acpi_boot off a w :
  boot_screen (h_con w) -> tables_give off w a ->
  exists r w', find_rsdp (phys_mem w) off = Ret r /\
    init_acpi off w = Ret (match r with Some _ => Enabled | None => NotAvailable end, w') /\
    boot_screen (h_con w') /\ h_acpi w' = a /\ h_lapic w' = h_lapic w /\ h_ioapics w' = h_ioapics w.
Proof.
  intros Hb Ht. unfold init_acpi.
  destruct (hal_say_boot "[HAL] Initializing ACPI subsystem..." w Hb) as (w1 & -> & B1 & (p1 & V1) & _ & A1 & M1 & L1 & I1).
  cbn [outcome_bind]. assert (phys_mem w1 = phys_mem w) as Em by (unfold phys_mem; by rewrite V1).
  unfold is_acpi_available. rewrite Em.
  destruct (Ht (vports (vbe (h_con w1)))) as (s & Hs & Ha). pose proof Hs as Hs'. unfold init_with_offset in Hs'.
  destruct (find_rsdp (phys_mem w) off) as [r|]; [|done]. cbn [outcome_bind] in Hs' |- *. exists r.
  destruct r as [rsdp|].
  - unfold acpi_step. rewrite Em, A1, M1, Hs. cbn [outcome_bind].
    destruct (hal_say_boot "[HAL] ACPI initialized and enabled"
      (MkHal (h_cpu w1) (on_con_ports (fun _ => ports s) (h_con w1)) (acpi s) (manager s) (h_lapic w1) (h_ioapics w1)))
      as (w2 & -> & B2 & _ & _ & A2 & _ & L2 & I2); [exact B1|].
    exists w2. cbn in *. split_and!; [done..|congruence|congruence|congruence].
  - injection Hs' as <-.
    destruct (hal_say_boot "[HAL] ACPI not available on this system" w1 B1) as (w2 & -> & B2 & _ & _ & A2 & _ & L2 & I2).
    exists w2. cbn in *. split_and!; [done..|congruence|congruence|congruence].
Qed.

Lemma init_lapic_boot off w :
  boot_screen (h_con w) ->
  (forall l, get_local_apic_address (h_acpi w) = Some l -> 0 < l + off < 2 ^ 64) ->
  exists w', init_lapic off w = Ret w' /\ boot_screen (h_con w') /\ h_acpi w' = h_acpi w /\ h_ioapics w' = h_ioapics w /\
    lapic_base (h_lapic w') = match get_local_apic_address (h_acpi w) with Some l => l + off | None => lapic_base (h_lapic w) end.
Proof.
  intros Hb Hl. unfold init_lapic, lapic_init_from_acpi, init_lapic_phys.
  destruct (get_local_apic_address (h_acpi w)) as [l|].
  - specialize (Hl l eq_refl). rewrite checked_add_ok by lia. cbn [outcome_bind].
    destruct (Z.eqb_spec (l + off) 0); [lia|].
    destruct (mmio_read32 (l + off + LAPIC_SVR) (lapic_hw (h_lapic w))) as [svr d]. cbn [outcome_bind].
    match goal with |- context [hal_say _ ?x] => destruct (hal_say_boot "[HAL] Local APIC initialized" x) as (w1 & -> & B1 & _ & _ & A1 & _ & L1 & I1) end;
      [done|]. exists w1. by rewrite L1.
  - cbn [outcome_bind].
    match goal with |- context [hal_say _ ?x] => destruct (hal_say_boot "[HAL] Local APIC not initialized or not present" x) as (w1 & -> & B1 & _ & _ & A1 & _ & L1 & I1) end;
      [done|]. exists w1. by rewrite L1.
Qed.
End Lemmas.

(** ** Properties *)

Section Properties.
Context {C FA MS P D M : Type} {regs : ControlRegs C} {cspec : ControlRegsSpec C} {io : PortIO P} {hw : Mmio D}
  {ispec : IoApicSpec D} {version : IoApicVersion D}.

(** C16: the hardware after [init_hardware], from the boot screen: the whole sequence
    returns; the status is [Enabled] exactly when a root pointer was found; the
    local APIC is at the MADT's address when there is one; the I/O APICs are those
    of the MADT with the entry counts of their version registers; and every legacy
    interrupt line below 16 that one of them handles is masked, with the vector
    [0x20] plus its number. *)
Theorem init_hardware_ready off a (w : HalWorld C FA MS (traced P) D M) :
  let f := detect_cpu_features (enable_sse (h_cpu w)) in
  let chips := discovered off (get_ioapics a) in
  boot_screen (h_con w) -> h_ioapics w = [] -> tables_give off w a ->
  (Features.avx f && Features.osxsave f = true -> Z.testbit (xcr0_read (h_cpu w)) SSE = true) ->
  (forall l, get_local_apic_address a = Some l -> 0 < l + off < 2 ^ 64) ->
  Forall (fun i => reachable off (io_addr i)) (get_ioapics a) -> table_ok off chips ->
  exists r w', find_rsdp (phys_mem w) off = Ret r /\
    init_hardware off w =
      Ret (MkCpuInfo (Features.vendor f) f, match r with Some _ => Enabled | None => NotAvailable end, w') /\
    boot_screen (h_con w') /\ h_acpi w' = a /\ h_ioapics w' = chips /\
    lapic_base (h_lapic w') =
      match get_local_apic_address a with Some l => l + off | None => lapic_base (h_lapic w) end /\
    forall g e, 0 <= g < 16 -> redir chips off (lapic_hw (h_lapic w)) g = Some e ->
      exists e', redir chips off (lapic_hw (h_lapic w')) g = Some e' /\ vector_of e' = 0x20 + g /\ masked e' = true.
Proof.
  intros f chips Hb Hi Ht Hx Hl Hr Hok. unfold init_hardware.
  destruct (says_boot [rule; "[HAL] Hardware Abstraction Layer Initialization"; rule] w Hb)
    as (w1 & -> & B1 & (p1 & V1) & C1 & A1 & M1 & L1 & I1). cbn [outcome_bind].
  destruct (init_cpu_boot w1 B1) as (w2 & -> & B2 & (p2 & V2) & A2 & M2 & L2 & I2); [by rewrite C1|].
  cbn [outcome_bind]. rewrite C1.
  assert (phys_mem w2 = phys_mem w) as Em by (unfold phys_mem; by rewrite V2, V1).
  destruct (init_acpi_boot off a w2 B2) as (r & w3 & Hf & -> & B3 & A3 & L3 & I3).
  { intros p. rewrite Em, A2, M2, A1, M1. apply Ht. }
  cbn [outcome_bind]. rewrite Em in Hf.
  destruct (init_lapic_boot off w3 B3) as (w4 & -> & B4 & A4 & I4 & L4); [by rewrite A3|]. cbn [outcome_bind].
  unfold init_ioapics. rewrite A4, A3, I4, I3, I2, I1, Hi.
  destruct (init_from_acpi_spec off a (lapic_hw (h_lapic w4)) Hr) as (d5 & -> & _). cbn [outcome_bind].
  destruct (program_legacy off chips a d5 Hok) as (d6 & d7 & H6 & H7 & Hleg & _).
  fold chips. rewrite H6. cbn [outcome_bind]. rewrite H7. cbn [outcome_bind].
  match goal with |- context [for_each hal_say ?l ?x] =>
    destruct (says_boot l x) as (w8 & -> & B8 & _ & _ & A8 & _ & L8 & I8) end; [done|]. cbn [outcome_bind].
  exists r, w8. split_and!; [done|done|done|done|done| |].
  - rewrite L8. cbn. rewrite L4, A3, L3, L2, L1. done.
  - intros g e Hg He. rewrite L8. cbn. revert He. unfold redir. intros He.
    destruct (Hleg g (match locate chips off g with
      | Ret (Some (v, rl, rh)) => (register_of d6 v rl, register_of d6 v rh) | _ => (0, 0) end) Hg) as (e' & He' & Hv).
    { unfold redir. by destruct (locate chips off g) as [[[[v rl] rh]|]|]. }
    exists e'. split; [exact He'|exact Hv].
Qed.
End Properties.

(** ** Witnesses *)

#[local] Existing Instance const_ports_io.
#[local] Existing Instance sample_regs.
#[local] Existing Instance sample_regs_spec.

(** I/O APICs with 24 entries each: the chips of Ioapic with a fixed version register. *)
Definition board_read (d : Ioapic.chips) (b r : Z) : Z := if r =? 1 then 0x170011 else Ioapic.regs d b r.

#[local] Instance board_hw : Mmio Ioapic.chips := {|
  mmio_write32 := @mmio_write32 _ chips_hw;
  mmio_read32 a d := (if a `mod` 32 =? 16 then board_read d (a - 16) (sel d (a - 16)) else 0, d)
|}.

#[refine, local] Instance board_spec : IoApicSpec Ioapic.chips := {|
  present b := b `mod` 32 = 0;
  selected := sel;
  register_of := board_read
|}.
Proof.
  - intros b v d Hb. cbn. unfold board_read. rewrite Hb, Z.eqb_refl. cbn. by rewrite Z.eqb_refl.
  - intros b v d Hb Hs b' r Hb'. cbn. unfold board_read.
    destruct (Z.eqb_spec ((b + 16) `mod` 32) 0); [zdiv|].
    destruct (Z.eqb_spec ((b + 16) `mod` 32) 16); [|zdiv]. cbn.
    replace (b + 16 - 16) with b by lia.
    destruct (Z.eqb_spec r 1) as [->|]; [by destruct (b' =? b), (Z.eqb_spec 1 (sel d b)); [lia|..]|].
    destruct (Z.eqb_spec b' b); [|done]. destruct (Z.eqb_spec r (sel d b)); [|done]. cbn.
    destruct (Z.leb_spec 16 r); [done|lia].
  - intros b d Hb. cbn. destruct (Z.eqb_spec ((b + 16) `mod` 32) 16); [|zdiv].
    by replace (b + 16 - 16) with b by lia.
Defined.

#[refine, local] Instance board_version : IoApicVersion Ioapic.chips := {| max_redir _ := 23 |}.
Proof. reflexivity. Defined.

(** Firmware tables: a root pointer, an RSDT with one entry, and a MADT. *)
Definition boot_memory : mem :=
  let rsdp0 := str_bytes "RSD PTR " in
  let rsdp1 := replicate 7 0 ++ le_encode 4 0x1000 in
  let m := store_bytes (fun _ => 0) 0xE0010 (rsdp0 ++ [checksum_byte (rsdp0 ++ rsdp1)] ++ rsdp1) in
  let m := store_bytes m 0x1000 (make_table "RSDT" (le_encode 4 0x2000)) in
  store_bytes m 0x2000 (make_table "APIC" (le_encode 4 0xFEE00000 ++ le_encode 4 1 ++
    concat (encode_entry <$> sample_entries))).

Definition boot_world (m : mem) : HalWorld sample_cpu unit unit (traced const_ports) Ioapic.chips unit :=
  MkHal sample_processor (MkCW [] sample_writer (MkVW ∅ None None None 0 m sample_ports))
    acpi_init manager_new (MkLapic 0 sample_chips) [].

Definition boot_tables : AcpiState :=
  MkAcpi 0xFEE00000 [MkIoApicInfo 2 0xFEC00000 0] [MkIsoInfo 0 0 2 0] None 0 [].

Lemma boot_tables_found : tables_give 0 (boot_world boot_memory) boot_tables.
Proof. intros p. eexists. split; [vm_compute; reflexivity|reflexivity]. Qed.

Lemma init_hardware_ready_witness :
  exists info w', init_hardware 0 (boot_world boot_memory) = Ret (info, Enabled, w') /\
    lapic_base (h_lapic w') = 0xFEE00000 /\
    exists e, redir (discovered 0 (get_ioapics boot_tables)) 0 (lapic_hw (h_lapic w')) 1 = Some e /\
      vector_of e = 0x21 /\ masked e = true.
Proof.
  destruct (init_hardware_ready 0 boot_tables (boot_world boot_memory)) as (r & w' & Hf & H & _ & _ & _ & Hl & Hg).
  - split; [reflexivity|exact sample_writer_ok].
  - reflexivity.
  - exact boot_tables_found.
  - reflexivity.
  - intros l H. vm_compute in H. injection H as <-. lia.
  - apply Forall_singleton. split; [cbn; lia|reflexivity].
  - split; [|apply NoDup_singleton]. apply Forall_singleton. unfold chip_ok. cbn. split_and!; try lia; done.
  - vm_compute in Hf. injection Hf as <-. eexists _, w'. split; [exact H|]. split; [exact Hl|].
    eapply Hg; [lia|reflexivity].
Defined.

(** The status says [Enabled] as soon as a root pointer exists: here there is no
    table at all, so ACPI mode was never requested. *)
Example enabled_without_tables :
  match init_acpi 0 (boot_world sample_rsdp) with
  | Ret (st, w') => st = Enabled /\ Forall cursor_event (con_log (h_con w'))
  | Panic _ => False
  end.
Proof.
  vm_compute. split; [reflexivity|].
  repeat (apply List.Forall_cons; [by (left + right)|]). apply List.Forall_nil.
Qed.
