(* ===== verification/Main.v ===== *)
(** * Main: the boot sequence of [src/main.rs]

    [kernel_main] as a composition of the components: memory and heap, hardware
    (Hal), PCI (Pci), the input, console and display drivers attached through the
    device manager, interrupt routing, the timer, and the executor with its two
    tasks. Each driver is a [DriverOps] over the state the drivers share
    ([Drivers]); a panic inside a driver ends the run, so the manager's world is an
    [outcome]. The mapper and the frame allocator live behind the two global
    pointers the VBE driver uses, as in the source, where they alias the locals of
    [kernel_main]. Loading the descriptor tables ([init_gdt], [init_idt]) and
    enabling interrupts are not modelled. *)

From S2P Require Import Prelude External Frame Heap Device Manager Task Ports Acpi Ioapic VgaText Vbe Console.
From S2P Require Import Interrupts Ps2Kbd Ps2Mouse Pci Processor TscTimer Hal.

Local Open Scope string_scope.
Local Open Scope list_scope.
Local Open Scope Z_scope.

(** The end of the kernel's reservation: one MiB from the page of [kernel_main]. *)
Definition kernel_reserved_end_of (fn_virt phys_offset_val : Z) : outcome (option Z) :=
  if fn_virt <=? phys_offset_val then Ret None
  else
    let fn_phys := fn_virt - phys_offset_val in
    let page_aligned := fn_phys .& lnotw 64 0xFFF in
    let! e := checked_add 64 page_aligned (1024 * 1024) in
    Ret (Some e).

(** ** The devices registered by hand *)

Definition kbd_info : DeviceInfo :=
  MkInfo 0xffff 0xffff 0x09 0x00 0x00 [MkResource (Interrupt 33) 0 0] [] "PS/2 Keyboard".
Definition console_info : DeviceInfo :=
  MkInfo 0xfffe 0xffff 0xFF 0x00 0x00 [] [] "Logical Console Device".
Definition mouse_info : DeviceInfo :=
  MkInfo 0xffff 0xffff 0x09 0x00 0x00 [MkResource (Interrupt 44) 0 0] [] "PS/2 Mouse".

(** ** Ports and memory-mapped registers side by side, for the PCI scan *)

#[local] Instance pair_io {P D : Type} {io : PortIO P} : PortIO (P * D) := {|
  port_out w port v s := (port_out w port v s.1, s.2);
  port_in w port s := let '(v, p) := port_in w port s.1 in (v, (p, s.2))
|}.
#[local] Instance pair_mmio {P D : Type} {hw : Mmio D} : Mmio (P * D) := {|
  mmio_write32 a v s := (s.1, mmio_write32 a v s.2);
  mmio_read32 a s := let '(v, d) := mmio_read32 a s.2 in (v, (s.1, d))
|}.

(** ** The drivers *)

Section Drivers.
Context {paging : X86Paging} {FA MS P : Type} {ops : FrameAllocator FA} {spec : FrameAllocatorSpec FA}
  {mapper : Mapper FA MS} {unmapper : Unmapper mapper} {io : PortIO P} {x86 : X86Idt}
  {Q : Type -> Type} {aq : ArrayQueue Q}.

(** What the drivers act on: the screens, the interrupt table, the state of the
    keyboard and of the mouse driver. *)
Record Drivers : Type := MkDrivers {
  d_con : ConWorld MS FA P;
  d_idt : option Idt;
  d_kbd_vectors : list Z;
  d_scancodes : option (StreamState Q Z);
  d_mouse : MouseDriver;
  d_instance : bool;
  d_mouse_vector : Z;
  d_packets : option (StreamState Q MousePacket)
}.

Definition set_d_con (con : ConWorld MS FA P) (d : Drivers) : Drivers :=
  MkDrivers con (d_idt d) (d_kbd_vectors d) (d_scancodes d) (d_mouse d) (d_instance d) (d_mouse_vector d) (d_packets d).

Definition kbd_of (d : Drivers) : KbdWorld (Q := Q) := MkKbd (d_kbd_vectors d) (d_scancodes d) (d_idt d) (d_con d).
Definition put_kbd (k : KbdWorld (Q := Q)) (d : Drivers) : Drivers :=
  MkDrivers (kbd_con k) (kbd_idt k) (Ps2Kbd.registered_vectors k) (scancodes k)
    (d_mouse d) (d_instance d) (d_mouse_vector d) (d_packets d).

Definition mouse_of (d : Drivers) : MouseWorld (Q := Q) (P := P) :=
  MkMW (d_mouse d) (d_instance d) (d_mouse_vector d) (d_packets d) (d_idt d) (vports (vbe (d_con d))).
Definition put_mouse (m : MouseWorld (Q := Q) (P := P)) (d : Drivers) : Drivers :=
  MkDrivers (on_con_ports (fun _ => mouse_ports m) (d_con d)) (mouse_idt m) (d_kbd_vectors d) (d_scancodes d)
    (mouse m) (instance m) (mouse_vector m) (mouse_stream m).

Definition put_vbe (v : VbeWorld MS FA P) (d : Drivers) : Drivers :=
  set_d_con (MkCW (consoles (d_con d)) (writer (d_con d)) v) d.

(** A driver method that may panic, on a run that may have panicked. *)
Definition lift_result (f : Drivers -> outcome (result unit string * Drivers)) (w : outcome Drivers)
    : result unit string * outcome Drivers :=
  match w with
  | Ret d => match f d with Ret (r, d) => (r, Ret d) | Panic m => (Err m, Panic m) end
  | Panic m => (Err m, Panic m)
  end.

Definition lift_unit (f : Drivers -> outcome Drivers) (w : outcome Drivers) : outcome Drivers :=
  let! d := w in f d.

Definition kbd_driver : DriverOps (outcome Drivers) := MkDriver
  (fun dev w => (kbd_probe dev, w))
  (fun dev => lift_result (fun d => let! (r, k) := kbd_start dev (kbd_of d) in Ret (r, put_kbd k d)))
  (fun _ => lift_unit (fun d => let! k := kbd_stop (kbd_of d) in Ret (put_kbd k d)))
  (fun _ => lift_unit (fun d => let! k := kbd_release (kbd_of d) in Ret (put_kbd k d))).

Definition console_driver : DriverOps (outcome Drivers) := MkDriver
  (fun _ w => (Ok (), w)) (fun _ w => (Ok (), w)) (fun _ w => w) (fun _ w => w).

Definition mouse_driver (fuel : nat) : DriverOps (outcome Drivers) := MkDriver
  (fun dev w => (mouse_probe dev, w))
  (fun dev => lift_result (fun d => let! (r, m) := mouse_start fuel dev (mouse_of d) in Ret (r, put_mouse m d)))
  (fun _ => lift_unit (fun d => let! m := mouse_stop (mouse_of d) in Ret (put_mouse m d)))
  (fun _ => lift_unit (fun d => let! m := mouse_release (mouse_of d) in Ret (put_mouse m d))).

(** [self] names the driver object. *)
Definition vbe_driver (self : Z) : DriverOps (outcome Drivers) := MkDriver
  (fun dev w => (vbe_probe dev, w))
  (fun dev => lift_result (fun d => let! (r, v) := vbe_start self dev (vbe (d_con d)) in Ret (r, put_vbe v d)))
  (fun _ => lift_unit (fun d => let! v := vbe_stop self (vbe (d_con d)) in Ret (put_vbe v d)))
  (fun _ => lift_unit (fun d => let! v := vbe_release self (vbe (d_con d)) in Ret (put_vbe v d))).
End Drivers.
Arguments Drivers : clear implicits.

(** ** The kernel's state and the stages of [kernel_main] *)

Section Boot.
Context {paging : X86Paging} {MS P C D : Type} {mapper : Mapper (mem * BootInfoFrameAllocator) MS}
  {unmapper : Unmapper mapper} {io : PortIO P} {x86 : X86Idt} {Q : Type -> Type} {aq : ArrayQueue Q}
  {regs : ControlRegs C} {hw : Mmio D} {tsc : TscHw D}.

Abbreviation FAB := (mem * BootInfoFrameAllocator)%type.
Abbreviation DRV := (Drivers FAB MS P Q).

Record Kernel : Type := MkKernel {
  k_drv : DRV;
  k_cpu : C;
  k_acpi : AcpiState;
  k_mgr : DeviceManager (outcome DRV);
  k_lapic : Lapic D;
  k_ioapics : list IoApic;
  k_period : Z;
  k_heap : option (Z * Z)
}.
Implicit Types (k : Kernel).

Definition k_con k : ConWorld MS FAB P := d_con (k_drv k).
Definition put_drv (d : DRV) k : Kernel :=
  MkKernel d (k_cpu k) (k_acpi k) (k_mgr k) (k_lapic k) (k_ioapics k) (k_period k) (k_heap k).
Definition put_con (con : ConWorld MS FAB P) k : Kernel := put_drv (set_d_con con (k_drv k)) k.
Definition put_mgr (mgr : DeviceManager (outcome DRV)) k : Kernel :=
  MkKernel (k_drv k) (k_cpu k) (k_acpi k) mgr (k_lapic k) (k_ioapics k) (k_period k) (k_heap k).
Definition put_lapic (l : Lapic D) k : Kernel :=
  MkKernel (k_drv k) (k_cpu k) (k_acpi k) (k_mgr k) l (k_ioapics k) (k_period k) (k_heap k).
Definition put_hw (d : D) k : Kernel := put_lapic (MkLapic (lapic_base (k_lapic k)) d) k.

Definition k_say (s : string) k : outcome Kernel := let! con := say s (k_con k) in Ret (put_con con k).

(** *** Memory *)

(** The mapper and the allocator, behind the global pointers from here on. *)
Definition memory_stage (fn_virt off : Z) (map : list MemoryRegion) (ms : MS) (m : mem) k : outcome Kernel :=
  let k := MkKernel (k_drv k) (enable_sse (k_cpu k)) (k_acpi k) (k_mgr k) (k_lapic k) (k_ioapics k) (k_period k) (k_heap k) in
  let! kend := kernel_reserved_end_of fn_virt off in
  let fa := Frame.init m map off kend in
  match init_heap ms fa with
  | (Err _, _) => Panic "heap initialization failed"
  | (Ok _, (ms, fa, heap)) =>
      let v := set_global_frame_allocator_ptr (Some fa) (set_global_mapper_ptr (Some ms) (vbe (k_con k))) in
      let k := put_drv (put_vbe v (k_drv k)) k in
      Ret (MkKernel (k_drv k) (k_cpu k) (k_acpi k) (k_mgr k) (k_lapic k) (k_ioapics k) (k_period k) heap)
  end.

(** [setcolor!] and the interrupt table's creation by [init_idt]. *)
Definition screen_stage k : Kernel :=
  let d := set_d_con (setcolor Yellow Black (k_con k)) (k_drv k) in
  put_drv (MkDrivers (d_con d) (Some (ensure_idt_initialized (d_idt d))) (d_kbd_vectors d) (d_scancodes d)
             (d_mouse d) (d_instance d) (d_mouse_vector d) (d_packets d)) k.

(** *** Hardware and PCI *)

Definition hardware_stage (off : Z) k : outcome Kernel :=
  let h := MkHal (k_cpu k) (k_con k) (k_acpi k) (k_mgr k) (k_lapic k) (k_ioapics k) in
  let! (_, _, h) := init_hardware off h in
  Ret (MkKernel (set_d_con (h_con h) (k_drv k)) (h_cpu h) (h_acpi h) (h_mgr h) (h_lapic h) (h_ioapics h)
         (k_period k) (k_heap k)).

Definition pci_stage (off : Z) k : outcome Kernel :=
  let! (mgr, (p, d)) := scan_and_register_with_phys_offset (k_acpi k) off (k_mgr k)
                          (vports (vbe (k_con k)), lapic_hw (k_lapic k)) in
  let k := put_hw d (put_mgr mgr k) in
  let con := on_con_ports (fun _ => p) (k_con k) in
  Ret (put_con (MkCW (consoles con) (writer con) (set_boot_phys_offset off (vbe con))) k).

(** *** Drivers *)

Definition attach (dev_id : Z) (drv : DriverOps (outcome DRV)) k : outcome (result unit string * Kernel) :=
  let '(r, (mgr, dw)) := attach_driver (k_mgr k) dev_id drv (Ret (k_drv k)) in
  let! dw := dw in Ret (r, put_drv dw (put_mgr mgr k)).

(** Register, attach, and report a failure. *)
Definition register_and_attach (i : DeviceInfo) (drv : DriverOps (outcome DRV)) (name : string) k
    : outcome (Z * result unit string * Kernel) :=
  let '(dev_id, mgr) := register_device (k_mgr k) i in
  let! (r, k) := attach dev_id drv (put_mgr mgr k) in
  match r with
  | Ok _ => Ret (dev_id, r, k)
  | Err e => let! k := k_say ("Failed to attach " +:+ name +:+ " driver: " +:+ e) k in Ret (dev_id, r, k)
  end.

(** [boxed_driver()] of the keyboard driver: a new object. *)
Definition keyboard_stage k : outcome Kernel :=
  let d := k_drv k in
  let k := put_drv (MkDrivers (d_con d) (d_idt d) [] (d_scancodes d) (d_mouse d) (d_instance d) (d_mouse_vector d) (d_packets d)) k in
  let! (_, _, k) := register_and_attach kbd_info kbd_driver "PS/2 keyboard" k in Ret k.

Definition console_stage k : outcome Kernel :=
  let! (_, _, k) := register_and_attach console_info console_driver "console" k in Ret k.

(** *** Interrupts *)

Definition mask_pics k : Kernel :=
  put_con (on_con_ports (outb 0xA1 0xFF) (on_con_ports (outb 0x21 0xFF) (k_con k))) k.

Definition enable_lines (off : Z) k : outcome Kernel :=
  if is_initialized (k_lapic k) then
    match local_apic_id (k_lapic k) with
    | (Some apic_id, l) =>
        let! d := enable_isos_for_local (k_acpi k) (k_ioapics k) off apic_id (lapic_hw l) in
        Ret (put_hw d (put_lapic l k))
    | (None, l) => k_say "[HAL] APIC initialized but failed to read local APIC id" (put_lapic l k)
    end
  else Ret k.

Definition timer_stage (fuel : nat) (off : Z) k : outcome Kernel :=
  if is_initialized (k_lapic k) && Features.tsc (detect_cpu_features (k_cpu k)) then
    match global_mapper (vbe (k_con k)), global_alloc (vbe (k_con k)) with
    | Some ms, Some fa =>
        let! (ok, t) := tsc_init fuel (k_cpu k) (k_acpi k) off 10
                          (MkTimer ms fa (d_idt (k_drv k)) (k_period k) (lapic_hw (k_lapic k))) in
        let v := set_global_frame_allocator_ptr (Some (t_alloc t)) (set_global_mapper_ptr (Some (t_mapper t)) (vbe (k_con k))) in
        let d := put_vbe v (k_drv k) in
        let d := MkDrivers (d_con d) (t_idt t) (d_kbd_vectors d) (d_scancodes d) (d_mouse d) (d_instance d)
                   (d_mouse_vector d) (d_packets d) in
        let k := MkKernel d (k_cpu k) (k_acpi k) (k_mgr k) (MkLapic (lapic_base (k_lapic k)) (t_hw t)) (k_ioapics k)
                   (period_cycles t) (k_heap k) in
        k_say (if (ok : bool) then "[TIMER] TSC-deadline timer initialized (calibrated if HPET present)"
               else "[TIMER] TSC-deadline timer not enabled (missing features or calibration failed)") k
    | _, _ => Panic "mapper not set"
    end
  else Ret k.

(** *** Displays *)

(** The ids of the display controllers, in registration order. *)
Definition display_ids (mgr : DeviceManager (outcome DRV)) : list Z :=
  Device.id <$> List.filter (fun d => class (info d) =? 0x03) (device <$> devices mgr).

(** A new driver object per controller; the result of the attachment is ignored. *)
Definition attach_display (dev_id : Z) k : outcome Kernel :=
  let k := put_drv (put_vbe (Vbe.set_driver dev_id VbeVgaDriver_new (vbe (k_con k))) (k_drv k)) k in
  let! (_, k) := attach dev_id (vbe_driver dev_id) k in Ret k.

Definition display_stage k : outcome Kernel :=
  let! k := for_each k_say (list_devices (k_mgr k)) k in
  let! k := for_each attach_display (display_ids (k_mgr k)) k in
  let! con := cls (k_con k) in
  let! con := println (str_bytes "neutrix: vbe framebuffer ready" ++ [10]) con in
  Ret (put_con con k).

(** *** The mouse *)

(** The GSI of a legacy interrupt: that of the first override for it, or its own number. *)
Definition gsi_candidate (isos : list IsoInfo) (legacy_irq : Z) : Z :=
  match list_find (fun iso => iso_source iso = legacy_irq) isos with
  | Some (_, iso) => iso_gsi iso
  | None => legacy_irq
  end.

(** Unmask one line and report; [kind] distinguishes the messages. *)
Definition unmask_line (kind : string) (off gsi vector apic_id : Z) k : outcome Kernel :=
  let! (ok, d) := unmask_gsi (k_ioapics k) gsi vector apic_id off (lapic_hw (k_lapic k)) in
  let k := put_hw d k in
  if (ok : bool) then
    let! k := k_say ("[MAIN] Unmasked IOAPIC " +:+ kind +:+ "GSI " +:+ fmt_dec gsi +:+ " -> vector 0x" +:+ fmt_hex 1 vector +:+
                     " apic " +:+ fmt_dec apic_id) k in
    let! (e, d) := read_redirection_entry (k_ioapics k) gsi off (lapic_hw (k_lapic k)) in
    let k := put_hw d k in
    match e with
    | Some (low, high) => k_say ("[MAIN] IOAPIC GSI " +:+ fmt_dec gsi +:+ " redir low=0x" +:+ fmt_hex 8 low +:+
                                 " high=0x" +:+ fmt_hex 8 high) k
    | None => Ret k
    end
  else if String.eqb kind "" then
    k_say ("[MAIN] Failed to unmask IOAPIC GSI " +:+ fmt_dec gsi +:+ " (vector 0x" +:+ fmt_hex 1 vector +:+ ")") k
  else k_say ("[MAIN] Failed to unmask IOAPIC " +:+ kind +:+ "GSI " +:+ fmt_dec gsi) k.

(** One resource of the mouse device. *)
Definition unmask_resource (off apic_id : Z) (r : Resource) k : outcome Kernel :=
  match Device.kind r with
  | Interrupt vector =>
      let legacy_irq := wrap 32 (vector - 0x20) .& 0xFF in
      unmask_line "" off (gsi_candidate (get_isos (k_acpi k)) legacy_irq) vector apic_id k
  | _ => Ret k
  end.

Definition unmask_mouse (off mouse_dev_id : Z) k : outcome Kernel :=
  if is_initialized (k_lapic k) then
    match local_apic_id (k_lapic k) with
    | (Some apic_id, l) =>
        let k := put_lapic l k in
        match list_find (fun e => Device.id (device e) = mouse_dev_id) (devices (k_mgr k)) with
        | Some (_, e) =>
            let rs := resources (info (device e)) in
            let! k := for_each (unmask_resource off apic_id) rs k in
            match interrupt_vectors rs with
            | [] => unmask_line "fallback " off 12 (0x20 + 12) apic_id k
            | _ => Ret k
            end
        | None => unmask_line "fallback " off 12 (0x20 + 12) apic_id k
        end
    | (None, l) => k_say "[MAIN] APIC initialized but failed to read local APIC id for IOAPIC unmask" (put_lapic l k)
    end
  else Ret k.

(** Centre the cursor when there is a framebuffer. *)
Definition centre_cursor k : Kernel :=
  match get_fb_info (vbe (k_con k)) with
  | Some i =>
      let d := k_drv k in
      let '(m, v) := set_cursor_pos (d_instance d) (Z.quot (as_signed 32 (wrap 32 (width i))) 2) (Z.quot (as_signed 32 (wrap 32 (height i))) 2)
                       (d_mouse d) (vbe (d_con d)) in
      let d := put_vbe v d in
      put_drv (MkDrivers (d_con d) (d_idt d) (d_kbd_vectors d) (d_scancodes d) m (d_instance d) (d_mouse_vector d) (d_packets d)) k
  | None => k
  end.

Definition mouse_stage (fuel : nat) (off : Z) k : outcome Kernel :=
  let d := k_drv k in
  let k := put_drv (MkDrivers (d_con d) (d_idt d) (d_kbd_vectors d) (d_scancodes d) Ps2MouseDriver_new (d_instance d)
                      (d_mouse_vector d) (d_packets d)) k in
  let! (mouse_dev_id, r, k) := register_and_attach mouse_info (mouse_driver fuel) "PS/2 mouse" k in
  match r with
  | Ok _ => unmask_mouse off mouse_dev_id (centre_cursor k)
  | Err _ => Ret k
  end.

(** *** The executor *)

Definition executor_stage {Fut : Type} (print_keypresses mouse_event_loop : Fut) : outcome (Executor (Q := Q) (Fut := Fut)) :=
  let '(t1, next) := Task_new 0 print_keypresses in
  let! e := spawn Executor_new t1 in
  let '(t2, _) := Task_new next mouse_event_loop in
  spawn e t2.

(** Everything up to [executor.run()]. *)
Definition kernel_main {Fut : Type} (fuel : nat) (fn_virt off : Z) (map : list MemoryRegion) (ms : MS) (m : mem)
    (print_keypresses mouse_event_loop : Fut) k : outcome (Kernel * Executor (Q := Q) (Fut := Fut)) :=
  let! k := memory_stage fn_virt off map ms m k in
  let k := screen_stage k in
  let! k := hardware_stage off k in
  let! k := pci_stage off k in
  let! k := keyboard_stage k in
  let! k := console_stage k in
  let k := mask_pics k in
  let! k := enable_lines off k in
  let! k := timer_stage fuel off k in
  let! k := display_stage k in
  let! k := mouse_stage fuel off k in
  let! e := executor_stage print_keypresses mouse_event_loop in
  Ret (k, e).
End Boot.
Arguments Kernel : clear implicits.

(** ** Lemmas *)

(** The commands sent to the PS/2 controller. *)
Definition ps2_command (e : port_event) : bool := match e with Out _ port _ => port =? 0x64 | In _ _ _ => false end.

Section Lemmas.
Context {P : Type} {io : PortIO P}.

Lemma wait_input_no_command n (p : traced P) :
  filter ps2_command (log (wait_input_clear_local n p).2) = filter ps2_command (log p).
Proof.
  revert p. induction n as [|n IH]; intros p; cbn [wait_input_clear_local]; [done|].
  unfold read_status_port. destruct (inb 0x64 p) as [v p1] eqn:E. apply log_inb in E as [E _].
  assert (filter ps2_command (log p1) = filter ps2_command (log p)) as H1 by (rewrite E, filter_app; apply app_nil_r).
  destruct (_ =? 0); cbn [snd]; [done|]. by rewrite IH.
Qed.

Context {paging : X86Paging} {FA MS : Type}.
Implicit Types (w : ConWorld MS FA (traced P)).

Definition commands w : list port_event := filter ps2_command (con_log w).

Lemma printed_commands w w' : printed w w' -> commands w' = commands w.
Proof.
  intros (_ & _ & _ & es & Hl & He). unfold commands. rewrite Hl, filter_app, (filter_cursor ps2_command es) by done.
  apply app_nil_r.
Qed.

(** Starting the keyboard driver on the boot screen. *)
Lemma kbd_start_boot {x86 : X86Idt} {Q : Type -> Type} {aq : ArrayQueue Q} dev (k : KbdWorld (Q := Q)) :
  boot_screen (kbd_con (P := traced P) (MS := MS) (FA := FA) k) ->
  Forall (fun v => 32 <= v <= 255) (interrupt_vectors (resources (info dev))) -> NoDup (Ps2Kbd.registered_vectors k) ->
  exists k', kbd_start dev k = Ret (Ok (), k') /\ boot_screen (kbd_con k') /\ is_Some (scancodes k') /\
    (forall v, v ∈ Ps2Kbd.registered_vectors k' <-> v ∈ Ps2Kbd.registered_vectors k \/ v ∈ interrupt_vectors (resources (info dev))) /\
    (forall u, handler_at (kbd_idt k') u =
       if bool_decide (u ∈ interrupt_vectors (resources (info dev))) then Some Ps2Kbd_irq_handler else handler_at (kbd_idt k) u) /\
    commands (kbd_con k') = commands (kbd_con k) ++ [Out 8 0x64 0xAD].
Proof.
  intros Hb Hv Hnd. unfold kbd_start.
  destruct (register_vectors_spec Ps2Kbd_irq_handler (resources (info dev)) (Ps2Kbd.registered_vectors k) (kbd_idt k) Hv Hnd)
    as (reg & idt & -> & _ & Hreg & Hidt). cbn [outcome_bind].
  destruct (console_print_boot msg_start (on_ports (disable_at_start (vports (vbe (kbd_con k)))) (kbd_con k)))
    as (w' & -> & Hb' & Hp); [exact Hb|].
  cbn [outcome_bind]. eexists. split; [done|]. cbn. split_and!; [done|by eexists|done|done|].
  rewrite (printed_commands _ _ Hp). unfold commands, con_log, on_ports, disable_at_start. cbn [vbe vports set_vports].
  pose proof (wait_input_no_command (Z.to_nat 10000) (vports (vbe (kbd_con k)))) as Hw.
  destruct (wait_input_clear_local (Z.to_nat 10000) (vports (vbe (kbd_con k)))) as [ok p]. cbn [snd] in Hw.
  rewrite log_outb, filter_app, Hw. done.
Qed.
End Lemmas.

(** ** Properties *)

Section Properties.
Context {paging : X86Paging} {MS P C D : Type} {mapper : Mapper (mem * BootInfoFrameAllocator) MS}
  {unmapper : Unmapper mapper} {io : PortIO P} {x86 : X86Idt} {Q : Type -> Type} {aq : ArrayQueue Q}
  {regs : ControlRegs C} {hw : Mmio D} {tsc : TscHw D}.
Implicit Types (k : Kernel MS (traced P) C D Q).

Lemma k_say_boot s k :
  boot_screen (k_con k) ->
  exists k', k_say s k = Ret k' /\ boot_screen (k_con k') /\ k_acpi k' = k_acpi k /\ k_mgr k' = k_mgr k /\
    k_lapic k' = k_lapic k /\ k_ioapics k' = k_ioapics k.
Proof.
  intros Hb. unfold k_say. destruct (say_boot s (k_con k) Hb) as (con & -> & Hp). cbn [outcome_bind].
  eexists. split; [done|]. split; [apply Hp|]. done.
Qed.

(** C19: the keyboard stage, from the boot screen: the keyboard is registered under
    the next id with its driver attached, vector 33 and no other gets the driver's
    handler, the scancode queue exists, and the last command the PS/2 controller
    received is 0xAD: the keyboard port is disabled. *)
Theorem keyboard_stage_attaches k :
  boot_screen (k_con k) -> ids_inv (k_mgr k) -> Z.of_nat (length (devices (k_mgr k))) < 2 ^ 64 - 1 ->
  exists k', keyboard_stage k = Ret k' /\ boot_screen (k_con k') /\
    devices (k_mgr k') = devices (k_mgr k) ++ [MkEntry (MkDevice (next_device_id (k_mgr k)) kbd_info) (Some kbd_driver)] /\
    (forall u, handler_at (d_idt (k_drv k')) u =
       if u =? 33 then Some Ps2Kbd_irq_handler else handler_at (d_idt (k_drv k)) u) /\
    (forall v, v ∈ d_kbd_vectors (k_drv k') <-> v = 33) /\ is_Some (d_scancodes (k_drv k')) /\
    commands (k_con k') = commands (k_con k) ++ [Out 8 0x64 0xAD].
Proof.
  intros Hb Hinv Hlen. unfold keyboard_stage, register_and_attach. set (d := k_drv k).
  set (k0 := put_drv _ k). unfold register_device. set (mgr := MkManager _ _).
  set (dev := MkDevice (next_device_id (k_mgr k)) kbd_info).
  destruct (kbd_start_boot dev (kbd_of (k_drv k0))) as (kw & Hs & Hb' & Hq & Hreg & Hidt & Hcmd);
    [exact Hb|repeat constructor; lia|constructor|].
  unfold attach. change (k_mgr (put_mgr mgr k0)) with (register_device (k_mgr k) kbd_info).2.
  change (k_drv (put_mgr mgr k0)) with (k_drv k0).
  change (next_device_id (k_mgr k0)) with (next_device_id (k_mgr k)).
  rewrite (attach_new (k_mgr k) kbd_info kbd_driver (Ret (k_drv k0)) (Ret (k_drv k0)) (Ret (put_kbd kw (k_drv k0))));
    [|done|done|done|by cbn [kbd_driver drv_start lift_result]; fold dev; rewrite Hs].
  cbn [outcome_bind]. eexists. split; [done|]. cbn. split_and!; [done|done| | |done|done].
  - intros u. rewrite Hidt. cbn. destruct (Z.eqb_spec u 33) as [->|Hu]; [done|].
    rewrite bool_decide_eq_false_2; [done|]. set_solver.
  - intros v. rewrite Hreg. cbn. set_solver.
Qed.

(** The task that is spawned for the keyboard only prints: whatever scancodes it
    processes, it sends no command to the controller, so the port stays disabled. *)
Theorem print_keypresses_no_command {K : Type} {kb : PcKeyboard K} debug scs (key : K)
    (w : ConWorld MS (mem * BootInfoFrameAllocator) (traced P)) :
  boot_screen w ->
  exists key' w', for_each (print_keypress debug) scs (key, w) = Ret (key', w') /\ commands w' = commands w.
Proof.
  revert key w. induction scs as [|sc scs IH]; intros key w Hb; cbn [for_each]; [by exists key, w|].
  assert (exists key1 w1, print_keypress debug sc (key, w) = Ret (key1, w1) /\ printed w w1) as (key1 & w1 & -> & Hp).
  { unfold print_keypress. destruct (decode sc key) as [[[c|r]|] key1].
    - destruct (print_boot (encode_utf8 c) w Hb) as (w1 & -> & _ & Hp). by exists key1, w1.
    - destruct (print_boot (debug r) w Hb) as (w1 & -> & _ & Hp). by exists key1, w1.
    - exists key1, w. split; [done|]. by apply printed_refl. }
  cbn [outcome_bind]. destruct (IH key1 w1) as (key2 & w2 & -> & Hc); [apply Hp|].
  exists key2, w2. split; [done|]. by rewrite Hc, (printed_commands _ _ Hp).
Qed.

Context {ispec : IoApicSpec D}.

(** A line that is unmasked and read back. *)
Lemma unmask_line_boot kind off gsi vector apic_id k :
  boot_screen (k_con k) -> table_ok off (k_ioapics k) -> in_u 8 vector -> in_u 8 apic_id ->
  exists k', unmask_line kind off gsi vector apic_id k = Ret k' /\ boot_screen (k_con k') /\
    k_acpi k' = k_acpi k /\ k_ioapics k' = k_ioapics k /\
    (forall g, g <> gsi -> redir (k_ioapics k) off (lapic_hw (k_lapic k')) g = redir (k_ioapics k) off (lapic_hw (k_lapic k)) g) /\
    forall e, redir (k_ioapics k) off (lapic_hw (k_lapic k)) gsi = Some e ->
      exists e', redir (k_ioapics k) off (lapic_hw (k_lapic k')) gsi = Some e' /\ vector_of e' = vector /\
        masked e' = false /\ destination e' = apic_id /\ modes e' = modes e.
Proof.
  intros Hb Hok Hv Ha. unfold unmask_line.
  destruct (unmask_gsi_spec off (k_ioapics k) gsi vector apic_id (lapic_hw (k_lapic k)) Hok Hv Ha)
    as (d1 & -> & Hoth & Hent). cbn [outcome_bind].
  destruct (bool_decide (is_Some (redir (k_ioapics k) off (lapic_hw (k_lapic k)) gsi))).
  - match goal with |- context [k_say ?s (put_hw d1 k)] =>
      destruct (k_say_boot s (put_hw d1 k)) as (k2 & -> & B2 & A2 & _ & L2 & I2) end; [done|]. cbn [outcome_bind].
    rewrite I2, L2. cbn [k_ioapics put_hw put_lapic lapic_hw k_lapic].
    destruct (read_redirection_spec off (k_ioapics k) gsi d1 Hok) as (d3 & -> & S3). cbn [outcome_bind].
    assert (forall g, redir (k_ioapics k) off d3 g = redir (k_ioapics k) off d1 g) as Hsame
      by (intros g; by apply redir_same).
    assert (exists k', (match redir (k_ioapics k) off d1 gsi with
      | Some (low, high) => k_say ("[MAIN] IOAPIC GSI " +:+ fmt_dec gsi +:+ " redir low=0x" +:+ fmt_hex 8 low +:+
                                 " high=0x" +:+ fmt_hex 8 high) (put_hw d3 k2)
      | None => Ret (put_hw d3 k2) end) = Ret k' /\ boot_screen (k_con k') /\ k_acpi k' = k_acpi k2 /\
      k_ioapics k' = k_ioapics k2 /\ lapic_hw (k_lapic k') = d3) as (k4 & -> & B4 & A4 & I4 & L4).
    { destruct (redir (k_ioapics k) off d1 gsi) as [[low high]|]; [|by exists (put_hw d3 k2)].
      match goal with |- context [k_say ?s (put_hw d3 k2)] =>
        destruct (k_say_boot s (put_hw d3 k2)) as (k4 & -> & B4 & A4 & _ & L4 & I4) end; [done|].
      exists k4. by rewrite L4. }
    exists k4. rewrite L4. split_and!; [done|done|by rewrite A4, A2|by rewrite I4, I2| |].
    + intros g Hg. rewrite Hsame. by apply Hoth.
    + intros e He. rewrite Hsame. by apply Hent.
  - assert (forall s, exists k', k_say s (put_hw d1 k) = Ret k' /\ boot_screen (k_con k') /\ k_acpi k' = k_acpi k /\
      k_ioapics k' = k_ioapics k /\ lapic_hw (k_lapic k') = d1) as Hsay.
    { intros s. destruct (k_say_boot s (put_hw d1 k)) as (k2 & -> & B2 & A2 & _ & L2 & I2); [done|]. exists k2. by rewrite L2. }
    destruct (String.eqb kind "");
      match goal with |- context [k_say ?s _] => destruct (Hsay s) as (k2 & -> & B2 & A2 & I2 & L2) end;
      exists k2; rewrite L2; done.
Qed.

(** The line of a legacy interrupt as the interrupt source overrides of the MADT
    define it: the first override for the interrupt gives the line, and without one
    the line has the interrupt's own number. *)
Inductive irq_line (irq : Z) : list IsoInfo -> Z -> Prop :=
| line_override before iso after :
    Forall (fun i => iso_source i <> irq) before -> iso_source iso = irq ->
    irq_line irq (before ++ iso :: after) (iso_gsi iso)
| line_identity isos :
    Forall (fun i => iso_source i <> irq) isos -> irq_line irq isos irq.

Lemma gsi_candidate_line isos irq : irq_line irq isos (gsi_candidate isos irq).
Proof.
  unfold gsi_candidate. destruct (list_find _ isos) as [[i iso]|] eqn:E.
  - apply list_find_Some in E as (Hi & Hs & Hb). rewrite <- (take_drop_middle isos i iso Hi).
    constructor; [|done]. apply Forall_forall. intros x (j & Hj)%list_elem_of_lookup.
    apply lookup_take_Some in Hj as [Hj Hlt]. by eapply Hb.
  - constructor. apply list_find_None in E. exact E.
Qed.

(** C20: the mouse's interrupt line, on the boot screen: with the local APIC running
    and the mouse registered, [kernel_main] routes to this processor the line that
    carries IRQ 12, which the first interrupt source override for IRQ 12 names and
    which is line 12 when there is none, with vector 44, unmasked, in the modes it
    had; every other line is untouched. *)
Theorem mouse_line_routed off mouse_dev_id k j e apic_id l :
  boot_screen (k_con k) -> table_ok off (k_ioapics k) -> is_initialized (k_lapic k) = true ->
  local_apic_id (k_lapic k) = (Some apic_id, l) ->
  list_find (fun e => Device.id (device e) = mouse_dev_id) (devices (k_mgr k)) = Some (j, e) ->
  resources (info (device e)) = resources mouse_info ->
  exists k' gsi, unmask_mouse off mouse_dev_id k = Ret k' /\ boot_screen (k_con k') /\
    irq_line 12 (isos (k_acpi k)) gsi /\
    (forall g, g <> gsi -> redir (k_ioapics k) off (lapic_hw (k_lapic k')) g = redir (k_ioapics k) off (lapic_hw l) g) /\
    forall en, redir (k_ioapics k) off (lapic_hw l) gsi = Some en ->
      exists e', redir (k_ioapics k) off (lapic_hw (k_lapic k')) gsi = Some e' /\ vector_of e' = 44 /\
        masked e' = false /\ destination e' = apic_id /\ modes e' = modes en.
Proof.
  intros Hb Hok Hi Hid Hf Hr. unfold unmask_mouse. rewrite Hi, Hid. cbn [k_mgr put_lapic]. rewrite Hf, Hr.
  assert (in_u 8 apic_id) as Ha.
  { revert Hid. unfold local_apic_id. destruct (_ =? 0); [done|]. destruct (mmio_read32 _ _) as [x y]. intros [= <- _].
    apply wrap_range. lia. }
  cbn [mouse_info resources for_each unmask_resource Device.kind k_acpi put_lapic].
  change (wrap 32 (44 - 0x20) .& 0xFF) with 12.
  pose proof (gsi_candidate_line (isos (k_acpi k)) 12) as Hline. unfold get_isos. revert Hline.
  generalize (gsi_candidate (isos (k_acpi k)) 12). intros gsi Hline.
  destruct (unmask_line_boot "" off gsi 44 apic_id (put_lapic l k)) as (k' & -> & B & _ & _ & Ho & He);
    [done|done|unfold in_u; lia|done|]. cbn [outcome_bind interrupt_vectors omap list_omap Device.kind]. by exists k', gsi.
Qed.

(** The executor at the start: both tasks queued in spawning order, its invariant in place. *)
Lemma executor_stage_ready {Fut : Type} (f1 f2 : Fut) :
  exists e, executor_stage (Q := Q) f1 f2 = Ret e /\ queued e = [0; 1] /\ exec_inv e.
Proof.
  unfold executor_stage, Task_new, TaskId_new.
  assert (queued (Executor_new (Q := Q) (Fut := Fut)) = []) as H0 by apply aq_new_contents.
  destruct (spawn_room (Q := Q) Executor_new (MkTask 0 f1)) as (e1 & -> & Hi1 & Hq1 & Ht1);
    [apply executor_new_inv|done|rewrite H0; cbn; unfold QUEUE_CAPACITY; lia|].
  cbn [outcome_bind]. rewrite H0 in Hq1.
  destruct (spawn_room (Q := Q) e1 (MkTask (0 +64 1) f2)) as (e2 & -> & Hi2 & Hq2 & _);
    [done|by rewrite Ht1|rewrite Hq1; cbn; unfold QUEUE_CAPACITY; lia|].
  exists e2. rewrite Hq2, Hq1. done.
Qed.
End Properties.

(** ** Witnesses *)

#[local] Existing Instance paging_by_address.
#[local] Existing Instance flat_tables.
#[local] Existing Instance const_ports_io.
#[local] Existing Instance all_vectors.
#[local] Existing Instance list_queue_queue.
#[local] Existing Instance sample_regs.
#[local] Existing Instance board_hw.
#[local] Existing Instance board_spec.

Definition boot_kernel {P : Type} (p : P) : Kernel flat_table P sample_cpu Ioapic.chips list_queue :=
  MkKernel
    (MkDrivers (MkCW [] sample_writer (MkVW ∅ None None None 0 boot_memory p)) None [] None Ps2MouseDriver_new false 0 None)
    sample_processor acpi_init manager_new (MkLapic 0 sample_chips) [] PERIOD_CYCLES_init None.

Lemma keyboard_stage_attaches_witness :
  exists k', keyboard_stage (boot_kernel sample_ports) = Ret k' /\
    handler_at (d_idt (k_drv k')) 33 = Some Ps2Kbd_irq_handler /\ commands (k_con k') = [Out 8 0x64 0xAD].
Proof.
  destruct (keyboard_stage_attaches (boot_kernel sample_ports)) as (k' & H & _ & _ & Hh & _ & _ & Hc).
  - split; [reflexivity|exact sample_writer_ok].
  - split; reflexivity.
  - cbn. lia.
  - exists k'. split; [exact H|]. split; [rewrite Hh; reflexivity|exact Hc].
Defined.

(** The kernel after the hardware and mouse stages: one I/O APIC, the local APIC, the
    mouse, and overrides that move the timer to line 2 and IRQ 12 to line 20. *)
Definition moved_mouse : AcpiState :=
  MkAcpi 0xFEE00000 [MkIoApicInfo 2 0xFEC00000 0] [MkIsoInfo 0 0 2 0; MkIsoInfo 0 12 20 0; MkIsoInfo 0 12 21 0] None 0 [].

Definition routed_kernel : Kernel flat_table (traced const_ports) sample_cpu Ioapic.chips list_queue :=
  MkKernel (k_drv (boot_kernel sample_ports)) sample_processor moved_mouse
    (MkManager 2 [MkEntry (MkDevice 1 mouse_info) None]) (MkLapic 0xFEE00000 sample_chips) sample_table
    PERIOD_CYCLES_init None.

Lemma moved_mouse_line g : irq_line 12 (isos moved_mouse) g -> g = 20.
Proof.
  intros H. inversion H as [before iso after Hb Hi He|? Hall]; subst.
  - destruct before as [|b0 [|b1 before]]; cbn in He; injection He as; subst; try done.
    apply Forall_cons in Hb as [_ Hb]. apply Forall_cons in Hb as [Hb _]. by destruct Hb.
  - apply Forall_cons in Hall as [_ Hall]. apply Forall_cons in Hall as [Hb _]. by destruct Hb.
Qed.

Lemma mouse_line_routed_witness :
  exists k' e', unmask_mouse 0 1 routed_kernel = Ret k' /\
    redir sample_table 0 (lapic_hw (k_lapic k')) 20 = Some e' /\ vector_of e' = 44 /\ masked e' = false.
Proof.
  destruct (mouse_line_routed 0 1 routed_kernel 0 (MkEntry (MkDevice 1 mouse_info) None) 0 (MkLapic 0xFEE00000 sample_chips))
    as (k' & gsi & H & _ & Hl & _ & He).
  - split; [reflexivity|exact sample_writer_ok].
  - split; [|apply NoDup_singleton]. apply Forall_singleton. unfold chip_ok. cbn. split_and!; try lia; done.
  - reflexivity.
  - reflexivity.
  - reflexivity.
  - reflexivity.
  - apply moved_mouse_line in Hl as ->.
    destruct (He _ eq_refl) as (e' & H1 & H2 & H3 & _). exists k', e'. exact (conj H (conj H1 (conj H2 H3))).
Defined.
